(** * SlicerMONAIViz: the transform pipeline, its execution cache and catalog

    A shallow embedding of the two widget variants of the repository
    ([MONAIViz/MONAIViz.py] and the older [SlicerMONAIViz.py]) and of
    [SlicerMONAIVizLib/utils.py].  Python integers are [Z], strings are
    [string], [None]-able values are [option], a raised exception is the
    [Raised] result, and the mutable [TransformCtx] object is threaded
    explicitly through every call that may change it.  numpy's float64
    numbers are Rocq's primitive floats. *)

From Stdlib Require Import List String Ascii ZArith Bool Lia.
From Stdlib Require Import Floats.
From Stdlib Require Import Sorting.Sorted Sorting.Permutation.
From Stdlib Require Import DecimalString DecimalPos DecimalZ Decimal.
Import ListNotations.

Open Scope string_scope.
Open Scope Z_scope.

(* ================================================================== *)
(** * Python values handled by the pipeline *)
(* ================================================================== *)

(** A call either returns a value or raises. *)
Inductive result (A : Type) : Type :=
| Ok (a : A)
| Raised.
Arguments Ok {A} a.
Arguments Raised {A}.

Definition bind {A B : Type} (r : result A) (k : A -> result B) : result B :=
  match r with
  | Ok a => k a
  | Raised => Raised
  end.

Notation "x <- r ;; k" := (bind r (fun x => k))
  (at level 61, r at next level, right associativity).

(** A numpy 2-D array of [float64], row by row.  IEEE 754 binary64 is
    the format of Rocq's primitive [float], with the same rounding, the
    signed zeros, the infinities and [nan]. *)
Definition matrix := list (list float).
Definition shape := list Z.

(** What the code reads from a tensor: [.shape] and [.affine.numpy()].
    A plain array has a shape but no affine. *)
Record tensor := mkTensor {
  t_shape : shape;
  t_affine : option matrix
}.

(** An entry of the data dictionary: a path or other string, an array or
    tensor, or a stored [None]. *)
Inductive entry :=
| EStr (s : string)
| ETensor (t : tensor)
| ENone.

(** A Python [dict] with string keys, in insertion order. *)
Definition dict := list (string * entry).

Fixpoint lookup (k : string) (m : dict) : option entry :=
  match m with
  | [] => None
  | (k', e) :: m' => if (k' =? k)%string then Some e else lookup k m'
  end.

(** [d[key] = e] on a dictionary. *)
Fixpoint dict_set (key : string) (e : entry) (m : dict) : dict :=
  match m with
  | [] => [(key, e)]
  | (k, e') :: m' =>
      if (k =? key)%string then (k, e) :: m' else (k, e') :: dict_set key e m'
  end.

(** The running value of the pipeline: one dictionary, or a list of
    values produced by a batched transform. *)
#[warnings="-register-all"]
Inductive value :=
| VDict (m : dict)
| VList (l : list value).

Definition len {A : Type} (l : list A) : Z := Z.of_nat (List.length l).

(** [l[i]] for [i >= 0]: [IndexError] past the end. *)
Definition list_getitem {A : Type} (l : list A) (i : Z) : result A :=
  match nth_error l (Z.to_nat i) with
  | Some x => Ok x
  | None => Raised
  end.

(** [v[key]] with a string key: [KeyError] when absent, [TypeError] on a list. *)
Definition getitem (v : value) (key : string) : result entry :=
  match v with
  | VDict m => match lookup key m with
               | Some e => Ok e
               | None => Raised
               end
  | VList _ => Raised
  end.

(** [e.shape]: [AttributeError] on a string or on [None]. *)
Definition shape_of (e : entry) : result shape :=
  match e with
  | ETensor t => Ok (t_shape t)
  | _ => Raised
  end.

(** [e.affine.numpy()]. *)
Definition affine_of (e : entry) : result matrix :=
  match e with
  | ETensor t => match t_affine t with
                 | Some a => Ok a
                 | None => Raised
                 end
  | _ => Raised
  end.

(** Truthiness of a Python string. *)
Definition truthy (s : string) : bool := negb (s =? "")%string.

(** [sub in s]. *)
Fixpoint contains (sub s : string) : bool :=
  String.prefix sub s ||
  match s with
  | EmptyString => false
  | String _ s' => contains sub s'
  end.

(** [range(lo, hi)]. *)
Definition range (lo hi : Z) : list Z :=
  map (fun i => lo + Z.of_nat i) (seq 0 (Z.to_nat (hi - lo))).

(** A transform object: called on a value, it returns a value or raises. *)
Definition transform := value -> result value.

(** [[t(dx) for dx in l]]: the first failing element aborts the comprehension. *)
Fixpoint map_result {A B : Type} (f : A -> result B) (l : list A) : result (list B) :=
  match l with
  | [] => Ok []
  | x :: l' => y <- f x ;; ys <- map_result f l' ;; Ok (y :: ys)
  end.

(** The body of the loop of [onRunTransform]: batched when the running
    value is a list. *)
Definition apply_transform (t : transform) (dv : value) : result value :=
  match dv with
  | VList l => l' <- map_result t l ;; Ok (VList l')
  | VDict _ => t dv
  end.

(* ================================================================== *)
(** * numpy on float64 matrices *)
(* ================================================================== *)

Definition nrows (a : matrix) : nat := List.length a.

(** The second component of [a.shape]; a matrix without rows is taken to
    have no columns. *)
Definition ncols (a : matrix) : nat :=
  match a with
  | [] => O
  | r :: _ => List.length r
  end.

(** [np.eye(n)] *)
Definition eye (n : nat) : matrix :=
  map (fun i => map (fun j => if Nat.eqb i j then 1%float else 0%float) (seq 0 n))
      (seq 0 n).

(** [np.diag(v)] *)
Definition diag (v : list float) : matrix :=
  map (fun i => map (fun j => if Nat.eqb i j then nth i v 0%float else 0%float)
                    (seq 0 (List.length v)))
      (seq 0 (List.length v)).

(** [b[:, j]] *)
Definition column (j : nat) (b : matrix) : list float :=
  map (fun r => nth j r 0%float) b.

(** One entry of [a @ b]: the products of a row and a column, added up
    from zero.  In each product of [get_tensor_osd] one factor is a
    diagonal matrix: at most one term of a sum is not a zero, and the
    order in which the terms are added does not show in the result. *)
Fixpoint dot_from (acc : float) (u v : list float) : float :=
  match u, v with
  | x :: u', y :: v' => dot_from (acc + x * y)%float u' v'
  | _, _ => acc
  end.

Definition dot (u v : list float) : float := dot_from 0%float u v.

(** [a @ b]: [ValueError] when the inner dimensions differ. *)
Definition matmul (a b : matrix) : result matrix :=
  if Nat.eqb (ncols a) (nrows b) then
    Ok (map (fun r => map (fun j => dot r (column j b)) (seq 0 (ncols b))) a)
  else Raised.

(** [np.linalg.norm(m, axis=0)], which is
    [sqrt(add.reduce((m.conj() * m).real, axis=0))]: the squares of a
    column are added up row after row. *)
Definition norm_axis0 (m : matrix) : list float :=
  map (fun j => PrimFloat.sqrt
                  (fold_left PrimFloat.add
                             (map (fun x => (x * x)%float) (column j m)) 0%float))
      (seq 0 (ncols m)).

(** [affine[:-1, -1]]: [IndexError] on a matrix without columns. *)
Definition last_column_but_last_row (affine : matrix) : result (list float) :=
  if Nat.eqb (ncols affine) 0 then Raised
  else Ok (map (fun r => last r 0%float) (removelast affine)).

(** [affine[:-1, :-1]] *)
Definition upper_left_block (affine : matrix) : matrix :=
  map (@removelast float) (removelast affine).

(** The last lines of [get_tensor_osd]: origin, spacing and direction
    of an affine matrix.  [1 / spacing] is an infinity where the spacing
    is zero (numpy warns and goes on). *)
Definition affine_osd (affine : matrix)
  : result (list float * list float * matrix) :=
  let dim := (nrows affine - 1)%nat in
  origin <- last_column_but_last_row affine ;;
  m <- matmul (upper_left_block affine) (eye dim) ;;
  let spacing := norm_axis0 m in
  direction <- matmul (upper_left_block affine)
                      (diag (map (fun s => (1 / s)%float) spacing)) ;;
  Ok (origin, spacing, direction).

(** [np.diag([-1, -1, 1, 1])], which [@] takes to [float64]. *)
Definition convert_aff_mat : matrix :=
  diag [(-1)%float; (-1)%float; 1%float; 1%float].

(** [np.squeeze(v, axis=0)], on the shape of [v]: [ValueError] unless the
    first axis has length one. *)
Definition squeeze0 (s : shape) : result shape :=
  match s with
  | n :: s' => if n =? 1 then Ok s' else Raised
  | [] => Raised
  end.

(* ================================================================== *)
(** * Host application: settings, the pipeline table, JSON files *)
(* ================================================================== *)

(** The application settings store read by [slicer.util.settingsValue]. *)
Definition settings_store := list (string * string).

Fixpoint settings_find (key : string) (s : settings_store) : option string :=
  match s with
  | [] => None
  | (k, v) :: s' => if (k =? key)%string then Some v else settings_find key s'
  end.

Definition settingsValue (s : settings_store) (key default : string) : string :=
  match settings_find key s with
  | Some v => v
  | None => default
  end.

(** The status icon of a row. *)
Inductive icon := Yellow | Green.

(** One row of [transformTable]: the "Active" check box, the "Status"
    icon, the "Target" cell and the "Args" cell. *)
Record row := mkRow {
  active : bool;
  status : icon;
  target : string;
  args : string
}.

(** [table.item(r, _)] / [table.cellWidget(r, _)]: Qt answers with a null
    item outside the table, and the attribute access on it raises. *)
Definition item (tbl : list row) (r : Z) : result row :=
  if r <? 0 then Raised else list_getitem tbl r.

Fixpoint update_at {A : Type} (f : A -> A) (n : nat) (l : list A) : list A :=
  match l, n with
  | [], _ => []
  | x :: l', O => f x :: l'
  | x :: l', S n' => x :: update_at f n' l'
  end.

(** [table.item(r, 1).setIcon(i)] for a row of the table. *)
Definition setIcon (i : icon) (r : Z) (tbl : list row) : list row :=
  if r <? 0 then tbl
  else update_at (fun x => mkRow (active x) i (target x) (args x)) (Z.to_nat r) tbl.

(** [table.item(r, 3).setText(s)] for a row of the table. *)
Definition setArgs (s : string) (r : Z) (tbl : list row) : list row :=
  if r <? 0 then tbl
  else update_at (fun x => mkRow (active x) (status x) (target x) s) (Z.to_nat r) tbl.

(** [table.insertRow(pos)] followed by the [setItem] calls that fill the
    new row: Qt inserts for [0 <= pos <= rowCount] and ignores any other
    position (the later [setItem] calls then address no cell). *)
Definition insertRow (pos : Z) (x : row) (tbl : list row) : list row :=
  if (0 <=? pos) && (pos <=? len tbl) then
    (firstn (Z.to_nat pos) tbl ++ x :: skipn (Z.to_nat pos) tbl)%list
  else tbl.

(** [table.removeRow(r)]: Qt removes a row of the table and ignores any
    other index. *)
Definition removeRow (r : Z) (tbl : list row) : list row :=
  if (0 <=? r) && (r <? len tbl) then
    (firstn (Z.to_nat r) tbl ++ skipn (S (Z.to_nat r)) tbl)%list
  else tbl.

(** What is logged while a run walks over the rows: a transform is
    evaluated and applied ("Run:: exp" is printed), or a row is passed over. *)
Inductive event :=
| Run (r : Z) (exp : string)
| Skip (r : Z).

Definition executed (tr : list event) : list Z :=
  flat_map (fun e => match e with Run r _ => [r] | Skip _ => [] end) tr.

Definition skipped (tr : list event) : list Z :=
  flat_map (fun e => match e with Run _ _ => [] | Skip r => [r] end) tr.

(** The part of a JSON document the pipeline files use. *)
#[warnings="-register-all"]
Inductive json :=
| JStr (s : string)
| JObj (items : list (string * json)).

Fixpoint json_find (key : string) (items : list (string * json)) : option json :=
  match items with
  | [] => None
  | (k, v) :: items' => if (k =? key)%string then Some v else json_find key items'
  end.

(** [str(n)] and [int(s)].  A Python [str] is modelled by the string of
    its code points, which are taken below 256.  [int] skips the blanks
    at both ends, takes an optional sign and reads decimal digits, between
    which single underscores may stand; anything else is a [ValueError].
    (Python 3.11 and later refuse by default, in [str] and in [int], a
    numeral of more than 4300 digits; the model follows the Pythons
    without that limit.) *)
Definition str_of_int (z : Z) : string := NilZero.string_of_int (Z.to_int z).

(** The blanks [int] skips: tab to carriage return, the space, and the
    two blanks above 127, U+0085 and U+00A0. *)
Definition int_blank (c : ascii) : bool :=
  let n := nat_of_ascii c in
  ((9 <=? n) && (n <=? 13) || (n =? 32) || (n =? 133) || (n =? 160))%nat.

Definition is_digit (c : ascii) : bool :=
  let n := nat_of_ascii c in ((48 <=? n) && (n <=? 57))%nat.

Fixpoint skip_blanks (s : string) : string :=
  match s with
  | EmptyString => EmptyString
  | String c s' => if int_blank c then skip_blanks s' else s
  end.

Fixpoint all_blank (s : string) : bool :=
  match s with
  | EmptyString => true
  | String c s' => int_blank c && all_blank s'
  end.

(** The digits at the head of [s], without their underscores, and what
    follows them; [after_digit] tells whether the character before [s]
    was a digit.  [None] when there is no digit, or an underscore that
    does not stand between two digits. *)
Fixpoint numeral (s : string) (after_digit : bool) : option (string * string) :=
  match s with
  | EmptyString => if after_digit then Some (EmptyString, EmptyString) else None
  | String c s' =>
      if is_digit c then
        match numeral s' true with
        | Some (ds, rest) => Some (String c ds, rest)
        | None => None
        end
      else if (c =? "_")%char then
        if after_digit then numeral s' false else None
      else if after_digit then Some (EmptyString, s) else None
  end.

Definition int_of_str (s : string) : result Z :=
  let s1 := skip_blanks s in
  let (negative, s2) :=
    match s1 with
    | String c r =>
        if (c =? "-")%char then (true, r)
        else if (c =? "+")%char then (false, r)
        else (false, s1)
    | EmptyString => (false, s1)
    end in
  match numeral s2 false with
  | Some (ds, rest) =>
      if all_blank rest then
        match NilZero.uint_of_string ds with
        | Some u => Ok (Z.of_int (if negative then Decimal.Neg u else Decimal.Pos u))
        | None => Raised
        end
      else Raised
  | None => Raised
  end.

(** [repr(s)] of a string: in single quotes, or in double quotes when
    the string holds a single quote and no double quote; the backslash,
    the quote in use, and the characters that are not printable are
    escaped. *)
Definition hex_digit (n : nat) : ascii :=
  ascii_of_nat (if (n <? 10)%nat then 48 + n else 87 + n).

Definition printable (c : ascii) : bool :=
  let n := nat_of_ascii c in
  ((32 <=? n) && (n <=? 126) || (161 <=? n) && negb (n =? 173))%nat.

Definition repr_char (quote c : ascii) : string :=
  if (c =? "\")%char then "\\"
  else if (c =? quote)%char then String "\" (String c EmptyString)
  else if (c =? "009")%char then "\t"
  else if (c =? "010")%char then "\n"
  else if (c =? "013")%char then "\r"
  else if printable c then String c EmptyString
  else String "\" (String "x" (String (hex_digit (nat_of_ascii c / 16))
                                       (String (hex_digit (nat_of_ascii c mod 16))
                                               EmptyString))).

Fixpoint has_char (c : ascii) (s : string) : bool :=
  match s with
  | EmptyString => false
  | String c' s' => (c' =? c)%char || has_char c s'
  end.

Fixpoint repr_chars (quote : ascii) (s : string) : string :=
  match s with
  | EmptyString => EmptyString
  | String c s' => repr_char quote c ++ repr_chars quote s'
  end.

Definition repr_str (s : string) : string :=
  let quote := if has_char "'" s && negb (has_char "034" s) then "034"%char
               else "'"%char in
  String quote (repr_chars quote s ++ String quote EmptyString).

(** [str(v)] of a parsed JSON value that is not a string: the [repr] of
    a [dict]. *)
Fixpoint py_repr (v : json) : string :=
  match v with
  | JStr s => repr_str s
  | JObj items =>
      "{" ++
      (fix members (l : list (string * json)) (first : bool) : string :=
         match l with
         | [] => EmptyString
         | (k, x) :: l' =>
             (if first then "" else ", ") ++ repr_str k ++ ": " ++ py_repr x ++
             members l' false
         end) items true ++
      "}"
  end.

(** The text of a table cell made of a value read from a file,
    [QTableWidgetItem(v if v else "")]: a string is its own text, the
    empty string and the empty object are falsy and give the empty text,
    and PythonQt hands a non-empty object to Qt as its [str]. *)
Definition cell_text (v : json) : string :=
  match v with
  | JStr s => s
  | JObj [] => EmptyString
  | JObj (_ :: _) => py_repr v
  end.

(** [t[-1] == "d"]: [IndexError] on the empty string. *)
Fixpoint last_char (s : string) : result ascii :=
  match s with
  | EmptyString => Raised
  | String c EmptyString => Ok c
  | String _ s' => last_char s'
  end.

Definition ends_in_d (t : string) : result bool :=
  c <- last_char t ;; Ok (Ascii.eqb c "d").

(** [t in ["AffineGrid", "Decollated", "RandAffineGrid", "RandDeformGrid"]] *)
Definition excluded (t : string) : bool :=
  existsb (String.eqb t) ["AffineGrid"; "Decollated"; "RandAffineGrid"; "RandDeformGrid"].

(* ================================================================== *)
(** * MONAIViz/MONAIViz.py *)
(* ================================================================== *)

Module MONAIViz.

(** ** class TransformCtx *)

Record TransformCtx := mkCtx {
  d : option value;
  last_exp : string;
  next_idx : Z;
  next_exp : string;
  channel : bool;
  bidx : Z;
  original_spatial_shape : option shape;
  original_affine : option matrix
}.

(** [__init__] *)
Definition init : TransformCtx :=
  mkCtx None "" 0 "" false 0 None None.

Definition reset (self : TransformCtx) : TransformCtx := init.

Definition valid (self : TransformCtx) : bool :=
  match d self with
  | None => false
  | Some _ => if next_idx self =? 0 then false else true
  end.

Definition valid_for_next (self : TransformCtx) (exp : string) : bool :=
  truthy exp && truthy (next_exp self) && (exp =? next_exp self)%string.

(** [self.bidx % len(self.d) if isinstance(self.d, list) else -1]:
    [ZeroDivisionError] on an empty list. *)
Definition batch_index (self : TransformCtx) : result Z :=
  match d self with
  | Some (VList l) => if len l =? 0 then Raised else Ok (bidx self mod len l)
  | _ => Ok (-1)
  end.

(** [self.d[bidx] if bidx >= 0 else self.d]; [None] when there is no data. *)
Definition batch_item (self : TransformCtx) (bi : Z) : result (option value) :=
  if 0 <=? bi then
    match d self with
    | Some (VList l) => x <- list_getitem l bi ;; Ok (Some x)
    | _ => Raised
    end
  else Ok (d self).

(** [get_d(exp, d)].  [exp] is [None] when the caller only looks at the
    dictionary ([onShowDictionary]).  A valid context holds data, so the
    [None] branches of the inner matches are never taken. *)
Definition get_d (self : TransformCtx) (exp : option string) (fresh : value)
  : result value * TransformCtx :=
  match exp with
  | None =>
      if valid self then
        (bi <- batch_index self ;;
         x <- batch_item self bi ;;
         match x with
         | Some v => Ok v
         | None => Ok fresh
         end, self)
      else (Ok fresh, self)
  | Some e =>
      let self1 := if valid_for_next self e then self else reset self in
      if valid self1 then
        (match d self1 with
         | Some v => Ok v
         | None => Ok fresh
         end, self1)
      else (Ok fresh, self1)
  end.

(** [d[self.bidx % len(d)][key] if isinstance(d, list) else d[key]] *)
Definition key_tensor_of (self : TransformCtx) (dv : value) (key : string)
  : result entry :=
  match dv with
  | VList l =>
      if len l =? 0 then Raised
      else x <- list_getitem l (bidx self mod len l) ;; getitem x key
  | VDict _ => getitem dv key
  end.

(** [set_d(d, exp, key)].  The state returned with [Raised] is the one the
    object is left in when the exception escapes. *)
Definition set_d (self : TransformCtx) (dv : value) (exp key : string)
  : result unit * TransformCtx :=
  match key_tensor_of self dv key with
  | Raised => (Raised, self)
  | Ok key_tensor =>
      match shape_of key_tensor with
      | Raised => (Raised, self)
      | Ok sh =>
          let captured :=
            match original_spatial_shape self with
            | None =>
                let self1 :=
                  mkCtx (d self) (last_exp self) (next_idx self) (next_exp self)
                        (channel self) (bidx self) (Some sh) (original_affine self) in
                match affine_of key_tensor with
                | Raised => (Raised, self1)
                | Ok a =>
                    (Ok tt,
                     mkCtx (d self1) (last_exp self1) (next_idx self1) (next_exp self1)
                           (channel self1) (bidx self1) (original_spatial_shape self1)
                           (Some a))
                end
            | Some _ => (Ok tt, self)
            end in
          match captured with
          | (Raised, self2) => (Raised, self2)
          | (Ok _, self2) =>
              let ch := if contains "EnsureChannelFirstd" exp then true
                        else channel self2 in
              (Ok tt,
               mkCtx (Some dv) exp (next_idx self2) (next_exp self2) ch (bidx self2)
                     (original_spatial_shape self2) (original_affine self2))
          end
      end
  end.

Definition set_next (self : TransformCtx) (next_idx' : Z) (next_exp' : string)
  : TransformCtx :=
  if (next_idx self =? next_idx') && (next_exp self =? next_exp')%string then
    mkCtx (d self) (last_exp self) (next_idx self) (next_exp self) (channel self)
          (bidx self + 1) (original_spatial_shape self) (original_affine self)
  else
    mkCtx (d self) (last_exp self) next_idx' next_exp' (channel self)
          (bidx self) (original_spatial_shape self) (original_affine self).

(** [get_tensor_osd(key, scale)].  [scale_affine] is
    [monai.transforms.utils.scale_affine].  [None] is returned when the
    selected dictionary has no entry under [key]. *)
Definition get_tensor_osd
    (scale_affine : option matrix -> option shape -> shape -> result matrix)
    (self : TransformCtx) (key : string) (scale : bool)
  : result (option (list float * list float * matrix)) :=
  bi <- batch_index self ;;
  x <- batch_item self bi ;;
  match x with
  | Some (VDict m) =>
      match lookup key m with
      | None => Ok None
      | Some ENone => Ok None
      | Some key_tensor =>
          sh <- shape_of key_tensor ;;
          let actual_shape := if channel self then tl sh else sh in
          affine <- (if scale
                     then scale_affine (original_affine self)
                                       (original_spatial_shape self) actual_shape
                     else affine_of key_tensor) ;;
          r <- affine_osd affine ;;
          Ok (Some r)
      end
  | _ => Raised
  end.

(** [get_tensor(key, transpose)], as the shape of the array it returns:
    [None] when the selected dictionary holds no array under [key] (no
    entry, [None], or a string such as a path not loaded yet); the first
    axis is squeezed when the channel flag is set, and [transpose()]
    reverses the axes. *)
Definition get_tensor (self : TransformCtx) (key : string) (transpose : bool)
  : result (option shape) :=
  bi <- batch_index self ;;
  x <- batch_item self bi ;;
  match x with
  | Some (VDict m) =>
      match lookup key m with
      | None => Ok None
      | Some ENone => Ok None
      | Some (EStr _) => Ok None
      | Some (ETensor t) =>
          v <- (if channel self then squeeze0 (t_shape t) else Ok (t_shape t)) ;;
          Ok (Some (if transpose then List.rev v else v))
      end
  | _ => Raised
  end.

(** ** class MONAIVizWidget *)

(** The widget state the handlers below read and write. *)
Record Widget := mkWidget {
  transformTable : list row;
  currentRow : Z;                 (* [-1] when no row is current *)
  imagePath : string;
  labelPath : string;
  textEdit : result dict;         (* [json.loads(self.ui.textEdit.toPlainText())] *)
  modulesComboBox : string;
  transformsComboBox : string;
  settings : settings_store;
  clearTransformButton : bool;    (* enabled? *)
  ctx : TransformCtx
}.

Definition set_table (w : Widget) (tbl : list row) : Widget :=
  mkWidget tbl (currentRow w) (imagePath w) (labelPath w) (textEdit w)
           (modulesComboBox w) (transformsComboBox w) (settings w)
           (clearTransformButton w) (ctx w).

Definition set_current (w : Widget) (r : Z) : Widget :=
  mkWidget (transformTable w) r (imagePath w) (labelPath w) (textEdit w)
           (modulesComboBox w) (transformsComboBox w) (settings w)
           (clearTransformButton w) (ctx w).

Definition set_clear_enabled (w : Widget) (b : bool) : Widget :=
  mkWidget (transformTable w) (currentRow w) (imagePath w) (labelPath w) (textEdit w)
           (modulesComboBox w) (transformsComboBox w) (settings w) b (ctx w).

Definition set_ctx (w : Widget) (c : TransformCtx) : Widget :=
  mkWidget (transformTable w) (currentRow w) (imagePath w) (labelPath w) (textEdit w)
           (modulesComboBox w) (transformsComboBox w) (settings w)
           (clearTransformButton w) c.

Definition rowCount (w : Widget) : Z := len (transformTable w).

(** [table.selectRow(pos)]: the row becomes the current one when it exists. *)
Definition selectRow (w : Widget) (pos : Z) : Widget :=
  if (0 <=? pos) && (pos <? rowCount w) then set_current w pos else w.

Definition prepare_dict (w : Widget) : result value :=
  additional <- textEdit w ;;
  let image_key := settingsValue (settings w) "MONAIViz/imageKey" "image" in
  let label_key := settingsValue (settings w) "MONAIViz/labelKey" "label" in
  let d0 := fold_left (fun m kv => dict_set (fst kv) (snd kv) m) additional
                      [(image_key, EStr (imagePath w))] in
  Ok (VDict (if truthy (labelPath w) then dict_set label_key (EStr (labelPath w)) d0
             else d0)).

Definition expression (x : row) : string :=
  "monai.transforms." ++ target x ++ "(" ++ args x ++ ")".

Definition get_exp (tbl : list row) (r : Z) : result string :=
  x <- item tbl r ;; Ok (expression x).

Definition onSelectTransform (w : Widget) (r c : Z) : Widget :=
  set_clear_enabled w (valid (ctx w)).

Definition onClearTransform (w : Widget) : Widget :=
  let w1 := set_ctx w (reset (ctx w)) in
  let w2 := set_table w1 (fold_left (fun t r => setIcon Yellow r t)
                                    (range 0 (rowCount w1)) (transformTable w1)) in
  set_clear_enabled w2 (valid (ctx w2)).

Definition onBoxClicked (w : Widget) (clicked : bool) (current_row : Z)
  : result unit * Widget :=
  match get_exp (transformTable w) current_row with
  | Raised => (Raised, w)
  | Ok next_exp' =>
      (Ok tt, set_ctx w (reset (set_next (ctx w) current_row next_exp')))
  end.

(** [addTransform(pos, m, t, v, active=True)] *)
Definition addTransform (w : Widget) (pos : Z) (m : option string) (t v : string)
                        (act : bool) : Widget :=
  let pos := if 0 <=? pos then pos
             else if currentRow w <? 0 then rowCount w
             else currentRow w + 1 in
  let name := match m with
              | Some m' => if truthy m' then m' ++ "." ++ t else t
              | None => t
              end in
  let w1 := set_table w (insertRow pos (mkRow act Yellow name v) (transformTable w)) in
  onSelectTransform (selectRow w1 pos) pos 0.

(** [onAddTransform]: returns the suggested "Args" text with the new
    state, or [None] when the guard returns before anything is added. *)
Definition onAddTransform (w : Widget) : result (option string) * Widget :=
  if negb (truthy (modulesComboBox w)) || negb (truthy (transformsComboBox w))
  then (Ok None, w)
  else
    let t := transformsComboBox w in
    match ends_in_d t with
    | Raised => (Raised, w)
    | Ok isd =>
        let v :=
          if isd && negb (excluded t) then
            let image_key := settingsValue (settings w) "SlicerMONAIViz/imageKey" "image" in
            let label_key := settingsValue (settings w) "SlicerMONAIViz/labelKey" "label" in
            "keys=['" ++ image_key ++ "', '" ++ label_key ++ "']"
          else "" in
        (Ok (Some v), addTransform w (-1) None t v true)
    end.

(** [onSaveTransform]: the document handed to [json.dump]; integer keys
    are written as their decimal numerals. *)
Definition onSaveTransform (w : Widget) : result json :=
  rows <- map_result
            (fun r => x <- item (transformTable w) r ;;
                      Ok (str_of_int r,
                          JObj [("name", JStr (target x)); ("args", JStr (args x))]))
            (range 0 (rowCount w)) ;;
  Ok (JObj rows).

(** One iteration of the loop of [onLoadTransform]. *)
Definition load_one (w : Widget) (idx : string) (transform : json)
  : result unit * Widget :=
  match transform with
  | JObj fields =>
      match json_find "name" fields with
      | Some (JStr t) =>
          match ends_in_d t with
          | Raised => (Raised, w)
          | Ok isd =>
              let v := if isd && negb (excluded t) then
                         match json_find "args" fields with
                         | Some a => Ok a
                         | None => Raised
                         end
                       else Ok (JStr "") in
              match v with
              | Raised => (Raised, w)
              | Ok v' =>
                  match int_of_str idx with
                  | Raised => (Raised, w)
                  | Ok pos => (Ok tt, addTransform w pos None t (cell_text v') true)
                  end
              end
          end
      | _ => (Raised, w)
      end
  | JStr _ => (Raised, w)
  end.

Fixpoint load_items (w : Widget) (items : list (string * json))
  : result unit * Widget :=
  match items with
  | [] => (Ok tt, w)
  | (idx, transform) :: items' =>
      match load_one w idx transform with
      | (Raised, w1) => (Raised, w1)
      | (Ok _, w1) => load_items w1 items'
      end
  end.

(** [onLoadTransform] on the parsed content of the chosen file. *)
Definition onLoadTransform (w : Widget) (file : json) : result unit * Widget :=
  match file with
  | JObj items => load_items w items
  | JStr _ => (Raised, w)
  end.

(** [onShowDictionary]: the value handed to the [TransformDictDialog]. *)
Definition onShowDictionary (w : Widget) : result value * Widget :=
  match prepare_dict w with
  | Raised => (Raised, w)
  | Ok fresh =>
      let (r, c) := get_d (ctx w) None fresh in (r, set_ctx w c)
  end.

Section Rows.

(** The row Qt makes current once [removeRow] has taken the current row
    out of the table it is given. *)
Variable current_after_remove : list row -> Z -> Z.

Definition onRemoveTransform (w : Widget) : Widget :=
  let row := currentRow w in
  if row <? 0 then w
  else
    let w1 := set_current (set_table w (removeRow row (transformTable w)))
                          (current_after_remove (transformTable w) row) in
    onSelectTransform w1 (-1) (-1).

Definition onMoveUpTransform (w : Widget) : result unit * Widget :=
  let row := currentRow w in
  if row <? 0 then (Ok tt, w)
  else
    match item (transformTable w) row with
    | Raised => (Raised, w)
    | Ok x =>
        (Ok tt, addTransform (onRemoveTransform w) (row - 1) None
                             (target x) (args x) (active x))
    end.

Definition onMoveDownTransform (w : Widget) : result unit * Widget :=
  let row := currentRow w in
  if row <? 0 then (Ok tt, w)
  else
    match item (transformTable w) row with
    | Raised => (Raised, w)
    | Ok x =>
        (Ok tt, addTransform (onRemoveTransform w) (row + 1) None
                             (target x) (args x) (active x))
    end.

End Rows.

Section Handlers.

(** [eval(exp)] over the transform library: the transform object, or the
    exception of a malformed expression.  The library is taken as a pure
    function of the expression and of the input. *)
Variable eval_exp : string -> result transform.

(** The viewer calls between the loop and [set_next]
    ([addVolumeFromArray], [get_tensor_osd], [setSliceViewerLayers], ...):
    [true] when they all return.  They read the context and leave it as it is. *)
Variable host_display : TransformCtx -> bool.

(** The keyword mapping a [CustomDialog] hands back, and
    [ClassUtils.args_to_expression] (of [MONAIVizLib], not part of this
    source tree). *)
Variable Args : Type.
Variable args_to_expression : Args -> string.

(** The state of the loop of [onRunTransform]. *)
Record loop_state := mkLoop {
  ls_d : value;
  ls_ctx : TransformCtx;
  ls_table : list row;
  ls_trace : list event
}.

(** [for row in range(self.ctx.next_idx, current_row + 1): ...] *)
Fixpoint run_rows (image_key : string) (rows : list Z) (st : loop_state)
  : result unit * loop_state :=
  match rows with
  | [] => (Ok tt, st)
  | r :: rest =>
      match item (ls_table st) r with
      | Raised => (Raised, st)
      | Ok x =>
          if active x then
            let exp := expression x in
            let tr := (ls_trace st ++ [Run r exp])%list in
            match (t <- eval_exp exp ;; apply_transform t (ls_d st)) with
            | Raised => (Raised, mkLoop (ls_d st) (ls_ctx st) (ls_table st) tr)
            | Ok dv =>
                match set_d (ls_ctx st) dv exp image_key with
                | (Raised, c) => (Raised, mkLoop dv c (ls_table st) tr)
                | (Ok _, c) =>
                    run_rows image_key rest
                             (mkLoop dv c (setIcon Green r (ls_table st)) tr)
                end
            end
          else
            run_rows image_key rest
                     (mkLoop (ls_d st) (ls_ctx st) (setIcon Yellow r (ls_table st))
                             (ls_trace st ++ [Skip r])%list)
      end
  end.

(** [get_tensor] up to the point where the viewer takes over: the batch
    element it selects must be a dictionary ([d.get]); returns the batch
    index it displays ([-1] for unbatched data). *)
Definition display (c : TransformCtx) : result Z :=
  bi <- batch_index c ;;
  x <- batch_item c bi ;;
  match x with
  | Some (VDict _) => if host_display c then Ok bi else Raised
  | _ => Raised
  end.

(** What a call of [onRunTransform] leaves behind. *)
Record run_result := mkRun {
  outcome : result unit;        (* returned, or the exception that escapes *)
  after : Widget;
  trace : list event;
  shown : option Z              (* batch index handed to the viewer, if any *)
}.

Definition onRunTransform (w : Widget) : run_result :=
  if negb (truthy (imagePath w)) then mkRun (Ok tt) w [] None
  else
    let current_row := currentRow w in
    if current_row <? 0 then mkRun (Ok tt) w [] None
    else
      let image_key := settingsValue (settings w) "MONAIViz/imageKey" "image" in
      match (e <- get_exp (transformTable w) current_row ;;
             f <- prepare_dict w ;; Ok (e, f)) with
      | Raised => mkRun Raised w [] None
      | Ok (current_exp, fresh) =>
          match get_d (ctx w) (Some current_exp) fresh with
          | (Raised, c1) => mkRun Raised (set_ctx w c1) [] None
          | (Ok dv, c1) =>
              let st0 := mkLoop dv c1 (transformTable w) [] in
              let looped :=
                if (last_exp c1 =? current_exp)%string then (Ok tt, st0)
                else run_rows image_key (range (next_idx c1) (current_row + 1)) st0 in
              match looped with
              | (Raised, st) =>
                  mkRun Raised (set_ctx (set_table w (ls_table st)) (ls_ctx st))
                        (ls_trace st) None
              | (Ok _, st) =>
                  let w1 := set_ctx (set_table w (ls_table st)) (ls_ctx st) in
                  let last_row := negb (current_row + 1 <? rowCount w1) in
                  let next_idx' := if last_row then current_row else current_row + 1 in
                  match get_exp (transformTable w1) next_idx' with
                  | Raised => mkRun Raised w1 (ls_trace st) None
                  | Ok next_exp' =>
                      let w2 :=
                        if last_row then w1
                        else
                          let w1' := selectRow w1 next_idx' in
                          set_table w1'
                            (fold_left (fun t r => setIcon Yellow r t)
                                       (range next_idx' (rowCount w1'))
                                       (transformTable w1')) in
                      match display (ctx w2) with
                      | Raised => mkRun Raised w2 (ls_trace st) None
                      | Ok bi =>
                          let w3 := set_ctx w2 (set_next (ctx w2) next_idx' next_exp') in
                          mkRun (Ok tt) (set_clear_enabled w3 (valid (ctx w3)))
                                (ls_trace st) (Some bi)
                      end
                  end
              end
          end
      end.

(** [onEditTransform(row)].  [dialog] is what fetching the documentation
    and running the [CustomDialog] produce: an exception, a closed dialog
    ([updatedArgs is None]) or the updated arguments. *)
Definition onEditTransform (w : Widget) (row0 : Z) (dialog : result (option Args))
  : result unit * Widget :=
  let r := if row0 <? 0 then currentRow w else row0 in
  if r <? 0 then (Ok tt, w)
  else
    match item (transformTable w) r with
    | Raised => (Raised, w)
    | Ok x =>
        let exp := args x in
        match dialog with
        | Raised => (Raised, w)
        | Ok None => (Ok tt, w)
        | Ok (Some updatedArgs) =>
            let new_exp := args_to_expression updatedArgs in
            if (exp =? new_exp)%string then (Ok tt, w)
            else
              let w1 := if (r <? next_idx (ctx w)) || (r =? rowCount w - 1)
                        then onClearTransform w else w in
              (Ok tt, set_table w1 (setArgs new_exp r (transformTable w1)))
        end
    end.

End Handlers.

End MONAIViz.

(* ================================================================== *)
(** * SlicerMONAIViz.py (the older variant of the widget) *)
(* ================================================================== *)

Module SlicerMONAIViz.

(** ** class TransformCtx *)

Record TransformCtx := mkCtx {
  d : option value;
  last_tname : string;
  next_t : Z;
  next_tname : string;
  channel : bool;
  bidx : Z;
  original_spatial_shape : option shape;
  original_affine : option matrix
}.

Definition init : TransformCtx :=
  mkCtx None "" 0 "" false 0 None None.

Definition reset (self : TransformCtx) : TransformCtx := init.

Definition valid (self : TransformCtx) : bool :=
  match d self with
  | None => false
  | Some _ => if next_t self =? 0 then false else true
  end.

(** [name] may be [None] (the default of [get_d]). *)
Definition valid_for_next (self : TransformCtx) (name : option string) : bool :=
  match name with
  | Some n => truthy n && truthy (next_tname self) && (n =? next_tname self)%string
  | None => false
  end.

Definition get_d (self : TransformCtx) (name : option string) (fresh : value)
  : value * TransformCtx :=
  let self1 := if valid_for_next self name then self else reset self in
  if valid self1 then
    (match d self1 with
     | Some v => v
     | None => fresh
     end, self1)
  else (fresh, self1).

Definition key_tensor_of (self : TransformCtx) (dv : value) (key : string)
  : result entry :=
  match dv with
  | VList l =>
      if len l =? 0 then Raised
      else x <- list_getitem l (bidx self mod len l) ;; getitem x key
  | VDict _ => getitem dv key
  end.

(** The body of [for key in keys] in [set_d]. *)
Definition capture (self : TransformCtx) (dv : value) (key : string)
  : result unit * TransformCtx :=
  match (e <- key_tensor_of self dv key ;; sh <- shape_of e ;; Ok (e, sh)) with
  | Raised => (Raised, self)
  | Ok (key_tensor, sh) =>
      match original_spatial_shape self with
      | None =>
          let self1 :=
            mkCtx (d self) (last_tname self) (next_t self) (next_tname self)
                  (channel self) (bidx self) (Some sh) (original_affine self) in
          match affine_of key_tensor with
          | Raised => (Raised, self1)
          | Ok a =>
              (Ok tt,
               mkCtx (d self1) (last_tname self1) (next_t self1) (next_tname self1)
                     (channel self1) (bidx self1) (original_spatial_shape self1)
                     (Some a))
          end
      | Some _ => (Ok tt, self)
      end
  end.

Fixpoint capture_all (self : TransformCtx) (dv : value) (keys : list string)
  : result unit * TransformCtx :=
  match keys with
  | [] => (Ok tt, self)
  | key :: keys' =>
      match capture self dv key with
      | (Raised, self1) => (Raised, self1)
      | (Ok _, self1) => capture_all self1 dv keys'
      end
  end.

Definition set_d (self : TransformCtx) (dv : value) (name : string)
                 (keys : list string) : result unit * TransformCtx :=
  match capture_all self dv keys with
  | (Raised, self1) => (Raised, self1)
  | (Ok _, self1) =>
      let ch := if (name =? "EnsureChannelFirstd")%string then true
                else channel self1 in
      (Ok tt,
       mkCtx (Some dv) name (next_t self1) (next_tname self1) ch (bidx self1)
             (original_spatial_shape self1) (original_affine self1))
  end.

Definition set_next (self : TransformCtx) (next_t' : Z) (next_tname' : string)
  : TransformCtx :=
  if (next_t self =? next_t') && (next_tname self =? next_tname')%string then
    mkCtx (d self) (last_tname self) (next_t self) (next_tname self) (channel self)
          (bidx self + 1) (original_spatial_shape self) (original_affine self)
  else
    mkCtx (d self) (last_tname self) next_t' next_tname' (channel self)
          (bidx self) (original_spatial_shape self) (original_affine self).

Definition batch_index (self : TransformCtx) : result Z :=
  match d self with
  | Some (VList l) => if len l =? 0 then Raised else Ok (bidx self mod len l)
  | _ => Ok (-1)
  end.

(** [self.d[bidx][key] if bidx >= 0 else self.d[key]] *)
Definition batch_entry (self : TransformCtx) (bi : Z) (key : string) : result entry :=
  match d self with
  | Some (VList l) =>
      if 0 <=? bi then x <- list_getitem l bi ;; getitem x key else Raised
  | Some (VDict m) => if 0 <=? bi then Raised else getitem (VDict m) key
  | None => Raised
  end.

(** [get_tensor_osd(key, scale)] of this variant: the affine is first
    multiplied by [convert_aff_mat]. *)
Definition get_tensor_osd
    (scale_affine : option matrix -> option shape -> shape -> result matrix)
    (self : TransformCtx) (key : string) (scale : bool)
  : result (list float * list float * matrix) :=
  bi <- batch_index self ;;
  key_tensor <- batch_entry self bi key ;;
  sh <- shape_of key_tensor ;;
  let actual_shape := if channel self then tl sh else sh in
  affine <- (if scale
             then scale_affine (original_affine self)
                               (original_spatial_shape self) actual_shape
             else affine_of key_tensor) ;;
  affine' <- matmul convert_aff_mat affine ;;
  affine_osd affine'.

(** ** class SlicerMONAIVizWidget *)

(** The table of this variant has no "Active" column: the [active] field
    of its rows is never read. *)
Record Widget := mkWidget {
  transformTable : list row;
  currentRow : Z;
  imagePath : string;
  labelPath : string;
  textEdit : result dict;
  modulesComboBox : string;
  transformsComboBox : string;
  settings : settings_store;
  clearTransformButton : bool;
  ctx : TransformCtx
}.

Definition set_table (w : Widget) (tbl : list row) : Widget :=
  mkWidget tbl (currentRow w) (imagePath w) (labelPath w) (textEdit w)
           (modulesComboBox w) (transformsComboBox w) (settings w)
           (clearTransformButton w) (ctx w).

Definition set_current (w : Widget) (r : Z) : Widget :=
  mkWidget (transformTable w) r (imagePath w) (labelPath w) (textEdit w)
           (modulesComboBox w) (transformsComboBox w) (settings w)
           (clearTransformButton w) (ctx w).

Definition set_clear_enabled (w : Widget) (b : bool) : Widget :=
  mkWidget (transformTable w) (currentRow w) (imagePath w) (labelPath w) (textEdit w)
           (modulesComboBox w) (transformsComboBox w) (settings w) b (ctx w).

Definition set_ctx (w : Widget) (c : TransformCtx) : Widget :=
  mkWidget (transformTable w) (currentRow w) (imagePath w) (labelPath w) (textEdit w)
           (modulesComboBox w) (transformsComboBox w) (settings w)
           (clearTransformButton w) c.

Definition rowCount (w : Widget) : Z := len (transformTable w).

Definition selectRow (w : Widget) (pos : Z) : Widget :=
  if (0 <=? pos) && (pos <? rowCount w) then set_current w pos else w.

Definition onSelectTransform (w : Widget) (r c : Z) : Widget :=
  set_clear_enabled w (valid (ctx w)).

Definition onClearTransform (w : Widget) : Widget :=
  let w1 := set_ctx w (reset (ctx w)) in
  let w2 := set_table w1 (fold_left (fun t r => setIcon Yellow r t)
                                    (range 0 (rowCount w1)) (transformTable w1)) in
  set_clear_enabled w2 (valid (ctx w2)).

(** [addTransform(pos, m, t, v)]; [v] may be [None]. *)
Definition addTransform (w : Widget) (pos : Z) (m : option string) (t : string)
                        (v : option string) : Widget :=
  let pos := if 0 <=? pos then pos
             else if currentRow w <? 0 then rowCount w
             else currentRow w + 1 in
  let name := match m with
              | Some m' => if truthy m' then m' ++ "." ++ t else t
              | None => t
              end in
  let cell := match v with
              | Some v' => v'
              | None => ""
              end in
  let w1 := set_table w (insertRow pos (mkRow true Yellow name cell) (transformTable w)) in
  onSelectTransform (selectRow w1 pos) pos 0.

(** [onAddTransform]: the "Args" text of the new row with the new state,
    or [None] when the guard returns before anything is added. *)
Definition onAddTransform (w : Widget) : option string * Widget :=
  if negb (truthy (modulesComboBox w)) || negb (truthy (transformsComboBox w))
  then (None, w)
  else (Some "", addTransform w (-1) None (transformsComboBox w) None).

Section Handlers.

Variable eval_exp : string -> result transform.
Variable host_display : TransformCtx -> bool.
Variable Args : Type.
Variable args_to_expression : Args -> string.

Record loop_state := mkLoop {
  ls_d : value;
  ls_ctx : TransformCtx;
  ls_table : list row;
  ls_trace : list event
}.

Fixpoint run_rows (keys : list string) (rows : list Z) (st : loop_state)
  : result unit * loop_state :=
  match rows with
  | [] => (Ok tt, st)
  | r :: rest =>
      match item (ls_table st) r with
      | Raised => (Raised, st)
      | Ok x =>
          let name := target x in
          let exp := "monai.transforms." ++ name ++ "(" ++ args x ++ ")" in
          let tr := (ls_trace st ++ [Run r exp])%list in
          match (t <- eval_exp exp ;; t (ls_d st)) with
          | Raised => (Raised, mkLoop (ls_d st) (ls_ctx st) (ls_table st) tr)
          | Ok dv =>
              match set_d (ls_ctx st) dv name keys with
              | (Raised, c) => (Raised, mkLoop dv c (ls_table st) tr)
              | (Ok _, c) =>
                  run_rows keys rest (mkLoop dv c (setIcon Green r (ls_table st)) tr)
              end
          end
      end
  end.

(** [get_tensor(key=image_key)] and [get_tensor(key=label_key)] up to the
    point where numpy and the viewer take over. *)
Definition display (c : TransformCtx) (image_key label_key : string) : result Z :=
  bi <- batch_index c ;;
  _ <- batch_entry c bi image_key ;;
  _ <- batch_entry c bi label_key ;;
  if host_display c then Ok bi else Raised.

Record run_result := mkRun {
  outcome : result unit;
  after : Widget;
  trace : list event;
  shown : option Z
}.

Definition onRunTransform (w : Widget) : run_result :=
  let current_row := currentRow w in
  if current_row <? 0 then mkRun (Ok tt) w [] None
  else
    let image_key := settingsValue (settings w) "SlicerMONAIViz/imageKey" "image" in
    let label_key := settingsValue (settings w) "SlicerMONAIViz/labelKey" "label" in
    match (additional <- textEdit w ;;
           x <- item (transformTable w) current_row ;; Ok (additional, target x)) with
    | Raised => mkRun Raised w [] None
    | Ok (additional, current_name) =>
        let fresh :=
          VDict (fold_left (fun m kv => dict_set (fst kv) (snd kv) m) additional
                           (dict_set label_key (EStr (labelPath w))
                                     [(image_key, EStr (imagePath w))])) in
        let (dv, c1) := get_d (ctx w) (Some current_name) fresh in
        let st0 := mkLoop dv c1 (transformTable w) [] in
        let looped :=
          if (last_tname c1 =? current_name)%string then (Ok tt, st0)
          else run_rows [image_key; label_key]
                        (range (next_t c1) (current_row + 1)) st0 in
        match looped with
        | (Raised, st) =>
            mkRun Raised (set_ctx (set_table w (ls_table st)) (ls_ctx st))
                  (ls_trace st) None
        | (Ok _, st) =>
            let w1 := set_ctx (set_table w (ls_table st)) (ls_ctx st) in
            let last_row := negb (current_row + 1 <? rowCount w1) in
            let next_t' := if last_row then current_row else current_row + 1 in
            match item (transformTable w1) next_t' with
            | Raised => mkRun Raised w1 (ls_trace st) None
            | Ok nx =>
                let w2 :=
                  if last_row then w1
                  else
                    let w1' := selectRow w1 next_t' in
                    set_table w1'
                      (fold_left (fun t r => setIcon Yellow r t)
                                 (range next_t' (rowCount w1'))
                                 (transformTable w1')) in
                match display (ctx w2) image_key label_key with
                | Raised => mkRun Raised w2 (ls_trace st) None
                | Ok bi =>
                    let w3 := set_ctx w2 (set_next (ctx w2) next_t' (target nx)) in
                    mkRun (Ok tt) (set_clear_enabled w3 (valid (ctx w3)))
                          (ls_trace st) (Some bi)
                end
            end
        end
    end.

Definition onEditTransform (w : Widget) (row0 : Z) (dialog : result (option Args))
  : result unit * Widget :=
  let r := if row0 <? 0 then currentRow w else row0 in
  if r <? 0 then (Ok tt, w)
  else
    match item (transformTable w) r with
    | Raised => (Raised, w)
    | Ok x =>
        let exp := args x in
        match dialog with
        | Raised => (Raised, w)
        | Ok None => (Ok tt, w)
        | Ok (Some updatedArgs) =>
            let new_exp := args_to_expression updatedArgs in
            if (exp =? new_exp)%string then (Ok tt, w)
            else
              let w1 := if (r <? next_t (ctx w)) || (r =? rowCount w - 1)
                        then onClearTransform w else w in
              (Ok tt, set_table w1 (setArgs new_exp r (transformTable w1)))
        end
    end.

End Handlers.

End SlicerMONAIViz.

(* ================================================================== *)
(** * SlicerMONAIVizLib/utils.py: the transform catalog *)
(* ================================================================== *)

Module Utils.

(** What the catalog reads from a class object: [__name__],
    [__module__], the [__name__] of each of its [__bases__], and
    [inspect.isabstract]. *)
Record pyclass := mkClass {
  c_name : string;
  c_module : string;
  c_bases : list string;
  c_abstract : bool
}.

(** A member of a module: a class, or anything else. *)
Inductive pyobject :=
| OClass (c : pyclass)
| OOther.

(** [inspect.getmembers(module)]: the [(name, value)] pairs of a module. *)
Definition members := list (string * pyobject).

Definition is_subclass (n : string) (o : pyobject) (base_c : string) : bool :=
  match o with
  | OClass c => negb (n =? base_c)%string && existsb (String.eqb base_c) (c_bases c)
  | OOther => false
  end.

(** [s.endswith(suffix)] *)
Definition endswith (s suffix : string) : bool :=
  (String.length suffix <=? String.length s)%nat &&
  (substring (String.length s - String.length suffix) (String.length suffix) s
   =? suffix)%string.

(** [s.split(c)] *)
Fixpoint split (c : ascii) (s : string) : list string :=
  match s with
  | EmptyString => [""]
  | String a s' =>
      if Ascii.eqb a c then "" :: split c s'
      else match split c s' with
           | h :: t => String a h :: t
           | [] => [String a ""]
           end
  end.

(** The value stored for a class. *)
Record info := mkInfo {
  name : string;
  alias : list string;
  class : string;
  module : string;
  dictionary : bool;
  base_class : string;
  category : string
}.

(** The dictionary [res]: qualified name to [info], in insertion order. *)
Definition catalog := list (string * info).

Fixpoint get (cp : string) (res : catalog) : option info :=
  match res with
  | [] => None
  | (k, v) :: res' => if (k =? cp)%string then Some v else get cp res'
  end.

(** [res[cp]["alias"].append(n)] *)
Fixpoint append_alias (cp n : string) (res : catalog) : catalog :=
  match res with
  | [] => []
  | (k, v) :: res' =>
      if (k =? cp)%string then
        (k, mkInfo (name v) (alias v ++ [n]) (class v) (module v) (dictionary v)
                   (base_class v) (category v)) :: res'
      else (k, v) :: append_alias cp n res'
  end.

(** The inner loop: the first base class that [is_subclass] accepts. *)
Fixpoint first_base (n : string) (o : pyobject) (base_classes : list string)
  : option string :=
  match base_classes with
  | [] => None
  | base_c :: rest =>
      if is_subclass n o base_c then Some base_c else first_base n o rest
  end.

(** One iteration of the loop over the members. *)
Definition visit (base_classes : list string) (res : catalog)
                 (member : string * pyobject) : catalog :=
  let (n, o) := member in
  match o with
  | OOther => res
  | OClass c =>
      if c_abstract c then res
      else
        match first_base n o base_classes with
        | None => res
        | Some base_c =>
            let cp := c_module c ++ "." ++ c_name c in
            match get cp res with
            | Some _ => append_alias cp n res
            | None =>
                (res ++
                 [(cp, mkInfo (c_name c) [n] cp (c_module c)
                              (endswith (c_module c) "dictionary") base_c
                              (String.concat "." (firstn 3 (split "." (c_module c)))))])%list
            end
        end
  end.

(** [sorted(l)] on strings, which Python orders by code point. *)
Fixpoint insert (x : string) (l : list string) : list string :=
  match l with
  | [] => [x]
  | y :: l' => if String.leb x y then x :: l else y :: insert x l'
  end.

Definition sorted (l : list string) : list string := fold_right insert [] l.

Definition get_class_of_subclass (mt : members) (base_classes : list string)
  : catalog :=
  let res := fold_left (visit base_classes) mt [] in
  flat_map (fun k =>
              match get k res with
              | Some v =>
                  [(k, mkInfo (name v) (sorted (alias v)) (class v) (module v)
                              (dictionary v) (base_class v) (category v))]
              | None => []
              end)
           (sorted (map fst res)).

(** [MonaiUtils.list_transforms], on the members of the imported module. *)
Definition list_transforms (mt : members) : catalog :=
  get_class_of_subclass mt ["Transform"; "MapTransform"].

End Utils.

(* ================================================================== *)
(** * The combo boxes filled from the catalog (both widget variants) *)
(* ================================================================== *)

(** [comboBox.findText(s)]: the index of the first item equal to [s],
    [-1] when there is none. *)
Fixpoint findText (s : string) (items : list string) : Z :=
  match items with
  | [] => -1
  | x :: items' =>
      if (x =? s)%string then 0
      else let i := findText s items' in
           if i <? 0 then -1 else i + 1
  end.

(** [f.split(".")[-1]] *)
Definition last_component (f : string) : string := last (Utils.split "." f) "".

(** [onSelectModule]: the items put in [transformsComboBox] when
    [module] is the current text of [modulesComboBox]. *)
Definition onSelectModule (transforms : Utils.catalog) (module : string) : list string :=
  let filtered :=
    map fst (filter (fun kv => (module =? "monai.transforms")%string
                               || (Utils.module (snd kv) =? module)%string)
                    transforms) in
  Utils.sorted (map last_component filtered).

(** [refreshTransforms], from the catalog on: the items put in
    [modulesComboBox] and the index made current.  The set comprehension
    keeps one copy of each module name. *)
Definition refreshTransforms (transforms : Utils.catalog) : list string * Z :=
  let modules := nodup string_dec (map (fun kv => Utils.module (snd kv)) transforms) in
  let items := "monai.transforms" :: Utils.sorted modules in
  (items, Z.max 0 (findText "monai.transforms.io.dictionary" items)).

(* ================================================================== *)
(** * The documentation section shown by [onEditTransform] (both variants) *)
(* ================================================================== *)

(** The double quote character, as a string. *)
Definition dq : string := String "034"%char "".

(** [c.isspace()], on the code points below 256. *)
Definition isspace (c : ascii) : bool :=
  let n := nat_of_ascii c in
  ((9 <=? n) && (n <=? 13) || (28 <=? n) && (n <=? 32) || (n =? 133) || (n =? 160))%nat.

(** [s.rstrip()] *)
Fixpoint rstrip (s : string) : string :=
  match s with
  | EmptyString => EmptyString
  | String c s' =>
      match rstrip s' with
      | EmptyString => if isspace c then EmptyString else String c EmptyString
      | r => String c r
      end
  end.

(** [s.lower()], on the code points below 256: the letters A to Z and
    the accented capitals from 192 to 222, the sign at 215 apart. *)
Definition lower_char (c : ascii) : ascii :=
  let n := nat_of_ascii c in
  if ((65 <=? n) && (n <=? 90) || (192 <=? n) && (n <=? 222) && negb (n =? 215))%nat
  then ascii_of_nat (n + 32) else c.

Fixpoint lower (s : string) : string :=
  match s with
  | EmptyString => EmptyString
  | String c s' => String (lower_char c) (lower s')
  end.

(** [s.startswith(p)] *)
Definition startswith (s p : string) : bool := String.prefix p s.

(** [s.replace(old, new)] for a non-empty [old]: the occurrences are
    replaced from left to right, without overlap.  [skip] counts the
    characters of an occurrence still to be passed over. *)
Fixpoint replace_from (old new : string) (skip : nat) (s : string) : string :=
  match s with
  | EmptyString => EmptyString
  | String c s' =>
      match skip with
      | S k => replace_from old new k s'
      | O =>
          if String.prefix old s
          then new ++ replace_from old new (String.length old - 1) s'
          else String c (replace_from old new O s')
      end
  end.

Definition replace (old new s : string) : string := replace_from old new O s.

Section DocSection.

(** [os.linesep] *)
Variable linesep : string.

(** The two spellings of the opening tag looked for, [sb]. *)
Definition section_markers (name : string) : string * string :=
  let short_name := lower (last_component name) in
  ("<section id=" ++ dq ++ short_name ++ dq ++ ">",
   "<section id='" ++ short_name ++ "'>").

(** The three replacements made in a line of the section. *)
Definition rewrite_line (doc_url c : string) : string :=
  let c := replace ("<span class=" ++ dq ++ "viewcode-link" ++ dq ++ "><span class="
                    ++ dq ++ "pre" ++ dq ++ ">[source]</span></span>") "" c in
  let c := replace "#</a>" "</a>" c in
  replace ("href=" ++ dq) ("href=" ++ dq ++ doc_url) c.

(** [for c in contents: ...]: the strings written to the file, in order,
    and the final value of [found]. *)
Fixpoint doc_loop (sb : string * string) (doc_url : string) (contents : list string)
                  (sc : Z) (found : bool) : list string * bool :=
  match contents with
  | [] => ([], found)
  | c0 :: rest =>
      let c := rstrip c0 in
      let sc1 :=
        if (c =? fst sb)%string || (c =? snd sb)%string then 1
        else if 0 <? sc then
               if startswith c "<section" then sc + 1
               else if startswith c "</section>" then sc - 1
               else sc
             else sc in
      let written := if 0 <? sc1 then [rewrite_line doc_url c; linesep] else [] in
      let found1 := if 0 <? sc1 then true else found in
      if sc1 =? 0 then ((written ++ [c; linesep])%list, found1)
      else
        let (ws, f) := doc_loop sb doc_url rest sc1 found1 in
        ((written ++ ws)%list, f)
  end.

(** The line written when the section is not found. *)
Definition visit_line (doc_url : string) : string :=
  "<p>Visit <a href=" ++ dq ++ doc_url ++ dq ++ ">MONAI Docs</a> for more information</p>".

(** The strings written to the [doc_section] file for the transform
    [name], from the lines [contents] of the documentation page. *)
Definition doc_section (name doc_url : string) (contents : list string) : list string :=
  let (ws, found) := doc_loop (section_markers name) doc_url contents (-1) false in
  if found then ws else (ws ++ [visit_line doc_url])%list.

End DocSection.

(* ================================================================== *)
(** * Vocabulary of the statements *)
(* ================================================================== *)

(** Whether row [r] of the table is checked "Active". *)
Definition is_active (tbl : list row) (r : Z) : bool :=
  match item tbl r with
  | Ok x => active x
  | Raised => false
  end.

(** The invocation expression of row [r] ([get_exp]). *)
Definition expression_at (tbl : list row) (r : Z) : string :=
  match item tbl r with
  | Ok x => MONAIViz.expression x
  | Raised => ""
  end.

(** What a run logs when it reaches row [r]. *)
Definition event_of (tbl : list row) (r : Z) : event :=
  if is_active tbl r then Run r (expression_at tbl r) else Skip r.

(** The row from which a run resumes: the stored frontier when the
    selected row's expression is the expected next one, row 0 after the
    reset of [get_d] otherwise. *)
Definition frontier (c : MONAIViz.TransformCtx) (exp : string) : Z :=
  if MONAIViz.valid_for_next c exp then MONAIViz.next_idx c else 0.

(** Applying the transforms of a list of expressions one after the
    other to a running value, batched over lists. *)
Fixpoint apply_all (eval_exp : string -> result transform) (exps : list string)
                   (dv : value) : result value :=
  match exps with
  | [] => Ok dv
  | e :: exps' =>
      t <- eval_exp e ;; dv' <- apply_transform t dv ;; apply_all eval_exp exps' dv'
  end.

(** The context a run resumes from: the stored one when the selected
    row's expression is the expected next one, a fresh one otherwise. *)
Definition resume_ctx (c : MONAIViz.TransformCtx) (exp : string) : MONAIViz.TransformCtx :=
  if MONAIViz.valid_for_next c exp then c else MONAIViz.init.

(** The row a run of row [k] moves the frontier to. *)
Definition next_row (tbl : list row) (k : Z) : Z :=
  if k + 1 <? len tbl then k + 1 else k.

(** The expressions of the active rows among [rows]. *)
Definition active_exps (tbl : list row) (rows : list Z) : list string :=
  map (expression_at tbl) (filter (is_active tbl) rows).

(** Two tables that differ at most in their status icons. *)
Definition same_pipeline (t1 t2 : list row) : Prop :=
  len t1 = len t2 /\
  forall r, is_active t1 r = is_active t2 r /\ expression_at t1 r = expression_at t2 r.

(** The loop stage of a run of the current row, whose expression is
    [e], started on the value [dv0] handed back by [get_d]. *)
Definition run_loop (eval_exp : string -> result transform) (w : MONAIViz.Widget)
                    (e : string) (dv0 : value)
  : result unit * MONAIViz.loop_state :=
  let c1 := resume_ctx (MONAIViz.ctx w) e in
  let st0 := MONAIViz.mkLoop dv0 c1 (MONAIViz.transformTable w) [] in
  if (MONAIViz.last_exp c1 =? e)%string then (Ok tt, st0)
  else MONAIViz.run_rows eval_exp
         (settingsValue (MONAIViz.settings w) "MONAIViz/imageKey" "image")
         (range (MONAIViz.next_idx c1) (MONAIViz.currentRow w + 1)) st0.

(** Whether [onLoadTransform] keeps the saved arguments of a row named
    [t]: its name ends in d and is not excluded. *)
Definition keeps_args (t : string) : bool :=
  match ends_in_d t with
  | Ok b => b && negb (excluded t)
  | Raised => false
  end.

(** The row [onLoadTransform] builds from a saved row. *)
Definition imported (x : row) : row :=
  mkRow true Yellow (target x) (if keeps_args (target x) then args x else "").

(** The rows of a list with their indices, counted from [start]. *)
Fixpoint indexed {A : Type} (start : Z) (l : list A) : list (Z * A) :=
  match l with
  | [] => []
  | x :: l' => (start, x) :: indexed (start + 1) l'
  end.

(** The entry of the pipeline file for row [x] at index [i]. *)
Definition saved_entry (ix : Z * row) : string * json :=
  (str_of_int (fst ix),
   JObj [("name", JStr (target (snd ix))); ("args", JStr (args (snd ix)))]).

(** The fully qualified name of a class. *)
Definition qualname (c : Utils.pyclass) : string :=
  Utils.c_module c ++ "." ++ Utils.c_name c.

(** The member name [n] puts class [c] in the catalog: [c] is concrete
    and one of the base classes is the name of a direct base of [c] and
    is not [n] itself. *)
Definition catalogued (bases : list string) (n : string) (c : Utils.pyclass) : Prop :=
  Utils.c_abstract c = false /\
  exists b, In b bases /\ n <> b /\ In b (Utils.c_bases c).

(** The order of [sorted] on strings. *)
Definition string_le (a b : string) : Prop := String.leb a b = true.

(** What the loop over the first members of a module has built. *)
Definition catalog_of (bases : list string) (processed : Utils.members)
                      (res : Utils.catalog) : Prop :=
  NoDup (map fst res) /\
  (forall cp, In cp (map fst res) <->
              exists n c, In (n, Utils.OClass c) processed /\
                          catalogued bases n c /\ qualname c = cp) /\
  (forall cp v, In (cp, v) res ->
     Utils.class v = cp /\
     (forall n, In n (Utils.alias v) <->
                exists c, In (n, Utils.OClass c) processed /\
                          catalogued bases n c /\ qualname c = cp) /\
     (exists n c, In (n, Utils.OClass c) processed /\ catalogued bases n c /\
                  qualname c = cp /\
                  Utils.name v = Utils.c_name c /\
                  Utils.module v = Utils.c_module c /\
                  In (Utils.base_class v) bases /\
                  In (Utils.base_class v) (Utils.c_bases c))).





(** The batch index [get_tensor] would select from a context. *)
Definition displayed_index (c : MONAIViz.TransformCtx) : result Z :=
  MONAIViz.batch_index c.

(** Row [x] with the status icon [i]. *)
Definition with_status (i : icon) (x : row) : row :=
  mkRow (active x) i (target x) (args x).

(** The icon the loop of a run gives to a row it walks over. *)
Definition run_icon (x : row) : icon := if active x then Green else Yellow.

(** The fields of a catalog entry that are computed from the module and
    the name of its class. *)
Definition derived_fields (v : Utils.info) : Prop :=
  Utils.class v = Utils.module v ++ "." ++ Utils.name v /\
  Utils.dictionary v = Utils.endswith (Utils.module v) "dictionary" /\
  Utils.category v = String.concat "." (firstn 3 (Utils.split "." (Utils.module v))).

(** A name without a dot. *)
Definition dotless (n : string) : Prop := Utils.split "." n = [n].

(** A line that is, once stripped, one of the two opening tags looked for. *)
Definition is_marker (sb : string * string) (c : string) : bool :=
  (rstrip c =? fst sb)%string || (rstrip c =? snd sb)%string.

(** A line that opens a section, and a line that closes one. *)
Definition opens (c : string) : bool := startswith (rstrip c) "<section".

Definition closes (c : string) : bool :=
  negb (opens c) && startswith (rstrip c) "</section>".

(** Lines in which every section that is opened is closed again, and
    none of which is the opening tag looked for. *)
Inductive balanced (sb : string * string) : list string -> Prop :=
| balanced_nil : balanced sb []
| balanced_plain (c : string) (l : list string) :
    is_marker sb c = false -> opens c = false -> closes c = false ->
    balanced sb l -> balanced sb (c :: l)
| balanced_nested (o c : string) (inner l : list string) :
    is_marker sb o = false -> opens o = true -> balanced sb inner ->
    closes c = true -> balanced sb l ->
    balanced sb (o :: inner ++ c :: l)%list.

(** The strings written for the lines [l] of a section: each line, with
    the three replacements made, followed by a line separator. *)
Definition copied (linesep doc_url : string) (l : list string) : list string :=
  flat_map (fun c => [rewrite_line doc_url (rstrip c); linesep]) l.

(** Calling the transforms of a list of expressions one after the other
    on a single value. *)
Fixpoint call_all (eval_exp : string -> result transform) (exps : list string)
                  (x : value) : result value :=
  match exps with
  | [] => Ok x
  | e :: exps' => t <- eval_exp e ;; y <- t x ;; call_all eval_exp exps' y
  end.

(** The user picks the transform [t] in [transformsComboBox]. *)
Definition choose (w : MONAIViz.Widget) (t : string) : MONAIViz.Widget :=
  MONAIViz.mkWidget (MONAIViz.transformTable w) (MONAIViz.currentRow w)
                    (MONAIViz.imagePath w) (MONAIViz.labelPath w) (MONAIViz.textEdit w)
                    (MONAIViz.modulesComboBox w) t (MONAIViz.settings w)
                    (MONAIViz.clearTransformButton w) (MONAIViz.ctx w).

(** [onAddTransform] for each of the names [ts], one after the other. *)
Fixpoint add_each (w : MONAIViz.Widget) (ts : list string) : MONAIViz.Widget :=
  match ts with
  | [] => w
  | t :: ts' => add_each (snd (MONAIViz.onAddTransform (choose w t))) ts'
  end.

(** The position at which [addTransform(-1, ...)] inserts: below the
    current row, or at the end when no row is current. *)
Definition insertion_point (w : MONAIViz.Widget) : Z :=
  if MONAIViz.currentRow w <? 0 then MONAIViz.rowCount w else MONAIViz.currentRow w + 1.

(** The row [onAddTransform] builds for the name [t] under the settings [st]. *)
Definition added (st : settings_store) (t : string) : row :=
  mkRow true Yellow t
        (if keeps_args t then
           "keys=['" ++ settingsValue st "SlicerMONAIViz/imageKey" "image" ++ "', '"
           ++ settingsValue st "SlicerMONAIViz/labelKey" "label" ++ "']"
         else "").

(** ** Sample data used to instantiate the statements *)

(** A cache two rows deep. *)
Definition sample_ctx : MONAIViz.TransformCtx :=
  MONAIViz.mkCtx (Some (VDict [("image", ETensor (mkTensor [1; 2; 2] None))]))
                 "monai.transforms.Flipd()" 2 "monai.transforms.Rotated()"
                 false 0 (Some [1; 2; 2]) None.

Definition sample_old_ctx : SlicerMONAIViz.TransformCtx :=
  SlicerMONAIViz.mkCtx (Some (VDict [("image", ETensor (mkTensor [1; 2; 2] None))]))
                       "Flipd" 2 "Rotated" false 0 (Some [1; 2; 2]) None.

(** A transform library with three kinds of expressions: malformed
    ones, a batching transform, and transforms that load a tensor under
    the key "image". *)
Definition sample_entry : entry := ETensor (mkTensor [1; 2; 2] (Some [])).

Definition sample_load : transform :=
  fun v => match v with
           | VDict m => Ok (VDict (dict_set "image" sample_entry m))
           | VList _ => Raised
           end.

Definition sample_split : transform := fun v => Ok (VList [v; v]).

Definition sample_eval (exp : string) : result transform :=
  if contains "Bad" exp then Raised
  else if contains "RandCrop" exp then Ok sample_split
  else Ok sample_load.

Definition sample_host (c : MONAIViz.TransformCtx) : bool := true.

Definition sample_table : list row :=
  [ mkRow true Yellow "LoadImaged" "keys=['image']";
    mkRow false Yellow "Flipd" "keys=['image']";
    mkRow true Yellow "RandCropByPosNegLabeld" "keys=['image']";
    mkRow true Yellow "Zoomd" "keys=['image'], zoom=2" ].

(** A widget with the sample table, row [k] selected and the cache [c]. *)
Definition sample_widget (tbl : list row) (k : Z) (c : MONAIViz.TransformCtx)
  : MONAIViz.Widget :=
  MONAIViz.mkWidget tbl k "/data/image.nii.gz" "" (Ok []) "monai.transforms"
                    "LoadImaged" [] false c.

(** The cache after the sample pipeline has been run up to and including
    its third row, which produces a batch of two. *)
Definition sample_batch : list value :=
  [VDict [("image", sample_entry)]; VDict [("image", sample_entry)]].

Definition sample_cached (k : Z) (e : string) : MONAIViz.TransformCtx :=
  MONAIViz.mkCtx (Some (VList sample_batch)) e k e false 0 (Some [1; 2; 2]) (Some []).

(** A two-row pipeline whose second expression is malformed. *)
Definition sample_bad_table : list row :=
  [ mkRow true Yellow "LoadImaged" "keys=['image']";
    mkRow true Yellow "BadFlipd" "keys=" ].

(** A library whose transforms load a tensor under "image" and "label". *)
Definition sample_load2 : transform :=
  fun v => match v with
           | VDict m =>
               Ok (VDict (dict_set "label" sample_entry (dict_set "image" sample_entry m)))
           | VList _ => Raised
           end.

Definition sample_eval2 (exp : string) : result transform :=
  if contains "Bad" exp then Raised else Ok sample_load2.

Definition sample_old_host (c : SlicerMONAIViz.TransformCtx) : bool := true.

Definition sample_old_widget (tbl : list row) (k : Z) (c : SlicerMONAIViz.TransformCtx)
  : SlicerMONAIViz.Widget :=
  SlicerMONAIViz.mkWidget tbl k "/data/image.nii.gz" "/data/label.nii.gz" (Ok [])
                          "monai.transforms" "LoadImaged" [] false c.

(** Widgets with an empty table, the transform [t] chosen in the combo
    box, and the settings [st]. *)
Definition sample_add_widget (t : string) (st : settings_store) : MONAIViz.Widget :=
  MONAIViz.mkWidget [] (-1) "/data/image.nii.gz" "" (Ok []) "monai.transforms" t st
                    false MONAIViz.init.

Definition sample_old_add_widget (t : string) : SlicerMONAIViz.Widget :=
  SlicerMONAIViz.mkWidget [] (-1) "/data/image.nii.gz" "" (Ok []) "monai.transforms" t []
                          false SlicerMONAIViz.init.

(** A pipeline with a transform that is not dictionary-style. *)
Definition sample_mixed_table : list row :=
  [ mkRow true Green "LoadImage" "image_only=True";
    mkRow false Yellow "Flipd" "keys=['image'], spatial_axis=0" ].

(** A module with classes [A(Transform)], [B(MapTransform)], [C(object)],
    a second name for [A], an abstract class and a function. *)
Definition sample_module : Utils.members :=
  [ ("A", Utils.OClass (Utils.mkClass "A" "pkg.spatial.array" ["Transform"] false));
    ("B", Utils.OClass (Utils.mkClass "B" "pkg.spatial.dictionary" ["MapTransform"] false));
    ("C", Utils.OClass (Utils.mkClass "C" "pkg.spatial.array" ["object"] false));
    ("FirstA", Utils.OClass (Utils.mkClass "A" "pkg.spatial.array" ["Transform"] false));
    ("MapTransform", Utils.OClass (Utils.mkClass "MapTransform" "pkg.transform"
                                                 ["Transform"] true));
    ("apply", Utils.OOther) ].

(** A 4 by 4 affine with spacing 2 and origin (10, 20, 30), the tensor
    that carries it, and caches that hold the tensor under "image". *)
Definition sample_affine : matrix :=
  [ [2; 0; 0; 10]; [0; 2; 0; 20]; [0; 0; 2; 30]; [0; 0; 0; 1] ]%float.


Definition sample_geometry_ctx (a : matrix) : MONAIViz.TransformCtx :=
  MONAIViz.mkCtx (Some (VDict [("image", ETensor (mkTensor [1; 2; 2; 2] (Some a)))]))
                 "monai.transforms.LoadImaged()" 1 "monai.transforms.Flipd()"
                 false 0 (Some [1; 2; 2; 2]) (Some a).


(** A documentation page, line by line: a heading, the section of
    [Flipd] with one nested section, and a paragraph after it. *)
Definition sample_nl : string := String "010"%char "".

Definition sample_page_head : list string := ["<html>" ++ sample_nl].

Definition sample_page_open : string :=
  "<section id=" ++ dq ++ "flipd" ++ dq ++ ">  " ++ sample_nl.

Definition sample_page_body : list string :=
  [ "<h1>Flipd<a href=" ++ dq ++ "#flipd" ++ dq ++ ">#</a></h1>" ++ sample_nl;
    "<section id='sub'>" ++ sample_nl;
    "text" ++ sample_nl;
    "</section>" ++ sample_nl ].

Definition sample_page_close : string := "</section>" ++ sample_nl.

Definition sample_page_tail : list string := ["<p>after</p>" ++ sample_nl].

(** A stand-in for [scale_affine] where it is not called. *)
Definition no_scale_affine (a : option matrix) (s : option shape) (s' : shape)
  : result matrix := Raised.

(** ** How a run applies its transforms, in the words of the claim *)

(** A transform is applied to the running value: it is called on the
    running dictionary, or, when the running value is a list, on each of
    its elements, and the results make the new list. *)
Inductive applied (t : transform) : value -> value -> Prop :=
| applied_dict (m : dict) (dv' : value) :
    t (VDict m) = Ok dv' -> applied t (VDict m) dv'
| applied_list (l l' : list value) :
    Forall2 (fun a b => t a = Ok b) l l' -> applied t (VList l) (VList l').

(** The transforms of a list of expressions are evaluated and applied
    one after the other, in the order of the list. *)
Inductive applied_in_order (eval_exp : string -> result transform)
  : list string -> value -> value -> Prop :=
| applied_none (dv : value) : applied_in_order eval_exp [] dv dv
| applied_next (e : string) (exps : list string) (t : transform)
               (dv dv1 dv' : value) :
    eval_exp e = Ok t -> applied t dv dv1 ->
    applied_in_order eval_exp exps dv1 dv' ->
    applied_in_order eval_exp (e :: exps) dv dv'.

(** ** The numbers held by the check boxes *)

(** [addTransform] stores in the check box of the row it makes the
    position of that row ([box.setProperty("row", pos)]), and a click on
    the box hands the stored number to [onBoxClicked]; no handler updates
    it.  The numbers of the boxes, in the order of the table: what
    [insertRow(pos)] with the new box, and [removeRow(r)], make of them. *)
Definition boxes_added (pos : Z) (boxes : list Z) : list Z :=
  if (0 <=? pos) && (pos <=? len boxes) then
    (firstn (Z.to_nat pos) boxes ++ pos :: skipn (Z.to_nat pos) boxes)%list
  else boxes.

Definition boxes_removed (r : Z) (boxes : list Z) : list Z :=
  if (0 <=? r) && (r <? len boxes) then
    (firstn (Z.to_nat r) boxes ++ skipn (S (Z.to_nat r)) boxes)%list
  else boxes.

(** The boxes of a table filled by adding [n] rows, each below the last. *)
Definition boxes_appended (n : Z) : list Z :=
  fold_left (fun boxes pos => boxes_added pos boxes) (range 0 n) [].

(** ** The widget of MONAIViz.py as a transition system *)

Section Steps.

Variable eval_exp : string -> result transform.
Variable host_display : MONAIViz.TransformCtx -> bool.
Variable Args : Type.
Variable args_to_expression : Args -> string.
Variable current_after_remove : list row -> Z -> Z.

(** [handler_step w w']: one call of a handler of [MONAIVizWidget] takes
    the widget from [w] to [w'], whether the handler returns or raises.
    The last case stands for what happens without any of these
    handlers: selecting a row or a combo box entry, changing the paths,
    the extra dictionary or the settings, and [onImportBundle], which
    fills rows of the table.  None of it reaches the cache. *)
Inductive handler_step (w : MONAIViz.Widget) : MONAIViz.Widget -> Prop :=
| step_run :
    handler_step w (MONAIViz.after (MONAIViz.onRunTransform eval_exp host_display w))
| step_edit (row0 : Z) (dialog : result (option Args)) :
    handler_step w (snd (MONAIViz.onEditTransform Args args_to_expression w row0 dialog))
| step_box (clicked : bool) (r : Z) :
    handler_step w (snd (MONAIViz.onBoxClicked w clicked r))
| step_clear :
    handler_step w (MONAIViz.onClearTransform w)
| step_show :
    handler_step w (snd (MONAIViz.onShowDictionary w))
| step_add :
    handler_step w (snd (MONAIViz.onAddTransform w))
| step_remove :
    handler_step w (MONAIViz.onRemoveTransform current_after_remove w)
| step_up :
    handler_step w (snd (MONAIViz.onMoveUpTransform current_after_remove w))
| step_down :
    handler_step w (snd (MONAIViz.onMoveDownTransform current_after_remove w))
| step_load (file : json) :
    handler_step w (snd (MONAIViz.onLoadTransform w file))
| step_select (r c : Z) :
    handler_step w (MONAIViz.onSelectTransform w r c)
| step_input (w' : MONAIViz.Widget) :
    MONAIViz.ctx w' = MONAIViz.ctx w -> handler_step w w'.

(** The states of the widget: it starts with the cache of [__init__]. *)
Inductive reachable : MONAIViz.Widget -> Prop :=
| reach_start (w : MONAIViz.Widget) :
    MONAIViz.ctx w = MONAIViz.init -> reachable w
| reach_step (w w' : MONAIViz.Widget) :
    reachable w -> handler_step w w' -> reachable w'.

End Steps.

(** What holds of the cache in every state of the widget. *)
Definition cache_invariant (c : MONAIViz.TransformCtx) : Prop :=
  0 <= MONAIViz.next_idx c /\
  0 <= MONAIViz.bidx c /\
  (MONAIViz.next_exp c = "" -> MONAIViz.next_idx c = 0) /\
  (MONAIViz.d c = None <-> MONAIViz.last_exp c = "") /\
  (MONAIViz.d c <> None -> MONAIViz.original_spatial_shape c <> None).

(* ================================================================== *)
(** * Properties *)
(* ================================================================== *)

(** ** The execution cache *)

Lemma truthy_true_iff (s : string) : truthy s = true <-> s <> "".
Proof.
  unfold truthy. destruct (String.eqb_spec s ""); simpl; split; congruence.
Qed.

Lemma valid_for_next_true_iff (self : MONAIViz.TransformCtx) (exp : string) :
  MONAIViz.valid_for_next self exp = true <->
  exp <> "" /\ exp = MONAIViz.next_exp self.
Proof.
  unfold MONAIViz.valid_for_next.
  rewrite !andb_true_iff, !truthy_true_iff, String.eqb_eq.
  split.
  - intros [[H1 _] H2]. auto.
  - intros [H1 H2]. repeat split; congruence.
Qed.

Lemma valid_for_next_mismatch (self : MONAIViz.TransformCtx) (exp : string) :
  exp <> MONAIViz.next_exp self -> MONAIViz.valid_for_next self exp = false.
Proof.
  intros H. apply not_true_is_false. rewrite valid_for_next_true_iff. tauto.
Qed.

Lemma old_valid_for_next_true_iff (self : SlicerMONAIViz.TransformCtx) (name : option string) :
  SlicerMONAIViz.valid_for_next self name = true <->
  exists n, name = Some n /\ n <> "" /\ n = SlicerMONAIViz.next_tname self.
Proof.
  unfold SlicerMONAIViz.valid_for_next. destruct name as [n|].
  - rewrite !andb_true_iff, !truthy_true_iff, String.eqb_eq. split.
    + intros [[H1 _] H2]. exists n. auto.
    + intros (n' & [= <-] & H1 & H2). repeat split; congruence.
  - split; [discriminate | intros (n & H & _); discriminate].
Qed.

Lemma valid_true_iff (self : MONAIViz.TransformCtx) :
  MONAIViz.valid self = true <->
  MONAIViz.d self <> None /\ MONAIViz.next_idx self <> 0.
Proof.
  unfold MONAIViz.valid. destruct (MONAIViz.d self).
  - destruct (Z.eqb_spec (MONAIViz.next_idx self) 0); split;
      try discriminate; try tauto.
    intros _. split; [discriminate | assumption].
  - split; [discriminate | tauto].
Qed.

Lemma old_valid_true_iff (self : SlicerMONAIViz.TransformCtx) :
  SlicerMONAIViz.valid self = true <->
  SlicerMONAIViz.d self <> None /\ SlicerMONAIViz.next_t self <> 0.
Proof.
  unfold SlicerMONAIViz.valid. destruct (SlicerMONAIViz.d self).
  - destruct (Z.eqb_spec (SlicerMONAIViz.next_t self) 0); split;
      try discriminate; try tauto.
    intros _. split; [discriminate | assumption].
  - split; [discriminate | tauto].
Qed.

(** C3.  In both variants of [TransformCtx], for a state whose frontier is
    a row index (never negative), [valid()] is true exactly when the cached
    data is not [None] and the frontier is greater than 0; and [get_d],
    asked to resume from an expression (a name, in the older variant) that
    is not the stored expected-next one, resets every field to its initial
    value and returns the caller's fresh dictionary. *)
Theorem C3_valid_iff_and_mismatch_resets :
  forall (self : MONAIViz.TransformCtx) (old : SlicerMONAIViz.TransformCtx),
    0 <= MONAIViz.next_idx self ->
    0 <= SlicerMONAIViz.next_t old ->
    (MONAIViz.valid self = true <->
     MONAIViz.d self <> None /\ MONAIViz.next_idx self > 0) /\
    (forall exp fresh,
        exp <> MONAIViz.next_exp self ->
        MONAIViz.get_d self (Some exp) fresh = (Ok fresh, MONAIViz.init)) /\
    (SlicerMONAIViz.valid old = true <->
     SlicerMONAIViz.d old <> None /\ SlicerMONAIViz.next_t old > 0) /\
    (forall name fresh,
        name <> Some (SlicerMONAIViz.next_tname old) ->
        SlicerMONAIViz.get_d old name fresh = (fresh, SlicerMONAIViz.init)).
Proof.
  intros self old Hn Ho. split; [| split; [| split]].
  - rewrite valid_true_iff. intuition lia.
  - intros exp fresh Hne. unfold MONAIViz.get_d.
    rewrite (valid_for_next_mismatch _ _ Hne). reflexivity.
  - rewrite old_valid_true_iff. intuition lia.
  - intros name fresh Hne. unfold SlicerMONAIViz.get_d.
    replace (SlicerMONAIViz.valid_for_next old name) with false; [reflexivity|].
    symmetry. apply not_true_is_false. rewrite old_valid_for_next_true_iff.
    intros (n & -> & _ & ->). congruence.
Qed.

Lemma C3_witness :
  MONAIViz.valid sample_ctx = true /\
  MONAIViz.get_d sample_ctx (Some "monai.transforms.Zoomd()") (VDict []) =
    (Ok (VDict []), MONAIViz.init) /\
  SlicerMONAIViz.valid sample_old_ctx = true /\
  SlicerMONAIViz.get_d sample_old_ctx (Some "Zoomd") (VDict []) =
    (VDict [], SlicerMONAIViz.init).
Proof.
  destruct (C3_valid_iff_and_mismatch_resets sample_ctx sample_old_ctx)
    as (H1 & H2 & H3 & H4); [simpl; lia | simpl; lia |].
  split; [| split; [| split]].
  - apply H1. split; [discriminate | simpl; lia].
  - apply H2. discriminate.
  - apply H3. split; [discriminate | simpl; lia].
  - apply H4. discriminate.
Defined.

Lemma set_d_bidx (self : MONAIViz.TransformCtx) (dv : value) (exp key : string) :
  MONAIViz.bidx (snd (MONAIViz.set_d self dv exp key)) = MONAIViz.bidx self.
Proof.
  unfold MONAIViz.set_d.
  destruct (MONAIViz.key_tensor_of self dv key) as [e|]; [|reflexivity].
  destruct (shape_of e) as [sh|]; [|reflexivity].
  destruct (MONAIViz.original_spatial_shape self); [reflexivity|].
  destruct (affine_of e); reflexivity.
Qed.

Lemma get_d_keeps_or_resets (self : MONAIViz.TransformCtx) (exp : option string)
      (fresh : value) :
  snd (MONAIViz.get_d self exp fresh) = self \/
  snd (MONAIViz.get_d self exp fresh) = MONAIViz.reset self.
Proof.
  unfold MONAIViz.get_d. destruct exp as [e|].
  - destruct (MONAIViz.valid_for_next self e).
    + left. destruct (MONAIViz.valid self); reflexivity.
    + right. reflexivity.
  - left. destruct (MONAIViz.valid self); reflexivity.
Qed.

(** C10.  [set_next(i, e)] leaves the cached dictionary, the last-applied
    expression, the channel flag and the original shape and affine as they
    are; afterwards the frontier is [(i, e)]; the batch cursor is
    incremented by one when [(i, e)] was already the stored pair and is
    unchanged when the frontier moves.  No other method touches the cursor
    except through [reset()], which returns it to zero: [set_d] keeps it
    and [get_d] either keeps the whole state or resets it.  The same holds
    for [set_next] of the older variant. *)
Theorem C10_set_next_frame :
  forall (self : MONAIViz.TransformCtx) (old : SlicerMONAIViz.TransformCtx)
         (i : Z) (e : string),
    let self' := MONAIViz.set_next self i e in
    let old' := SlicerMONAIViz.set_next old i e in
    (MONAIViz.d self' = MONAIViz.d self /\
     MONAIViz.last_exp self' = MONAIViz.last_exp self /\
     MONAIViz.channel self' = MONAIViz.channel self /\
     MONAIViz.original_spatial_shape self' = MONAIViz.original_spatial_shape self /\
     MONAIViz.original_affine self' = MONAIViz.original_affine self) /\
    (MONAIViz.next_idx self' = i /\ MONAIViz.next_exp self' = e) /\
    (MONAIViz.next_idx self = i /\ MONAIViz.next_exp self = e ->
     MONAIViz.bidx self' = MONAIViz.bidx self + 1) /\
    (~ (MONAIViz.next_idx self = i /\ MONAIViz.next_exp self = e) ->
     MONAIViz.bidx self' = MONAIViz.bidx self) /\
    MONAIViz.bidx (MONAIViz.reset self) = 0 /\
    (forall dv exp key,
        MONAIViz.bidx (snd (MONAIViz.set_d self dv exp key)) = MONAIViz.bidx self) /\
    (forall exp fresh,
        snd (MONAIViz.get_d self exp fresh) = self \/
        snd (MONAIViz.get_d self exp fresh) = MONAIViz.reset self) /\
    (SlicerMONAIViz.d old' = SlicerMONAIViz.d old /\
     SlicerMONAIViz.last_tname old' = SlicerMONAIViz.last_tname old /\
     SlicerMONAIViz.channel old' = SlicerMONAIViz.channel old /\
     SlicerMONAIViz.original_spatial_shape old' =
       SlicerMONAIViz.original_spatial_shape old /\
     SlicerMONAIViz.original_affine old' = SlicerMONAIViz.original_affine old) /\
    (SlicerMONAIViz.next_t old' = i /\ SlicerMONAIViz.next_tname old' = e) /\
    (SlicerMONAIViz.next_t old = i /\ SlicerMONAIViz.next_tname old = e ->
     SlicerMONAIViz.bidx old' = SlicerMONAIViz.bidx old + 1) /\
    (~ (SlicerMONAIViz.next_t old = i /\ SlicerMONAIViz.next_tname old = e) ->
     SlicerMONAIViz.bidx old' = SlicerMONAIViz.bidx old).
Proof.
  intros self old i e self' old'. subst self' old'.
  unfold MONAIViz.set_next, SlicerMONAIViz.set_next.
  destruct (Z.eqb_spec (MONAIViz.next_idx self) i) as [Hi|Hi];
    destruct (String.eqb_spec (MONAIViz.next_exp self) e) as [He|He];
    destruct (Z.eqb_spec (SlicerMONAIViz.next_t old) i) as [Ho|Ho];
    destruct (String.eqb_spec (SlicerMONAIViz.next_tname old) e) as [Hn|Hn];
    cbn [andb MONAIViz.d MONAIViz.last_exp MONAIViz.next_idx MONAIViz.next_exp
         MONAIViz.channel MONAIViz.bidx MONAIViz.original_spatial_shape
         MONAIViz.original_affine SlicerMONAIViz.d SlicerMONAIViz.last_tname
         SlicerMONAIViz.next_t SlicerMONAIViz.next_tname SlicerMONAIViz.channel
         SlicerMONAIViz.bidx SlicerMONAIViz.original_spatial_shape
         SlicerMONAIViz.original_affine];
    repeat match goal with |- _ /\ _ => split end;
    try reflexivity; try assumption; try tauto;
    try (intros; apply set_d_bidx); try (intros; apply get_d_keeps_or_resets).
Qed.

Lemma C10_witness :
  MONAIViz.bidx (MONAIViz.set_next sample_ctx 2 "monai.transforms.Rotated()") = 1 /\
  MONAIViz.bidx (MONAIViz.set_next sample_ctx 3 "monai.transforms.Zoomd()") = 0 /\
  SlicerMONAIViz.bidx (SlicerMONAIViz.set_next sample_old_ctx 2 "Rotated") = 1 /\
  SlicerMONAIViz.bidx (SlicerMONAIViz.set_next sample_old_ctx 3 "Zoomd") = 0.
Proof.
  pose proof (C10_set_next_frame sample_ctx sample_old_ctx 2
                "monai.transforms.Rotated()") as A.
  pose proof (C10_set_next_frame sample_ctx sample_old_ctx 3
                "monai.transforms.Zoomd()") as B.
  pose proof (C10_set_next_frame sample_ctx sample_old_ctx 2 "Rotated") as C.
  pose proof (C10_set_next_frame sample_ctx sample_old_ctx 3 "Zoomd") as D.
  cbv zeta in A, B, C, D.
  split; [| split; [| split]].
  - apply A. split; reflexivity.
  - apply B. intros [H _]. discriminate H.
  - apply C. split; reflexivity.
  - apply D. intros [H _]. discriminate H.
Defined.

(** ** The pipeline table *)

Lemma nth_error_update_at {A : Type} (f : A -> A) (n m : nat) (l : list A) :
  nth_error (update_at f n l) m =
  if Nat.eqb n m then option_map f (nth_error l m) else nth_error l m.
Proof.
  revert n m. induction l as [|x l IH]; intros n m.
  - destruct n, m; simpl; try reflexivity. destruct (Nat.eqb n m); reflexivity.
  - destruct n, m; simpl; try reflexivity. apply IH.
Qed.

Lemma length_update_at {A : Type} (f : A -> A) (n : nat) (l : list A) :
  List.length (update_at f n l) = List.length l.
Proof.
  revert n. induction l as [|x l IH]; intros [|n]; simpl; auto.
Qed.

Lemma item_setIcon (i : icon) (r' r : Z) (tbl : list row) :
  item (setIcon i r' tbl) r =
  match item tbl r with
  | Ok x => Ok (if r =? r' then mkRow (active x) i (target x) (args x) else x)
  | Raised => Raised
  end.
Proof.
  unfold item, setIcon, list_getitem.
  destruct (Z.ltb_spec r 0) as [Hr|Hr]; [reflexivity|].
  destruct (Z.ltb_spec r' 0) as [Hr'|Hr'].
  - destruct (nth_error tbl (Z.to_nat r)); [|reflexivity].
    destruct (Z.eqb_spec r r'); [lia | reflexivity].
  - rewrite nth_error_update_at.
    destruct (Nat.eqb_spec (Z.to_nat r') (Z.to_nat r)) as [E|E];
      destruct (Z.eqb_spec r r') as [E'|E']; try lia;
      destruct (nth_error tbl (Z.to_nat r)); reflexivity.
Qed.

Lemma is_active_setIcon (i : icon) (r' r : Z) (tbl : list row) :
  is_active (setIcon i r' tbl) r = is_active tbl r.
Proof.
  unfold is_active. rewrite item_setIcon.
  destruct (item tbl r); [|reflexivity]. destruct (r =? r'); reflexivity.
Qed.

Lemma expression_at_setIcon (i : icon) (r' r : Z) (tbl : list row) :
  expression_at (setIcon i r' tbl) r = expression_at tbl r.
Proof.
  unfold expression_at. rewrite item_setIcon.
  destruct (item tbl r); [|reflexivity]. destruct (r =? r'); reflexivity.
Qed.

Lemma len_setIcon (i : icon) (r : Z) (tbl : list row) :
  len (setIcon i r tbl) = len tbl.
Proof.
  unfold len, setIcon. destruct (r <? 0); [reflexivity|].
  now rewrite length_update_at.
Qed.

Lemma same_pipeline_refl (t : list row) : same_pipeline t t.
Proof. split; [reflexivity | intros r; split; reflexivity]. Qed.

Lemma same_pipeline_trans (t1 t2 t3 : list row) :
  same_pipeline t1 t2 -> same_pipeline t2 t3 -> same_pipeline t1 t3.
Proof.
  intros [L1 H1] [L2 H2]. split; [congruence|].
  intros r. destruct (H1 r), (H2 r). split; congruence.
Qed.

Lemma same_pipeline_setIcon (i : icon) (r : Z) (t : list row) :
  same_pipeline (setIcon i r t) t.
Proof.
  split; [apply len_setIcon|].
  intros r'. split; [apply is_active_setIcon | apply expression_at_setIcon].
Qed.

Lemma same_pipeline_fold_setIcon (i : icon) (rs : list Z) (t : list row) :
  same_pipeline (fold_left (fun t r => setIcon i r t) rs t) t.
Proof.
  revert t. induction rs as [|r rs IH]; intros t; simpl.
  - apply same_pipeline_refl.
  - eapply same_pipeline_trans; [apply IH | apply same_pipeline_setIcon].
Qed.

Lemma event_of_same (t1 t2 : list row) :
  same_pipeline t1 t2 -> forall r, event_of t1 r = event_of t2 r.
Proof.
  intros [_ H] r. unfold event_of. destruct (H r) as [-> ->]. reflexivity.
Qed.

Lemma item_in_table (tbl : list row) (r : Z) :
  0 <= r < len tbl -> exists x, item tbl r = Ok x.
Proof.
  intros H. unfold item, list_getitem.
  destruct (Z.ltb_spec r 0); [lia|].
  destruct (nth_error tbl (Z.to_nat r)) eqn:E; [eauto|].
  apply nth_error_None in E. unfold len in H. lia.
Qed.

Lemma item_Ok_range (tbl : list row) (r : Z) (x : row) :
  item tbl r = Ok x -> 0 <= r < len tbl.
Proof.
  unfold item, list_getitem. destruct (Z.ltb_spec r 0); [discriminate|].
  destruct (nth_error tbl (Z.to_nat r)) eqn:E; [|discriminate].
  intros _. assert (Hn : nth_error tbl (Z.to_nat r) <> None) by congruence.
  apply nth_error_Some in Hn. unfold len. lia.
Qed.

Lemma range_nil (lo hi : Z) : hi <= lo -> range lo hi = [].
Proof.
  intros H. unfold range. replace (Z.to_nat (hi - lo)) with O by lia. reflexivity.
Qed.

Lemma range_cons (lo hi : Z) : lo < hi -> range lo hi = lo :: range (lo + 1) hi.
Proof.
  intros H. unfold range.
  replace (Z.to_nat (hi - lo)) with (S (Z.to_nat (hi - (lo + 1)))) by lia.
  cbn [seq map]. f_equal; [lia|].
  rewrite <- seq_shift, map_map. apply map_ext. intros a. lia.
Qed.

Lemma in_range (lo hi r : Z) : In r (range lo hi) <-> lo <= r < hi.
Proof.
  unfold range. rewrite in_map_iff. split.
  - intros (i & <- & Hi). apply in_seq in Hi. lia.
  - intros H. exists (Z.to_nat (r - lo)). split; [lia|]. apply in_seq. lia.
Qed.

Lemma range_snoc (lo hi : Z) :
  lo <= hi -> range lo (hi + 1) = (range lo hi ++ [hi])%list.
Proof.
  intros H. unfold range.
  replace (Z.to_nat (hi + 1 - lo)) with (S (Z.to_nat (hi - lo))) by lia.
  rewrite seq_S, map_app. cbn [map Nat.add]. f_equal. f_equal. lia.
Qed.

Lemma range_app (lo mid hi : Z) :
  lo <= mid <= hi -> range lo hi = (range lo mid ++ range mid hi)%list.
Proof.
  intros [H1 H2]. replace hi with (mid + Z.of_nat (Z.to_nat (hi - mid))) by lia.
  induction (Z.to_nat (hi - mid)) as [|k IH].
  - rewrite Z.add_0_r, (range_nil mid mid), app_nil_r by lia. reflexivity.
  - replace (mid + Z.of_nat (S k)) with (mid + Z.of_nat k + 1) by lia.
    rewrite !range_snoc by lia. rewrite IH, app_assoc. reflexivity.
Qed.

Lemma length_range (lo hi : Z) : List.length (range lo hi) = Z.to_nat (hi - lo).
Proof. unfold range. now rewrite length_map, length_seq. Qed.

Lemma list_getitem_range (lo hi i : Z) :
  0 <= i < hi - lo -> list_getitem (range lo hi) i = Ok (lo + i).
Proof.
  intros H. unfold list_getitem, range.
  rewrite nth_error_map, nth_error_seq.
  destruct (Nat.ltb_spec (Z.to_nat i) (Z.to_nat (hi - lo))); [|lia].
  cbn. f_equal. lia.
Qed.

Lemma map_result_Forall2 {A B : Type} (f : A -> result B) (l : list A) :
  forall l', map_result f l = Ok l' -> Forall2 (fun x y => f x = Ok y) l l'.
Proof.
  induction l as [|x l IH]; intros l' H; cbn [map_result] in H.
  - injection H as <-. constructor.
  - destruct (f x) as [y|] eqn:E; [|discriminate]. cbn [bind] in H.
    destruct (map_result f l) as [ys|]; [|discriminate]. cbn [bind] in H.
    injection H as <-. constructor; [exact E | now apply IH].
Qed.

(** The loop body, as the claim words it: a run that applies its
    transforms has called each one on the running dictionary, or on
    every element of the running list. *)
Lemma apply_transform_applied (t : transform) (dv dv' : value) :
  apply_transform t dv = Ok dv' -> applied t dv dv'.
Proof.
  destruct dv as [m|l]; cbn [apply_transform]; intros H.
  - now constructor.
  - destruct (map_result t l) as [l'|] eqn:E; [|discriminate].
    cbn [bind] in H. injection H as <-. constructor.
    now apply map_result_Forall2.
Qed.

Lemma apply_all_applied (eval_exp : string -> result transform) (exps : list string) :
  forall dv dv', apply_all eval_exp exps dv = Ok dv' ->
                 applied_in_order eval_exp exps dv dv'.
Proof.
  induction exps as [|e exps IH]; intros dv dv' H; cbn [apply_all] in H.
  - injection H as <-. constructor.
  - destruct (eval_exp e) as [t|] eqn:Et; [|discriminate]. cbn [bind] in H.
    destruct (apply_transform t dv) as [dv1|] eqn:Ea; [|discriminate].
    change (apply_all eval_exp exps dv1 = Ok dv') in H.
    exact (applied_next eval_exp e exps t dv dv1 dv' Et
             (apply_transform_applied _ _ _ Ea) (IH _ _ H)).
Qed.

(** ** [set_d] *)

Lemma set_d_Ok (self self' : MONAIViz.TransformCtx) (dv : value) (exp key : string) :
  MONAIViz.set_d self dv exp key = (Ok tt, self') ->
  MONAIViz.d self' = Some dv /\ MONAIViz.last_exp self' = exp /\
  MONAIViz.next_idx self' = MONAIViz.next_idx self /\
  MONAIViz.next_exp self' = MONAIViz.next_exp self /\
  MONAIViz.bidx self' = MONAIViz.bidx self.
Proof.
  unfold MONAIViz.set_d.
  destruct (MONAIViz.key_tensor_of self dv key) as [e|]; [|discriminate].
  destruct (shape_of e) as [sh|]; [|discriminate].
  destruct (MONAIViz.original_spatial_shape self).
  - intros [= <-]. repeat split; reflexivity.
  - destruct (affine_of e); [|discriminate].
    intros [= <-]. repeat split; reflexivity.
Qed.

Lemma set_d_Raised (self self' : MONAIViz.TransformCtx) (dv : value) (exp key : string) :
  MONAIViz.set_d self dv exp key = (Raised, self') ->
  MONAIViz.d self' = MONAIViz.d self /\
  MONAIViz.last_exp self' = MONAIViz.last_exp self /\
  MONAIViz.next_idx self' = MONAIViz.next_idx self /\
  MONAIViz.next_exp self' = MONAIViz.next_exp self /\
  MONAIViz.bidx self' = MONAIViz.bidx self.
Proof.
  unfold MONAIViz.set_d.
  destruct (MONAIViz.key_tensor_of self dv key) as [e|];
    [|intros [= <-]; repeat split; reflexivity].
  destruct (shape_of e) as [sh|]; [|intros [= <-]; repeat split; reflexivity].
  destruct (MONAIViz.original_spatial_shape self); [discriminate|].
  destruct (affine_of e); [discriminate|].
  intros [= <-]. repeat split; reflexivity.
Qed.

(** ** The loop of [onRunTransform] *)

Section Loop.

Variable eval_exp : string -> result transform.
Variable key : string.

Let run_rows := MONAIViz.run_rows eval_exp key.

Lemma active_exps_same (t1 t2 : list row) (rows : list Z) :
  same_pipeline t1 t2 -> active_exps t1 rows = active_exps t2 rows.
Proof.
  intros [_ H]. unfold active_exps. induction rows as [|r rows IH]; [reflexivity|].
  simpl. destruct (H r) as [-> E]. destruct (is_active t2 r); simpl; congruence.
Qed.

Lemma map_event_of_same (t1 t2 : list row) (rows : list Z) :
  same_pipeline t1 t2 -> map (event_of t1) rows = map (event_of t2) rows.
Proof. intros H. apply map_ext. intros r. now apply event_of_same. Qed.

(** A loop that returns has walked over every row in order, has applied
    the transforms of the active ones to the running value, and has
    stored the result of each of them with [set_d]. *)
Lemma run_rows_Ok (rows : list Z) :
  forall st st',
    run_rows rows st = (Ok tt, st') ->
    same_pipeline (MONAIViz.ls_table st') (MONAIViz.ls_table st) /\
    MONAIViz.ls_trace st' =
      (MONAIViz.ls_trace st ++ map (event_of (MONAIViz.ls_table st)) rows)%list /\
    apply_all eval_exp (active_exps (MONAIViz.ls_table st) rows) (MONAIViz.ls_d st) =
      Ok (MONAIViz.ls_d st') /\
    MONAIViz.next_idx (MONAIViz.ls_ctx st') = MONAIViz.next_idx (MONAIViz.ls_ctx st) /\
    MONAIViz.next_exp (MONAIViz.ls_ctx st') = MONAIViz.next_exp (MONAIViz.ls_ctx st) /\
    MONAIViz.bidx (MONAIViz.ls_ctx st') = MONAIViz.bidx (MONAIViz.ls_ctx st) /\
    (active_exps (MONAIViz.ls_table st) rows = [] ->
     MONAIViz.ls_ctx st' = MONAIViz.ls_ctx st) /\
    (active_exps (MONAIViz.ls_table st) rows <> [] ->
     MONAIViz.d (MONAIViz.ls_ctx st') = Some (MONAIViz.ls_d st') /\
     MONAIViz.last_exp (MONAIViz.ls_ctx st') =
       last (active_exps (MONAIViz.ls_table st) rows) "").
Proof.
  subst run_rows.
  induction rows as [|r rows IH]; intros st st' H; cbn [MONAIViz.run_rows] in H.
  - injection H as <-. cbn. rewrite app_nil_r.
    repeat split; try reflexivity; try apply same_pipeline_refl; congruence.
  - destruct (item (MONAIViz.ls_table st) r) as [x|] eqn:Hx; [|discriminate].
    assert (Ha : is_active (MONAIViz.ls_table st) r = active x)
      by (unfold is_active; now rewrite Hx).
    assert (He : expression_at (MONAIViz.ls_table st) r = MONAIViz.expression x)
      by (unfold expression_at; now rewrite Hx).
    assert (Hev : event_of (MONAIViz.ls_table st) r =
                  if active x then Run r (MONAIViz.expression x) else Skip r)
      by (unfold event_of; now rewrite Ha, He).
    unfold active_exps in *. cbn [filter map]. rewrite Ha, Hev.
    destruct (active x).
    + destruct (eval_exp (MONAIViz.expression x)) as [t|] eqn:Et;
        cbn [bind] in H; [|discriminate].
      destruct (apply_transform t (MONAIViz.ls_d st)) as [dv|] eqn:Edv; [|discriminate].
      destruct (MONAIViz.set_d (MONAIViz.ls_ctx st) dv (MONAIViz.expression x) key)
        as [[[]|] c] eqn:Es; [|discriminate].
      apply set_d_Ok in Es. destruct Es as (Sd & Sl & Sn & Se & Sb).
      apply IH in H. cbn [MONAIViz.ls_table MONAIViz.ls_trace MONAIViz.ls_d
                          MONAIViz.ls_ctx] in H.
      destruct H as (P & T & A & N & E & B & Z0 & NZ).
      pose proof (same_pipeline_setIcon Green r (MONAIViz.ls_table st)) as PS.
      fold (active_exps (setIcon Green r (MONAIViz.ls_table st)) rows) in *.
      rewrite (active_exps_same _ _ rows PS) in *.
      rewrite (map_event_of_same _ _ rows PS) in T.
      unfold active_exps in *.
      cbn [map apply_all]. rewrite <- He at 1. rewrite He, Et. cbn [bind].
      rewrite Edv. cbn [bind].
      split; [eapply same_pipeline_trans; eauto|].
      split; [rewrite T, <- app_assoc; reflexivity|].
      split; [assumption|].
      split; [congruence|]. split; [congruence|]. split; [congruence|].
      split; [discriminate|]. intros _.
      destruct (map (expression_at (MONAIViz.ls_table st))
                    (filter (is_active (MONAIViz.ls_table st)) rows)) as [|e es] eqn:Hes.
      * rewrite (Z0 eq_refl). cbn in A. injection A as <-. split; [assumption|].
        exact Sl.
      * destruct NZ as [D L]; [discriminate|]. split; [assumption|].
        rewrite L. reflexivity.
    + apply IH in H. cbn [MONAIViz.ls_table MONAIViz.ls_trace MONAIViz.ls_d
                          MONAIViz.ls_ctx] in H.
      destruct H as (P & T & A & N & E & B & Z0 & NZ).
      pose proof (same_pipeline_setIcon Yellow r (MONAIViz.ls_table st)) as PS.
      fold (active_exps (setIcon Yellow r (MONAIViz.ls_table st)) rows) in *.
      rewrite (active_exps_same _ _ rows PS) in *.
      rewrite (map_event_of_same _ _ rows PS) in T.
      unfold active_exps in *.
      split; [eapply same_pipeline_trans; eauto|].
      split; [rewrite T, <- app_assoc; reflexivity|].
      repeat split; try assumption; try apply NZ; assumption.
Qed.

End Loop.

Lemma executed_events (tbl : list row) (rows : list Z) :
  executed (map (event_of tbl) rows) = filter (is_active tbl) rows.
Proof.
  induction rows as [|r rows IH]; [reflexivity|].
  cbn [map filter]. unfold executed in *. cbn [flat_map]. unfold event_of at 1.
  destruct (is_active tbl r); cbn [app]; now rewrite IH.
Qed.

Lemma skipped_events (tbl : list row) (rows : list Z) :
  skipped (map (event_of tbl) rows) = filter (fun r => negb (is_active tbl r)) rows.
Proof.
  induction rows as [|r rows IH]; [reflexivity|].
  cbn [map filter]. unfold skipped in *. cbn [flat_map]. unfold event_of at 1.
  destruct (is_active tbl r); cbn [app negb]; now rewrite IH.
Qed.

Lemma set_next_frontier (self : MONAIViz.TransformCtx) (i : Z) (e : string) :
  MONAIViz.next_idx (MONAIViz.set_next self i e) = i /\
  MONAIViz.next_exp (MONAIViz.set_next self i e) = e /\
  MONAIViz.d (MONAIViz.set_next self i e) = MONAIViz.d self /\
  MONAIViz.last_exp (MONAIViz.set_next self i e) = MONAIViz.last_exp self.
Proof.
  unfold MONAIViz.set_next.
  destruct (Z.eqb_spec (MONAIViz.next_idx self) i);
    destruct (String.eqb_spec (MONAIViz.next_exp self) e);
    cbn; repeat split; congruence.
Qed.

Lemma expression_nonempty (x : row) : MONAIViz.expression x <> "".
Proof. unfold MONAIViz.expression. cbn. discriminate. Qed.

Lemma get_d_resume (self : MONAIViz.TransformCtx) (e : string) (fresh : value) :
  e <> "" ->
  exists dv,
    MONAIViz.get_d self (Some e) fresh =
      (Ok dv, if MONAIViz.valid_for_next self e then self else MONAIViz.init) /\
    (MONAIViz.last_exp self <> e ->
     MONAIViz.last_exp (if MONAIViz.valid_for_next self e then self else MONAIViz.init)
       <> e).
Proof.
  intros He. unfold MONAIViz.get_d, MONAIViz.reset.
  destruct (MONAIViz.valid_for_next self e).
  - destruct (MONAIViz.valid self).
    + destruct (MONAIViz.d self); eexists; split; try reflexivity; auto.
    + eexists; split; try reflexivity; auto.
  - cbn. eexists; split; try reflexivity. cbn. congruence.
Qed.

Lemma rowCount_set (w : MONAIViz.Widget) (tbl : list row) (c : MONAIViz.TransformCtx) :
  MONAIViz.rowCount (MONAIViz.set_ctx (MONAIViz.set_table w tbl) c) = len tbl.
Proof. reflexivity. Qed.

Lemma same_pipeline_expression_at (t1 t2 : list row) (r : Z) :
  same_pipeline t1 t2 -> expression_at t1 r = expression_at t2 r.
Proof. intros [_ H]. apply H. Qed.

Lemma get_exp_expression_at (tbl : list row) (r : Z) (e : string) :
  MONAIViz.get_exp tbl r = Ok e -> expression_at tbl r = e.
Proof.
  unfold MONAIViz.get_exp, expression_at. destruct (item tbl r); cbn; congruence.
Qed.

Section LoopFailure.

Variable eval_exp : string -> result transform.
Variable key : string.

Lemma apply_all_one (e : string) (dv : value) :
  apply_all eval_exp [e] dv = (t <- eval_exp e ;; apply_transform t dv).
Proof.
  cbn [apply_all]. destruct (eval_exp e) as [t|]; cbn [bind]; [|reflexivity].
  destruct (apply_transform t dv); reflexivity.
Qed.

Lemma apply_all_cons (e : string) (es : list string) (dv dv1 : value) :
  apply_all eval_exp [e] dv = Ok dv1 ->
  apply_all eval_exp (e :: es) dv = apply_all eval_exp es dv1.
Proof.
  rewrite apply_all_one. cbn [apply_all].
  destruct (eval_exp e) as [t|]; cbn [bind]; [|discriminate].
  intros ->. reflexivity.
Qed.

(** A loop that raises has not touched the frontier or the batch cursor;
    the cached data and last-applied expression are the ones it started
    with, or those of the last row that completed; and when the first
    active row is the one whose transform fails, the context is the one
    the loop started with. *)
Lemma run_rows_Raised (rows : list Z) :
  forall st st',
    MONAIViz.run_rows eval_exp key rows st = (Raised, st') ->
    let exps := active_exps (MONAIViz.ls_table st) rows in
    let c := MONAIViz.ls_ctx st in
    let c' := MONAIViz.ls_ctx st' in
    MONAIViz.next_idx c' = MONAIViz.next_idx c /\
    MONAIViz.next_exp c' = MONAIViz.next_exp c /\
    MONAIViz.bidx c' = MONAIViz.bidx c /\
    ((MONAIViz.d c' = MONAIViz.d c /\ MONAIViz.last_exp c' = MONAIViz.last_exp c) \/
     (exists n dv,
         (0 < n <= List.length exps)%nat /\
         apply_all eval_exp (firstn n exps) (MONAIViz.ls_d st) = Ok dv /\
         MONAIViz.d c' = Some dv /\
         MONAIViz.last_exp c' = last (firstn n exps) "")) /\
    (forall e1 rest,
        exps = e1 :: rest ->
        apply_all eval_exp [e1] (MONAIViz.ls_d st) = Raised ->
        c' = c).
Proof.
  induction rows as [|r rows IH]; intros st st' H; cbn [MONAIViz.run_rows] in H;
    [discriminate|].
  cbv zeta.
  destruct (item (MONAIViz.ls_table st) r) as [x|] eqn:Hx.
  2:{ injection H as <-. repeat split; auto. }
  assert (Ha : is_active (MONAIViz.ls_table st) r = active x)
    by (unfold is_active; now rewrite Hx).
  assert (He : expression_at (MONAIViz.ls_table st) r = MONAIViz.expression x)
    by (unfold expression_at; now rewrite Hx).
  unfold active_exps. cbn [filter]. rewrite Ha.
  destruct (active x).
  - cbn [map]. rewrite He. set (e := MONAIViz.expression x) in *.
    pose proof (apply_all_one e (MONAIViz.ls_d st)) as Hone.
    destruct (t <- eval_exp e ;; apply_transform t (MONAIViz.ls_d st))
      as [dv|] eqn:Edv.
    2:{ injection H as <-. cbn [MONAIViz.ls_ctx]. repeat split; auto. }
    destruct (MONAIViz.set_d (MONAIViz.ls_ctx st) dv e key) as [[[]|] c] eqn:Es.
    2:{ injection H as <-. cbn [MONAIViz.ls_ctx].
        apply set_d_Raised in Es. destruct Es as (S1 & S2 & S3 & S4 & S5).
        repeat split; auto. intros e1 rest [= <- _] Hr. congruence. }
    apply set_d_Ok in Es. destruct Es as (Sd & Sl & Sn & Se & Sb).
    apply IH in H. cbv zeta in H.
    cbn [MONAIViz.ls_table MONAIViz.ls_d MONAIViz.ls_ctx] in H.
    rewrite (active_exps_same _ _ rows
               (same_pipeline_setIcon Green r (MONAIViz.ls_table st))) in H.
    unfold active_exps in H.
    set (es := map (expression_at (MONAIViz.ls_table st))
                   (filter (is_active (MONAIViz.ls_table st)) rows)) in *.
    destruct H as (N & E & B & D & _).
    split; [congruence|]. split; [congruence|]. split; [congruence|].
    split.
    + right. destruct D as [[D1 D2] | (n & dv' & Hn & A & D1 & D2)].
      * exists 1%nat, dv. cbn [firstn List.length]. split; [lia|].
        split; [congruence|]. split; [congruence|].
        change (last [e] "") with e. congruence.
      * exists (S n), dv'. cbn [firstn List.length]. split; [lia|].
        split; [rewrite (apply_all_cons e _ _ dv); congruence|].
        split; [assumption|]. rewrite D2.
        destruct (firstn n es) as [|e' l] eqn:Ef; [|reflexivity].
        destruct n; [lia|]. destruct es; [cbn in Hn; lia | discriminate].
    + intros e1 rest [= <- _] Hr. congruence.
  - apply IH in H. cbv zeta in H.
    cbn [MONAIViz.ls_table MONAIViz.ls_d MONAIViz.ls_ctx] in H.
    rewrite (active_exps_same _ _ rows
               (same_pipeline_setIcon Yellow r (MONAIViz.ls_table st))) in H.
    exact H.
Qed.

End LoopFailure.

(** ** Running a row *)

Lemma get_d_resume' (self : MONAIViz.TransformCtx) (e : string) (fresh : value) :
  exists dv, MONAIViz.get_d self (Some e) fresh = (Ok dv, resume_ctx self e).
Proof.
  unfold MONAIViz.get_d, MONAIViz.reset, resume_ctx.
  destruct (MONAIViz.valid_for_next self e).
  - destruct (MONAIViz.valid self).
    + destruct (MONAIViz.d self); eexists; reflexivity.
    + eexists; reflexivity.
  - cbn. eexists; reflexivity.
Qed.

Lemma run_loop_same_pipeline (eval_exp : string -> result transform)
      (w : MONAIViz.Widget) (e : string) (dv0 : value) (st : MONAIViz.loop_state) :
  run_loop eval_exp w e dv0 = (Ok tt, st) ->
  same_pipeline (MONAIViz.ls_table st) (MONAIViz.transformTable w).
Proof.
  unfold run_loop. destruct (_ =? e)%string.
  - intros [= <-]. apply same_pipeline_refl.
  - intros H. apply run_rows_Ok in H. apply H.
Qed.

Section Run.

Variable eval_exp : string -> result transform.
Variable host_display : MONAIViz.TransformCtx -> bool.

Let run := MONAIViz.onRunTransform eval_exp host_display.

(** The stages of a run of row [k], one after the other. *)
Lemma onRun_cases (w : MONAIViz.Widget) (k : Z) (x : row) :
  truthy (MONAIViz.imagePath w) = true ->
  MONAIViz.currentRow w = k ->
  item (MONAIViz.transformTable w) k = Ok x ->
  let tbl := MONAIViz.transformTable w in
  let e := MONAIViz.expression x in
  match MONAIViz.prepare_dict w with
  | Raised => run w = MONAIViz.mkRun Raised w [] None
  | Ok fresh =>
      exists dv0,
        MONAIViz.get_d (MONAIViz.ctx w) (Some e) fresh =
          (Ok dv0, resume_ctx (MONAIViz.ctx w) e) /\
        match run_loop eval_exp w e dv0 with
        | (Raised, st) =>
            run w = MONAIViz.mkRun Raised
                      (MONAIViz.set_ctx (MONAIViz.set_table w (MONAIViz.ls_table st))
                                        (MONAIViz.ls_ctx st))
                      (MONAIViz.ls_trace st) None
        | (Ok _, st) =>
            exists w2,
              MONAIViz.ctx w2 = MONAIViz.ls_ctx st /\
              same_pipeline (MONAIViz.transformTable w2) tbl /\
              match MONAIViz.display host_display (MONAIViz.ls_ctx st) with
              | Raised => run w = MONAIViz.mkRun Raised w2 (MONAIViz.ls_trace st) None
              | Ok bi =>
                  let c' := MONAIViz.set_next (MONAIViz.ls_ctx st) (next_row tbl k)
                              (expression_at tbl (next_row tbl k)) in
                  run w = MONAIViz.mkRun (Ok tt)
                            (MONAIViz.set_clear_enabled (MONAIViz.set_ctx w2 c')
                                                        (MONAIViz.valid c'))
                            (MONAIViz.ls_trace st) (Some bi)
              end
        end
  end.
Proof.
  intros Himg Hk Hx tbl e. subst k. set (k := MONAIViz.currentRow w) in *.
  pose proof (item_Ok_range _ _ _ Hx) as Hrange.
  change (item tbl k = Ok x) in Hx. change (0 <= k < len tbl) in Hrange.
  subst run. unfold MONAIViz.onRunTransform. rewrite Himg. cbn [negb]. fold k.
  destruct (Z.ltb_spec k 0) as [|_]; [lia|].
  assert (Hge : MONAIViz.get_exp tbl k = Ok e)
    by (unfold MONAIViz.get_exp; rewrite Hx; reflexivity).
  fold tbl. rewrite Hge. cbn [bind].
  destruct (MONAIViz.prepare_dict w) as [fresh|] eqn:Hfresh; cbn [bind];
    [|reflexivity].
  destruct (get_d_resume' (MONAIViz.ctx w) e fresh) as (dv0 & Hget).
  exists dv0. split; [assumption|]. rewrite Hget.
  match goal with
  | |- context [if (?a =? e)%string then (Ok tt, ?s0) else ?b] =>
      change (if (a =? e)%string then (Ok tt, s0) else b)
        with (run_loop eval_exp w e dv0)
  end.
  destruct (run_loop eval_exp w e dv0) as [[[]|] st] eqn:Hloop; [|reflexivity].
  pose proof (run_loop_same_pipeline _ _ _ _ _ Hloop) as P. fold tbl in P.
  rewrite rowCount_set. destruct P as [PL PR].
  cbn [MONAIViz.transformTable MONAIViz.set_ctx MONAIViz.set_table].
  set (w1 := MONAIViz.set_ctx (MONAIViz.set_table w (MONAIViz.ls_table st))
                              (MONAIViz.ls_ctx st)).
  assert (E1 : (if negb (k + 1 <? len (MONAIViz.ls_table st)) then k else k + 1)
               = next_row tbl k).
  { unfold next_row. rewrite PL. destruct (k + 1 <? len tbl); reflexivity. }
  rewrite E1.
  assert (Hnr : 0 <= next_row tbl k < len tbl).
  { unfold next_row. destruct (Z.ltb_spec (k + 1) (len tbl)); lia. }
  destruct (item_in_table (MONAIViz.ls_table st) (next_row tbl k)) as [y Hy]; [lia|].
  assert (E2 : MONAIViz.get_exp (MONAIViz.ls_table st) (next_row tbl k)
               = Ok (expression_at tbl (next_row tbl k))).
  { unfold MONAIViz.get_exp. rewrite Hy. cbn [bind].
    destruct (PR (next_row tbl k)) as [_ <-]. unfold expression_at.
    now rewrite Hy. }
  rewrite E2.
  match goal with
  | |- context [MONAIViz.display host_display (MONAIViz.ctx ?w2)] =>
      exists w2; assert (Hc2 : MONAIViz.ctx w2 = MONAIViz.ls_ctx st)
  end.
  { destruct (negb (k + 1 <? len (MONAIViz.ls_table st))); [reflexivity|].
    cbn [MONAIViz.ctx MONAIViz.set_table]. unfold MONAIViz.selectRow.
    destruct ((0 <=? next_row tbl k) && (next_row tbl k <? MONAIViz.rowCount w1));
      reflexivity. }
  split; [assumption|]. split.
  { destruct (negb (k + 1 <? len (MONAIViz.ls_table st))).
    - split; assumption.
    - cbn [MONAIViz.transformTable MONAIViz.set_table].
      eapply same_pipeline_trans; [apply same_pipeline_fold_setIcon|].
      unfold MONAIViz.selectRow.
      destruct ((0 <=? next_row tbl k) && (next_row tbl k <? MONAIViz.rowCount w1));
        split; assumption. }
  rewrite Hc2.
  destruct (MONAIViz.display host_display (MONAIViz.ls_ctx st)); reflexivity.
Qed.

Lemma run_loop_frontier (w : MONAIViz.Widget) (e : string) (dv0 : value)
      (res : result unit) (st : MONAIViz.loop_state) :
  run_loop eval_exp w e dv0 = (res, st) ->
  MONAIViz.next_idx (MONAIViz.ls_ctx st) =
  MONAIViz.next_idx (resume_ctx (MONAIViz.ctx w) e).
Proof.
  unfold run_loop. destruct (_ =? e)%string.
  - intros [= _ <-]. reflexivity.
  - destruct res as [[]|]; intros H.
    + apply run_rows_Ok in H. apply H.
    + apply run_rows_Raised in H. apply H.
Qed.

(** Every run leaves a frontier that is a row index: the hypothesis
    [0 <= next_idx] of the statements below holds of every context the
    widget can reach from the initial one. *)
Lemma run_frontier_nonneg (w : MONAIViz.Widget) :
  0 <= MONAIViz.next_idx (MONAIViz.ctx w) ->
  0 <= MONAIViz.next_idx (MONAIViz.ctx (MONAIViz.after (run w))).
Proof.
  intros Hn.
  destruct (truthy (MONAIViz.imagePath w)) eqn:Himg.
  2:{ subst run. unfold MONAIViz.onRunTransform. rewrite Himg. exact Hn. }
  destruct (Z.ltb_spec (MONAIViz.currentRow w) 0) as [Hneg|Hpos].
  { subst run. unfold MONAIViz.onRunTransform. rewrite Himg. cbn [negb].
    destruct (Z.ltb_spec (MONAIViz.currentRow w) 0); [exact Hn | lia]. }
  destruct (item (MONAIViz.transformTable w) (MONAIViz.currentRow w)) as [x|] eqn:Hx.
  2:{ subst run. unfold MONAIViz.onRunTransform, MONAIViz.get_exp.
      rewrite Himg, Hx. cbn [negb bind].
      destruct (Z.ltb_spec (MONAIViz.currentRow w) 0); exact Hn. }
  pose proof (onRun_cases w _ x Himg eq_refl Hx) as Hc. cbv zeta in Hc.
  destruct (MONAIViz.prepare_dict w); [|rewrite Hc; exact Hn].
  destruct Hc as (dv0 & _ & Hc).
  assert (Hres : 0 <= MONAIViz.next_idx
                        (resume_ctx (MONAIViz.ctx w) (MONAIViz.expression x))).
  { unfold resume_ctx. destruct (MONAIViz.valid_for_next _ _); [exact Hn | cbn; lia]. }
  destruct (run_loop eval_exp w (MONAIViz.expression x) dv0) as [[[]|] st] eqn:Hloop;
    apply run_loop_frontier in Hloop.
  - destruct Hc as (w2 & Hw2 & _ & Hc).
    destruct (MONAIViz.display host_display (MONAIViz.ls_ctx st)).
    + cbv zeta in Hc. rewrite Hc.
      cbn [MONAIViz.after MONAIViz.ctx MONAIViz.set_clear_enabled MONAIViz.set_ctx].
      destruct (set_next_frontier (MONAIViz.ls_ctx st)
                  (next_row (MONAIViz.transformTable w) (MONAIViz.currentRow w))
                  (expression_at (MONAIViz.transformTable w)
                     (next_row (MONAIViz.transformTable w) (MONAIViz.currentRow w))))
        as (S1 & _).
      rewrite S1. unfold next_row.
      destruct (_ <? _); lia.
    + rewrite Hc. cbn [MONAIViz.after]. rewrite Hw2, Hloop. exact Hres.
  - rewrite Hc. cbn [MONAIViz.after MONAIViz.ctx MONAIViz.set_ctx].
    rewrite Hloop. exact Hres.
Qed.

Lemma run_loop_differs (w : MONAIViz.Widget) (e : string) (dv0 : value) :
  e <> "" ->
  MONAIViz.last_exp (MONAIViz.ctx w) <> e ->
  run_loop eval_exp w e dv0 =
  MONAIViz.run_rows eval_exp
    (settingsValue (MONAIViz.settings w) "MONAIViz/imageKey" "image")
    (range (frontier (MONAIViz.ctx w) e) (MONAIViz.currentRow w + 1))
    (MONAIViz.mkLoop dv0 (resume_ctx (MONAIViz.ctx w) e) (MONAIViz.transformTable w) []).
Proof.
  intros He Hl. unfold run_loop, frontier, resume_ctx.
  destruct (MONAIViz.valid_for_next (MONAIViz.ctx w) e).
  - destruct (String.eqb_spec (MONAIViz.last_exp (MONAIViz.ctx w)) e);
      [contradiction | reflexivity].
  - cbn [MONAIViz.last_exp MONAIViz.init MONAIViz.next_idx].
    destruct (String.eqb_spec "" e); [congruence | reflexivity].
Qed.

(** C1 (as amended).  Let row [k] be selected, with an expression
    different from the last-applied one of the cache, and let the run
    return.  Then the run has walked over the rows from the cache frontier
    (the stored frontier when row [k]'s expression is the expected next
    one, row 0 after the reset of [get_d] otherwise) through [k] in
    ascending order, has evaluated exactly the active ones and passed
    over the inactive ones, has applied the transforms one after the
    other to the running value (each called on the running dictionary,
    or on every element when the running value is a list) and cached the
    result, and has left the frontier at [k+1] with that row's expression
    as the expected next one, or at [k] when [k] is the last row. *)
Theorem C1_run_executes_active_rows_from_frontier :
  forall (w : MONAIViz.Widget) (k : Z) (x : row),
    truthy (MONAIViz.imagePath w) = true ->
    MONAIViz.currentRow w = k ->
    item (MONAIViz.transformTable w) k = Ok x ->
    MONAIViz.last_exp (MONAIViz.ctx w) <> MONAIViz.expression x ->
    MONAIViz.outcome (run w) = Ok tt ->
    let tbl := MONAIViz.transformTable w in
    let f := frontier (MONAIViz.ctx w) (MONAIViz.expression x) in
    let rows := range f (k + 1) in
    let c' := MONAIViz.ctx (MONAIViz.after (run w)) in
    MONAIViz.trace (run w) = map (event_of tbl) rows /\
    executed (MONAIViz.trace (run w)) = filter (is_active tbl) rows /\
    skipped (MONAIViz.trace (run w)) = filter (fun r => negb (is_active tbl r)) rows /\
    (exists fresh dv0 c1 dv,
        MONAIViz.prepare_dict w = Ok fresh /\
        MONAIViz.get_d (MONAIViz.ctx w) (Some (MONAIViz.expression x)) fresh =
          (Ok dv0, c1) /\
        applied_in_order eval_exp (active_exps tbl rows) dv0 dv /\
        (active_exps tbl rows <> [] ->
         MONAIViz.d c' = Some dv /\
         MONAIViz.last_exp c' = last (active_exps tbl rows) "")) /\
    (k + 1 < MONAIViz.rowCount w ->
     MONAIViz.next_idx c' = k + 1 /\
     MONAIViz.next_exp c' = expression_at tbl (k + 1)) /\
    (MONAIViz.rowCount w <= k + 1 ->
     MONAIViz.next_idx c' = k /\ MONAIViz.next_exp c' = MONAIViz.expression x).
Proof.
  intros w k x Himg Hk Hx Hlast Hout tbl f rows c'.
  pose proof (onRun_cases w k x Himg Hk Hx) as Hc. cbv zeta in Hc.
  destruct (MONAIViz.prepare_dict w) as [fresh|] eqn:Hfresh;
    [|rewrite Hc in Hout; discriminate].
  destruct Hc as (dv0 & Hget & Hc).
  rewrite (run_loop_differs w (MONAIViz.expression x) dv0
             (expression_nonempty x) Hlast) in Hc.
  rewrite Hk in Hc. fold f rows in Hc.
  destruct (MONAIViz.run_rows eval_exp _ rows _) as [[[]|] st] eqn:Hloop;
    [|rewrite Hc in Hout; discriminate].
  destruct Hc as (w2 & Hw2 & _ & Hc).
  destruct (MONAIViz.display host_display (MONAIViz.ls_ctx st)) as [bi|];
    [|rewrite Hc in Hout; discriminate].
  cbv zeta in Hc. subst c'. rewrite Hc.
  cbn [MONAIViz.trace MONAIViz.after MONAIViz.ctx MONAIViz.set_clear_enabled
       MONAIViz.set_ctx].
  apply run_rows_Ok in Hloop.
  cbn [MONAIViz.ls_table MONAIViz.ls_trace MONAIViz.ls_d MONAIViz.ls_ctx] in Hloop.
  fold tbl in Hloop. destruct Hloop as (P & T & A & N & E & B & Z0 & NZ).
  rewrite app_nil_l in T. rewrite T, executed_events, skipped_events.
  split; [reflexivity|]. split; [reflexivity|]. split; [reflexivity|].
  fold tbl.
  destruct (set_next_frontier (MONAIViz.ls_ctx st) (next_row tbl k)
              (expression_at tbl (next_row tbl k))) as (S1 & S2 & S3 & S4).
  rewrite S1, S2, S3, S4.
  split.
  - exists fresh, dv0, (resume_ctx (MONAIViz.ctx w) (MONAIViz.expression x)),
      (MONAIViz.ls_d st).
    split; [reflexivity|]. split; [exact Hget|].
    split; [now apply apply_all_applied|]. exact NZ.
  - unfold next_row. change (MONAIViz.rowCount w) with (len tbl).
    destruct (Z.ltb_spec (k + 1) (len tbl)); split; intros; try lia.
    + split; reflexivity.
    + split; [reflexivity|]. unfold expression_at. subst tbl. now rewrite Hx.
Qed.

End Run.

Lemma C1_witness :
  let r := MONAIViz.onRunTransform sample_eval sample_host
             (sample_widget sample_table 2 MONAIViz.init) in
  MONAIViz.outcome r = Ok tt /\
  MONAIViz.trace r =
    [Run 0 "monai.transforms.LoadImaged(keys=['image'])"; Skip 1;
     Run 2 "monai.transforms.RandCropByPosNegLabeld(keys=['image'])"] /\
  executed (MONAIViz.trace r) = [0; 2] /\
  MONAIViz.next_idx (MONAIViz.ctx (MONAIViz.after r)) = 3 /\
  MONAIViz.next_exp (MONAIViz.ctx (MONAIViz.after r)) =
    "monai.transforms.Zoomd(keys=['image'], zoom=2)".
Proof.
  cbv zeta.
  destruct (C1_run_executes_active_rows_from_frontier sample_eval sample_host
              (sample_widget sample_table 2 MONAIViz.init) 2
              (mkRow true Yellow "RandCropByPosNegLabeld" "keys=['image']"))
    as (T & Ex & _ & _ & Nx & _);
    [reflexivity | reflexivity | reflexivity | discriminate | reflexivity |].
  split; [reflexivity|]. split; [rewrite T; reflexivity|].
  split; [rewrite Ex; reflexivity|].
  destruct Nx as [N1 N2]; [reflexivity|]. split; [exact N1 | rewrite N2; reflexivity].
Defined.

(** C1, as stated, fails when no row of the range is active and the
    cache is empty: no transform raises, the run passes over the rows,
    finds no data to display and raises in [get_tensor], before
    [set_next]; the frontier stays at row 0 instead of moving to row 1. *)
Lemma C1_counterexample :
  let tbl := [ mkRow false Yellow "LoadImaged" "keys=['image']";
               mkRow true Yellow "Flipd" "keys=['image']" ] in
  let w := sample_widget tbl 0 MONAIViz.init in
  let r := MONAIViz.onRunTransform sample_eval sample_host w in
  MONAIViz.last_exp (MONAIViz.ctx w) <>
    "monai.transforms.LoadImaged(keys=['image'])" /\
  MONAIViz.trace r = [Skip 0] /\
  MONAIViz.outcome r = Raised /\
  MONAIViz.next_idx (MONAIViz.ctx (MONAIViz.after r)) = 0 /\
  MONAIViz.next_exp (MONAIViz.ctx (MONAIViz.after r)) = "".
Proof.
  cbv zeta. split; [discriminate|]. repeat split.
Qed.

Section Repeat.

Variable eval_exp : string -> result transform.
Variable host_display : MONAIViz.TransformCtx -> bool.

Let run := MONAIViz.onRunTransform eval_exp host_display.

Lemma run_loop_repeat (w : MONAIViz.Widget) (e : string) (dv0 : value) :
  e <> "" ->
  MONAIViz.next_exp (MONAIViz.ctx w) = e ->
  MONAIViz.last_exp (MONAIViz.ctx w) = e ->
  resume_ctx (MONAIViz.ctx w) e = MONAIViz.ctx w /\
  run_loop eval_exp w e dv0 =
    (Ok tt, MONAIViz.mkLoop dv0 (MONAIViz.ctx w) (MONAIViz.transformTable w) []).
Proof.
  intros He Hn Hl.
  assert (R : resume_ctx (MONAIViz.ctx w) e = MONAIViz.ctx w).
  { unfold resume_ctx.
    replace (MONAIViz.valid_for_next (MONAIViz.ctx w) e) with true; [reflexivity|].
    symmetry. apply valid_for_next_true_iff. auto. }
  split; [assumption|]. unfold run_loop. rewrite R, Hl, String.eqb_refl. reflexivity.
Qed.

(** C2 (as amended).  Let the cache stand at row [k] with a list-valued
    result: its frontier is [k], its expected-next and last-applied
    expressions are both the expression of row [k].  When [k] is the last
    row of the table and the run of row [k] returns, no transform has been
    evaluated, the cached data is untouched, and the batch cursor has gone
    from [i] to [i+1], so that the batch index selected from the cache is
    now [(i+1) mod len(data)]; the viewer was handed element [i mod len(data)]
    during this run. *)
Theorem C2_repeat_on_last_row_advances_cursor :
  forall (w : MONAIViz.Widget) (k : Z) (x : row) (data : list value),
    truthy (MONAIViz.imagePath w) = true ->
    MONAIViz.currentRow w = k ->
    item (MONAIViz.transformTable w) k = Ok x ->
    MONAIViz.next_idx (MONAIViz.ctx w) = k ->
    MONAIViz.next_exp (MONAIViz.ctx w) = MONAIViz.expression x ->
    MONAIViz.last_exp (MONAIViz.ctx w) = MONAIViz.expression x ->
    MONAIViz.d (MONAIViz.ctx w) = Some (VList data) ->
    MONAIViz.rowCount w <= k + 1 ->
    MONAIViz.outcome (run w) = Ok tt ->
    let i := MONAIViz.bidx (MONAIViz.ctx w) in
    let c' := MONAIViz.ctx (MONAIViz.after (run w)) in
    MONAIViz.trace (run w) = [] /\
    MONAIViz.d c' = Some (VList data) /\
    MONAIViz.bidx c' = i + 1 /\
    displayed_index c' = Ok ((i + 1) mod len data) /\
    MONAIViz.shown (run w) = Some (i mod len data) /\
    MONAIViz.next_idx c' = k /\
    MONAIViz.next_exp c' = MONAIViz.expression x.
Proof.
  intros w k x data Himg Hk Hx Hn He Hl Hd Hlast Hout i c'.
  pose proof (onRun_cases eval_exp host_display w k x Himg Hk Hx) as Hc.
  cbv zeta in Hc. fold run in Hc.
  destruct (MONAIViz.prepare_dict w) as [fresh|];
    [|rewrite Hc in Hout; discriminate].
  destruct Hc as (dv0 & _ & Hc).
  destruct (run_loop_repeat w (MONAIViz.expression x) dv0
              (expression_nonempty x) He Hl) as [_ Hloop].
  rewrite Hloop in Hc. cbn [MONAIViz.ls_ctx MONAIViz.ls_trace] in Hc.
  destruct Hc as (w2 & Hw2 & _ & Hc).
  destruct (MONAIViz.display host_display (MONAIViz.ctx w)) as [bi|] eqn:Hdisp;
    [|rewrite Hc in Hout; discriminate].
  cbv zeta in Hc. subst c'. rewrite Hc.
  cbn [MONAIViz.trace MONAIViz.after MONAIViz.ctx MONAIViz.set_clear_enabled
       MONAIViz.set_ctx MONAIViz.shown].
  pose proof (item_Ok_range _ _ _ Hx) as Hrange.
  assert (Hnr : next_row (MONAIViz.transformTable w) k = k).
  { unfold next_row. unfold MONAIViz.rowCount in Hlast.
    destruct (Z.ltb_spec (k + 1) (len (MONAIViz.transformTable w))); [lia | reflexivity]. }
  assert (Hex : expression_at (MONAIViz.transformTable w) k = MONAIViz.expression x)
    by (unfold expression_at; now rewrite Hx).
  rewrite Hnr, Hex.
  unfold MONAIViz.display, MONAIViz.batch_index in Hdisp. rewrite Hd in Hdisp.
  destruct (Z.eqb_spec (len data) 0) as [E0|E0]; [discriminate|].
  cbn [bind] in Hdisp.
  match type of Hdisp with
  | context [MONAIViz.batch_item ?a ?b] =>
      destruct (MONAIViz.batch_item a b) as [[[m|l]|]|]
  end; cbn [bind] in Hdisp; try discriminate.
  destruct (host_display (MONAIViz.ctx w)); [|discriminate].
  injection Hdisp as <-.
  unfold MONAIViz.set_next. rewrite Hn, He, Z.eqb_refl, String.eqb_refl.
  cbn [andb MONAIViz.d MONAIViz.bidx MONAIViz.next_idx MONAIViz.next_exp].
  unfold displayed_index, MONAIViz.batch_index.
  cbn [MONAIViz.d MONAIViz.bidx]. rewrite Hd.
  destruct (Z.eqb_spec (len data) 0); [contradiction|].
  repeat split; reflexivity.
Qed.

End Repeat.

Lemma C2_witness :
  let e := "monai.transforms.Zoomd(keys=['image'], zoom=2)" in
  let r := MONAIViz.onRunTransform sample_eval sample_host
             (sample_widget sample_table 3 (sample_cached 3 e)) in
  MONAIViz.outcome r = Ok tt /\
  MONAIViz.trace r = [] /\
  MONAIViz.bidx (MONAIViz.ctx (MONAIViz.after r)) = 1 /\
  displayed_index (MONAIViz.ctx (MONAIViz.after r)) = Ok 1 /\
  MONAIViz.shown r = Some 0.
Proof.
  cbv zeta.
  destruct (C2_repeat_on_last_row_advances_cursor sample_eval sample_host
              (sample_widget sample_table 3
                 (sample_cached 3 "monai.transforms.Zoomd(keys=['image'], zoom=2)"))
              3 (mkRow true Yellow "Zoomd" "keys=['image'], zoom=2") sample_batch)
    as (T & _ & B & D & S & _);
    [reflexivity | reflexivity | reflexivity | reflexivity | reflexivity
    | reflexivity | reflexivity | discriminate | reflexivity |].
  split; [reflexivity|]. split; [exact T|]. split; [exact B|].
  split; [rewrite D; reflexivity | rewrite S; reflexivity].
Defined.

(** C2, as stated, fails when the re-run row is not the last one: the
    cache stands at row 2 of four rows with a batch of two, row 2 is run
    again, nothing is evaluated, and the frontier moves to row 3 while
    the batch cursor and the selected batch index stay at 0. *)
Lemma C2_counterexample :
  let e := "monai.transforms.RandCropByPosNegLabeld(keys=['image'])" in
  let w := sample_widget sample_table 2 (sample_cached 2 e) in
  let r := MONAIViz.onRunTransform sample_eval sample_host w in
  MONAIViz.next_idx (MONAIViz.ctx w) = 2 /\
  MONAIViz.next_exp (MONAIViz.ctx w) = expression_at sample_table 2 /\
  MONAIViz.last_exp (MONAIViz.ctx w) = expression_at sample_table 2 /\
  MONAIViz.d (MONAIViz.ctx w) = Some (VList sample_batch) /\
  MONAIViz.outcome r = Ok tt /\
  executed (MONAIViz.trace r) = [] /\
  MONAIViz.bidx (MONAIViz.ctx (MONAIViz.after r)) = MONAIViz.bidx (MONAIViz.ctx w) /\
  displayed_index (MONAIViz.ctx (MONAIViz.after r)) <>
    Ok ((MONAIViz.bidx (MONAIViz.ctx w) + 1) mod len sample_batch).
Proof.
  cbv zeta. repeat split; try reflexivity. discriminate.
Qed.

Section Failure.

Variable eval_exp : string -> result transform.
Variable host_display : MONAIViz.TransformCtx -> bool.

Let run := MONAIViz.onRunTransform eval_exp host_display.


End Failure.



Lemma executed_all_run (f : Z -> string) (l : list Z) :
  executed (map (fun r => Run r (f r)) l) = l.
Proof.
  induction l as [|r l IH]; [reflexivity|].
  cbn [map]. unfold executed in *. cbn [flat_map app]. now rewrite IH.
Qed.

Section OldRun.

Variable eval_exp : string -> result transform.
Variable host_display : SlicerMONAIViz.TransformCtx -> bool.

Let run := SlicerMONAIViz.onRunTransform eval_exp host_display.

Lemma old_run_rows_Ok (keys : list string) (rows : list Z) :
  forall st st',
    SlicerMONAIViz.run_rows eval_exp keys rows st = (Ok tt, st') ->
    same_pipeline (SlicerMONAIViz.ls_table st') (SlicerMONAIViz.ls_table st) /\
    SlicerMONAIViz.ls_trace st' =
      (SlicerMONAIViz.ls_trace st ++
       map (fun r => Run r (expression_at (SlicerMONAIViz.ls_table st) r)) rows)%list.
Proof.
  induction rows as [|r rows IH]; intros st st' H; cbn [SlicerMONAIViz.run_rows] in H.
  - injection H as <-. rewrite app_nil_r. split; [apply same_pipeline_refl | reflexivity].
  - destruct (item (SlicerMONAIViz.ls_table st) r) as [x|] eqn:Hx; [|discriminate].
    destruct (t <- eval_exp _ ;; t (SlicerMONAIViz.ls_d st)) as [dv|]; [|discriminate].
    destruct (SlicerMONAIViz.set_d _ _ _ _) as [[[]|] c]; [|discriminate].
    apply IH in H.
    cbn [SlicerMONAIViz.ls_table SlicerMONAIViz.ls_trace] in H.
    destruct H as [P T].
    pose proof (same_pipeline_setIcon Green r (SlicerMONAIViz.ls_table st)) as PS.
    split; [eapply same_pipeline_trans; eauto|].
    rewrite T, <- app_assoc. f_equal.
    rewrite (map_ext
               (fun r0 => Run r0 (expression_at (setIcon Green r (SlicerMONAIViz.ls_table st)) r0))
               (fun r0 => Run r0 (expression_at (SlicerMONAIViz.ls_table st) r0)))
      by (intros r'; f_equal; apply (proj2 PS)).
    cbn [map]. unfold expression_at at 2. rewrite Hx. reflexivity.
Qed.

(** In the older variant too, a run that starts from the empty cache and
    returns has evaluated the rows from row 0. *)
Lemma old_run_from_empty_cache (w : SlicerMONAIViz.Widget) (k : Z) (x : row) :
  SlicerMONAIViz.currentRow w = k ->
  item (SlicerMONAIViz.transformTable w) k = Ok x ->
  target x <> "" ->
  SlicerMONAIViz.ctx w = SlicerMONAIViz.init ->
  SlicerMONAIViz.outcome (run w) = Ok tt ->
  executed (SlicerMONAIViz.trace (run w)) = range 0 (k + 1).
Proof.
  intros Hk Hx Hname Hinit. subst run.
  unfold SlicerMONAIViz.onRunTransform. rewrite Hk.
  pose proof (item_Ok_range _ _ _ Hx) as Hrange.
  destruct (Z.ltb_spec k 0); [lia|].
  destruct (SlicerMONAIViz.textEdit w) as [additional|]; cbn [bind];
    [|discriminate].
  rewrite Hx. cbn [bind]. rewrite Hinit.
  assert (Hg : forall fresh,
             SlicerMONAIViz.get_d SlicerMONAIViz.init (Some (target x)) fresh =
             (fresh, SlicerMONAIViz.init)).
  { intros fresh. unfold SlicerMONAIViz.get_d, SlicerMONAIViz.valid_for_next.
    cbn [SlicerMONAIViz.init SlicerMONAIViz.next_tname truthy String.eqb negb].
    rewrite andb_false_r. reflexivity. }
  rewrite Hg. cbv beta iota.
  cbn [SlicerMONAIViz.last_tname SlicerMONAIViz.init SlicerMONAIViz.next_t].
  destruct (String.eqb_spec "" (target x)); [congruence|].
  match goal with
  | |- context [SlicerMONAIViz.run_rows eval_exp ?a ?b ?c] =>
      destruct (SlicerMONAIViz.run_rows eval_exp a b c) as [[[]|] st] eqn:Hloop
  end; [|discriminate].
  apply old_run_rows_Ok in Hloop. destruct Hloop as [_ T].
  match goal with
  | |- context [match item ?t ?i with Ok _ => _ | Raised => _ end] =>
      destruct (item t i) as [nx|]
  end; [|discriminate].
  match goal with
  | |- context [SlicerMONAIViz.display ?h ?c ?a ?b] =>
      destruct (SlicerMONAIViz.display h c a b)
  end; [|discriminate].
  intros _. cbn [SlicerMONAIViz.trace]. rewrite T, app_nil_l.
  apply executed_all_run.
Qed.

End OldRun.

Section Edit.

Variable eval_exp : string -> result transform.
Variable host_display : MONAIViz.TransformCtx -> bool.
Variable Args : Type.
Variable args_to_expression : Args -> string.

Variable old_host_display : SlicerMONAIViz.TransformCtx -> bool.

Let run := MONAIViz.onRunTransform eval_exp host_display.
Let edit := MONAIViz.onEditTransform Args args_to_expression.
Let old_run := SlicerMONAIViz.onRunTransform eval_exp old_host_display.
Let old_edit := SlicerMONAIViz.onEditTransform Args args_to_expression.

(** A run that starts from the empty cache and returns has walked over
    the rows from row 0. *)
Lemma run_from_empty_cache (w : MONAIViz.Widget) (k : Z) (x : row) :
  truthy (MONAIViz.imagePath w) = true ->
  MONAIViz.currentRow w = k ->
  item (MONAIViz.transformTable w) k = Ok x ->
  MONAIViz.ctx w = MONAIViz.init ->
  MONAIViz.outcome (run w) = Ok tt ->
  MONAIViz.trace (run w) = map (event_of (MONAIViz.transformTable w)) (range 0 (k + 1)).
Proof.
  intros Himg Hk Hx Hinit Hout.
  pose proof (onRun_cases eval_exp host_display w k x Himg Hk Hx) as Hc.
  cbv zeta in Hc. fold run in Hc.
  destruct (MONAIViz.prepare_dict w) as [fresh|];
    [|rewrite Hc in Hout; discriminate].
  destruct Hc as (dv0 & _ & Hc).
  assert (Hlast : MONAIViz.last_exp (MONAIViz.ctx w) <> MONAIViz.expression x).
  { rewrite Hinit. cbn. intros H. symmetry in H. now apply expression_nonempty in H. }
  rewrite (run_loop_differs eval_exp w _ dv0 (expression_nonempty x) Hlast) in Hc.
  assert (Hf : frontier (MONAIViz.ctx w) (MONAIViz.expression x) = 0).
  { rewrite Hinit. unfold frontier. destruct (MONAIViz.valid_for_next _ _); reflexivity. }
  rewrite Hf, Hk in Hc.
  destruct (MONAIViz.run_rows eval_exp _ _ _) as [[[]|] st] eqn:Hloop;
    [|rewrite Hc in Hout; discriminate].
  destruct Hc as (w2 & _ & _ & Hc).
  destruct (MONAIViz.display host_display (MONAIViz.ls_ctx st));
    [|rewrite Hc in Hout; discriminate].
  rewrite Hc. cbn [MONAIViz.trace].
  apply run_rows_Ok in Hloop. destruct Hloop as (_ & T & _). exact T.
Qed.

Lemma item_setArgs (s : string) (r' r : Z) (tbl : list row) :
  item (setArgs s r' tbl) r =
  match item tbl r with
  | Ok x => Ok (if r =? r' then mkRow (active x) (status x) (target x) s else x)
  | Raised => Raised
  end.
Proof.
  unfold item, setArgs, list_getitem.
  destruct (Z.ltb_spec r 0) as [Hr|Hr]; [reflexivity|].
  destruct (Z.ltb_spec r' 0) as [Hr'|Hr'].
  - destruct (nth_error tbl (Z.to_nat r)); [|reflexivity].
    destruct (Z.eqb_spec r r'); [lia | reflexivity].
  - rewrite nth_error_update_at.
    destruct (Nat.eqb_spec (Z.to_nat r') (Z.to_nat r)) as [E|E];
      destruct (Z.eqb_spec r r') as [E'|E']; try lia;
      destruct (nth_error tbl (Z.to_nat r)); reflexivity.
Qed.

Lemma item_all_yellow (rs : list Z) (tbl : list row) (r : Z) (x : row) :
  item tbl r = Ok x ->
  exists i, item (fold_left (fun t r => setIcon Yellow r t) rs tbl) r =
            Ok (mkRow (active x) i (target x) (args x)).
Proof.
  revert tbl x. induction rs as [|r' rs IH]; intros tbl x Hx; cbn [fold_left].
  - exists (status x). rewrite Hx. now destruct x.
  - pose proof (item_setIcon Yellow r' r tbl) as H. rewrite Hx in H.
    destruct (r =? r').
    + destruct (IH _ _ H) as [i Hi]. exists i. exact Hi.
    + apply (IH _ _ H).
Qed.

(** C4.  In both variants of the widget: when the arguments of row [j]
    are changed in the editor and [j] precedes the frontier of the cache,
    the context is back to its initial (empty) state, the row carries the
    new arguments, and the next run that returns, of whichever row [k],
    starts from row 0 and evaluates every active row up to [k] (every
    row, in the older variant, whose table has no "Active" column). *)
Theorem C4_edit_before_frontier_invalidates_cache :
  forall (w : MONAIViz.Widget) (ow : SlicerMONAIViz.Widget)
         (row0 j : Z) (x ox : row) (a : Args),
    (if row0 <? 0 then MONAIViz.currentRow w else row0) = j ->
    item (MONAIViz.transformTable w) j = Ok x ->
    j < MONAIViz.next_idx (MONAIViz.ctx w) ->
    args_to_expression a <> args x ->
    (if row0 <? 0 then SlicerMONAIViz.currentRow ow else row0) = j ->
    item (SlicerMONAIViz.transformTable ow) j = Ok ox ->
    j < SlicerMONAIViz.next_t (SlicerMONAIViz.ctx ow) ->
    args_to_expression a <> args ox ->
    let w' := snd (edit w row0 (Ok (Some a))) in
    let ow' := snd (old_edit ow row0 (Ok (Some a))) in
    (fst (edit w row0 (Ok (Some a))) = Ok tt /\
     MONAIViz.ctx w' = MONAIViz.init /\
     (exists i, item (MONAIViz.transformTable w') j =
                Ok (mkRow (active x) i (target x) (args_to_expression a))) /\
     (forall k y,
         truthy (MONAIViz.imagePath w) = true ->
         item (MONAIViz.transformTable w') k = Ok y ->
         MONAIViz.outcome (run (MONAIViz.set_current w' k)) = Ok tt ->
         executed (MONAIViz.trace (run (MONAIViz.set_current w' k))) =
           filter (is_active (MONAIViz.transformTable w')) (range 0 (k + 1)))) /\
    (fst (old_edit ow row0 (Ok (Some a))) = Ok tt /\
     SlicerMONAIViz.ctx ow' = SlicerMONAIViz.init /\
     (exists i, item (SlicerMONAIViz.transformTable ow') j =
                Ok (mkRow (active ox) i (target ox) (args_to_expression a))) /\
     (forall k y,
         item (SlicerMONAIViz.transformTable ow') k = Ok y ->
         target y <> "" ->
         SlicerMONAIViz.outcome (old_run (SlicerMONAIViz.set_current ow' k)) = Ok tt ->
         executed (SlicerMONAIViz.trace (old_run (SlicerMONAIViz.set_current ow' k))) =
           range 0 (k + 1))).
Proof.
  intros w ow row0 j x ox a Hj Hx Hlt Hne Hoj Hox Holt Hone w' ow'.
  pose proof (item_Ok_range _ _ _ Hx) as Hrange.
  pose proof (item_Ok_range _ _ _ Hox) as Horange.
  assert (He : edit w row0 (Ok (Some a)) =
               (Ok tt, MONAIViz.set_table (MONAIViz.onClearTransform w)
                         (setArgs (args_to_expression a) j
                            (MONAIViz.transformTable (MONAIViz.onClearTransform w))))).
  { subst edit. unfold MONAIViz.onEditTransform. rewrite Hj.
    destruct (Z.ltb_spec j 0); [lia|]. rewrite Hx.
    destruct (String.eqb_spec (args x) (args_to_expression a)); [congruence|].
    destruct (Z.ltb_spec j (MONAIViz.next_idx (MONAIViz.ctx w))); [|lia].
    reflexivity. }
  assert (Hoe : old_edit ow row0 (Ok (Some a)) =
               (Ok tt, SlicerMONAIViz.set_table (SlicerMONAIViz.onClearTransform ow)
                         (setArgs (args_to_expression a) j
                            (SlicerMONAIViz.transformTable
                               (SlicerMONAIViz.onClearTransform ow))))).
  { subst old_edit. unfold SlicerMONAIViz.onEditTransform. rewrite Hoj.
    destruct (Z.ltb_spec j 0); [lia|]. rewrite Hox.
    destruct (String.eqb_spec (args ox) (args_to_expression a)); [congruence|].
    destruct (Z.ltb_spec j (SlicerMONAIViz.next_t (SlicerMONAIViz.ctx ow))); [|lia].
    reflexivity. }
  subst w' ow'. rewrite He, Hoe. cbn [fst snd]. split.
  - split; [reflexivity|]. split; [reflexivity|]. split.
    + cbn [MONAIViz.onClearTransform MONAIViz.transformTable
           MONAIViz.set_clear_enabled MONAIViz.set_table MONAIViz.set_ctx].
      destruct (item_all_yellow
                  (range 0 (MONAIViz.rowCount
                              (MONAIViz.set_ctx w (MONAIViz.reset (MONAIViz.ctx w)))))
                  _ _ _ Hx) as [i Hi].
      exists i. rewrite item_setArgs, Hi, Z.eqb_refl. reflexivity.
    + intros k y Himg Hy Hout.
      rewrite (run_from_empty_cache _ k y); try assumption; try reflexivity.
      apply executed_events.
  - split; [reflexivity|]. split; [reflexivity|]. split.
    + cbn [SlicerMONAIViz.onClearTransform SlicerMONAIViz.transformTable
           SlicerMONAIViz.set_clear_enabled SlicerMONAIViz.set_table
           SlicerMONAIViz.set_ctx].
      destruct (item_all_yellow
                  (range 0 (SlicerMONAIViz.rowCount
                              (SlicerMONAIViz.set_ctx ow
                                 (SlicerMONAIViz.reset (SlicerMONAIViz.ctx ow)))))
                  _ _ _ Hox) as [i Hi].
      exists i. rewrite item_setArgs, Hi, Z.eqb_refl. reflexivity.
    + intros k y Hy Hname Hout.
      apply (old_run_from_empty_cache eval_exp old_host_display _ k y);
        try assumption; reflexivity.
Qed.

End Edit.

Lemma C4_witness :
  let a := "keys=['image', 'label']" in
  let w' := snd (MONAIViz.onEditTransform string (fun s => s)
                   (sample_widget sample_table 0 sample_ctx) 0 (Ok (Some a))) in
  let ow' := snd (SlicerMONAIViz.onEditTransform string (fun s => s)
                    (sample_old_widget sample_table 0 sample_old_ctx) 0 (Ok (Some a))) in
  MONAIViz.ctx w' = MONAIViz.init /\
  executed (MONAIViz.trace (MONAIViz.onRunTransform sample_eval2 sample_host
                              (MONAIViz.set_current w' 2))) = [0; 2] /\
  SlicerMONAIViz.ctx ow' = SlicerMONAIViz.init /\
  executed (SlicerMONAIViz.trace (SlicerMONAIViz.onRunTransform sample_eval2 sample_old_host
                                    (SlicerMONAIViz.set_current ow' 1))) = [0; 1].
Proof.
  cbv zeta.
  destruct (C4_edit_before_frontier_invalidates_cache sample_eval2 sample_host string
              (fun s => s) sample_old_host
              (sample_widget sample_table 0 sample_ctx)
              (sample_old_widget sample_table 0 sample_old_ctx) 0 0
              (mkRow true Yellow "LoadImaged" "keys=['image']")
              (mkRow true Yellow "LoadImaged" "keys=['image']")
              "keys=['image', 'label']")
    as ((_ & C & _ & R) & (_ & OC & _ & OR));
    [reflexivity | reflexivity | reflexivity | discriminate
    | reflexivity | reflexivity | reflexivity | discriminate |].
  split; [exact C|]. split.
  - rewrite (R 2 (mkRow true Yellow "RandCropByPosNegLabeld" "keys=['image']"));
      reflexivity.
  - split; [exact OC|].
    rewrite (OR 1 (mkRow false Yellow "Flipd" "keys=['image']"));
      [reflexivity | reflexivity | discriminate | reflexivity].
Defined.

(** ** Adding a transform *)

Lemma last_char_spec (t : string) :
  t <> "" -> exists s c, t = s ++ String c "" /\ last_char t = Ok c.
Proof.
  induction t as [|a t IH]; [congruence|]. intros _.
  destruct t as [|b t'].
  - exists "", a. split; reflexivity.
  - destruct IH as (s & c & E & L); [discriminate|].
    exists (String a s), c. split.
    + cbn [append]. now rewrite <- E.
    + exact L.
Qed.

Lemma append_last_inj (s1 s2 : string) (c1 c2 : ascii) :
  s1 ++ String c1 "" = s2 ++ String c2 "" -> c1 = c2.
Proof.
  revert s2. induction s1 as [|a s1 IH]; intros [|b s2]; cbn [append]; intros H.
  - congruence.
  - injection H as _ H. destruct s2; discriminate H.
  - injection H as _ H. destruct s1; discriminate H.
  - injection H as _ H. eauto.
Qed.

Lemma ends_in_d_spec (t : string) :
  t <> "" ->
  exists b, ends_in_d t = Ok b /\ (b = true <-> exists s, t = s ++ "d").
Proof.
  intros Ht. destruct (last_char_spec t Ht) as (s & c & E & L).
  exists (Ascii.eqb c "d"). unfold ends_in_d. rewrite L. split; [reflexivity|].
  rewrite Ascii.eqb_eq. split.
  - intros ->. exists s. exact E.
  - intros [s' E']. rewrite E in E'. now apply append_last_inj in E'.
Qed.

Lemma excluded_spec (t : string) :
  excluded t = true <->
  In t ["AffineGrid"; "Decollated"; "RandAffineGrid"; "RandDeformGrid"].
Proof.
  unfold excluded. rewrite existsb_exists. split.
  - intros (y & Hy & E). apply String.eqb_eq in E. now subst.
  - intros H. exists t. split; [assumption | apply String.eqb_refl].
Qed.

(** C9 (as amended).  In [MONAIViz.py], adding a transform named [t]
    (with a module selected) appends a row whose arguments are
    [keys=['<image key>', '<label key>']], for the key names
    [onAddTransform] reads from the settings, exactly when [t] ends in
    the letter d and is not one of the four excluded names, and are empty
    otherwise.  [onAddTransform] of the older [SlicerMONAIViz.py] never
    suggests arguments. *)
Theorem C9_default_keys_for_dictionary_transforms :
  forall (w : MONAIViz.Widget) (ow : SlicerMONAIViz.Widget),
    MONAIViz.modulesComboBox w <> "" ->
    MONAIViz.transformsComboBox w <> "" ->
    SlicerMONAIViz.modulesComboBox ow <> "" ->
    SlicerMONAIViz.transformsComboBox ow <> "" ->
    let t := MONAIViz.transformsComboBox w in
    let dictionary_style :=
      (exists s, t = s ++ "d") /\
      ~ In t ["AffineGrid"; "Decollated"; "RandAffineGrid"; "RandDeformGrid"] in
    let keys :=
      "keys=['" ++ settingsValue (MONAIViz.settings w) "SlicerMONAIViz/imageKey" "image"
      ++ "', '" ++ settingsValue (MONAIViz.settings w) "SlicerMONAIViz/labelKey" "label"
      ++ "']" in
    (exists v,
        MONAIViz.onAddTransform w = (Ok (Some v), MONAIViz.addTransform w (-1) None t v true) /\
        (dictionary_style -> v = keys) /\
        (~ dictionary_style -> v = "")) /\
    SlicerMONAIViz.onAddTransform ow =
      (Some "", SlicerMONAIViz.addTransform ow (-1) None
                  (SlicerMONAIViz.transformsComboBox ow) None).
Proof.
  intros w ow Hm Ht Hom Hot t dictionary_style keys. split.
  - unfold MONAIViz.onAddTransform.
    apply truthy_true_iff in Hm, Ht. rewrite Hm, Ht. cbn [negb orb].
    apply truthy_true_iff in Ht. fold t.
    destruct (ends_in_d_spec t Ht) as (b & Eb & Hb). rewrite Eb.
    eexists. split; [reflexivity|].
    subst dictionary_style. fold keys.
    pose proof (excluded_spec t) as Hx.
    destruct b; destruct (excluded t); cbn [andb negb]; split; intros H;
      try reflexivity; exfalso.
    + destruct H as [_ H]. apply H, Hx. reflexivity.
    + apply H. split; [now apply Hb|]. intros Hin. apply Hx in Hin. discriminate.
    + destruct H as [H _]. apply Hb in H. discriminate.
    + destruct H as [H _]. apply Hb in H. discriminate.
  - unfold SlicerMONAIViz.onAddTransform.
    apply truthy_true_iff in Hom, Hot. rewrite Hom, Hot. reflexivity.
Qed.

Lemma C9_witness :
  fst (MONAIViz.onAddTransform (sample_add_widget "LoadImaged" [])) =
    Ok (Some "keys=['image', 'label']") /\
  fst (MONAIViz.onAddTransform (sample_add_widget "RandAffineGrid" [])) =
    Ok (Some "") /\
  fst (SlicerMONAIViz.onAddTransform (sample_old_add_widget "Flipd")) = Some "".
Proof.
  destruct (C9_default_keys_for_dictionary_transforms
              (sample_add_widget "LoadImaged" []) (sample_old_add_widget "Flipd"))
    as ((v & E & Y & _) & O); try discriminate.
  destruct (C9_default_keys_for_dictionary_transforms
              (sample_add_widget "RandAffineGrid" []) (sample_old_add_widget "Flipd"))
    as ((v' & E' & _ & N) & _); try discriminate.
  split; [| split].
  - rewrite E. cbn [fst]. rewrite Y; [reflexivity|].
    split; [exists "LoadImage"; reflexivity|].
    cbn. intros [H|[H|[H|[H|[]]]]]; discriminate H.
  - rewrite E'. cbn [fst]. rewrite N; [reflexivity|].
    intros [_ H]. apply H. cbn. auto.
  - rewrite O. reflexivity.
Defined.

(** C9, as stated, fails in the older variant of the widget: "LoadImaged"
    ends in d and is not excluded, and the row it adds has no arguments. *)
Lemma C9_counterexample :
  let r := SlicerMONAIViz.onAddTransform (sample_old_add_widget "LoadImaged") in
  ends_in_d "LoadImaged" = Ok true /\
  excluded "LoadImaged" = false /\
  fst r = Some "" /\
  SlicerMONAIViz.transformTable (snd r) = [mkRow true Yellow "LoadImaged" ""].
Proof. cbv zeta. repeat split; reflexivity. Qed.

(** The key names of the suggestion are read under "SlicerMONAIViz/...",
    not under the "MONAIViz/..." keys the settings panel of this variant
    registers and [prepare_dict] reads. *)
Lemma onAddTransform_key_names :
  let st := [("MONAIViz/imageKey", "img"); ("MONAIViz/labelKey", "seg")] in
  let w := sample_add_widget "LoadImaged" st in
  fst (MONAIViz.onAddTransform w) = Ok (Some "keys=['image', 'label']") /\
  MONAIViz.prepare_dict w = Ok (VDict [("img", EStr "/data/image.nii.gz")]).
Proof. cbv zeta. split; reflexivity. Qed.

(** ** Saving and loading a pipeline *)

Local Open Scope list_scope.

Lemma digit_is_plain (c : ascii) :
  is_digit c = true ->
  int_blank c = false /\ (c =? "-")%char = false /\ (c =? "+")%char = false /\
  (c =? "_")%char = false.
Proof.
  destruct c as [[] [] [] [] [] [] [] []]; cbv; intros H;
    try discriminate H; repeat split.
Qed.

Lemma digits_head (d : Decimal.uint) :
  d <> Decimal.Nil ->
  exists c r, NilEmpty.string_of_uint d = String c r /\ is_digit c = true.
Proof.
  destruct d; intros H; [contradiction| ..]; cbn [NilEmpty.string_of_uint];
    eexists _, _; split; reflexivity.
Qed.

Lemma numeral_digits (d : Decimal.uint) :
  forall b, d <> Decimal.Nil \/ b = true ->
            numeral (NilEmpty.string_of_uint d) b =
            Some (NilEmpty.string_of_uint d, EmptyString).
Proof.
  induction d; intros b H; cbn [NilEmpty.string_of_uint numeral];
    [destruct H as [H| ->]; [contradiction | reflexivity] | ..];
    match goal with
    | |- context [is_digit ?c] => change (is_digit c) with true
    end; cbv iota; rewrite IHd by (right; reflexivity); reflexivity.
Qed.

(** [int] reads back what [str] writes. *)
Lemma int_of_str_uint (d : Decimal.uint) :
  d <> Decimal.Nil ->
  int_of_str (NilZero.string_of_uint d) = Ok (Z.of_uint d) /\
  int_of_str (String "-" (NilZero.string_of_uint d)) = Ok (- Z.of_uint d).
Proof.
  intros Hd.
  assert (E : NilZero.string_of_uint d = NilEmpty.string_of_uint d)
    by (destruct d; [contradiction| ..]; reflexivity).
  pose proof (NilZero.usu d Hd) as U. rewrite E in *.
  destruct (digits_head d Hd) as (c & r & Hs & Hc).
  destruct (digit_is_plain c Hc) as (B & M & P & _).
  pose proof (numeral_digits d false (or_introl Hd)) as N.
  split; unfold int_of_str.
  - rewrite Hs. cbn [skip_blanks]. rewrite B, M, P. rewrite <- Hs, N.
    cbn [all_blank]. rewrite U. reflexivity.
  - cbn [skip_blanks]. change (int_blank "-") with false. cbv iota.
    change ("-" =? "-")%char with true. cbv iota. rewrite N.
    cbn [all_blank]. rewrite U. reflexivity.
Qed.

Lemma int_of_str_of_int (z : Z) : int_of_str (str_of_int z) = Ok z.
Proof.
  unfold str_of_int. rewrite <- (DecimalZ.of_to z) at 2.
  destruct z as [|p|p]; cbn [Z.to_int NilZero.string_of_int Z.of_int].
  - apply int_of_str_uint. discriminate.
  - apply int_of_str_uint, Unsigned.to_uint_nonnil.
  - apply int_of_str_uint, Unsigned.to_uint_nonnil.
Qed.

Lemma len_app {A : Type} (l1 l2 : list A) : len (l1 ++ l2) = len l1 + len l2.
Proof. unfold len. rewrite length_app. lia. Qed.

Lemma item_middle (pre suf : list row) (x : row) :
  item (pre ++ x :: suf) (len pre) = Ok x.
Proof.
  unfold item, list_getitem, len.
  destruct (Z.ltb_spec (Z.of_nat (List.length pre)) 0); [lia|].
  rewrite Nat2Z.id, nth_error_app2, Nat.sub_diag by lia. reflexivity.
Qed.

Lemma range_len_app (pre suf : list row) (x : row) :
  range (len pre) (len (pre ++ x :: suf)) =
  len pre :: range (len (pre ++ [x])) (len ((pre ++ [x]) ++ suf)).
Proof.
  rewrite range_cons.
  - rewrite <- app_assoc. rewrite (len_app pre [x]). reflexivity.
  - rewrite len_app. unfold len. cbn [List.length]. lia.
Qed.

Lemma save_rows (suf : list row) :
  forall pre,
    map_result
      (fun r => x <- item (pre ++ suf) r ;;
                Ok (str_of_int r,
                    JObj [("name", JStr (target x)); ("args", JStr (args x))]))
      (range (len pre) (len (pre ++ suf))) =
    Ok (map saved_entry (indexed (len pre) suf)).
Proof.
  induction suf as [|x suf IH]; intros pre.
  - rewrite app_nil_r, range_nil by lia. reflexivity.
  - rewrite range_len_app. cbn [map_result]. rewrite item_middle. cbn [bind].
    specialize (IH (pre ++ [x])). rewrite <- !app_assoc in IH.
    change ([x] ++ suf) with (x :: suf) in IH.
    rewrite <- !app_assoc. change ([x] ++ suf) with (x :: suf).
    rewrite IH. cbn [bind indexed map]. rewrite len_app. reflexivity.
Qed.

Local Open Scope string_scope.

Lemma keeps_args_spec (t : string) :
  t <> "" ->
  (keeps_args t = true <->
   (exists s, t = s ++ "d") /\
   ~ In t ["AffineGrid"; "Decollated"; "RandAffineGrid"; "RandDeformGrid"]).
Proof.
  intros Ht. unfold keeps_args.
  destruct (ends_in_d_spec t Ht) as (b & -> & Hb).
  rewrite andb_true_iff, negb_true_iff, Hb, <- excluded_spec.
  destruct (excluded t); intuition congruence.
Qed.

Lemma insertRow_end (x : row) (tbl : list row) :
  insertRow (len tbl) x tbl = (tbl ++ [x])%list.
Proof.
  unfold insertRow, len.
  destruct (Z.leb_spec 0 (Z.of_nat (List.length tbl))); [|lia].
  rewrite Z.leb_refl. cbn [andb].
  rewrite Nat2Z.id, firstn_all, skipn_all. reflexivity.
Qed.

Lemma addTransform_table (w : MONAIViz.Widget) (pos : Z) (m : option string)
      (t v : string) (act : bool) :
  pos = MONAIViz.rowCount w ->
  MONAIViz.transformTable (MONAIViz.addTransform w pos m t v act) =
  (MONAIViz.transformTable w ++
   [mkRow act Yellow
          match m with
          | Some m' => if truthy m' then m' ++ "." ++ t else t
          | None => t
          end v])%list.
Proof.
  intros ->. unfold MONAIViz.addTransform, MONAIViz.rowCount.
  assert (H : 0 <= len (MONAIViz.transformTable w)) by (unfold len; lia).
  destruct (Z.leb_spec 0 (len (MONAIViz.transformTable w))); [|lia].
  unfold MONAIViz.onSelectTransform, MONAIViz.selectRow.
  match goal with |- context [if ?c then _ else _] => destruct c end;
    cbn [MONAIViz.transformTable MONAIViz.set_clear_enabled MONAIViz.set_current
         MONAIViz.set_table]; apply insertRow_end.
Qed.

Lemma load_saved_entry (w : MONAIViz.Widget) (x : row) :
  target x <> "" ->
  exists w',
    MONAIViz.load_one w (fst (saved_entry (MONAIViz.rowCount w, x)))
                      (snd (saved_entry (MONAIViz.rowCount w, x))) = (Ok tt, w') /\
    MONAIViz.transformTable w' = (MONAIViz.transformTable w ++ [imported x])%list.
Proof.
  intros Ht. unfold saved_entry, MONAIViz.load_one. cbn [fst snd].
  change (json_find "name" [("name", JStr (target x)); ("args", JStr (args x))])
    with (Some (JStr (target x))).
  change (json_find "args" [("name", JStr (target x)); ("args", JStr (args x))])
    with (Some (JStr (args x))).
  unfold imported, keeps_args.
  destruct (ends_in_d_spec (target x) Ht) as (b & -> & _).
  rewrite int_of_str_of_int.
  destruct (b && negb (excluded (target x))); eexists; (split; [reflexivity|]);
    now rewrite addTransform_table.
Qed.

Lemma load_saved_rows (suf : list row) :
  forall w,
    Forall (fun x => target x <> "") suf ->
    exists w',
      MONAIViz.load_items w (map saved_entry (indexed (MONAIViz.rowCount w) suf)) =
        (Ok tt, w') /\
      MONAIViz.transformTable w' = (MONAIViz.transformTable w ++ map imported suf)%list.
Proof.
  induction suf as [|x suf IH]; intros w Hs.
  - exists w. split; [reflexivity|]. now rewrite app_nil_r.
  - inversion Hs as [|? ? Hx Hs']; subst.
    destruct (load_saved_entry w x Hx) as (w1 & L1 & T1).
    cbn [indexed map MONAIViz.load_items].
    destruct (saved_entry (MONAIViz.rowCount w, x)) as [idx tr] eqn:E.
    cbn [fst snd] in L1. rewrite L1.
    destruct (IH w1 Hs') as (w' & L & T).
    assert (Hc : MONAIViz.rowCount w1 = MONAIViz.rowCount w + 1).
    { unfold MONAIViz.rowCount. rewrite T1, len_app. reflexivity. }
    rewrite Hc in L. exists w'. split; [exact L|].
    rewrite T, T1, <- app_assoc. reflexivity.
Qed.

(** C5 (as amended).  For every pipeline table whose rows have a name,
    exporting it writes the object that maps each stringified row index
    to the row's [{name, args}], and importing that file into an empty
    table reproduces the rows in the same order with the same names;
    the argument string of a row is reproduced when its name ends in d
    and is not one of the excluded names, and is empty otherwise.  A
    pipeline made of such dictionary-style rows only is reproduced
    exactly, names and argument strings. *)
Theorem C5_export_import_roundtrip :
  forall (w w0 : MONAIViz.Widget),
    Forall (fun x => target x <> "") (MONAIViz.transformTable w) ->
    MONAIViz.transformTable w0 = [] ->
    let tbl := MONAIViz.transformTable w in
    exists file w',
      MONAIViz.onSaveTransform w = Ok file /\
      file = JObj (map saved_entry (indexed 0 tbl)) /\
      MONAIViz.onLoadTransform w0 file = (Ok tt, w') /\
      MONAIViz.transformTable w' = map imported tbl /\
      map target (MONAIViz.transformTable w') = map target tbl /\
      (forall x, In x tbl ->
         (keeps_args (target x) = true <->
          (exists s, target x = s ++ "d") /\
          ~ In (target x)
               ["AffineGrid"; "Decollated"; "RandAffineGrid"; "RandDeformGrid"])) /\
      (Forall (fun x => keeps_args (target x) = true) tbl ->
       map args (MONAIViz.transformTable w') = map args tbl).
Proof.
  intros w w0 Hnames Hempty tbl.
  assert (Hsave : MONAIViz.onSaveTransform w = Ok (JObj (map saved_entry (indexed 0 tbl)))).
  { unfold MONAIViz.onSaveTransform, MONAIViz.rowCount.
    pose proof (save_rows tbl []) as H.
    change ([] ++ tbl)%list with tbl in H.
    change (len (@nil row)) with 0 in H. fold tbl. rewrite H. reflexivity. }
  destruct (load_saved_rows tbl w0 Hnames) as (w' & L & T).
  assert (H0 : MONAIViz.rowCount w0 = 0)
    by (unfold MONAIViz.rowCount; rewrite Hempty; reflexivity).
  rewrite H0 in L. rewrite Hempty, app_nil_l in T.
  exists (JObj (map saved_entry (indexed 0 tbl))), w'.
  split; [exact Hsave|]. split; [reflexivity|]. split; [exact L|].
  split; [exact T|]. split; [| split].
  - rewrite T, map_map. reflexivity.
  - intros x Hx. apply keeps_args_spec.
    rewrite Forall_forall in Hnames. now apply Hnames.
  - intros Hall. rewrite T, map_map. apply map_ext_in.
    intros x Hx. rewrite Forall_forall in Hall. unfold imported. cbn [args].
    now rewrite (Hall x Hx).
Qed.

Lemma C5_witness :
  exists w',
    MONAIViz.onSaveTransform (sample_widget sample_table 0 MONAIViz.init) =
      Ok (JObj (map saved_entry (indexed 0 sample_table))) /\
    MONAIViz.onLoadTransform (sample_add_widget "Flipd" [])
      (JObj (map saved_entry (indexed 0 sample_table))) = (Ok tt, w') /\
    map target (MONAIViz.transformTable w') = map target sample_table /\
    map args (MONAIViz.transformTable w') = map args sample_table.
Proof.
  destruct (C5_export_import_roundtrip
              (sample_widget sample_table 0 MONAIViz.init)
              (sample_add_widget "Flipd" []))
    as (file & w' & S & F & L & _ & N & _ & A).
  - repeat constructor; discriminate.
  - reflexivity.
  - exists w'. subst file. split; [exact S|]. split; [exact L|].
    split; [exact N|]. apply A. repeat constructor.
Defined.

(** C5, as stated, fails: the arguments of a row whose name does not end
    in d are written to the file and dropped when the file is read. *)
Lemma C5_counterexample :
  let w := sample_widget sample_mixed_table 0 MONAIViz.init in
  let file := JObj [("0", JObj [("name", JStr "LoadImage");
                                ("args", JStr "image_only=True")]);
                    ("1", JObj [("name", JStr "Flipd");
                                ("args", JStr "keys=['image'], spatial_axis=0")])] in
  let loaded := MONAIViz.onLoadTransform (sample_add_widget "Flipd" []) file in
  MONAIViz.onSaveTransform w = Ok file /\
  fst loaded = Ok tt /\
  map target (MONAIViz.transformTable (snd loaded)) = ["LoadImage"; "Flipd"] /\
  map args (MONAIViz.transformTable (snd loaded)) =
    [""; "keys=['image'], spatial_axis=0"] /\
  map args (MONAIViz.transformTable (snd loaded)) <> map args sample_mixed_table.
Proof. cbv zeta. repeat split; try reflexivity. discriminate. Qed.

(** ** The transform catalog *)

Lemma is_subclass_spec (n : string) (c : Utils.pyclass) (b : string) :
  Utils.is_subclass n (Utils.OClass c) b = true <-> n <> b /\ In b (Utils.c_bases c).
Proof.
  unfold Utils.is_subclass. rewrite andb_true_iff, negb_true_iff, String.eqb_neq.
  rewrite existsb_exists. split.
  - intros [H1 (y & Hy & E)]. apply String.eqb_eq in E. subst. auto.
  - intros [H1 H2]. split; [assumption|]. exists b. split; [assumption|].
    apply String.eqb_refl.
Qed.

Lemma first_base_Some (n : string) (o : Utils.pyobject) (bases : list string) (b : string) :
  Utils.first_base n o bases = Some b -> In b bases /\ Utils.is_subclass n o b = true.
Proof.
  induction bases as [|b' bases IH]; cbn [Utils.first_base]; [discriminate|].
  destruct (Utils.is_subclass n o b') eqn:E.
  - intros [= <-]. split; [now left | assumption].
  - intros H. destruct (IH H). split; [now right | assumption].
Qed.

Lemma first_base_None (n : string) (o : Utils.pyobject) (bases : list string) :
  Utils.first_base n o bases = None ->
  forall b, In b bases -> Utils.is_subclass n o b = false.
Proof.
  induction bases as [|b' bases IH]; cbn [Utils.first_base]; intros H b Hb.
  - destruct Hb.
  - destruct (Utils.is_subclass n o b') eqn:E; [discriminate|].
    destruct Hb as [<-|Hb]; [assumption | now apply IH].
Qed.

Lemma first_base_catalogued (bases : list string) (n : string) (c : Utils.pyclass) :
  Utils.c_abstract c = false ->
  ((exists b, Utils.first_base n (Utils.OClass c) bases = Some b) <->
   catalogued bases n c).
Proof.
  intros Ha. unfold catalogued. split.
  - intros [b H]. apply first_base_Some in H. destruct H as [H1 H2].
    apply is_subclass_spec in H2. split; [assumption|]. exists b. tauto.
  - intros [_ (b & Hb & Hn & Hc)].
    destruct (Utils.first_base n (Utils.OClass c) bases) as [b'|] eqn:E; [eauto|].
    pose proof (first_base_None _ _ _ E b Hb) as F.
    assert (T : Utils.is_subclass n (Utils.OClass c) b = true)
      by (apply is_subclass_spec; auto).
    congruence.
Qed.

Lemma get_In (cp : string) (res : Utils.catalog) (v : Utils.info) :
  Utils.get cp res = Some v -> In (cp, v) res.
Proof.
  induction res as [|[k v'] res IH]; cbn [Utils.get]; [discriminate|].
  destruct (String.eqb_spec k cp) as [->|].
  - intros [= ->]. now left.
  - intros H. right. auto.
Qed.

Lemma get_None (cp : string) (res : Utils.catalog) :
  Utils.get cp res = None <-> ~ In cp (map fst res).
Proof.
  induction res as [|[k v'] res IH]; cbn [Utils.get map fst In]; [tauto|].
  destruct (String.eqb_spec k cp) as [->|]; [|tauto].
  split; [discriminate | tauto].
Qed.

Lemma In_get (cp : string) (res : Utils.catalog) (v : Utils.info) :
  NoDup (map fst res) -> In (cp, v) res -> Utils.get cp res = Some v.
Proof.
  induction res as [|[k v'] res IH]; cbn [Utils.get map fst]; intros ND H;
    [destruct H|].
  inversion ND as [|? ? Hk ND']; subst.
  destruct H as [[= -> ->]|H].
  - now rewrite String.eqb_refl.
  - destruct (String.eqb_spec k cp) as [->|]; [|auto].
    exfalso. apply Hk. apply in_map_iff. exists (cp, v). auto.
Qed.

Lemma append_alias_keys (cp n : string) (res : Utils.catalog) :
  map fst (Utils.append_alias cp n res) = map fst res.
Proof.
  induction res as [|[k v] res IH]; [reflexivity|]. cbn [Utils.append_alias].
  destruct (k =? cp)%string; cbn [map fst]; congruence.
Qed.

Lemma append_alias_In (cp n : string) (res : Utils.catalog) (k : string) (v' : Utils.info) :
  NoDup (map fst res) ->
  In (k, v') (Utils.append_alias cp n res) ->
  (k <> cp /\ In (k, v') res) \/
  (k = cp /\ exists v, In (cp, v) res /\
     v' = Utils.mkInfo (Utils.name v) (Utils.alias v ++ [n])%list (Utils.class v)
                       (Utils.module v) (Utils.dictionary v) (Utils.base_class v)
                       (Utils.category v)).
Proof.
  induction res as [|[k0 v0] res IH]; cbn [Utils.append_alias map fst];
    intros ND H; [destruct H|].
  inversion ND as [|? ? Hk ND']; subst.
  destruct (String.eqb_spec k0 cp) as [->|Hne].
  - destruct H as [[= <- <-]|H].
    + right. split; [reflexivity|]. exists v0. split; [now left | reflexivity].
    + left. split; [|now right]. intros ->. apply Hk.
      apply in_map_iff. exists (cp, v'). auto.
  - destruct H as [[= <- <-]|H].
    + left. split; [assumption | now left].
    + destruct (IH ND' H) as [[A B]|[A (v & B & C)]].
      * left. split; [assumption | now right].
      * right. split; [assumption|]. exists v. split; [now right | assumption].
Qed.

Lemma catalog_of_skip (bases : list string) (processed : Utils.members)
      (res : Utils.catalog) (n : string) (o : Utils.pyobject) :
  (forall c, o = Utils.OClass c -> ~ catalogued bases n c) ->
  catalog_of bases processed res ->
  catalog_of bases (processed ++ [(n, o)])%list res.
Proof.
  intros Hskip (ND & K & V).
  assert (Hin : forall n' c', In (n', Utils.OClass c') (processed ++ [(n, o)])%list ->
                              catalogued bases n' c' ->
                              In (n', Utils.OClass c') processed).
  { intros n' c' H Hc. apply in_app_or in H. destruct H as [H|[[= -> ->]|[]]];
      [assumption|]. exfalso. now apply (Hskip c'). }
  split; [assumption|]. split.
  - intros cp. rewrite K. split.
    + intros (n' & c' & H1 & H2 & H3). exists n', c'.
      split; [apply in_or_app; now left | auto].
    + intros (n' & c' & H1 & H2 & H3). exists n', c'. auto.
  - intros cp v Hv. destruct (V cp v Hv) as (C & A & (n' & c' & M1 & M2)).
    split; [assumption|]. split.
    + intros n0. rewrite A. split.
      * intros (c0 & H1 & H2). exists c0. split; [apply in_or_app; now left | auto].
      * intros (c0 & H1 & H2 & H3). exists c0. auto.
    + exists n', c'. split; [apply in_or_app; now left | assumption].
Qed.

Lemma catalog_of_visit (bases : list string) (processed : Utils.members)
      (res : Utils.catalog) (m : string * Utils.pyobject) :
  catalog_of bases processed res ->
  catalog_of bases (processed ++ [m])%list (Utils.visit bases res m).
Proof.
  intros Inv. destruct m as [n o]. unfold Utils.visit.
  destruct o as [c|]; [|apply catalog_of_skip; [discriminate | assumption]].
  destruct (Utils.c_abstract c) eqn:Ha.
  { apply catalog_of_skip; [|assumption].
    intros c' [= <-] [H _]. congruence. }
  pose proof (first_base_catalogued bases n c Ha) as Hfb.
  destruct (Utils.first_base n (Utils.OClass c) bases) as [b|] eqn:Eb.
  2:{ apply catalog_of_skip; [|assumption].
      intros c' [= <-] H. apply Hfb in H. destruct H; discriminate. }
  assert (Hcat : catalogued bases n c) by (apply Hfb; eauto).
  apply first_base_Some in Eb. destruct Eb as [Hb Hsub].
  apply is_subclass_spec in Hsub. destruct Hsub as [_ Hbc].
  fold (qualname c). destruct Inv as (ND & K & V).
  assert (Hnew : In (n, Utils.OClass c) (processed ++ [(n, Utils.OClass c)])%list)
    by (apply in_or_app; right; now left).
  destruct (Utils.get (qualname c) res) as [v0|] eqn:Eg.
  - (* the class is already there: one more alias *)
    split; [now rewrite append_alias_keys|]. split.
    + intros cp. rewrite append_alias_keys, K. split.
      * intros (n' & c' & H1 & H2). exists n', c'.
        split; [apply in_or_app; now left | assumption].
      * intros (n' & c' & H1 & H2 & H3). apply in_app_or in H1.
        destruct H1 as [H1|[[= <- <-]|[]]]; [eauto|].
        apply K. apply get_In in Eg. apply in_map_iff.
        exists (qualname c, v0). split; [cbn; congruence | assumption].
    + intros cp v' Hv'.
      destruct (append_alias_In _ _ _ _ _ ND Hv') as [[Hne Hv]|[-> (v & Hv & ->)]].
      * destruct (V cp v' Hv) as (C & A & (n' & c' & M1 & M2)).
        split; [assumption|]. split.
        -- intros n0. rewrite A. split.
           ++ intros (c0 & H1 & H2). exists c0.
              split; [apply in_or_app; now left | assumption].
           ++ intros (c0 & H1 & H2 & H3). apply in_app_or in H1.
              destruct H1 as [H1|[[= <- <-]|[]]]; [eauto | congruence].
        -- exists n', c'. split; [apply in_or_app; now left | assumption].
      * destruct (V _ v Hv) as (C & A & (n' & c' & M1 & M2)).
        cbn [Utils.class Utils.alias Utils.name Utils.module Utils.base_class].
        split; [assumption|]. split.
        -- intros n0. rewrite in_app_iff, A. cbn [In]. split.
           ++ intros [(c0 & H1 & H2)|[<-|[]]].
              ** exists c0. split; [apply in_or_app; now left | assumption].
              ** exists c. auto.
           ++ intros (c0 & H1 & H2 & H3). apply in_app_or in H1.
              destruct H1 as [H1|[[= <- <-]|[]]]; [left; eauto | right; now left].
        -- exists n', c'. split; [apply in_or_app; now left | assumption].
  - (* a new class *)
    apply get_None in Eg. split; [|split].
    + rewrite map_app. cbn [map fst]. apply NoDup_app.
      * assumption.
      * repeat constructor. intros [].
      * intros x Hx [<-|[]]. contradiction.
    + intros cp. rewrite map_app, in_app_iff, K. cbn [map fst In]. split.
      * intros [(n' & c' & H1 & H2)|[<-|[]]].
        -- exists n', c'. split; [apply in_or_app; now left | assumption].
        -- exists n, c. auto.
      * intros (n' & c' & H1 & H2 & H3). apply in_app_or in H1.
        destruct H1 as [H1|[[= <- <-]|[]]]; [left; eauto | right; now left].
    + intros cp v' Hv'. apply in_app_or in Hv'.
      destruct Hv' as [Hv|[[= <- <-]|[]]].
      * destruct (V cp v' Hv) as (C & A & (n' & c' & M1 & M2)).
        assert (Hne : cp <> qualname c).
        { intros ->. apply Eg. apply in_map_iff. exists (qualname c, v'). auto. }
        split; [assumption|]. split.
        -- intros n0. rewrite A. split.
           ++ intros (c0 & H1 & H2). exists c0.
              split; [apply in_or_app; now left | assumption].
           ++ intros (c0 & H1 & H2 & H3). apply in_app_or in H1.
              destruct H1 as [H1|[[= <- <-]|[]]]; [eauto | congruence].
        -- exists n', c'. split; [apply in_or_app; now left | assumption].
      * cbn [Utils.class Utils.alias Utils.name Utils.module Utils.base_class].
        split; [reflexivity|]. split.
        -- intros n0. cbn [In]. split.
           ++ intros [<-|[]]. exists c. auto.
           ++ intros (c0 & H1 & H2 & H3). apply in_app_or in H1.
              destruct H1 as [H1|[[= <- <-]|[]]]; [|now left].
              exfalso. apply Eg. apply K. eauto.
        -- exists n, c. repeat split; auto; apply Hcat.
Qed.

Lemma catalog_of_loop (bases : list string) (mt : Utils.members) :
  catalog_of bases mt (fold_left (Utils.visit bases) mt []).
Proof.
  induction mt as [|m mt IH] using rev_ind.
  - split; [constructor|]. split.
    + intros cp. cbn. split; [tauto | intros (n & c & [] & _)].
    + intros cp v [].
  - rewrite fold_left_app. cbn [fold_left]. now apply catalog_of_visit.
Qed.

(** *** [sorted] *)

Lemma string_compare_trans (s1 : string) :
  forall s2 s3,
    String.compare s1 s2 <> Gt -> String.compare s2 s3 <> Gt ->
    String.compare s1 s3 <> Gt.
Proof.
  induction s1 as [|a s1 IH]; intros [|b s2] [|c s3]; cbn [String.compare];
    try congruence.
  unfold Ascii.compare.
  destruct (N.compare_spec (N_of_ascii a) (N_of_ascii b)) as [E1|L1|G1];
    destruct (N.compare_spec (N_of_ascii b) (N_of_ascii c)) as [E2|L2|G2];
    destruct (N.compare_spec (N_of_ascii a) (N_of_ascii c)) as [E3|L3|G3];
    try congruence; try lia.
  apply IH.
Qed.

Lemma string_le_trans (a b c : string) :
  string_le a b -> string_le b c -> string_le a c.
Proof.
  unfold string_le, String.leb. intros H1 H2.
  pose proof (string_compare_trans a b c) as T.
  destruct (String.compare a b); destruct (String.compare b c);
    destruct (String.compare a c); try reflexivity; try discriminate;
    exfalso; apply T; congruence.
Qed.

Lemma string_le_total (a b : string) : String.leb a b = false -> string_le b a.
Proof.
  intros H. destruct (String.leb_total a b) as [H'|H']; [congruence | exact H'].
Qed.

Lemma insert_perm (x : string) (l : list string) :
  Permutation (Utils.insert x l) (x :: l).
Proof.
  induction l as [|y l IH]; cbn [Utils.insert]; [reflexivity|].
  destruct (String.leb x y); [reflexivity|].
  rewrite IH. apply perm_swap.
Qed.

Lemma sorted_perm (l : list string) : Permutation (Utils.sorted l) l.
Proof.
  induction l as [|x l IH]; cbn; [reflexivity|].
  unfold Utils.sorted in IH. now rewrite insert_perm, IH.
Qed.

Lemma insert_sorted (x : string) (l : list string) :
  StronglySorted string_le l -> StronglySorted string_le (Utils.insert x l).
Proof.
  induction l as [|y l IH]; cbn [Utils.insert]; intros H.
  - repeat constructor.
  - inversion H as [|? ? Hs Hall]; subst.
    destruct (String.leb x y) eqn:E.
    + constructor; [assumption|]. constructor; [exact E|].
      eapply Forall_impl; [|exact Hall]. intros z Hz.
      eapply string_le_trans; [exact E | exact Hz].
    + constructor; [auto|].
      eapply Permutation_Forall; [symmetry; apply insert_perm|].
      constructor; [now apply string_le_total | assumption].
Qed.

Lemma sorted_sorted (l : list string) : StronglySorted string_le (Utils.sorted l).
Proof.
  induction l as [|x l IH]; cbn; [constructor|]. now apply insert_sorted.
Qed.

Lemma sorted_In (l : list string) (x : string) : In x (Utils.sorted l) <-> In x l.
Proof.
  split; apply Permutation_in; [apply sorted_perm | symmetry; apply sorted_perm].
Qed.

(** *** The sorted copy *)

Section Finish.

Variable res : Utils.catalog.

Let finish (k : string) : Utils.catalog :=
  match Utils.get k res with
  | Some v =>
      [(k, Utils.mkInfo (Utils.name v) (Utils.sorted (Utils.alias v)) (Utils.class v)
                        (Utils.module v) (Utils.dictionary v) (Utils.base_class v)
                        (Utils.category v))]
  | None => []
  end.

Lemma finish_keys (ks : list string) :
  (forall k, In k ks -> In k (map fst res)) ->
  map fst (flat_map finish ks) = ks.
Proof.
  induction ks as [|k ks IH]; intros H; [reflexivity|].
  cbn [flat_map]. rewrite map_app, IH by (intros; apply H; now right).
  subst finish. cbn beta.
  destruct (Utils.get k res) eqn:E; [reflexivity|].
  apply get_None in E. exfalso. apply E, H. now left.
Qed.

Lemma finish_In (ks : list string) (cp : string) (v' : Utils.info) :
  In (cp, v') (flat_map finish ks) ->
  exists v, In (cp, v) res /\
    v' = Utils.mkInfo (Utils.name v) (Utils.sorted (Utils.alias v)) (Utils.class v)
                      (Utils.module v) (Utils.dictionary v) (Utils.base_class v)
                      (Utils.category v).
Proof.
  rewrite in_flat_map. intros (k & _ & H). subst finish. cbn beta in H.
  destruct (Utils.get k res) as [v|] eqn:E; [|destruct H].
  destruct H as [[= -> <-]|[]]. exists v. split; [now apply get_In | reflexivity].
Qed.

End Finish.

(** C8 (as amended).  For every module, the catalog of [list_transforms]
    has exactly one entry for each class that is concrete and is bound in
    the module under a member name [n] such that [Transform] or
    [MapTransform] is the name of one of its direct bases and is not [n]
    itself; the entry is keyed by the fully qualified name of the class,
    its aliases are exactly the member names that so qualify, sorted, and
    the keys of the catalog are sorted. *)
Theorem C8_catalog_of_concrete_subclasses :
  forall (mt : Utils.members),
    let bases := ["Transform"; "MapTransform"] in
    let cat := Utils.list_transforms mt in
    StronglySorted string_le (map fst cat) /\
    NoDup (map fst cat) /\
    (forall cp, In cp (map fst cat) <->
                exists n c, In (n, Utils.OClass c) mt /\
                            catalogued bases n c /\ qualname c = cp) /\
    (forall cp v, In (cp, v) cat ->
       Utils.class v = cp /\
       StronglySorted string_le (Utils.alias v) /\
       (forall n, In n (Utils.alias v) <->
                  exists c, In (n, Utils.OClass c) mt /\
                            catalogued bases n c /\ qualname c = cp) /\
       (exists n c, In (n, Utils.OClass c) mt /\ catalogued bases n c /\
                    qualname c = cp /\
                    Utils.name v = Utils.c_name c /\
                    Utils.module v = Utils.c_module c /\
                    In (Utils.base_class v) bases /\
                    In (Utils.base_class v) (Utils.c_bases c))).
Proof.
  intros mt bases cat.
  pose proof (catalog_of_loop bases mt) as (ND & K & V).
  set (res := fold_left (Utils.visit bases) mt []) in *.
  assert (Hkeys : map fst cat = Utils.sorted (map fst res)).
  { subst cat. unfold Utils.list_transforms, Utils.get_class_of_subclass.
    fold bases res. apply finish_keys. intros k. apply sorted_In. }
  rewrite Hkeys. split; [apply sorted_sorted|]. split; [|split].
  - eapply Permutation_NoDup; [symmetry; apply sorted_perm | exact ND].
  - intros cp. rewrite sorted_In. apply K.
  - intros cp v' Hv'. subst cat.
    unfold Utils.list_transforms, Utils.get_class_of_subclass in Hv'.
    fold bases res in Hv'. apply finish_In in Hv'. destruct Hv' as (v & Hv & ->).
    destruct (V cp v Hv) as (C & A & M).
    cbn [Utils.class Utils.alias Utils.name Utils.module Utils.base_class].
    split; [assumption|]. split; [apply sorted_sorted|]. split; [|assumption].
    intros n. rewrite sorted_In. apply A.
Qed.

Lemma C8_witness :
  map fst (Utils.list_transforms sample_module) =
    ["pkg.spatial.array.A"; "pkg.spatial.dictionary.B"] /\
  In ("pkg.spatial.array.A",
      Utils.mkInfo "A" ["A"; "FirstA"] "pkg.spatial.array.A" "pkg.spatial.array"
                   false "Transform" "pkg.spatial.array")
     (Utils.list_transforms sample_module) /\
  exists c, In ("FirstA", Utils.OClass c) sample_module /\
            catalogued ["Transform"; "MapTransform"] "FirstA" c /\
            qualname c = "pkg.spatial.array.A".
Proof.
  split; [reflexivity|].
  assert (Hv : In ("pkg.spatial.array.A",
                   Utils.mkInfo "A" ["A"; "FirstA"] "pkg.spatial.array.A"
                                "pkg.spatial.array" false "Transform" "pkg.spatial.array")
                  (Utils.list_transforms sample_module)) by (left; reflexivity).
  split; [exact Hv|].
  destruct (C8_catalog_of_concrete_subclasses sample_module) as (_ & _ & _ & V).
  destruct (V _ _ Hv) as (_ & _ & A & _).
  apply (A "FirstA"). right. left. reflexivity.
Defined.

(** C8, as stated, fails for a concrete class with direct base
    [Transform] that the module binds under the name "Transform": the
    guard [n != base_c] of [is_subclass] leaves it out of the catalog. *)
Lemma C8_counterexample :
  let X := Utils.mkClass "X" "pkg.spatial.array" ["Transform"] false in
  let mt := [("Transform", Utils.OClass X)] in
  In ("Transform", Utils.OClass X) mt /\
  Utils.c_abstract X = false /\
  In "Transform" (Utils.c_bases X) /\
  Utils.list_transforms mt = [].
Proof. cbv zeta. repeat split; try reflexivity; cbn; auto. Qed.

(** ** Display geometry *)

Local Open Scope nat_scope.

Lemma nth_tabulate {A : Type} (f : nat -> A) (n j : nat) (d : A) :
  j < n -> nth j (map f (seq 0 n)) d = f j.
Proof.
  intros H. rewrite (nth_indep _ d (f 0)) by (rewrite length_map, length_seq; lia).
  rewrite (map_nth f (seq 0 n) 0 j), seq_nth by lia. reflexivity.
Qed.


Lemma tabulate_nth {A : Type} (l : list A) (d : A) :
  map (fun j => nth j l d) (seq 0 (List.length l)) = l.
Proof.
  apply (nth_ext _ _ d d); [now rewrite length_map, length_seq|].
  intros j Hj. rewrite length_map, length_seq in Hj. now rewrite nth_tabulate.
Qed.











Section Square.

Variable n : nat.
Variable a : matrix.
Hypothesis Hrows : nrows a = S n.
Hypothesis Hcols : Forall (fun r => List.length r = S n) a.





End Square.







(** *** The identity affine *)












(** *** The older variant *)


Section Geometry.

Variable scale_affine : option matrix -> option shape -> shape -> result matrix.


End Geometry.



Local Close Scope nat_scope.

(* ================================================================== *)
(** * Further properties of the widget, the cache and the catalog *)
(* ================================================================== *)

Local Open Scope Z_scope.

(** ** Moving and removing rows *)

Lemma removeRow_middle (pre suf : list row) (x : row) :
  removeRow (len pre) (pre ++ x :: suf)%list = (pre ++ suf)%list.
Proof.
  unfold removeRow. rewrite len_app. unfold len. cbn [List.length].
  destruct (Z.leb_spec 0 (Z.of_nat (List.length pre))); [|lia].
  destruct (Z.ltb_spec (Z.of_nat (List.length pre))
              (Z.of_nat (List.length pre) + Z.of_nat (S (List.length suf)))); [|lia].
  cbn [andb]. rewrite Nat2Z.id.
  rewrite firstn_app, Nat.sub_diag, firstn_all. cbn [firstn]. rewrite app_nil_r.
  f_equal. rewrite skipn_app, skipn_all2 by lia.
  replace (S (List.length pre) - List.length pre)%nat with 1%nat by lia. reflexivity.
Qed.

Lemma insertRow_middle (pre suf : list row) (x : row) :
  insertRow (len pre) x (pre ++ suf)%list = (pre ++ x :: suf)%list.
Proof.
  unfold insertRow. rewrite len_app. unfold len.
  destruct (Z.leb_spec 0 (Z.of_nat (List.length pre))); [|lia].
  destruct (Z.leb_spec (Z.of_nat (List.length pre))
              (Z.of_nat (List.length pre) + Z.of_nat (List.length suf))); [|lia].
  cbn [andb]. rewrite Nat2Z.id.
  rewrite firstn_app, Nat.sub_diag, firstn_all. cbn [firstn]. rewrite app_nil_r.
  f_equal. rewrite skipn_app, skipn_all, Nat.sub_diag. reflexivity.
Qed.

(** [addTransform] at a position of the table: the new row is put there,
    yellow, and becomes the current row; the cache is left alone. *)
Lemma addTransform_at (w : MONAIViz.Widget) (pre suf : list row)
      (t v : string) (act : bool) :
  MONAIViz.transformTable w = (pre ++ suf)%list ->
  let w' := MONAIViz.addTransform w (len pre) None t v act in
  MONAIViz.transformTable w' = (pre ++ mkRow act Yellow t v :: suf)%list /\
  MONAIViz.currentRow w' = len pre /\
  MONAIViz.ctx w' = MONAIViz.ctx w.
Proof.
  intros Ht w'. subst w'. unfold MONAIViz.addTransform.
  assert (H0 : 0 <= len pre) by (unfold len; lia).
  destruct (Z.leb_spec 0 (len pre)); [|lia].
  rewrite Ht, insertRow_middle.
  unfold MONAIViz.onSelectTransform, MONAIViz.selectRow, MONAIViz.rowCount.
  cbn [MONAIViz.transformTable MONAIViz.set_table].
  assert (H1 : len pre < len (pre ++ mkRow act Yellow t v :: suf)%list).
  { rewrite len_app. unfold len. cbn [List.length]. lia. }
  destruct (Z.leb_spec 0 (len pre)); [|lia].
  destruct (Z.ltb_spec (len pre) (len (pre ++ mkRow act Yellow t v :: suf)%list)); [|lia].
  cbn [andb]. repeat split; reflexivity.
Qed.

Section Moves.

Variable current_after_remove : list row -> Z -> Z.

Let remove := MONAIViz.onRemoveTransform current_after_remove.
Let up := MONAIViz.onMoveUpTransform current_after_remove.
Let down := MONAIViz.onMoveDownTransform current_after_remove.

Lemma onRemoveTransform_middle (w : MONAIViz.Widget) (pre suf : list row) (x : row) :
  MONAIViz.transformTable w = (pre ++ x :: suf)%list ->
  MONAIViz.currentRow w = len pre ->
  MONAIViz.transformTable (remove w) = (pre ++ suf)%list /\
  MONAIViz.ctx (remove w) = MONAIViz.ctx w.
Proof.
  intros Ht Hc. subst remove. unfold MONAIViz.onRemoveTransform.
  rewrite Hc. assert (H0 : 0 <= len pre) by (unfold len; lia).
  destruct (Z.ltb_spec (len pre) 0); [lia|].
  rewrite Ht, removeRow_middle. split; reflexivity.
Qed.

Lemma moveUp_swap (w : MONAIViz.Widget) (pre suf : list row) (x y : row) :
  MONAIViz.transformTable w = (pre ++ y :: x :: suf)%list ->
  MONAIViz.currentRow w = len pre + 1 ->
  fst (up w) = Ok tt /\
  MONAIViz.transformTable (snd (up w)) =
    (pre ++ mkRow (active x) Yellow (target x) (args x) :: y :: suf)%list /\
  MONAIViz.currentRow (snd (up w)) = len pre /\
  MONAIViz.ctx (snd (up w)) = MONAIViz.ctx w.
Proof.
  intros Ht Hc.
  assert (Ht' : MONAIViz.transformTable w = ((pre ++ [y]) ++ x :: suf)%list)
    by (rewrite <- app_assoc; exact Ht).
  assert (Hc' : MONAIViz.currentRow w = len (pre ++ [y])%list)
    by (rewrite len_app; exact Hc).
  destruct (onRemoveTransform_middle w _ _ _ Ht' Hc') as [Rt Rc].
  rewrite <- app_assoc in Rt. cbn [app] in Rt.
  subst up. unfold MONAIViz.onMoveUpTransform.
  rewrite Hc'. assert (H0 : 0 <= len (pre ++ [y])%list) by (unfold len; lia).
  destruct (Z.ltb_spec (len (pre ++ [y])%list) 0); [lia|].
  rewrite Ht', item_middle. cbn [fst snd].
  replace (len (pre ++ [y])%list - 1) with (len pre)
    by (rewrite len_app; unfold len; cbn [List.length]; lia).
  fold remove.
  destruct (addTransform_at (remove w) pre (y :: suf) (target x) (args x) (active x) Rt)
    as (A & B & C).
  split; [reflexivity|]. split; [exact A|]. split; [exact B|]. now rewrite C.
Qed.

Lemma moveDown_swap (w : MONAIViz.Widget) (pre suf : list row) (x y : row) :
  MONAIViz.transformTable w = (pre ++ x :: y :: suf)%list ->
  MONAIViz.currentRow w = len pre ->
  fst (down w) = Ok tt /\
  MONAIViz.transformTable (snd (down w)) =
    (pre ++ y :: mkRow (active x) Yellow (target x) (args x) :: suf)%list /\
  MONAIViz.currentRow (snd (down w)) = len pre + 1 /\
  MONAIViz.ctx (snd (down w)) = MONAIViz.ctx w.
Proof.
  intros Ht Hc.
  destruct (onRemoveTransform_middle w _ _ _ Ht Hc) as [Rt Rc].
  assert (Rt' : MONAIViz.transformTable (remove w) = ((pre ++ [y]) ++ suf)%list)
    by (rewrite <- app_assoc; exact Rt).
  subst down. unfold MONAIViz.onMoveDownTransform.
  rewrite Hc. assert (H0 : 0 <= len pre) by (unfold len; lia).
  destruct (Z.ltb_spec (len pre) 0); [lia|].
  rewrite Ht, item_middle. cbn [fst snd].
  replace (len pre + 1) with (len (pre ++ [y])%list)
    by (rewrite len_app; unfold len; cbn [List.length]; lia).
  fold remove.
  destruct (addTransform_at (remove w) (pre ++ [y]) suf (target x) (args x) (active x) Rt')
    as (A & B & C).
  rewrite <- app_assoc in A. cbn [app] in A.
  split; [reflexivity|]. split; [exact A|]. split; [exact B|]. now rewrite C.
Qed.

Lemma setIcon_middle (i : icon) (pre suf : list row) (x : row) :
  setIcon i (len pre) (pre ++ x :: suf)%list =
  (pre ++ mkRow (active x) i (target x) (args x) :: suf)%list.
Proof.
  unfold setIcon, len.
  destruct (Z.ltb_spec (Z.of_nat (List.length pre)) 0); [lia|].
  rewrite Nat2Z.id. clear. induction pre as [|p pre IH]; [reflexivity|].
  cbn [List.length update_at List.app]. now rewrite IH.
Qed.

(** X1.  Moving the current row up exchanges it with the row above it,
    and moving it down exchanges it with the row below it.  The moved row
    keeps its name, its arguments and its "Active" flag, its status icon
    is yellow again, and it stays the current row; every other row is as
    it was, and so is the execution cache: neither handler resets it. *)
Theorem X1_move_swaps_neighbours :
  forall (w : MONAIViz.Widget) (pre suf : list row) (x y : row),
    let x' := mkRow (active x) Yellow (target x) (args x) in
    (MONAIViz.transformTable w = (pre ++ y :: x :: suf)%list ->
     MONAIViz.currentRow w = len pre + 1 ->
     fst (up w) = Ok tt /\
     MONAIViz.transformTable (snd (up w)) = (pre ++ x' :: y :: suf)%list /\
     MONAIViz.currentRow (snd (up w)) = len pre /\
     MONAIViz.ctx (snd (up w)) = MONAIViz.ctx w) /\
    (MONAIViz.transformTable w = (pre ++ x :: y :: suf)%list ->
     MONAIViz.currentRow w = len pre ->
     fst (down w) = Ok tt /\
     MONAIViz.transformTable (snd (down w)) = (pre ++ y :: x' :: suf)%list /\
     MONAIViz.currentRow (snd (down w)) = len pre + 1 /\
     MONAIViz.ctx (snd (down w)) = MONAIViz.ctx w).
Proof.
  intros w pre suf x y x'. split; intros Ht Hc.
  - now apply moveUp_swap.
  - now apply moveDown_swap.
Qed.

(** X2.  Moving a row up and then down again gives back the table it
    started from, except that the status icon of the moved row is yellow:
    the order of the pipeline, the names, the arguments and the "Active"
    flags are restored, the same row is current, and the cache has not
    been touched. *)
Theorem X2_move_up_then_down_restores_order :
  forall (w : MONAIViz.Widget) (pre suf : list row) (x y : row),
    MONAIViz.transformTable w = (pre ++ y :: x :: suf)%list ->
    MONAIViz.currentRow w = len pre + 1 ->
    let w2 := snd (down (snd (up w))) in
    MONAIViz.transformTable w2 =
      setIcon Yellow (MONAIViz.currentRow w) (MONAIViz.transformTable w) /\
    same_pipeline (MONAIViz.transformTable w2) (MONAIViz.transformTable w) /\
    MONAIViz.currentRow w2 = MONAIViz.currentRow w /\
    MONAIViz.ctx w2 = MONAIViz.ctx w.
Proof.
  intros w pre suf x y Ht Hc w2.
  destruct (moveUp_swap w pre suf x y Ht Hc) as (_ & Ut & Uc & Ux).
  destruct (moveDown_swap (snd (up w)) pre suf
              (mkRow (active x) Yellow (target x) (args x)) y Ut Uc)
    as (_ & Dt & Dc & Dx).
  cbn [active target args] in Dt.
  assert (E : MONAIViz.transformTable w2 =
              setIcon Yellow (MONAIViz.currentRow w) (MONAIViz.transformTable w)).
  { subst w2. rewrite Dt, Hc, Ht.
    replace (len pre + 1) with (len (pre ++ [y])%list)
      by (rewrite len_app; unfold len; cbn [List.length]; lia).
    replace (pre ++ y :: x :: suf)%list with ((pre ++ [y]) ++ x :: suf)%list
      by (now rewrite <- app_assoc).
    rewrite setIcon_middle, <- app_assoc. reflexivity. }
  split; [exact E|]. split; [rewrite E; apply same_pipeline_setIcon|].
  split; [subst w2; now rewrite Dc, Hc | subst w2; now rewrite Dx, Ux].
Qed.

(** X3.  Moving the last row of the table down takes it out of the
    pipeline: the row is removed first, and the position it is then
    inserted at lies one past the end of the shortened table, where the
    table accepts no row. *)
Theorem X3_move_down_on_last_row_drops_it :
  forall (w : MONAIViz.Widget) (pre : list row) (x : row),
    MONAIViz.transformTable w = (pre ++ [x])%list ->
    MONAIViz.currentRow w = len pre ->
    fst (down w) = Ok tt /\
    MONAIViz.transformTable (snd (down w)) = pre /\
    MONAIViz.rowCount (snd (down w)) = MONAIViz.rowCount w - 1 /\
    MONAIViz.ctx (snd (down w)) = MONAIViz.ctx w.
Proof.
  intros w pre x Ht Hc.
  destruct (onRemoveTransform_middle w pre [] x Ht Hc) as [Rt Rc].
  rewrite app_nil_r in Rt.
  subst down. unfold MONAIViz.onMoveDownTransform.
  rewrite Hc. assert (H0 : 0 <= len pre) by (unfold len; lia).
  destruct (Z.ltb_spec (len pre) 0); [lia|].
  rewrite Ht, item_middle. cbn [fst snd]. fold remove.
  unfold MONAIViz.addTransform.
  destruct (Z.leb_spec 0 (len pre + 1)); [|lia].
  rewrite Rt.
  assert (Hi : insertRow (len pre + 1) (mkRow (active x) Yellow (target x) (args x)) pre
               = pre).
  { unfold insertRow.
    destruct (Z.leb_spec (len pre + 1) (len pre)); [lia|].
    now rewrite andb_false_r. }
  rewrite Hi.
  unfold MONAIViz.onSelectTransform, MONAIViz.selectRow, MONAIViz.rowCount.
  cbn [MONAIViz.transformTable MONAIViz.set_table].
  destruct (Z.ltb_spec (len pre + 1) (len pre)); [lia|].
  rewrite andb_false_r.
  cbn [MONAIViz.transformTable MONAIViz.set_table MONAIViz.set_clear_enabled
       MONAIViz.ctx].
  split; [reflexivity|]. split; [reflexivity|]. split.
  - rewrite Ht, len_app. unfold len. cbn [List.length]. lia.
  - exact Rc.
Qed.

End Moves.

Lemma X1_witness :
  let qt (tbl : list row) (r : Z) := r in
  map target (MONAIViz.transformTable
                (snd (MONAIViz.onMoveUpTransform qt
                        (sample_widget sample_table 2 MONAIViz.init)))) =
    ["LoadImaged"; "RandCropByPosNegLabeld"; "Flipd"; "Zoomd"] /\
  map target (MONAIViz.transformTable
                (snd (MONAIViz.onMoveDownTransform qt
                        (sample_widget sample_table 1 MONAIViz.init)))) =
    ["LoadImaged"; "RandCropByPosNegLabeld"; "Flipd"; "Zoomd"].
Proof.
  intros qt.
  destruct (X1_move_swaps_neighbours qt (sample_widget sample_table 2 MONAIViz.init)
              [mkRow true Yellow "LoadImaged" "keys=['image']"]
              [mkRow true Yellow "Zoomd" "keys=['image'], zoom=2"]
              (mkRow true Yellow "RandCropByPosNegLabeld" "keys=['image']")
              (mkRow false Yellow "Flipd" "keys=['image']")) as [U _].
  destruct (X1_move_swaps_neighbours qt (sample_widget sample_table 1 MONAIViz.init)
              [mkRow true Yellow "LoadImaged" "keys=['image']"]
              [mkRow true Yellow "Zoomd" "keys=['image'], zoom=2"]
              (mkRow false Yellow "Flipd" "keys=['image']")
              (mkRow true Yellow "RandCropByPosNegLabeld" "keys=['image']")) as [_ D].
  destruct (U eq_refl eq_refl) as (_ & Ut & _).
  destruct (D eq_refl eq_refl) as (_ & Dt & _).
  split; [rewrite Ut | rewrite Dt]; reflexivity.
Defined.

Lemma X2_witness :
  let qt (tbl : list row) (r : Z) := r in
  let w := sample_widget sample_table 2 MONAIViz.init in
  map target (MONAIViz.transformTable
                (snd (MONAIViz.onMoveDownTransform qt
                        (snd (MONAIViz.onMoveUpTransform qt w))))) =
    map target sample_table.
Proof.
  intros qt w.
  destruct (X2_move_up_then_down_restores_order qt w
              [mkRow true Yellow "LoadImaged" "keys=['image']"]
              [mkRow true Yellow "Zoomd" "keys=['image'], zoom=2"]
              (mkRow true Yellow "RandCropByPosNegLabeld" "keys=['image']")
              (mkRow false Yellow "Flipd" "keys=['image']") eq_refl eq_refl)
    as (E & _).
  rewrite E. reflexivity.
Defined.

Lemma X3_witness :
  let qt (tbl : list row) (r : Z) := r - 1 in
  map target (MONAIViz.transformTable
                (snd (MONAIViz.onMoveDownTransform qt
                        (sample_widget sample_table 3 MONAIViz.init)))) =
    ["LoadImaged"; "Flipd"; "RandCropByPosNegLabeld"].
Proof.
  intros qt.
  destruct (X3_move_down_on_last_row_drops_it qt
              (sample_widget sample_table 3 MONAIViz.init)
              [mkRow true Yellow "LoadImaged" "keys=['image']";
               mkRow false Yellow "Flipd" "keys=['image']";
               mkRow true Yellow "RandCropByPosNegLabeld" "keys=['image']"]
              (mkRow true Yellow "Zoomd" "keys=['image'], zoom=2") eq_refl eq_refl)
    as (_ & T & _).
  rewrite T. reflexivity.
Defined.

(** ** What a run leaves in the table and on the buttons *)

Lemma item_fold_setIcon (i : icon) (rs : list Z) :
  forall (tbl : list row) (r : Z) (x : row),
    item tbl r = Ok x ->
    item (fold_left (fun t r => setIcon i r t) rs tbl) r =
    Ok (if existsb (Z.eqb r) rs then with_status i x else x).
Proof.
  induction rs as [|r' rs IH]; intros tbl r x Hx; cbn [fold_left existsb].
  - exact Hx.
  - pose proof (item_setIcon i r' r tbl) as H. rewrite Hx in H.
    rewrite (IH _ _ _ H).
    destruct (r =? r'); cbn [orb]; [|reflexivity].
    destruct (existsb (Z.eqb r) rs); reflexivity.
Qed.

Lemma existsb_range (r lo hi : Z) :
  existsb (Z.eqb r) (range lo hi) = (lo <=? r) && (r <? hi).
Proof.
  destruct (existsb (Z.eqb r) (range lo hi)) eqn:E.
  - apply existsb_exists in E. destruct E as (y & Hy & E).
    apply Z.eqb_eq in E. subst y. apply in_range in Hy.
    symmetry. apply andb_true_iff. split; [apply Z.leb_le | apply Z.ltb_lt]; lia.
  - symmetry. apply not_true_is_false. intros H. apply andb_true_iff in H.
    destruct H as [H1 H2]. apply Z.leb_le in H1. apply Z.ltb_lt in H2.
    assert (Hin : In r (range lo hi)) by (apply in_range; lia).
    assert (Ht : existsb (Z.eqb r) (range lo hi) = true).
    { apply existsb_exists. exists r. split; [exact Hin | apply Z.eqb_refl]. }
    congruence.
Qed.

Section Icons.

Variable eval_exp : string -> result transform.
Variable host_display : MONAIViz.TransformCtx -> bool.

Let run := MONAIViz.onRunTransform eval_exp host_display.

(** The loop gives every row it walks over the icon of its "Active"
    flag and leaves the other rows as they are. *)
Lemma run_rows_items (key : string) (rows : list Z) :
  forall st st',
    MONAIViz.run_rows eval_exp key rows st = (Ok tt, st') ->
    forall r y,
      item (MONAIViz.ls_table st) r = Ok y ->
      item (MONAIViz.ls_table st') r =
      Ok (if existsb (Z.eqb r) rows then with_status (run_icon y) y else y).
Proof.
  induction rows as [|r0 rows IH]; intros st st' H r y Hy;
    cbn [MONAIViz.run_rows existsb] in *.
  - injection H as <-. exact Hy.
  - destruct (item (MONAIViz.ls_table st) r0) as [x0|] eqn:Hx0; [|discriminate].
    assert (Hstep : forall i, run_icon x0 = i ->
              item (setIcon i r0 (MONAIViz.ls_table st)) r =
              Ok (if r =? r0 then with_status (run_icon y) y else y)).
    { intros i <-. rewrite item_setIcon, Hy.
      destruct (Z.eqb_spec r r0) as [->|]; [|reflexivity].
      rewrite Hx0 in Hy. injection Hy as ->. reflexivity. }
    assert (Hfin : forall y1 : row,
              y1 = (if r =? r0 then with_status (run_icon y) y else y) ->
              (if existsb (Z.eqb r) rows then with_status (run_icon y1) y1 else y1) =
              (if (r =? r0) || existsb (Z.eqb r) rows
               then with_status (run_icon y) y else y)).
    { intros y1 ->. destruct (r =? r0); cbn [orb]; [|reflexivity].
      destruct (existsb (Z.eqb r) rows); reflexivity. }
    unfold run_icon in Hstep at 1.
    destruct (active x0).
    + destruct (t <- eval_exp (MONAIViz.expression x0) ;;
                apply_transform t (MONAIViz.ls_d st)) as [dv|]; [|discriminate].
      destruct (MONAIViz.set_d _ _ _ _) as [[[]|] c]; [|discriminate].
      rewrite (IH _ _ H r _ (Hstep Green eq_refl)). f_equal. now apply Hfin.
    + rewrite (IH _ _ H r _ (Hstep Yellow eq_refl)). f_equal. now apply Hfin.
Qed.

(** The stages of a run that returns, with the widget it leaves. *)
Lemma onRun_returns (w : MONAIViz.Widget) (k : Z) (x : row) :
  truthy (MONAIViz.imagePath w) = true ->
  MONAIViz.currentRow w = k ->
  item (MONAIViz.transformTable w) k = Ok x ->
  MONAIViz.outcome (run w) = Ok tt ->
  let tbl := MONAIViz.transformTable w in
  let e := MONAIViz.expression x in
  exists fresh dv0 st bi,
    MONAIViz.prepare_dict w = Ok fresh /\
    MONAIViz.get_d (MONAIViz.ctx w) (Some e) fresh =
      (Ok dv0, resume_ctx (MONAIViz.ctx w) e) /\
    run_loop eval_exp w e dv0 = (Ok tt, st) /\
    MONAIViz.display host_display (MONAIViz.ls_ctx st) = Ok bi /\
    MONAIViz.transformTable (MONAIViz.after (run w)) =
      fold_left (fun t r => setIcon Yellow r t) (range (k + 1) (len tbl))
                (MONAIViz.ls_table st) /\
    MONAIViz.currentRow (MONAIViz.after (run w)) = next_row tbl k /\
    MONAIViz.ctx (MONAIViz.after (run w)) =
      MONAIViz.set_next (MONAIViz.ls_ctx st) (next_row tbl k)
                        (expression_at tbl (next_row tbl k)) /\
    MONAIViz.clearTransformButton (MONAIViz.after (run w)) =
      MONAIViz.valid (MONAIViz.ctx (MONAIViz.after (run w))).
Proof.
  intros Himg Hk Hx Hout tbl e. subst k. set (k := MONAIViz.currentRow w) in *.
  pose proof (item_Ok_range _ _ _ Hx) as Hrange.
  change (item tbl k = Ok x) in Hx. change (0 <= k < len tbl) in Hrange.
  revert Hout. subst run. unfold MONAIViz.onRunTransform. rewrite Himg. cbn [negb]. fold k.
  destruct (Z.ltb_spec k 0) as [|_]; [lia|].
  assert (Hge : MONAIViz.get_exp tbl k = Ok e)
    by (unfold MONAIViz.get_exp; rewrite Hx; reflexivity).
  fold tbl. rewrite Hge. cbn [bind].
  destruct (MONAIViz.prepare_dict w) as [fresh|] eqn:Hfresh; cbn [bind];
    [|discriminate].
  destruct (get_d_resume' (MONAIViz.ctx w) e fresh) as (dv0 & Hget).
  rewrite Hget.
  match goal with
  | |- context [if (?a =? e)%string then (Ok tt, ?s0) else ?b] =>
      change (if (a =? e)%string then (Ok tt, s0) else b)
        with (run_loop eval_exp w e dv0)
  end.
  destruct (run_loop eval_exp w e dv0) as [[[]|] st] eqn:Hloop; [|discriminate].
  pose proof (run_loop_same_pipeline _ _ _ _ _ Hloop) as P. fold tbl in P.
  rewrite rowCount_set. destruct P as [PL PR].
  cbn [MONAIViz.transformTable MONAIViz.set_ctx MONAIViz.set_table].
  set (w1 := MONAIViz.set_ctx (MONAIViz.set_table w (MONAIViz.ls_table st))
                              (MONAIViz.ls_ctx st)).
  assert (E1 : (if negb (k + 1 <? len (MONAIViz.ls_table st)) then k else k + 1)
               = next_row tbl k).
  { unfold next_row. rewrite PL. destruct (k + 1 <? len tbl); reflexivity. }
  rewrite E1.
  assert (Hnr : 0 <= next_row tbl k < len tbl).
  { unfold next_row. destruct (Z.ltb_spec (k + 1) (len tbl)); lia. }
  destruct (item_in_table (MONAIViz.ls_table st) (next_row tbl k)) as [y Hy]; [lia|].
  assert (E2 : MONAIViz.get_exp (MONAIViz.ls_table st) (next_row tbl k)
               = Ok (expression_at tbl (next_row tbl k))).
  { unfold MONAIViz.get_exp. rewrite Hy. cbn [bind].
    destruct (PR (next_row tbl k)) as [_ <-]. unfold expression_at.
    now rewrite Hy. }
  rewrite E2. rewrite PL.
  assert (Hsel : MONAIViz.selectRow w1 (next_row tbl k) =
                 MONAIViz.set_current w1 (next_row tbl k)).
  { unfold MONAIViz.selectRow, MONAIViz.rowCount. subst w1.
    cbn [MONAIViz.transformTable MONAIViz.set_ctx MONAIViz.set_table]. rewrite PL.
    destruct (Z.leb_spec 0 (next_row tbl k)); [|lia].
    destruct (Z.ltb_spec (next_row tbl k) (len tbl)); [|lia]. reflexivity. }
  rewrite Hsel.
  unfold next_row in *.
  destruct (Z.ltb_spec (k + 1) (len tbl)) as [Hlt|Hge'];
    cbn [negb MONAIViz.ctx MONAIViz.set_table MONAIViz.set_current MONAIViz.set_ctx
         MONAIViz.transformTable MONAIViz.rowCount];
    subst w1;
    cbn [negb MONAIViz.ctx MONAIViz.set_table MONAIViz.set_current MONAIViz.set_ctx
         MONAIViz.transformTable MONAIViz.rowCount];
    destruct (MONAIViz.display host_display (MONAIViz.ls_ctx st)) as [bi|] eqn:Hd;
    try discriminate; intros _;
    exists fresh, dv0, st, bi;
    (split; [reflexivity|]); (split; [exact Hget|]); (split; [exact Hloop|]);
    (split; [exact Hd|]);
    cbn [MONAIViz.after MONAIViz.transformTable MONAIViz.currentRow MONAIViz.ctx
         MONAIViz.clearTransformButton MONAIViz.set_clear_enabled MONAIViz.set_ctx
         MONAIViz.set_table MONAIViz.set_current].
  - unfold MONAIViz.rowCount.
    cbn [MONAIViz.transformTable MONAIViz.set_current MONAIViz.set_ctx
         MONAIViz.set_table].
    rewrite PL. repeat split; reflexivity.
  - rewrite range_nil by lia. repeat split; reflexivity.
Qed.

Lemma len_fold_setIcon (i : icon) (rs : list Z) (tbl : list row) :
  len (fold_left (fun t r => setIcon i r t) rs tbl) = len tbl.
Proof. apply (same_pipeline_fold_setIcon i rs tbl). Qed.

Lemma display_has_data (c : MONAIViz.TransformCtx) (bi : Z) :
  MONAIViz.display host_display c = Ok bi -> MONAIViz.d c <> None.
Proof.
  unfold MONAIViz.display, MONAIViz.batch_index, MONAIViz.batch_item.
  intros H E. rewrite E in H. cbn in H. discriminate H.
Qed.

(** X4.  The "Status" column after a run that returns.  Let row [k] be
    selected, with an expression other than the last-applied one.  Every
    row keeps its name, its arguments and its "Active" flag.  The rows
    below [k] are yellow; of the rows the run walked over, from the
    frontier through [k], the active ones are green and the inactive ones
    yellow; the rows before the frontier keep the icon they had. *)
Theorem X4_status_icons_after_run :
  forall (w : MONAIViz.Widget) (k : Z) (x : row),
    truthy (MONAIViz.imagePath w) = true ->
    MONAIViz.currentRow w = k ->
    item (MONAIViz.transformTable w) k = Ok x ->
    MONAIViz.last_exp (MONAIViz.ctx w) <> MONAIViz.expression x ->
    MONAIViz.outcome (run w) = Ok tt ->
    let tbl := MONAIViz.transformTable w in
    let f := frontier (MONAIViz.ctx w) (MONAIViz.expression x) in
    let tbl' := MONAIViz.transformTable (MONAIViz.after (run w)) in
    len tbl' = len tbl /\
    forall r y,
      item tbl r = Ok y ->
      item tbl' r = Ok (if k <? r then with_status Yellow y
                        else if r <? f then y
                        else with_status (run_icon y) y).
Proof.
  intros w k x Himg Hk Hx Hlast Hout tbl f tbl'.
  destruct (onRun_returns w k x Himg Hk Hx Hout)
    as (fresh & dv0 & st & bi & _ & _ & Hloop & _ & T & _).
  fold tbl in T. subst tbl'. rewrite T. clear T.
  pose proof (run_loop_same_pipeline _ _ _ _ _ Hloop) as [PL _].
  rewrite (run_loop_differs eval_exp w _ dv0 (expression_nonempty x) Hlast) in Hloop.
  rewrite Hk in Hloop. fold f tbl in Hloop.
  split; [rewrite len_fold_setIcon; exact PL|].
  intros r y Hy.
  pose proof (run_rows_items _ _ _ _ Hloop r y Hy) as H1.
  cbn [MONAIViz.ls_table] in H1.
  rewrite (item_fold_setIcon Yellow _ _ r _ H1), !existsb_range.
  pose proof (item_Ok_range _ _ _ Hy) as Hr. fold tbl in Hr.
  destruct (Z.ltb_spec k r); destruct (Z.ltb_spec r f);
    destruct (Z.leb_spec (k + 1) r); destruct (Z.leb_spec f r);
    destruct (Z.ltb_spec r (k + 1)); destruct (Z.ltb_spec r (len tbl));
    try lia; cbn [andb]; reflexivity.
Qed.

(** X5.  A run that returns selects the row below the one it ran (the
    last row stays selected), holds data in its cache, and leaves the
    Clear button enabled exactly when the table has more than one row.
    On a one-row table the frontier stays at row 0, so the cache never
    counts as valid although it holds the result: [onShowDictionary]
    then shows the fresh input dictionary, not the cached one. *)
Theorem X5_run_moves_selection_and_enables_clear :
  forall (w : MONAIViz.Widget) (k : Z) (x : row),
    truthy (MONAIViz.imagePath w) = true ->
    MONAIViz.currentRow w = k ->
    item (MONAIViz.transformTable w) k = Ok x ->
    MONAIViz.outcome (run w) = Ok tt ->
    let w' := MONAIViz.after (run w) in
    MONAIViz.currentRow w' = (if k + 1 <? MONAIViz.rowCount w then k + 1 else k) /\
    MONAIViz.d (MONAIViz.ctx w') <> None /\
    MONAIViz.clearTransformButton w' = negb (MONAIViz.rowCount w =? 1) /\
    (MONAIViz.rowCount w = 1 ->
     MONAIViz.valid (MONAIViz.ctx w') = false /\
     MONAIViz.onShowDictionary w' = (MONAIViz.prepare_dict w', w')).
Proof.
  intros w k x Himg Hk Hx Hout w'.
  destruct (onRun_returns w k x Himg Hk Hx Hout)
    as (fresh & dv0 & st & bi & _ & _ & _ & Hd & _ & R & C & B).
  pose proof (item_Ok_range _ _ _ Hx) as Hr.
  apply display_has_data in Hd.
  destruct (set_next_frontier (MONAIViz.ls_ctx st)
              (next_row (MONAIViz.transformTable w) k)
              (expression_at (MONAIViz.transformTable w)
                 (next_row (MONAIViz.transformTable w) k))) as (S1 & _ & S3 & _).
  fold w' in R, C, B. rewrite <- C in S1, S3.
  assert (Hdata : MONAIViz.d (MONAIViz.ctx w') <> None) by (rewrite S3; exact Hd).
  assert (Hv : MONAIViz.valid (MONAIViz.ctx w') = negb (MONAIViz.rowCount w =? 1)).
  { unfold MONAIViz.valid. destruct (MONAIViz.d (MONAIViz.ctx w')); [|congruence].
    rewrite S1. unfold next_row, MONAIViz.rowCount.
    destruct (Z.ltb_spec (k + 1) (len (MONAIViz.transformTable w)));
      destruct (Z.eqb_spec (len (MONAIViz.transformTable w)) 1);
      cbn [negb];
      match goal with |- context [?a =? 0] => destruct (Z.eqb_spec a 0) end;
      try reflexivity; lia. }
  split; [exact R|]. split; [exact Hdata|]. split; [rewrite B; exact Hv|].
  intros H1. rewrite H1 in Hv. cbn in Hv. split; [exact Hv|].
  unfold MONAIViz.onShowDictionary.
  destruct (MONAIViz.prepare_dict w') as [f|]; [|reflexivity].
  unfold MONAIViz.get_d. rewrite Hv. destruct w'; reflexivity.
Qed.

End Icons.

Lemma X4_witness :
  let tbl' := MONAIViz.transformTable
                (MONAIViz.after (MONAIViz.onRunTransform sample_eval sample_host
                                   (sample_widget sample_table 2 MONAIViz.init))) in
  item tbl' 1 = Ok (mkRow false Yellow "Flipd" "keys=['image']") /\
  item tbl' 2 = Ok (mkRow true Green "RandCropByPosNegLabeld" "keys=['image']") /\
  item tbl' 3 = Ok (mkRow true Yellow "Zoomd" "keys=['image'], zoom=2").
Proof.
  intros tbl'.
  destruct (X4_status_icons_after_run sample_eval sample_host
              (sample_widget sample_table 2 MONAIViz.init) 2
              (mkRow true Yellow "RandCropByPosNegLabeld" "keys=['image']"))
    as [_ H]; [reflexivity | reflexivity | reflexivity | discriminate | reflexivity |].
  split; [| split].
  - apply (H 1 (mkRow false Yellow "Flipd" "keys=['image']")). reflexivity.
  - apply (H 2 (mkRow true Yellow "RandCropByPosNegLabeld" "keys=['image']")).
    reflexivity.
  - apply (H 3 (mkRow true Yellow "Zoomd" "keys=['image'], zoom=2")). reflexivity.
Defined.

Lemma X5_witness :
  let r1 := MONAIViz.onRunTransform sample_eval sample_host
              (sample_widget [mkRow true Yellow "LoadImaged" "keys=['image']"] 0
                             MONAIViz.init) in
  MONAIViz.clearTransformButton (MONAIViz.after r1) = false /\
  fst (MONAIViz.onShowDictionary (MONAIViz.after r1)) =
    Ok (VDict [("image", EStr "/data/image.nii.gz")]).
Proof.
  intros r1.
  destruct (X5_run_moves_selection_and_enables_clear sample_eval sample_host
              (sample_widget [mkRow true Yellow "LoadImaged" "keys=['image']"] 0
                             MONAIViz.init) 0
              (mkRow true Yellow "LoadImaged" "keys=['image']"))
    as (_ & _ & B & S); try reflexivity.
  fold r1 in B, S. split; [exact B|].
  destruct (S eq_refl) as [_ E]. rewrite E. reflexivity.
Defined.

(** ** Toggling a row and clearing the cache *)

Lemma item_nth_error (tbl : list row) (n : nat) :
  item tbl (Z.of_nat n) =
  match nth_error tbl n with
  | Some x => Ok x
  | None => Raised
  end.
Proof.
  unfold item, list_getitem. destruct (Z.ltb_spec (Z.of_nat n) 0); [lia|].
  now rewrite Nat2Z.id.
Qed.

Lemma item_ext (t1 t2 : list row) :
  (forall r, item t1 r = item t2 r) -> t1 = t2.
Proof.
  intros H. apply nth_error_ext. intros n.
  specialize (H (Z.of_nat n)). rewrite !item_nth_error in H.
  destruct (nth_error t1 n), (nth_error t2 n); congruence.
Qed.

Lemma item_map (f : row -> row) (tbl : list row) (r : Z) :
  item (map f tbl) r =
  match item tbl r with
  | Ok x => Ok (f x)
  | Raised => Raised
  end.
Proof.
  unfold item, list_getitem. destruct (r <? 0); [reflexivity|].
  rewrite nth_error_map. destruct (nth_error tbl (Z.to_nat r)); reflexivity.
Qed.

Lemma item_Raised_fold_setIcon (i : icon) (rs : list Z) :
  forall (tbl : list row) (r : Z),
    item tbl r = Raised ->
    item (fold_left (fun t r => setIcon i r t) rs tbl) r = Raised.
Proof.
  induction rs as [|r' rs IH]; intros tbl r H; cbn [fold_left]; [exact H|].
  apply IH. rewrite item_setIcon, H. reflexivity.
Qed.

Lemma all_yellow (tbl : list row) :
  fold_left (fun t r => setIcon Yellow r t) (range 0 (len tbl)) tbl =
  map (with_status Yellow) tbl.
Proof.
  apply item_ext. intros r. rewrite item_map.
  destruct (item tbl r) as [x|] eqn:Hx.
  - rewrite (item_fold_setIcon Yellow _ _ _ _ Hx), existsb_range.
    apply item_Ok_range in Hx.
    destruct (Z.leb_spec 0 r); destruct (Z.ltb_spec r (len tbl)); try lia.
    reflexivity.
  - now apply item_Raised_fold_setIcon.
Qed.

Lemma boxes_added_end (boxes : list Z) :
  boxes_added (len boxes) boxes = (boxes ++ [len boxes])%list.
Proof.
  unfold boxes_added, len.
  destruct (Z.leb_spec 0 (Z.of_nat (List.length boxes))); [|lia].
  rewrite Z.leb_refl. cbn [andb].
  rewrite Nat2Z.id, firstn_all, skipn_all. reflexivity.
Qed.

(** Rows added one below the other hold their own positions. *)
Lemma boxes_appended_range (n : Z) : boxes_appended n = range 0 n.
Proof.
  unfold boxes_appended.
  destruct (Z.le_gt_cases 0 n) as [Hn|Hn]; [|now rewrite range_nil by lia].
  replace n with (Z.of_nat (Z.to_nat n)) by lia.
  induction (Z.to_nat n) as [|k IH]; [reflexivity|].
  replace (Z.of_nat (S k)) with (Z.of_nat k + 1) by lia.
  rewrite range_snoc, fold_left_app, IH by lia. cbn [fold_left].
  replace (Z.of_nat k) with (len (range 0 (Z.of_nat k))) at 1
    by (unfold len; rewrite length_range; lia).
  rewrite boxes_added_end. unfold len. rewrite length_range. do 2 f_equal. lia.
Qed.

Lemma boxes_removed_middle (pre suf : list Z) (x : Z) :
  boxes_removed (len pre) (pre ++ x :: suf)%list = (pre ++ suf)%list.
Proof.
  unfold boxes_removed. rewrite len_app. unfold len. cbn [List.length].
  destruct (Z.leb_spec 0 (Z.of_nat (List.length pre))); [|lia].
  destruct (Z.ltb_spec (Z.of_nat (List.length pre))
              (Z.of_nat (List.length pre) + Z.of_nat (S (List.length suf)))); [|lia].
  cbn [andb]. rewrite Nat2Z.id.
  rewrite firstn_app, Nat.sub_diag, firstn_all. cbn [firstn]. rewrite app_nil_r.
  f_equal. rewrite skipn_app, skipn_all2 by lia.
  replace (S (List.length pre) - List.length pre)%nat with 1%nat by lia. reflexivity.
Qed.

(** Once row [r] is removed, the box of every row from [r] on holds the
    position the row had before. *)
Lemma boxes_after_removal (n r : Z) :
  0 <= r < n ->
  boxes_removed r (boxes_appended n) = (range 0 r ++ range (r + 1) n)%list.
Proof.
  intros H. rewrite boxes_appended_range.
  rewrite (range_app 0 r n), (range_cons r n) by lia.
  replace r with (len (range 0 r)) at 1
    by (unfold len; rewrite length_range; lia).
  apply boxes_removed_middle.
Qed.

(** X6.  A click on the "Active" check box of a row that [addTransform]
    made calls [onBoxClicked] with the number the box was given when the
    row was added.  When that number
    is a row of the table, the click empties the execution cache and
    nothing else: the status icons and the Clear button stay as they
    were, and whichever row is run next, a run that returns starts over
    from row 0.  When it is not, the handler raises and the cache is
    kept.  This happens to a row of the table: in a table filled by
    adding [n] rows one below the other, once a row other than the last
    is removed the box of the last row still holds [n - 1], which is now
    the number of rows. *)
Theorem X6_box_click_empties_the_cache_unless_its_number_is_stale :
  forall (eval_exp : string -> result transform)
         (host_display : MONAIViz.TransformCtx -> bool)
         (w : MONAIViz.Widget) (clicked : bool) (r : Z),
    (forall z : row,
        item (MONAIViz.transformTable w) r = Ok z ->
        let w' := snd (MONAIViz.onBoxClicked w clicked r) in
        fst (MONAIViz.onBoxClicked w clicked r) = Ok tt /\
        MONAIViz.ctx w' = MONAIViz.init /\
        MONAIViz.transformTable w' = MONAIViz.transformTable w /\
        MONAIViz.clearTransformButton w' = MONAIViz.clearTransformButton w /\
        (forall k y,
            truthy (MONAIViz.imagePath w) = true ->
            item (MONAIViz.transformTable w) k = Ok y ->
            let r' := MONAIViz.onRunTransform eval_exp host_display
                        (MONAIViz.set_current w' k) in
            MONAIViz.outcome r' = Ok tt ->
            MONAIViz.trace r' =
              map (event_of (MONAIViz.transformTable w)) (range 0 (k + 1)))) /\
    (item (MONAIViz.transformTable w) r = Raised ->
     MONAIViz.onBoxClicked w clicked r = (Raised, w)) /\
    (forall n removed : Z,
        0 <= removed < n - 1 ->
        MONAIViz.rowCount w = n - 1 ->
        list_getitem (boxes_removed removed (boxes_appended n)) (n - 2) = Ok (n - 1) /\
        MONAIViz.onBoxClicked w clicked (n - 1) = (Raised, w)).
Proof.
  intros eval_exp host_display w clicked r. split; [|split].
  - intros z Hz w'. subst w'.
    unfold MONAIViz.onBoxClicked, MONAIViz.get_exp. rewrite Hz. cbn [bind fst snd].
    split; [reflexivity|]. split; [reflexivity|]. split; [reflexivity|].
    split; [reflexivity|].
    intros k y Himg Hy Hout.
    apply (run_from_empty_cache eval_exp host_display
             (MONAIViz.set_current
                (MONAIViz.set_ctx w
                   (MONAIViz.reset
                      (MONAIViz.set_next (MONAIViz.ctx w) r (MONAIViz.expression z)))) k)
             k y); try assumption; reflexivity.
  - intros Hr. unfold MONAIViz.onBoxClicked, MONAIViz.get_exp. now rewrite Hr.
  - intros n removed Hrm Hn. split.
    + rewrite boxes_after_removal by lia.
      unfold list_getitem.
      rewrite nth_error_app2 by (rewrite length_range; lia).
      rewrite length_range.
      pose proof (list_getitem_range (removed + 1) n (n - 2 - removed) ltac:(lia)) as G.
      unfold list_getitem in G.
      replace (Z.to_nat (n - 2) - Z.to_nat (removed - 0))%nat
        with (Z.to_nat (n - 2 - removed)) by lia.
      rewrite G. f_equal. lia.
    + unfold MONAIViz.onBoxClicked, MONAIViz.get_exp.
      assert (Hi : item (MONAIViz.transformTable w) (n - 1) = Raised).
      { unfold item, list_getitem. unfold MONAIViz.rowCount, len in Hn.
        destruct (n - 1 <? 0); [reflexivity|].
        rewrite (proj2 (nth_error_None _ _)) by lia. reflexivity. }
      now rewrite Hi.
Qed.

Lemma X6_witness :
  let w' := snd (MONAIViz.onBoxClicked (sample_widget sample_table 3 sample_ctx) false 1) in
  let shorter := sample_widget (removeRow 1 sample_table) 2 sample_ctx in
  MONAIViz.ctx w' = MONAIViz.init /\
  MONAIViz.trace (MONAIViz.onRunTransform sample_eval sample_host
                    (MONAIViz.set_current w' 2)) =
    map (event_of sample_table) [0; 1; 2] /\
  boxes_removed 1 (boxes_appended 4) = [0; 2; 3] /\
  MONAIViz.onBoxClicked shorter false 3 = (Raised, shorter).
Proof.
  intros w' shorter.
  destruct (X6_box_click_empties_the_cache_unless_its_number_is_stale
              sample_eval sample_host
              (sample_widget sample_table 3 sample_ctx) false 1)
    as (V & _ & _).
  destruct (V (mkRow false Yellow "Flipd" "keys=['image']") eq_refl)
    as (_ & C & _ & _ & R).
  destruct (X6_box_click_empties_the_cache_unless_its_number_is_stale
              sample_eval sample_host shorter false 3)
    as (_ & _ & S).
  destruct (S 4 1 ltac:(lia) eq_refl) as [_ K].
  split; [exact C|]. split.
  - apply (R 2 (mkRow true Yellow "RandCropByPosNegLabeld" "keys=['image']"));
      reflexivity.
  - split; [reflexivity | exact K].
Defined.

(** X7.  The Clear button empties the execution cache, turns the status
    icon of every row yellow and disables itself; the rows keep their
    order, names, arguments and "Active" flags, and the selection stays
    where it was.  This holds for both variants of the widget. *)
Theorem X7_clear_resets_cache_and_icons :
  forall (w : MONAIViz.Widget) (ow : SlicerMONAIViz.Widget),
    let w' := MONAIViz.onClearTransform w in
    let ow' := SlicerMONAIViz.onClearTransform ow in
    (MONAIViz.ctx w' = MONAIViz.init /\
     MONAIViz.transformTable w' = map (with_status Yellow) (MONAIViz.transformTable w) /\
     MONAIViz.clearTransformButton w' = false /\
     MONAIViz.currentRow w' = MONAIViz.currentRow w) /\
    (SlicerMONAIViz.ctx ow' = SlicerMONAIViz.init /\
     SlicerMONAIViz.transformTable ow' =
       map (with_status Yellow) (SlicerMONAIViz.transformTable ow) /\
     SlicerMONAIViz.clearTransformButton ow' = false /\
     SlicerMONAIViz.currentRow ow' = SlicerMONAIViz.currentRow ow).
Proof.
  intros w ow w' ow'. subst w' ow'.
  unfold MONAIViz.onClearTransform, SlicerMONAIViz.onClearTransform,
    MONAIViz.rowCount, SlicerMONAIViz.rowCount.
  cbn [MONAIViz.transformTable MONAIViz.set_ctx MONAIViz.set_table MONAIViz.ctx
       MONAIViz.set_clear_enabled MONAIViz.clearTransformButton MONAIViz.currentRow
       SlicerMONAIViz.transformTable SlicerMONAIViz.set_ctx SlicerMONAIViz.set_table
       SlicerMONAIViz.ctx SlicerMONAIViz.set_clear_enabled
       SlicerMONAIViz.clearTransformButton SlicerMONAIViz.currentRow].
  rewrite !all_yellow. repeat split.
Qed.

(** ** What [set_d] records while a run walks over the rows *)

Lemma set_d_channel (self self' : MONAIViz.TransformCtx) (dv : value) (exp key : string) :
  MONAIViz.set_d self dv exp key = (Ok tt, self') ->
  MONAIViz.channel self' =
    contains "EnsureChannelFirstd" exp || MONAIViz.channel self.
Proof.
  unfold MONAIViz.set_d.
  destruct (MONAIViz.key_tensor_of self dv key) as [e|]; [|discriminate].
  destruct (shape_of e) as [sh|]; [|discriminate].
  destruct (MONAIViz.original_spatial_shape self).
  - intros [= <-]. cbn. destruct (contains _ exp); reflexivity.
  - destruct (affine_of e); [|discriminate].
    intros [= <-]. cbn. destruct (contains _ exp); reflexivity.
Qed.

Lemma set_d_original_kept (self self' : MONAIViz.TransformCtx) (dv : value)
      (exp key : string) (res : result unit) (s : shape) :
  MONAIViz.set_d self dv exp key = (res, self') ->
  MONAIViz.original_spatial_shape self = Some s ->
  MONAIViz.original_spatial_shape self' = Some s /\
  MONAIViz.original_affine self' = MONAIViz.original_affine self.
Proof.
  unfold MONAIViz.set_d. intros H Hs. rewrite Hs in H.
  destruct (MONAIViz.key_tensor_of self dv key) as [e|];
    [|injection H as _ <-; now split].
  destruct (shape_of e) as [sh|]; [|injection H as _ <-; now split].
  injection H as _ <-. cbn. now split.
Qed.

Lemma set_d_original_captured (self self' : MONAIViz.TransformCtx) (dv : value)
      (exp key : string) :
  MONAIViz.set_d self dv exp key = (Ok tt, self') ->
  MONAIViz.original_spatial_shape self = None ->
  exists ent sh a,
    MONAIViz.key_tensor_of self dv key = Ok ent /\
    shape_of ent = Ok sh /\ affine_of ent = Ok a /\
    MONAIViz.original_spatial_shape self' = Some sh /\
    MONAIViz.original_affine self' = Some a.
Proof.
  unfold MONAIViz.set_d. intros H Hs. rewrite Hs in H.
  destruct (MONAIViz.key_tensor_of self dv key) as [e|]; [|discriminate].
  destruct (shape_of e) as [sh|] eqn:Hsh; [|discriminate].
  destruct (affine_of e) as [a|] eqn:Ha; [|discriminate].
  injection H as <-. exists e, sh, a. repeat split; assumption.
Qed.

Lemma set_next_keeps (self : MONAIViz.TransformCtx) (i : Z) (e : string) :
  MONAIViz.channel (MONAIViz.set_next self i e) = MONAIViz.channel self /\
  MONAIViz.original_spatial_shape (MONAIViz.set_next self i e) =
    MONAIViz.original_spatial_shape self /\
  MONAIViz.original_affine (MONAIViz.set_next self i e) = MONAIViz.original_affine self.
Proof.
  unfold MONAIViz.set_next.
  destruct ((MONAIViz.next_idx self =? i) && (MONAIViz.next_exp self =? e)%string);
    repeat split.
Qed.

Lemma active_exps_cons (tbl : list row) (r : Z) (rows : list Z) (x : row) :
  item tbl r = Ok x ->
  active_exps tbl (r :: rows) =
  if active x then (MONAIViz.expression x :: active_exps tbl rows)%list
  else active_exps tbl rows.
Proof.
  intros Hx. unfold active_exps. cbn [filter]. unfold is_active at 1. rewrite Hx.
  destruct (active x); [|reflexivity].
  cbn [map]. unfold expression_at at 1. now rewrite Hx.
Qed.

Section Recorded.

Variable eval_exp : string -> result transform.
Variable host_display : MONAIViz.TransformCtx -> bool.

Let run := MONAIViz.onRunTransform eval_exp host_display.

Lemma run_rows_channel (key : string) (rows : list Z) :
  forall st st',
    MONAIViz.run_rows eval_exp key rows st = (Ok tt, st') ->
    MONAIViz.channel (MONAIViz.ls_ctx st') =
      existsb (contains "EnsureChannelFirstd")
              (active_exps (MONAIViz.ls_table st) rows)
      || MONAIViz.channel (MONAIViz.ls_ctx st).
Proof.
  induction rows as [|r0 rows IH]; intros st st' H; cbn [MONAIViz.run_rows] in H.
  - injection H as <-. reflexivity.
  - destruct (item (MONAIViz.ls_table st) r0) as [x0|] eqn:Hx0; [|discriminate].
    rewrite (active_exps_cons _ _ _ _ Hx0).
    destruct (active x0).
    + destruct (t <- eval_exp (MONAIViz.expression x0) ;;
                apply_transform t (MONAIViz.ls_d st)) as [dv|]; [|discriminate].
      destruct (MONAIViz.set_d _ _ _ _) as [[[]|] c] eqn:Hset; [|discriminate].
      apply IH in H. cbn [MONAIViz.ls_table MONAIViz.ls_ctx] in H.
      rewrite H, (set_d_channel _ _ _ _ _ Hset).
      rewrite (active_exps_same _ _ rows
                 (same_pipeline_setIcon Green r0 (MONAIViz.ls_table st))).
      cbn [existsb]. rewrite orb_assoc.
      rewrite (orb_comm (existsb _ _) (contains _ _)). reflexivity.
    + apply IH in H. cbn [MONAIViz.ls_table MONAIViz.ls_ctx] in H. rewrite H.
      now rewrite (active_exps_same _ _ rows
                     (same_pipeline_setIcon Yellow r0 (MONAIViz.ls_table st))).
Qed.

Lemma run_rows_original_kept (key : string) (rows : list Z) (s : shape) :
  forall st st',
    MONAIViz.run_rows eval_exp key rows st = (Ok tt, st') ->
    MONAIViz.original_spatial_shape (MONAIViz.ls_ctx st) = Some s ->
    MONAIViz.original_spatial_shape (MONAIViz.ls_ctx st') = Some s /\
    MONAIViz.original_affine (MONAIViz.ls_ctx st') =
      MONAIViz.original_affine (MONAIViz.ls_ctx st).
Proof.
  induction rows as [|r0 rows IH]; intros st st' H Hs; cbn [MONAIViz.run_rows] in H.
  - injection H as <-. now split.
  - destruct (item (MONAIViz.ls_table st) r0) as [x0|] eqn:Hx0; [|discriminate].
    destruct (active x0).
    + destruct (t <- eval_exp (MONAIViz.expression x0) ;;
                apply_transform t (MONAIViz.ls_d st)) as [dv|]; [|discriminate].
      destruct (MONAIViz.set_d _ _ _ _) as [[[]|] c] eqn:Hset; [|discriminate].
      destruct (set_d_original_kept _ _ _ _ _ _ _ Hset Hs) as [K1 K2].
      destruct (IH _ _ H K1) as [I1 I2]. cbn [MONAIViz.ls_ctx] in I2.
      split; [exact I1 | congruence].
    + apply (IH _ _ H Hs).
Qed.

Lemma run_rows_original_captured (key : string) (rows : list Z) :
  forall st st' e1 rest,
    MONAIViz.run_rows eval_exp key rows st = (Ok tt, st') ->
    MONAIViz.original_spatial_shape (MONAIViz.ls_ctx st) = None ->
    active_exps (MONAIViz.ls_table st) rows = (e1 :: rest)%list ->
    exists dv1 ent sh a,
      apply_all eval_exp [e1] (MONAIViz.ls_d st) = Ok dv1 /\
      MONAIViz.key_tensor_of (MONAIViz.ls_ctx st) dv1 key = Ok ent /\
      shape_of ent = Ok sh /\ affine_of ent = Ok a /\
      MONAIViz.original_spatial_shape (MONAIViz.ls_ctx st') = Some sh /\
      MONAIViz.original_affine (MONAIViz.ls_ctx st') = Some a.
Proof.
  induction rows as [|r0 rows IH]; intros st st' e1 rest H Hs Ha;
    cbn [MONAIViz.run_rows] in H.
  - discriminate Ha.
  - destruct (item (MONAIViz.ls_table st) r0) as [x0|] eqn:Hx0; [|discriminate].
    rewrite (active_exps_cons _ _ _ _ Hx0) in Ha.
    destruct (active x0).
    + injection Ha as <- _. rewrite apply_all_one.
      destruct (t <- eval_exp (MONAIViz.expression x0) ;;
                apply_transform t (MONAIViz.ls_d st)) as [dv|]; [|discriminate].
      destruct (MONAIViz.set_d _ _ _ _) as [[[]|] c] eqn:Hset; [|discriminate].
      destruct (set_d_original_captured _ _ _ _ _ Hset Hs)
        as (ent & sh & a & K & S1 & A1 & O1 & O2).
      destruct (run_rows_original_kept _ _ sh _ _ H O1) as [I1 I2].
      cbn [MONAIViz.ls_ctx] in I2.
      exists dv, ent, sh, a. repeat split; try assumption. congruence.
    + rewrite <- (active_exps_same _ _ rows
                    (same_pipeline_setIcon Yellow r0 (MONAIViz.ls_table st))) in Ha.
      apply (IH _ _ _ _ H Hs Ha).
Qed.

(** X8.  The channel flag after a run that returns.  Let row [k] be
    selected, with an expression other than the last-applied one.  The
    flag is set when the text "EnsureChannelFirstd" occurs in the
    expression of one of the active rows the run evaluated, from the
    frontier through [k], or when it was already set in the cache the run
    resumed from; an inactive row never sets it, and no run clears it
    except through the reset of [get_d]. *)
Theorem X8_channel_flag_after_run :
  forall (w : MONAIViz.Widget) (k : Z) (x : row),
    truthy (MONAIViz.imagePath w) = true ->
    MONAIViz.currentRow w = k ->
    item (MONAIViz.transformTable w) k = Ok x ->
    MONAIViz.last_exp (MONAIViz.ctx w) <> MONAIViz.expression x ->
    MONAIViz.outcome (run w) = Ok tt ->
    let tbl := MONAIViz.transformTable w in
    let f := frontier (MONAIViz.ctx w) (MONAIViz.expression x) in
    MONAIViz.channel (MONAIViz.ctx (MONAIViz.after (run w))) =
      existsb (contains "EnsureChannelFirstd") (active_exps tbl (range f (k + 1)))
      || MONAIViz.channel (resume_ctx (MONAIViz.ctx w) (MONAIViz.expression x)).
Proof.
  intros w k x Himg Hk Hx Hlast Hout tbl f.
  destruct (onRun_returns eval_exp host_display w k x Himg Hk Hx Hout)
    as (fresh & dv0 & st & bi & _ & _ & Hloop & _ & _ & _ & C & _).
  fold run in C. rewrite C.
  rewrite (proj1 (set_next_keeps _ _ _)).
  rewrite (run_loop_differs eval_exp w _ dv0 (expression_nonempty x) Hlast) in Hloop.
  rewrite Hk in Hloop. fold f tbl in Hloop.
  apply run_rows_channel in Hloop. exact Hloop.
Qed.

(** X9.  The original shape and affine are captured once.  Let row [k]
    be selected, with an expression other than the last-applied one, and
    let the run return.  When the cache the run resumes from holds an
    original shape, the run leaves it and the original affine as they
    are, however many transforms it applies.  When it holds none, they
    are the shape and the affine of the image tensor in the output of the
    first transform the run applies. *)
Theorem X9_original_shape_is_captured_once :
  forall (w : MONAIViz.Widget) (k : Z) (x : row),
    truthy (MONAIViz.imagePath w) = true ->
    MONAIViz.currentRow w = k ->
    item (MONAIViz.transformTable w) k = Ok x ->
    MONAIViz.last_exp (MONAIViz.ctx w) <> MONAIViz.expression x ->
    MONAIViz.outcome (run w) = Ok tt ->
    let tbl := MONAIViz.transformTable w in
    let f := frontier (MONAIViz.ctx w) (MONAIViz.expression x) in
    let c0 := resume_ctx (MONAIViz.ctx w) (MONAIViz.expression x) in
    let c' := MONAIViz.ctx (MONAIViz.after (run w)) in
    let image_key := settingsValue (MONAIViz.settings w) "MONAIViz/imageKey" "image" in
    (forall s,
        MONAIViz.original_spatial_shape c0 = Some s ->
        MONAIViz.original_spatial_shape c' = Some s /\
        MONAIViz.original_affine c' = MONAIViz.original_affine c0) /\
    (forall e1 rest,
        MONAIViz.original_spatial_shape c0 = None ->
        active_exps tbl (range f (k + 1)) = (e1 :: rest)%list ->
        exists fresh dv0 dv1 ent sh a,
          MONAIViz.prepare_dict w = Ok fresh /\
          fst (MONAIViz.get_d (MONAIViz.ctx w) (Some (MONAIViz.expression x)) fresh)
            = Ok dv0 /\
          apply_all eval_exp [e1] dv0 = Ok dv1 /\
          MONAIViz.key_tensor_of c0 dv1 image_key = Ok ent /\
          shape_of ent = Ok sh /\ affine_of ent = Ok a /\
          MONAIViz.original_spatial_shape c' = Some sh /\
          MONAIViz.original_affine c' = Some a).
Proof.
  intros w k x Himg Hk Hx Hlast Hout tbl f c0 c' image_key.
  destruct (onRun_returns eval_exp host_display w k x Himg Hk Hx Hout)
    as (fresh & dv0 & st & bi & Hf & Hg & Hloop & _ & _ & _ & C & _).
  fold run in C. subst c'. rewrite C.
  destruct (set_next_keeps (MONAIViz.ls_ctx st)
              (next_row (MONAIViz.transformTable w) k)
              (expression_at (MONAIViz.transformTable w)
                 (next_row (MONAIViz.transformTable w) k))) as (_ & -> & ->).
  rewrite (run_loop_differs eval_exp w _ dv0 (expression_nonempty x) Hlast) in Hloop.
  rewrite Hk in Hloop. fold f tbl c0 image_key in Hloop.
  split.
  - intros s Hs. apply (run_rows_original_kept _ _ s _ _ Hloop Hs).
  - intros e1 rest Hs Ha.
    destruct (run_rows_original_captured _ _ _ _ e1 rest Hloop Hs Ha)
      as (dv1 & ent & sh & a & A & K & S1 & A1 & O1 & O2).
    exists fresh, dv0, dv1, ent, sh, a. rewrite Hg.
    repeat split; assumption.
Qed.

End Recorded.

Lemma X8_witness :
  let tbl := [ mkRow true Yellow "LoadImaged" "keys=['image']";
               mkRow true Yellow "EnsureChannelFirstd" "keys=['image']";
               mkRow true Yellow "Flipd" "keys=['image']" ] in
  MONAIViz.channel
    (MONAIViz.ctx (MONAIViz.after (MONAIViz.onRunTransform sample_eval sample_host
                                     (sample_widget tbl 2 MONAIViz.init)))) = true.
Proof.
  intros tbl.
  rewrite (X8_channel_flag_after_run sample_eval sample_host
             (sample_widget tbl 2 MONAIViz.init) 2
             (mkRow true Yellow "Flipd" "keys=['image']"));
    try reflexivity. discriminate.
Defined.

Lemma X9_witness :
  let c' := MONAIViz.ctx
              (MONAIViz.after (MONAIViz.onRunTransform sample_eval sample_host
                                 (sample_widget sample_table 3 sample_ctx))) in
  MONAIViz.original_spatial_shape c' = Some [1; 2; 2] /\
  MONAIViz.original_affine c' = Some [].
Proof.
  intros c'.
  destruct (X9_original_shape_is_captured_once sample_eval sample_host
              (sample_widget sample_table 3 sample_ctx) 3
              (mkRow true Yellow "Zoomd" "keys=['image'], zoom=2"))
    as [_ H]; [reflexivity | reflexivity | reflexivity | discriminate | reflexivity |].
  destruct (H "monai.transforms.LoadImaged(keys=['image'])"
              ["monai.transforms.RandCropByPosNegLabeld(keys=['image'])";
               "monai.transforms.Zoomd(keys=['image'], zoom=2)"] eq_refl eq_refl)
    as (fresh & dv0 & dv1 & ent & sh & a & F & G & A & K & S1 & A1 & O1 & O2).
  vm_compute in F. injection F as <-.
  vm_compute in G. injection G as <-.
  vm_compute in A. injection A as <-.
  vm_compute in K. injection K as <-.
  vm_compute in S1. injection S1 as <-.
  vm_compute in A1. injection A1 as <-.
  split; [exact O1 | exact O2].
Defined.

(** ** The array and the geometry handed to the viewer *)

Lemma key_tensor_selected (self self' : MONAIViz.TransformCtx) (dv : value)
      (key : string) (ent : entry) :
  MONAIViz.key_tensor_of self dv key = Ok ent ->
  MONAIViz.d self' = Some dv ->
  MONAIViz.bidx self' = MONAIViz.bidx self ->
  exists bi m,
    MONAIViz.batch_index self' = Ok bi /\
    MONAIViz.batch_item self' bi = Ok (Some (VDict m)) /\
    lookup key m = Some ent.
Proof.
  intros K D B. unfold MONAIViz.batch_index, MONAIViz.batch_item. rewrite D, B.
  destruct dv as [m|l]; cbn [MONAIViz.key_tensor_of getitem] in K.
  - exists (-1), m. cbn. repeat split.
    destruct (lookup key m); congruence.
  - destruct (Z.eqb_spec (len l) 0) as [|Hl]; [discriminate|].
    assert (Hm : 0 <= MONAIViz.bidx self mod len l).
    { apply Z.mod_pos_bound. unfold len in *. lia. }
    destruct (list_getitem l (MONAIViz.bidx self mod len l)) as [x|] eqn:Hx;
      [|discriminate].
    cbn [bind] in K. destruct x as [m|l']; cbn [getitem] in K; [|discriminate].
    exists (MONAIViz.bidx self mod len l), m.
    destruct (Z.leb_spec 0 (MONAIViz.bidx self mod len l)); [|lia].
    rewrite Hx. cbn [bind]. repeat split.
    destruct (lookup key m); congruence.
Qed.

(** X10.  What the viewer is handed after a step of a run.  Once [set_d]
    has stored a value, [get_tensor] and [get_tensor_osd] read the very
    tensor [set_d] inspected under the image key (of the same batch
    element).  The array has the shape of that tensor, with the axes
    reversed when it is transposed.  When the channel flag is set the
    first axis is squeezed away: it must have length one, and
    [get_tensor] raises for any other tensor, such as a multi-channel
    image.  The geometry is computed from the affine of that tensor. *)
Theorem X10_viewer_reads_the_tensor_set_d_stored :
  forall (scale_affine : option matrix -> option shape -> shape -> result matrix)
         (self self' : MONAIViz.TransformCtx) (dv : value) (exp key : string),
    MONAIViz.set_d self dv exp key = (Ok tt, self') ->
    exists t,
      MONAIViz.key_tensor_of self dv key = Ok (ETensor t) /\
      (MONAIViz.channel self' = false ->
       forall tr, MONAIViz.get_tensor self' key tr =
                  Ok (Some (if tr then List.rev (t_shape t) else t_shape t))) /\
      (MONAIViz.channel self' = true ->
       forall s tr, t_shape t = (1 :: s)%list ->
                    MONAIViz.get_tensor self' key tr =
                    Ok (Some (if tr then List.rev s else s))) /\
      (MONAIViz.channel self' = true ->
       (forall s, t_shape t <> (1 :: s)%list) ->
       forall tr, MONAIViz.get_tensor self' key tr = Raised) /\
      MONAIViz.get_tensor_osd scale_affine self' key false =
        (a <- affine_of (ETensor t) ;; r <- affine_osd a ;; Ok (Some r)).
Proof.
  intros scale_affine self self' dv exp key H.
  destruct (set_d_Ok _ _ _ _ _ H) as (D & _ & _ & _ & B).
  assert (K : exists t, MONAIViz.key_tensor_of self dv key = Ok (ETensor t)).
  { revert H. unfold MONAIViz.set_d.
    destruct (MONAIViz.key_tensor_of self dv key) as [e|]; [|discriminate].
    destruct e as [s|t|]; cbn [shape_of]; try discriminate. intros _. now exists t. }
  destruct K as [t K]. exists t. split; [exact K|].
  destruct (key_tensor_selected _ _ _ _ _ K D B) as (bi & m & I & It & L).
  unfold MONAIViz.get_tensor, MONAIViz.get_tensor_osd.
  rewrite I. cbn [bind]. rewrite It. cbn [bind]. rewrite L.
  split; [| split; [| split]].
  - intros ->. reflexivity.
  - intros -> s tr ->. cbn. reflexivity.
  - intros -> Hs tr. unfold squeeze0. destruct (t_shape t) as [|n s]; [reflexivity|].
    destruct (Z.eqb_spec n 1) as [->|]; [|reflexivity].
    exfalso. apply (Hs s). reflexivity.
  - cbn [shape_of bind]. reflexivity.
Qed.

Lemma X10_witness :
  let c := snd (MONAIViz.set_d MONAIViz.init (VDict [("image", sample_entry)])
                               "monai.transforms.EnsureChannelFirstd(keys=['image'])"
                               "image") in
  MONAIViz.get_tensor c "image" true = Ok (Some [2; 2]).
Proof.
  intros c.
  destruct (X10_viewer_reads_the_tensor_set_d_stored no_scale_affine MONAIViz.init c
              (VDict [("image", sample_entry)])
              "monai.transforms.EnsureChannelFirstd(keys=['image'])" "image" eq_refl)
    as (t & K & _ & H & _).
  vm_compute in K. injection K as <-.
  apply (H eq_refl [2; 2] true eq_refl).
Defined.

(** X11.  The array and the geometry are there together.  Whenever
    [get_tensor] returns an array for a key, [get_tensor_osd] does not
    return [None] for it, so that unpacking its result into origin,
    spacing and direction cannot fail on [None] behind the guard
    [l is not None]; and whenever [get_tensor_osd] returns [None],
    [get_tensor] returns [None] as well. *)
Theorem X11_array_and_geometry_together :
  forall (scale_affine : option matrix -> option shape -> shape -> result matrix)
         (self : MONAIViz.TransformCtx) (key : string) (tr scale : bool),
    (forall s, MONAIViz.get_tensor self key tr = Ok (Some s) ->
               MONAIViz.get_tensor_osd scale_affine self key scale <> Ok None) /\
    (MONAIViz.get_tensor_osd scale_affine self key scale = Ok None ->
     MONAIViz.get_tensor self key tr = Ok None).
Proof.
  intros scale_affine self key tr scale.
  unfold MONAIViz.get_tensor, MONAIViz.get_tensor_osd.
  destruct (MONAIViz.batch_index self) as [bi|]; cbn [bind];
    [|split; [intros s H | intros H]; discriminate].
  destruct (MONAIViz.batch_item self bi) as [[[m|l]|]|]; cbn [bind];
    try (split; [intros s H | intros H]; discriminate).
  destruct (lookup key m) as [[s0|t|]|];
    try (split; [intros s H; discriminate | intros _; reflexivity]).
  cbn [shape_of bind]. split.
  - intros s _.
    destruct (if scale then _ else _) as [a|]; cbn [bind]; [|discriminate].
    destruct (affine_osd a); cbn [bind]; discriminate.
  - destruct (if scale then _ else _) as [a|]; cbn [bind]; [|discriminate].
    destruct (affine_osd a); cbn [bind]; discriminate.
Qed.

Lemma X11_witness :
  MONAIViz.get_tensor_osd no_scale_affine (sample_geometry_ctx sample_affine)
                          "image" false <> Ok None /\
  MONAIViz.get_tensor (sample_geometry_ctx sample_affine) "label" true = Ok None.
Proof.
  destruct (X11_array_and_geometry_together no_scale_affine
              (sample_geometry_ctx sample_affine) "image" true false) as [A _].
  destruct (X11_array_and_geometry_together no_scale_affine
              (sample_geometry_ctx sample_affine) "label" true false) as [_ B].
  split; [apply (A [2; 2; 2; 1]); reflexivity | apply B; reflexivity].
Defined.

(** ** The input dictionary *)

Lemma lookup_dict_set (k k' : string) (e : entry) (m : dict) :
  lookup k (dict_set k' e m) = if (k' =? k)%string then Some e else lookup k m.
Proof.
  induction m as [|[a e'] m IH]; cbn [dict_set lookup].
  - destruct (k' =? k)%string; reflexivity.
  - destruct (String.eqb_spec a k') as [->|Hak]; cbn [lookup].
    + destruct (k' =? k)%string; reflexivity.
    + rewrite IH. destruct (String.eqb_spec a k) as [->|]; [|reflexivity].
      destruct (String.eqb_spec k' k); congruence.
Qed.

Lemma lookup_fold_notin (k : string) (additional : dict) :
  forall m0,
    ~ In k (map fst additional) ->
    lookup k (fold_left (fun m kv => dict_set (fst kv) (snd kv) m) additional m0) =
    lookup k m0.
Proof.
  induction additional as [|[k1 e1] rest IH]; intros m0 Hn; cbn [fold_left fst snd].
  - reflexivity.
  - cbn [map fst In] in Hn. rewrite IH by tauto. rewrite lookup_dict_set.
    destruct (String.eqb_spec k1 k); [tauto | reflexivity].
Qed.

Lemma lookup_fold_in (k : string) (e : entry) (additional : dict) :
  forall m0,
    NoDup (map fst additional) ->
    In (k, e) additional ->
    lookup k (fold_left (fun m kv => dict_set (fst kv) (snd kv) m) additional m0) =
    Some e.
Proof.
  induction additional as [|[k1 e1] rest IH]; intros m0 Hd Hin; cbn [fold_left fst snd].
  - destruct Hin.
  - cbn [map fst] in Hd. inversion Hd as [|? ? Hn Hd']; subst.
    destruct Hin as [[= -> ->]|Hin].
    + rewrite lookup_fold_notin by assumption.
      rewrite lookup_dict_set, String.eqb_refl. reflexivity.
    + now apply IH.
Qed.

(** X12.  The dictionary a run starts from.  When the text box holds a
    JSON object, [prepare_dict] returns a dictionary in which: the label
    key is bound to the label path whenever a label is chosen, whatever
    else is named by that key; every entry of the JSON object is present
    under its key (unless the label replaces it), including one under the
    image key, which then replaces the chosen image path; and any other
    key is bound only if it is the image key, to the image path.  When
    the text box does not hold a JSON object, [prepare_dict] raises. *)
Theorem X12_prepare_dict_bindings :
  forall (w : MONAIViz.Widget),
    let image_key := settingsValue (MONAIViz.settings w) "MONAIViz/imageKey" "image" in
    let label_key := settingsValue (MONAIViz.settings w) "MONAIViz/labelKey" "label" in
    (MONAIViz.textEdit w = Raised -> MONAIViz.prepare_dict w = Raised) /\
    (forall additional,
        MONAIViz.textEdit w = Ok additional ->
        NoDup (map fst additional) ->
        exists m,
          MONAIViz.prepare_dict w = Ok (VDict m) /\
          (MONAIViz.labelPath w <> "" ->
           lookup label_key m = Some (EStr (MONAIViz.labelPath w))) /\
          (forall k e,
              MONAIViz.labelPath w = "" \/ k <> label_key ->
              In (k, e) additional ->
              lookup k m = Some e) /\
          (forall k,
              MONAIViz.labelPath w = "" \/ k <> label_key ->
              ~ In k (map fst additional) ->
              lookup k m = if (k =? image_key)%string
                           then Some (EStr (MONAIViz.imagePath w)) else None)).
Proof.
  intros w image_key label_key. unfold MONAIViz.prepare_dict. split.
  - intros ->. reflexivity.
  - intros additional -> Hd. cbn [bind]. fold image_key label_key.
    eexists. split; [reflexivity|].
    assert (Hl : forall k, MONAIViz.labelPath w = "" \/ k <> label_key ->
               forall m0 : dict,
                 lookup k (if truthy (MONAIViz.labelPath w)
                           then dict_set label_key (EStr (MONAIViz.labelPath w)) m0
                           else m0) = lookup k m0).
    { intros k [E|E] m0.
      - rewrite E. reflexivity.
      - destruct (truthy (MONAIViz.labelPath w)); [|reflexivity].
        rewrite lookup_dict_set. destruct (String.eqb_spec label_key k); congruence. }
    split; [| split].
    + intros Hne. apply truthy_true_iff in Hne. rewrite Hne.
      rewrite lookup_dict_set, String.eqb_refl. reflexivity.
    + intros k e Hk Hin. rewrite (Hl k Hk). now apply lookup_fold_in.
    + intros k Hk Hn. rewrite (Hl k Hk), lookup_fold_notin by assumption.
      cbn [lookup]. rewrite String.eqb_sym. reflexivity.
Qed.

Lemma X12_witness :
  let w := MONAIViz.mkWidget [] (-1) "/data/image.nii.gz" "/data/label.nii.gz"
             (Ok [("image", EStr "/data/other.nii.gz"); ("mode", EStr "test")])
             "monai.transforms" "LoadImaged" [] false MONAIViz.init in
  exists m,
    MONAIViz.prepare_dict w = Ok (VDict m) /\
    lookup "label" m = Some (EStr "/data/label.nii.gz") /\
    lookup "image" m = Some (EStr "/data/other.nii.gz") /\
    lookup "spacing" m = None.
Proof.
  intros w.
  destruct (X12_prepare_dict_bindings w) as [_ H].
  destruct (H [("image", EStr "/data/other.nii.gz"); ("mode", EStr "test")] eq_refl)
    as (m & P & L & A & N).
  - repeat constructor; cbn; intuition discriminate.
  - exists m. split; [exact P|]. split; [| split].
    + apply L. discriminate.
    + apply A; [right; discriminate | left; reflexivity].
    + rewrite N; [reflexivity | right; discriminate |].
      cbn. intuition discriminate.
Defined.

(** ** Importing a pipeline file *)

Lemma load_saved_entry_at (w : MONAIViz.Widget) (pre old : list row) (x : row) :
  target x <> "" ->
  MONAIViz.transformTable w = (pre ++ old)%list ->
  exists w',
    MONAIViz.load_one w (fst (saved_entry (len pre, x)))
                      (snd (saved_entry (len pre, x))) = (Ok tt, w') /\
    MONAIViz.transformTable w' = (pre ++ imported x :: old)%list /\
    MONAIViz.currentRow w' = len pre /\
    MONAIViz.ctx w' = MONAIViz.ctx w.
Proof.
  intros Ht Hw. unfold saved_entry, MONAIViz.load_one. cbn [fst snd].
  change (json_find "name" [("name", JStr (target x)); ("args", JStr (args x))])
    with (Some (JStr (target x))).
  change (json_find "args" [("name", JStr (target x)); ("args", JStr (args x))])
    with (Some (JStr (args x))).
  unfold imported, keeps_args.
  destruct (ends_in_d_spec (target x) Ht) as (b & -> & _).
  rewrite int_of_str_of_int.
  destruct (b && negb (excluded (target x))); eexists; (split; [reflexivity|]);
    apply (addTransform_at w pre old _ _ true Hw).
Qed.

Lemma load_saved_rows_at (suf : list row) :
  forall (w : MONAIViz.Widget) (pre old : list row),
    Forall (fun x => target x <> "") suf ->
    MONAIViz.transformTable w = (pre ++ old)%list ->
    exists w',
      MONAIViz.load_items w (map saved_entry (indexed (len pre) suf)) = (Ok tt, w') /\
      MONAIViz.transformTable w' = (pre ++ map imported suf ++ old)%list /\
      MONAIViz.ctx w' = MONAIViz.ctx w /\
      (suf <> [] -> MONAIViz.currentRow w' = len pre + len suf - 1).
Proof.
  induction suf as [|x suf IH]; intros w pre old Hs Hw.
  - exists w. split; [reflexivity|]. split; [exact Hw|]. split; [reflexivity|].
    congruence.
  - inversion Hs as [|? ? Hx Hs']; subst.
    destruct (load_saved_entry_at w pre old x Hx Hw) as (w1 & L1 & T1 & C1 & X1).
    cbn [indexed map MONAIViz.load_items].
    destruct (saved_entry (len pre, x)) as [idx tr] eqn:E.
    cbn [fst snd] in L1. rewrite L1.
    assert (T1' : MONAIViz.transformTable w1 = ((pre ++ [imported x]) ++ old)%list)
      by (rewrite <- app_assoc; exact T1).
    destruct (IH w1 (pre ++ [imported x])%list old Hs' T1') as (w' & L & T & C & R).
    assert (Hl : len (pre ++ [imported x])%list = len pre + 1)
      by (rewrite len_app; reflexivity).
    rewrite Hl in L, R. exists w'. split; [exact L|]. split; [|split].
    + rewrite T, <- app_assoc. reflexivity.
    + congruence.
    + intros _. destruct suf as [|y suf'].
      * cbn [MONAIViz.load_items map indexed] in L. injection L as <-.
        rewrite C1. unfold len. cbn [List.length]. lia.
      * rewrite R by discriminate. unfold len. cbn [List.length]. lia.
Qed.

Lemma imported_idempotent (x : row) : imported (imported x) = imported x.
Proof.
  unfold imported. cbn [target args]. destruct (keeps_args (target x)); reflexivity.
Qed.

Lemma save_table (w : MONAIViz.Widget) :
  MONAIViz.onSaveTransform w =
  Ok (JObj (map saved_entry (indexed 0 (MONAIViz.transformTable w)))).
Proof.
  unfold MONAIViz.onSaveTransform, MONAIViz.rowCount.
  pose proof (save_rows (MONAIViz.transformTable w) []) as H.
  change ([] ++ MONAIViz.transformTable w)%list with (MONAIViz.transformTable w) in H.
  change (len (@nil row)) with 0 in H. rewrite H. reflexivity.
Qed.

(** X13.  Importing into a table that already holds rows.  The rows of
    the file are inserted at the indices they were saved under, so the
    imported pipeline comes first, in the order of the file, and the rows
    the table held follow it; the last imported row is the current one.
    The execution cache is not reset by the import. *)
Theorem X13_import_goes_on_top :
  forall (w : MONAIViz.Widget) (rows : list row),
    Forall (fun x => target x <> "") rows ->
    exists w',
      MONAIViz.onLoadTransform w (JObj (map saved_entry (indexed 0 rows))) =
        (Ok tt, w') /\
      MONAIViz.transformTable w' = (map imported rows ++ MONAIViz.transformTable w)%list /\
      MONAIViz.ctx w' = MONAIViz.ctx w /\
      (rows <> [] -> MONAIViz.currentRow w' = len rows - 1).
Proof.
  intros w rows Hn.
  destruct (load_saved_rows_at rows w [] (MONAIViz.transformTable w) Hn eq_refl)
    as (w' & L & T & C & R).
  exists w'. split; [exact L|]. split; [exact T|]. split; [exact C|].
  intros Hne. rewrite (R Hne). reflexivity.
Qed.

Lemma X13_witness :
  exists w',
    MONAIViz.onLoadTransform (sample_widget sample_mixed_table 0 sample_ctx)
      (JObj (map saved_entry (indexed 0 sample_bad_table))) = (Ok tt, w') /\
    map target (MONAIViz.transformTable w') =
      ["LoadImaged"; "BadFlipd"; "LoadImage"; "Flipd"] /\
    MONAIViz.ctx w' = sample_ctx.
Proof.
  destruct (X13_import_goes_on_top (sample_widget sample_mixed_table 0 sample_ctx)
              sample_bad_table) as (w' & L & T & C & _).
  - repeat constructor; discriminate.
  - exists w'. split; [exact L|]. split; [rewrite T; reflexivity | exact C].
Defined.

(** X14.  Export and import settle after one round.  Whatever the
    pipeline (with named rows), the table obtained by exporting it and
    importing the file into an empty table is reproduced exactly, row by
    row, when it is in turn exported and imported into an empty table:
    the arguments an import drops are dropped the first time, and nothing
    more is lost afterwards. *)
Theorem X14_export_import_settles :
  forall (w w0 w0' : MONAIViz.Widget),
    Forall (fun x => target x <> "") (MONAIViz.transformTable w) ->
    MONAIViz.transformTable w0 = [] ->
    MONAIViz.transformTable w0' = [] ->
    exists file w1 file1 w2,
      MONAIViz.onSaveTransform w = Ok file /\
      MONAIViz.onLoadTransform w0 file = (Ok tt, w1) /\
      MONAIViz.onSaveTransform w1 = Ok file1 /\
      MONAIViz.onLoadTransform w0' file1 = (Ok tt, w2) /\
      MONAIViz.transformTable w2 = MONAIViz.transformTable w1.
Proof.
  intros w w0 w0' Hn H0 H0'.
  destruct (load_saved_rows_at (MONAIViz.transformTable w) w0 [] [] Hn H0)
    as (w1 & L1 & T1 & _).
  rewrite app_nil_r in T1. cbn [List.app] in T1.
  assert (Hn1 : Forall (fun x => target x <> "") (MONAIViz.transformTable w1)).
  { rewrite T1. apply Forall_map. eapply Forall_impl; [|exact Hn]. intros x Hx. exact Hx. }
  destruct (load_saved_rows_at (MONAIViz.transformTable w1) w0' [] [] Hn1 H0')
    as (w2 & L2 & T2 & _).
  rewrite app_nil_r in T2. cbn [List.app] in T2.
  exists (JObj (map saved_entry (indexed 0 (MONAIViz.transformTable w)))), w1,
         (JObj (map saved_entry (indexed 0 (MONAIViz.transformTable w1)))), w2.
  split; [apply save_table|]. split; [exact L1|]. split; [apply save_table|].
  split; [exact L2|].
  rewrite T2, T1, map_map. apply map_ext. intros x. apply imported_idempotent.
Qed.

Lemma X14_witness :
  exists file w1 file1 w2,
    MONAIViz.onSaveTransform (sample_widget sample_mixed_table 0 MONAIViz.init) = Ok file /\
    MONAIViz.onLoadTransform (sample_add_widget "Flipd" []) file = (Ok tt, w1) /\
    MONAIViz.onSaveTransform w1 = Ok file1 /\
    MONAIViz.onLoadTransform (sample_add_widget "Flipd" []) file1 = (Ok tt, w2) /\
    MONAIViz.transformTable w2 = MONAIViz.transformTable w1.
Proof.
  apply (X14_export_import_settles (sample_widget sample_mixed_table 0 MONAIViz.init)
           (sample_add_widget "Flipd" []) (sample_add_widget "Flipd" [])).
  - repeat constructor; discriminate.
  - reflexivity.
  - reflexivity.
Defined.




(** ** Adding transforms one after the other *)

Lemma insertion_point_nonneg (w : MONAIViz.Widget) : 0 <= insertion_point w.
Proof.
  unfold insertion_point, MONAIViz.rowCount, len.
  destruct (Z.ltb_spec (MONAIViz.currentRow w) 0); lia.
Qed.

Lemma addTransform_default (w : MONAIViz.Widget) (m : option string) (t v : string)
      (act : bool) :
  MONAIViz.addTransform w (-1) m t v act =
  MONAIViz.addTransform w (insertion_point w) m t v act.
Proof.
  pose proof (insertion_point_nonneg w) as H.
  unfold MONAIViz.addTransform. fold (insertion_point w).
  change (0 <=? -1) with false. cbv iota.
  destruct (Z.leb_spec 0 (insertion_point w)); [reflexivity | lia].
Qed.

Lemma onAddTransform_at (w : MONAIViz.Widget) (t : string) (pre suf : list row) :
  MONAIViz.modulesComboBox w <> "" ->
  t <> "" ->
  MONAIViz.transformTable w = (pre ++ suf)%list ->
  insertion_point w = len pre ->
  let w' := snd (MONAIViz.onAddTransform (choose w t)) in
  MONAIViz.transformTable w' = (pre ++ added (MONAIViz.settings w) t :: suf)%list /\
  MONAIViz.currentRow w' = len pre /\
  MONAIViz.modulesComboBox w' = MONAIViz.modulesComboBox w /\
  MONAIViz.settings w' = MONAIViz.settings w /\
  MONAIViz.ctx w' = MONAIViz.ctx w.
Proof.
  intros Hm Ht Hw Hp w'. subst w'. unfold MONAIViz.onAddTransform.
  cbn [choose MONAIViz.modulesComboBox MONAIViz.transformsComboBox MONAIViz.settings].
  apply truthy_true_iff in Hm. rewrite Hm.
  pose proof Ht as Ht'. apply truthy_true_iff in Ht'. rewrite Ht'. cbn [negb orb].
  unfold added, keeps_args.
  destruct (ends_in_d_spec t Ht) as (b & -> & _). cbn [snd].
  rewrite addTransform_default.
  assert (Hp' : insertion_point (choose w t) = len pre) by exact Hp.
  rewrite Hp'.
  destruct (addTransform_at (choose w t) pre suf t
              (if b && negb (excluded t)
               then "keys=['" ++ settingsValue (MONAIViz.settings w)
                                   "SlicerMONAIViz/imageKey" "image" ++ "', '"
                    ++ settingsValue (MONAIViz.settings w)
                         "SlicerMONAIViz/labelKey" "label" ++ "']"
               else "") true Hw) as (A & B & C).
  split; [exact A|]. split; [exact B|].
  unfold MONAIViz.addTransform, MONAIViz.onSelectTransform, MONAIViz.selectRow.
  match goal with
  | |- context [if ?c then MONAIViz.set_current ?a ?b else ?a'] => destruct c
  end; repeat split.
Qed.

(** X16.  Transforms added one after the other keep their order.  Let
    the rows [pre] be those up to and including the current row (all the
    rows, when no row is current), and [suf] the rows below it.  After
    [onAddTransform] has been called for each of the names [ts] in turn,
    the table holds [pre], then one new row for each name, in the order
    they were added, then [suf]; the last row added is the current one.
    Each new row is active and yellow, carries the bare name, without a
    module prefix, and the arguments suggested for it; the cache is not
    reset. *)
Theorem X16_added_transforms_keep_their_order :
  forall (ts : list string) (w : MONAIViz.Widget) (pre suf : list row),
    MONAIViz.modulesComboBox w <> "" ->
    Forall (fun t => t <> "") ts ->
    MONAIViz.transformTable w = (pre ++ suf)%list ->
    insertion_point w = len pre ->
    MONAIViz.transformTable (add_each w ts) =
      (pre ++ map (added (MONAIViz.settings w)) ts ++ suf)%list /\
    (ts <> [] -> MONAIViz.currentRow (add_each w ts) = len pre + len ts - 1) /\
    MONAIViz.ctx (add_each w ts) = MONAIViz.ctx w.
Proof.
  induction ts as [|t ts IH]; intros w pre suf Hm Hts Hw Hp; cbn [add_each map].
  - split; [exact Hw|]. split; [congruence | reflexivity].
  - inversion Hts as [|? ? Ht Hts']; subst.
    destruct (onAddTransform_at w t pre suf Hm Ht Hw Hp) as (A & B & M & S & C).
    set (w1 := snd (MONAIViz.onAddTransform (choose w t))) in *.
    assert (A' : MONAIViz.transformTable w1 =
                 ((pre ++ [added (MONAIViz.settings w) t]) ++ suf)%list)
      by (rewrite <- app_assoc; exact A).
    assert (Hl : len (pre ++ [added (MONAIViz.settings w) t])%list = len pre + 1)
      by (rewrite len_app; reflexivity).
    assert (Hp1 : insertion_point w1 = len (pre ++ [added (MONAIViz.settings w) t])%list).
    { unfold insertion_point. rewrite B, Hl.
      destruct (Z.ltb_spec (len pre) 0); [unfold len in *; lia | reflexivity]. }
    assert (Hm1 : MONAIViz.modulesComboBox w1 <> "") by (rewrite M; exact Hm).
    destruct (IH w1 _ suf Hm1 Hts' A' Hp1) as (T & R & X).
    rewrite S in T. split; [| split].
    + rewrite T, <- app_assoc. reflexivity.
    + intros _. destruct ts as [|t' ts'].
      * cbn [add_each]. rewrite B. unfold len. cbn [List.length]. lia.
      * rewrite R by discriminate. rewrite Hl. unfold len. cbn [List.length]. lia.
    + congruence.
Qed.

Lemma X16_witness :
  let w := add_each (sample_add_widget "" []) ["LoadImaged"; "Flip"; "Zoomd"] in
  map target (MONAIViz.transformTable w) = ["LoadImaged"; "Flip"; "Zoomd"] /\
  map args (MONAIViz.transformTable w) =
    ["keys=['image', 'label']"; ""; "keys=['image', 'label']"] /\
  MONAIViz.currentRow w = 2.
Proof.
  intros w.
  destruct (X16_added_transforms_keep_their_order ["LoadImaged"; "Flip"; "Zoomd"]
              (sample_add_widget "" []) [] []) as (T & R & _).
  - discriminate.
  - repeat constructor; discriminate.
  - reflexivity.
  - reflexivity.
  - subst w. rewrite T. split; [reflexivity|]. split; [reflexivity|].
    rewrite R by discriminate. reflexivity.
Defined.

(** X17.  The key names of the suggestion and of the run are read from
    different settings.  [onAddTransform] reads "SlicerMONAIViz/imageKey"
    and "SlicerMONAIViz/labelKey", which the settings panel of
    [MONAIViz.py] does not write: as long as they are unset, the keys it
    suggests for a dictionary transform are 'image' and 'label', whatever
    the "MONAIViz/imageKey" setting says.  [prepare_dict] stores the image
    path under the "MONAIViz/imageKey" setting: when that is another name
    than "image", the dictionary a run starts from has no entry under the
    suggested key 'image' (unless the extra JSON or the label key
    provides one). *)
Theorem X17_suggested_keys_ignore_the_panel_settings :
  forall (w : MONAIViz.Widget) (additional : dict),
    MONAIViz.modulesComboBox w <> "" ->
    keeps_args (MONAIViz.transformsComboBox w) = true ->
    settings_find "SlicerMONAIViz/imageKey" (MONAIViz.settings w) = None ->
    settings_find "SlicerMONAIViz/labelKey" (MONAIViz.settings w) = None ->
    MONAIViz.textEdit w = Ok additional ->
    let image_key := settingsValue (MONAIViz.settings w) "MONAIViz/imageKey" "image" in
    let label_key := settingsValue (MONAIViz.settings w) "MONAIViz/labelKey" "label" in
    fst (MONAIViz.onAddTransform w) = Ok (Some "keys=['image', 'label']") /\
    (image_key <> "image" ->
     ~ In "image" (map fst additional) ->
     MONAIViz.labelPath w = "" \/ label_key <> "image" ->
     exists m, MONAIViz.prepare_dict w = Ok (VDict m) /\ lookup "image" m = None).
Proof.
  intros w additional Hm Hk Hi Hl Ht image_key label_key. split.
  - unfold MONAIViz.onAddTransform, settingsValue. rewrite Hi, Hl.
    apply truthy_true_iff in Hm. rewrite Hm.
    unfold keeps_args in Hk.
    destruct (MONAIViz.transformsComboBox w) as [|a t] eqn:E; [discriminate Hk|].
    cbn [truthy String.eqb negb orb].
    destruct (ends_in_d (String a t)) as [b|]; [|discriminate].
    rewrite Hk. reflexivity.
  - intros Hne Hn Hlab. unfold MONAIViz.prepare_dict. rewrite Ht. cbn [bind].
    fold image_key label_key. eexists. split; [reflexivity|].
    assert (H0 : lookup "image"
                   (fold_left (fun m kv => dict_set (fst kv) (snd kv) m) additional
                              [(image_key, EStr (MONAIViz.imagePath w))]) = None).
    { rewrite lookup_fold_notin by assumption. cbn [lookup].
      destruct (String.eqb_spec image_key "image"); [contradiction | reflexivity]. }
    destruct Hlab as [E|E].
    + rewrite E. exact H0.
    + destruct (truthy (MONAIViz.labelPath w)); [|exact H0].
      rewrite lookup_dict_set.
      destruct (String.eqb_spec label_key "image"); [contradiction | exact H0].
Qed.

Lemma X17_witness :
  let st := [("MONAIViz/imageKey", "img"); ("MONAIViz/labelKey", "seg")] in
  let w := sample_add_widget "LoadImaged" st in
  fst (MONAIViz.onAddTransform w) = Ok (Some "keys=['image', 'label']") /\
  exists m, MONAIViz.prepare_dict w = Ok (VDict m) /\ lookup "image" m = None.
Proof.
  intros st w.
  destruct (X17_suggested_keys_ignore_the_panel_settings w [])
    as [A B]; try reflexivity; [discriminate|].
  split; [exact A|]. apply B.
  - discriminate.
  - intros [].
  - left. reflexivity.
Defined.

(** ** The fields of a catalog entry *)

Lemma split_nonempty (c : ascii) (s : string) : Utils.split c s <> [].
Proof.
  destruct s as [|a s]; cbn [Utils.split]; [discriminate|].
  destruct (Ascii.eqb a c); [discriminate|].
  destruct (Utils.split c s); discriminate.
Qed.

Lemma concat_cons (sep x : string) (l : list string) :
  l <> [] -> String.concat sep (x :: l) = x ++ sep ++ String.concat sep l.
Proof. destruct l; [congruence | reflexivity]. Qed.

(** Joining the pieces of [split] gives the string back. *)
Lemma concat_split (s : string) : String.concat "." (Utils.split "." s) = s.
Proof.
  induction s as [|a s IH]; [reflexivity|]. cbn [Utils.split].
  destruct (Ascii.eqb_spec a ".") as [->|Hne].
  - rewrite concat_cons by apply split_nonempty. rewrite IH. reflexivity.
  - pose proof (split_nonempty "." s) as Hs.
    destruct (Utils.split "." s) as [|h t]; [congruence|].
    destruct t as [|h' t'].
    + cbn [String.concat] in *. now rewrite IH.
    + rewrite concat_cons in * by discriminate.
      change (String a h ++ "." ++ String.concat "." (h' :: t'))
        with (String a (h ++ "." ++ String.concat "." (h' :: t'))).
      now rewrite IH.
Qed.

Lemma append_empty_r (s : string) : s ++ "" = s.
Proof. induction s as [|c s IH]; cbn; [reflexivity | now rewrite IH]. Qed.

Lemma append_assoc' (a b c : string) : (a ++ b) ++ c = a ++ b ++ c.
Proof. induction a as [|x a IH]; cbn; [reflexivity | now rewrite IH]. Qed.

Lemma concat_firstn_prefix (k : nat) :
  forall l : list string,
    exists rest, String.concat "." l = String.concat "." (firstn k l) ++ rest.
Proof.
  induction k as [|k IH]; intros l.
  - exists (String.concat "." l). reflexivity.
  - destruct l as [|x l]; [exists ""; reflexivity|]. cbn [firstn].
    destruct l as [|y l].
    + destruct k; exists ""; cbn; now rewrite append_empty_r.
    + destruct (IH (y :: l)) as [rest Hr].
      rewrite concat_cons by discriminate.
      destruct k as [|k'].
      * cbn [firstn String.concat]. exists ("." ++ String.concat "." (y :: l)).
        reflexivity.
      * rewrite (concat_cons "." x (firstn (S k') (y :: l)))
          by (cbn [firstn]; discriminate).
        exists rest. rewrite Hr. now rewrite !append_assoc'.
Qed.

Lemma length_append' (a b : string) :
  String.length (a ++ b) = (String.length a + String.length b)%nat.
Proof. induction a as [|c a IH]; cbn; [reflexivity | now rewrite IH]. Qed.

Lemma substring_all (s : string) : substring 0 (String.length s) s = s.
Proof. induction s as [|c s IH]; cbn; [reflexivity | now rewrite IH]. Qed.

Lemma substring_append (p s : string) :
  substring (String.length p) (String.length s) (p ++ s) = s.
Proof. induction p as [|c p IH]; cbn [append String.length substring]; [apply substring_all | exact IH]. Qed.

Lemma substring_split (n : nat) :
  forall s, (n <= String.length s)%nat ->
            s = substring 0 n s ++ substring n (String.length s - n) s.
Proof.
  induction n as [|n IH]; intros s Hn.
  - rewrite Nat.sub_0_r, substring_all. destruct s; reflexivity.
  - destruct s as [|c s]; cbn [String.length] in Hn; [lia|].
    cbn [substring String.length Nat.sub append]. f_equal. apply IH. lia.
Qed.

Lemma endswith_spec (s suffix : string) :
  Utils.endswith s suffix = true <-> exists p, s = p ++ suffix.
Proof.
  unfold Utils.endswith. rewrite andb_true_iff, Nat.leb_le, String.eqb_eq. split.
  - intros [Hl Hs].
    exists (substring 0 (String.length s - String.length suffix) s).
    rewrite (substring_split (String.length s - String.length suffix) s) at 1 by lia.
    f_equal.
    replace (String.length s - (String.length s - String.length suffix))%nat
      with (String.length suffix) by lia.
    exact Hs.
  - intros [p ->]. rewrite length_append'. split; [lia|].
    replace (String.length p + String.length suffix - String.length suffix)%nat
      with (String.length p) by lia.
    apply substring_append.
Qed.

Lemma derived_fields_append_alias (cp n : string) (res : Utils.catalog) :
  Forall (fun kv => derived_fields (snd kv)) res ->
  Forall (fun kv => derived_fields (snd kv)) (Utils.append_alias cp n res).
Proof.
  induction res as [|[k v] res IH]; intros H; cbn [Utils.append_alias]; [constructor|].
  inversion H as [|? ? Hv Hr]; subst.
  destruct (k =? cp)%string; constructor; auto.
Qed.

Lemma derived_fields_loop (bases : list string) (mt : Utils.members) :
  forall res,
    Forall (fun kv => derived_fields (snd kv)) res ->
    Forall (fun kv => derived_fields (snd kv)) (fold_left (Utils.visit bases) mt res).
Proof.
  induction mt as [|[n o] mt IH]; intros res H; cbn [fold_left]; [exact H|].
  apply IH. unfold Utils.visit.
  destruct o as [c|]; [|exact H].
  destruct (Utils.c_abstract c); [exact H|].
  destruct (Utils.first_base n (Utils.OClass c) bases) as [b|]; [|exact H].
  destruct (Utils.get _ res).
  - now apply derived_fields_append_alias.
  - apply Forall_app. split; [exact H|]. constructor; [|constructor].
    repeat split.
Qed.

(** X18.  The fields of a catalog entry.  In every entry of the catalog
    (for any module and any list of base classes) the qualified name is
    the module, a dot and the class name; the "dictionary" flag is set
    exactly when the module name ends in "dictionary"; and the category
    is the module name cut after its third dot-separated component: it
    is a prefix of the module name, and is the module name itself when
    that has at most three components. *)
Theorem X18_catalog_entry_fields :
  forall (mt : Utils.members) (bases : list string) (cp : string) (v : Utils.info),
    In (cp, v) (Utils.get_class_of_subclass mt bases) ->
    Utils.class v = Utils.module v ++ "." ++ Utils.name v /\
    (Utils.dictionary v = true <-> exists p, Utils.module v = p ++ "dictionary") /\
    (exists rest, Utils.module v = Utils.category v ++ rest) /\
    ((List.length (Utils.split "." (Utils.module v)) <= 3)%nat ->
     Utils.category v = Utils.module v).
Proof.
  intros mt bases cp v' Hv'.
  unfold Utils.get_class_of_subclass in Hv'. apply finish_In in Hv'.
  destruct Hv' as (v & Hv & ->).
  pose proof (derived_fields_loop bases mt [] (Forall_nil _)) as H.
  rewrite Forall_forall in H. destruct (H _ Hv) as (C & D & G).
  cbn [snd] in C, D, G.
  cbn [Utils.class Utils.module Utils.name Utils.dictionary Utils.category].
  split; [exact C|]. split; [rewrite D; apply endswith_spec|]. split.
  - destruct (concat_firstn_prefix 3 (Utils.split "." (Utils.module v))) as [rest Hr].
    rewrite concat_split in Hr. exists rest. rewrite G. exact Hr.
  - intros Hl. rewrite G, firstn_all2 by exact Hl. apply concat_split.
Qed.

Lemma X18_witness :
  let v := Utils.mkInfo "B" ["B"] "pkg.spatial.dictionary.B" "pkg.spatial.dictionary"
                        true "MapTransform" "pkg.spatial.dictionary" in
  In ("pkg.spatial.dictionary.B", v) (Utils.list_transforms sample_module) /\
  (exists p, Utils.module v = p ++ "dictionary") /\
  Utils.category v = Utils.module v.
Proof.
  intros v.
  assert (Hv : In ("pkg.spatial.dictionary.B", v) (Utils.list_transforms sample_module))
    by (right; left; reflexivity).
  destruct (X18_catalog_entry_fields sample_module ["Transform"; "MapTransform"] _ v Hv)
    as (_ & D & _ & G).
  split; [exact Hv|]. split; [apply D; reflexivity | apply G; cbn; lia].
Defined.

(** ** The combo boxes *)

Lemma split_append_dot (a b : string) :
  Utils.split "." (a ++ "." ++ b) = (Utils.split "." a ++ Utils.split "." b)%list.
Proof.
  induction a as [|c a IH]; [reflexivity|].
  change (String c a ++ "." ++ b) with (String c (a ++ "." ++ b)).
  cbn [Utils.split]. rewrite IH.
  destruct (Ascii.eqb c "."); [reflexivity|].
  pose proof (split_nonempty "." a) as Hs.
  destruct (Utils.split "." a) as [|h t]; [congruence | reflexivity].
Qed.

Lemma last_component_qualified (m n : string) :
  dotless n -> last_component (m ++ "." ++ n) = n.
Proof.
  intros Hn. unfold last_component. rewrite split_append_dot, Hn. apply last_last.
Qed.

Lemma qualified_inj (m1 n1 m2 n2 : string) :
  dotless n1 -> dotless n2 ->
  m1 ++ "." ++ n1 = m2 ++ "." ++ n2 -> m1 = m2 /\ n1 = n2.
Proof.
  intros H1 H2 E. apply (f_equal (Utils.split ".")) in E.
  rewrite !split_append_dot, H1, H2 in E. apply app_inj_tail in E.
  destruct E as [E ->]. split; [|reflexivity].
  rewrite <- (concat_split m1), <- (concat_split m2). now rewrite E.
Qed.

(** What the catalog of [list_transforms] holds, entry by entry. *)
Lemma list_transforms_entries (mt : Utils.members) :
  let bases := ["Transform"; "MapTransform"] in
  let cat := Utils.list_transforms mt in
  (forall cp, In cp (map fst cat) <->
              exists n c, In (n, Utils.OClass c) mt /\
                          catalogued bases n c /\ qualname c = cp) /\
  (forall cp v, In (cp, v) cat ->
     exists n c, In (n, Utils.OClass c) mt /\ catalogued bases n c /\
                 qualname c = cp /\
                 Utils.name v = Utils.c_name c /\
                 Utils.module v = Utils.c_module c).
Proof.
  intros bases cat.
  pose proof (catalog_of_loop bases mt) as (ND & K & V).
  set (res := fold_left (Utils.visit bases) mt []) in *.
  assert (Hkeys : map fst cat = Utils.sorted (map fst res)).
  { subst cat. unfold Utils.list_transforms, Utils.get_class_of_subclass.
    fold bases res. apply finish_keys. intros k. apply sorted_In. }
  split.
  - intros cp. rewrite Hkeys, sorted_In. apply K.
  - intros cp v' Hv'. subst cat.
    unfold Utils.list_transforms, Utils.get_class_of_subclass in Hv'.
    fold bases res in Hv'. apply finish_In in Hv'. destruct Hv' as (v & Hv & ->).
    destruct (V cp v Hv) as (_ & _ & (n & c & A & B & C & D & E & _)).
    exists n, c. cbn [Utils.name Utils.module].
    split; [exact A|]. split; [exact B|]. split; [exact C|]. split; [exact D | exact E].
Qed.

Lemma In_selected (transforms : Utils.catalog) (m t : string) :
  In t (onSelectModule transforms m) <->
  exists cp v, In (cp, v) transforms /\
               (m = "monai.transforms" \/ Utils.module v = m) /\
               last_component cp = t.
Proof.
  unfold onSelectModule. rewrite sorted_In, in_map_iff. split.
  - intros (cp & <- & H). apply in_map_iff in H. destruct H as ([cp' v] & <- & H).
    apply filter_In in H. destruct H as [H C]. cbn [snd fst] in *.
    exists cp', v. split; [exact H|]. split; [|reflexivity].
    apply orb_true_iff in C. destruct C as [C|C]; apply String.eqb_eq in C; auto.
  - intros (cp & v & H & C & <-). exists cp. split; [reflexivity|].
    apply in_map_iff. exists (cp, v). split; [reflexivity|].
    apply filter_In. split; [exact H|]. cbn [snd].
    apply orb_true_iff. destruct C as [C|C]; [left | right]; now apply String.eqb_eq.
Qed.

Lemma length_sorted (l : list string) : List.length (Utils.sorted l) = List.length l.
Proof. apply Permutation_length, sorted_perm. Qed.

(** X19.  The transforms offered for a module.  Let the class names of
    the module have no dot.  For the catalog of [list_transforms],
    [onSelectModule] lists, in ascending order, the names of the
    catalogued classes whose module is the selected one, or of all of
    them when "monai.transforms" is selected: a name is listed exactly
    when a concrete class with that name, bound in the module under a
    member name that qualifies it for the catalog, has the selected
    module.  With "monai.transforms" selected there is one item for each
    entry of the catalog. *)
Theorem X19_transforms_offered_for_a_module :
  forall (mt : Utils.members) (m : string),
    (forall n c, In (n, Utils.OClass c) mt -> dotless (Utils.c_name c)) ->
    let bases := ["Transform"; "MapTransform"] in
    let cat := Utils.list_transforms mt in
    StronglySorted string_le (onSelectModule cat m) /\
    (forall t, In t (onSelectModule cat m) <->
               exists n c, In (n, Utils.OClass c) mt /\ catalogued bases n c /\
                           Utils.c_name c = t /\
                           (m = "monai.transforms" \/ Utils.c_module c = m)) /\
    (m = "monai.transforms" ->
     List.length (onSelectModule cat m) = List.length cat).
Proof.
  intros mt m Hdot bases cat.
  destruct (list_transforms_entries mt) as [K V]. fold bases cat in K, V.
  split; [apply sorted_sorted|]. split.
  - intros t. rewrite In_selected. split.
    + intros (cp & v & Hv & C & L).
      destruct (V cp v Hv) as (n & c & A & B & Q & Nn & Mm).
      exists n, c. split; [exact A|]. split; [exact B|]. split.
      * rewrite <- L, <- Q. unfold qualname. symmetry.
        apply last_component_qualified. apply (Hdot n c A).
      * destruct C as [C|C]; [left; exact C | right; congruence].
    + intros (n & c & A & B & Nn & C).
      assert (Hk : In (qualname c) (map fst cat)) by (apply K; exists n, c; auto).
      apply in_map_iff in Hk. destruct Hk as ([cp v] & E & Hv). cbn [fst] in E. subst cp.
      exists (qualname c), v. split; [exact Hv|]. split.
      * destruct C as [C|C]; [left; exact C | right].
        destruct (V _ v Hv) as (n' & c' & A' & _ & Q & _ & Mm).
        unfold qualname in Q.
        apply qualified_inj in Q; [| apply (Hdot n' c' A') | apply (Hdot n c A)].
        destruct Q as [Q _]. congruence.
      * rewrite <- Nn. apply last_component_qualified. apply (Hdot n c A).
  - intros ->. unfold onSelectModule. rewrite length_sorted, !length_map.
    cbn [String.eqb Ascii.eqb Bool.eqb orb].
    rewrite forallb_filter_id; [reflexivity|].
    apply forallb_forall. intros x _. reflexivity.
Qed.

Lemma X19_witness :
  In "A" (onSelectModule (Utils.list_transforms sample_module) "pkg.spatial.array") /\
  List.length (onSelectModule (Utils.list_transforms sample_module) "monai.transforms")
  = 2%nat.
Proof.
  assert (Hdot : forall n c, In (n, Utils.OClass c) sample_module ->
                             dotless (Utils.c_name c)).
  { intros n c H. cbn in H.
    repeat (destruct H as [H|H]; [injection H as _ <-; reflexivity|]).
    destruct H as [H|[]]. discriminate H. }
  destruct (X19_transforms_offered_for_a_module sample_module "pkg.spatial.array" Hdot)
    as (_ & I & _).
  destruct (X19_transforms_offered_for_a_module sample_module "monai.transforms" Hdot)
    as (_ & _ & L).
  split.
  - apply I.
    exists "FirstA", (Utils.mkClass "A" "pkg.spatial.array" ["Transform"] false).
    split; [cbn; auto|]. split.
    + split; [reflexivity|]. exists "Transform". cbn. repeat split; auto. discriminate.
    + split; [reflexivity | right; reflexivity].
  - rewrite (L eq_refl). reflexivity.
Defined.

Lemma findText_spec (s : string) (items : list string) :
  (In s items ->
   0 <= findText s items < len items /\
   nth_error items (Z.to_nat (findText s items)) = Some s) /\
  (~ In s items -> findText s items = -1).
Proof.
  induction items as [|x items [IH1 IH2]]; cbn [findText In].
  - split; [intros [] | reflexivity].
  - destruct (String.eqb_spec x s) as [->|Hne].
    + split; [|tauto]. intros _. split; [unfold len; cbn [List.length]; lia | reflexivity].
    + split.
      * intros [H|H]; [contradiction|]. destruct (IH1 H) as [R N].
        destruct (Z.ltb_spec (findText s items) 0); [lia|]. split.
        -- unfold len in *. cbn [List.length]. lia.
        -- replace (Z.to_nat (findText s items + 1))
             with (S (Z.to_nat (findText s items))) by lia.
           exact N.
      * intros H. rewrite IH2 by tauto. reflexivity.
Qed.

(** X20.  The modules offered and the one selected.  For any catalog,
    [refreshTransforms] fills the module combo box with
    "monai.transforms" followed by the module names of the catalog, each
    once and in ascending order, so that selecting any of them gives a
    non-empty list of transforms.  The index it makes current is always
    an index of the box: that of "monai.transforms.io.dictionary" when
    the catalog has a class of that module, and otherwise 0, the item
    "monai.transforms" that stands for all modules. *)
Theorem X20_modules_offered_and_selected :
  forall (transforms : Utils.catalog),
    let items := fst (refreshTransforms transforms) in
    let idx := snd (refreshTransforms transforms) in
    let has m := exists cp v, In (cp, v) transforms /\ Utils.module v = m in
    hd "" items = "monai.transforms" /\
    StronglySorted string_le (tl items) /\
    NoDup (tl items) /\
    (forall m, In m (tl items) <-> has m) /\
    (forall m, In m (tl items) -> onSelectModule transforms m <> []) /\
    0 <= idx < len items /\
    (has "monai.transforms.io.dictionary" ->
     nth_error items (Z.to_nat idx) = Some "monai.transforms.io.dictionary") /\
    (~ has "monai.transforms.io.dictionary" -> idx = 0).
Proof.
  intros transforms items idx has. subst items idx. unfold refreshTransforms.
  cbn [fst snd hd tl].
  set (mods := nodup string_dec (map (fun kv => Utils.module (snd kv)) transforms)).
  assert (Hin : forall m, In m (Utils.sorted mods) <-> has m).
  { intros m. rewrite sorted_In. subst mods. rewrite nodup_In, in_map_iff. split.
    - intros ([cp v] & <- & H). exists cp, v. split; [exact H | reflexivity].
    - intros (cp & v & H & <-). exists (cp, v). split; [reflexivity | exact H]. }
  split; [reflexivity|]. split; [apply sorted_sorted|]. split.
  { eapply Permutation_NoDup; [symmetry; apply sorted_perm | apply NoDup_nodup]. }
  split; [exact Hin|]. split.
  { intros m Hm. apply Hin in Hm. destruct Hm as (cp & v & H & E).
    intros Hnil.
    assert (Hi : In (last_component cp) (onSelectModule transforms m)).
    { apply In_selected. exists cp, v. auto. }
    rewrite Hnil in Hi. destruct Hi. }
  set (target := "monai.transforms.io.dictionary").
  set (items := ("monai.transforms" :: Utils.sorted mods)%list).
  destruct (findText_spec target items) as [F1 F2].
  assert (Hit : In target items <-> has target).
  { subst items. cbn [In]. rewrite Hin. split; [intros [H|H]; [discriminate H | exact H]|].
    intros H. now right. }
  split; [| split].
  - assert (Hl : 0 < len items) by (subst items; unfold len; cbn [List.length]; lia).
    destruct (in_dec string_dec target items) as [Hi|Hi].
    + destruct (F1 Hi) as [R _]. lia.
    + rewrite (F2 Hi). cbn. lia.
  - intros H. apply Hit in H. destruct (F1 H) as [R N].
    replace (Z.max 0 (findText target items)) with (findText target items) by lia.
    exact N.
  - intros H. rewrite F2; [reflexivity|]. intros Hi. apply H, Hit, Hi.
Qed.

Lemma X20_witness :
  let cat := [("monai.transforms.io.dictionary.LoadImaged",
               Utils.mkInfo "LoadImaged" ["LoadImaged"]
                            "monai.transforms.io.dictionary.LoadImaged"
                            "monai.transforms.io.dictionary" true "MapTransform"
                            "monai.transforms.io");
              ("monai.transforms.io.array.LoadImage",
               Utils.mkInfo "LoadImage" ["LoadImage"]
                            "monai.transforms.io.array.LoadImage"
                            "monai.transforms.io.array" false "Transform"
                            "monai.transforms.io")] in
  nth_error (fst (refreshTransforms cat)) (Z.to_nat (snd (refreshTransforms cat))) =
    Some "monai.transforms.io.dictionary" /\
  snd (refreshTransforms (Utils.list_transforms sample_module)) = 0.
Proof.
  intros cat.
  destruct (X20_modules_offered_and_selected cat) as (_ & _ & _ & _ & _ & _ & Y & _).
  destruct (X20_modules_offered_and_selected (Utils.list_transforms sample_module))
    as (_ & _ & _ & _ & _ & _ & _ & N).
  split.
  - apply Y. eexists _, _. split; [left; reflexivity | reflexivity].
  - apply N. intros (cp & v & H & E).
    destruct H as [[= <- <-]|[[= <- <-]|[]]]; discriminate E.
Defined.

(** ** The documentation section of a transform *)

Section DocProperties.

Variable linesep : string.

Let loop := doc_loop linesep.

Lemma doc_loop_before (sb : string * string) (doc_url : string) (pre rest : list string)
      (sc : Z) (found : bool) :
  Forall (fun c => is_marker sb c = false) pre ->
  sc < 0 ->
  loop sb doc_url (pre ++ rest)%list sc found = loop sb doc_url rest sc found.
Proof.
  intros Hp Hs. induction Hp as [|c pre Hc Hp IH]; [reflexivity|].
  subst loop. cbn [List.app doc_loop]. unfold is_marker in Hc. rewrite Hc.
  assert (E0 : (0 <? sc) = false) by (apply Z.ltb_ge; lia).
  assert (E1 : (sc =? 0) = false) by (apply Z.eqb_neq; lia).
  repeat (first [rewrite E0 | rewrite E1]; cbv iota).
  cbn [List.app]. rewrite IH. destruct (doc_loop linesep sb doc_url rest sc found).
  reflexivity.
Qed.

Lemma doc_loop_marker (sb : string * string) (doc_url c : string) (rest : list string)
      (sc : Z) (found : bool) :
  is_marker sb c = true ->
  loop sb doc_url (c :: rest) sc found =
  ((rewrite_line doc_url (rstrip c) :: linesep :: fst (loop sb doc_url rest 1 true))%list,
   snd (loop sb doc_url rest 1 true)).
Proof.
  intros Hc. subst loop. cbn [doc_loop]. unfold is_marker in Hc. rewrite Hc.
  cbn [Z.ltb Z.eqb Z.compare]. cbv iota.
  destruct (doc_loop linesep sb doc_url rest 1 true). reflexivity.
Qed.

Lemma closes_not_marker (sb : string * string) (c : string) :
  startswith (fst sb) "<section" = true ->
  startswith (snd sb) "<section" = true ->
  closes c = true ->
  is_marker sb c = false /\ opens c = false /\ startswith (rstrip c) "</section>" = true.
Proof.
  intros H1 H2 Hc. unfold closes in Hc. apply andb_true_iff in Hc.
  destruct Hc as [Ho Hcl]. apply negb_true_iff in Ho.
  split; [| split; assumption]. unfold is_marker, opens in *.
  destruct (String.eqb_spec (rstrip c) (fst sb)) as [E|_]; [congruence|].
  destruct (String.eqb_spec (rstrip c) (snd sb)) as [E|_]; [congruence|].
  reflexivity.
Qed.

Lemma doc_loop_balanced (sb : string * string) (doc_url : string) (body : list string) :
  startswith (fst sb) "<section" = true ->
  startswith (snd sb) "<section" = true ->
  balanced sb body ->
  forall (rest : list string) (sc : Z),
    0 < sc ->
    loop sb doc_url (body ++ rest)%list sc true =
    ((copied linesep doc_url body ++ fst (loop sb doc_url rest sc true))%list,
     snd (loop sb doc_url rest sc true)).
Proof.
  intros H1 H2 Hb.
  induction Hb as [|c l Hm Ho Hc Hl IHl|o c inner l Hm Ho Hin IHin Hc Hl IHl];
    intros rest sc Hsc.
  - cbn [List.app]. unfold copied. cbn [flat_map List.app].
    destruct (loop sb doc_url rest sc true). reflexivity.
  - assert (Hcl : startswith (rstrip c) "</section>" = false).
    { unfold closes in Hc. rewrite Ho in Hc. exact Hc. }
    subst loop. unfold copied. cbn [List.app doc_loop flat_map].
    unfold is_marker in Hm. unfold opens in Ho. rewrite Hm, Ho, Hcl.
    assert (E0 : (0 <? sc) = true) by (apply Z.ltb_lt; lia).
    assert (E1 : (sc =? 0) = false) by (apply Z.eqb_neq; lia).
    repeat (first [rewrite E0 | rewrite E1]; cbv iota).
    rewrite (IHl rest sc Hsc). reflexivity.
  - destruct (closes_not_marker sb c H1 H2 Hc) as (Cm & Co & Cc).
    assert (Hstep : forall rest' sc', 0 < sc' ->
              loop sb doc_url (c :: rest') (sc' + 1) true =
              ((rewrite_line doc_url (rstrip c) :: linesep
                  :: fst (loop sb doc_url rest' sc' true))%list,
               snd (loop sb doc_url rest' sc' true))).
    { intros rest' sc' Hs'. subst loop. cbn [doc_loop].
      unfold is_marker in Cm. unfold opens in Co. rewrite Cm, Co, Cc.
      assert (E0 : (0 <? sc' + 1) = true) by (apply Z.ltb_lt; lia).
      assert (E1 : (0 <? sc') = true) by (apply Z.ltb_lt; lia).
      assert (E2 : (sc' =? 0) = false) by (apply Z.eqb_neq; lia).
      rewrite E0. cbv iota. replace (sc' + 1 - 1) with sc' by lia.
      repeat (first [rewrite E1 | rewrite E2]; cbv iota).
      destruct (doc_loop linesep sb doc_url rest' sc' true). reflexivity. }
    assert (Hopen : forall rest',
              loop sb doc_url (o :: rest') sc true =
              ((rewrite_line doc_url (rstrip o) :: linesep
                  :: fst (loop sb doc_url rest' (sc + 1) true))%list,
               snd (loop sb doc_url rest' (sc + 1) true))).
    { intros rest'. subst loop. cbn [doc_loop].
      unfold is_marker in Hm. unfold opens in Ho. rewrite Hm, Ho.
      assert (E0 : (0 <? sc) = true) by (apply Z.ltb_lt; lia).
      assert (E1 : (0 <? sc + 1) = true) by (apply Z.ltb_lt; lia).
      assert (E2 : (sc + 1 =? 0) = false) by (apply Z.eqb_neq; lia).
      repeat (first [rewrite E0 | rewrite E1 | rewrite E2]; cbv iota).
      destruct (doc_loop linesep sb doc_url rest' (sc + 1) true). reflexivity. }
    cbn [List.app]. rewrite <- app_assoc. cbn [List.app].
    rewrite Hopen, (IHin _ (sc + 1)) by lia. cbn [fst snd].
    rewrite (Hstep _ sc Hsc). cbn [fst snd].
    rewrite (IHl rest sc Hsc). cbn [fst snd].
    unfold copied. cbn [flat_map List.app]. rewrite !flat_map_app.
    cbn [flat_map List.app]. rewrite <- !app_assoc. reflexivity.
Qed.

Lemma markers_open (name : string) :
  startswith (fst (section_markers name)) "<section" = true /\
  startswith (snd (section_markers name)) "<section" = true.
Proof. split; reflexivity. Qed.

(** X21.  When no line of the documentation page is, once stripped of
    trailing white space, the opening tag of the transform's section (in
    either spelling), the file written for the dialog holds the link to
    the documentation and nothing else.  More generally, the lines that
    come before the first such tag contribute nothing to the file. *)
Theorem X21_no_section_gives_the_link :
  forall (name doc_url : string) (pre rest : list string),
    Forall (fun c => is_marker (section_markers name) c = false) pre ->
    doc_section linesep name doc_url pre = [visit_line doc_url] /\
    doc_section linesep name doc_url (pre ++ rest)%list =
      doc_section linesep name doc_url rest.
Proof.
  intros name doc_url pre rest Hp. unfold doc_section. split.
  - pose proof (doc_loop_before (section_markers name) doc_url pre [] (-1) false Hp) as H.
    rewrite app_nil_r in H. subst loop. cbv beta in H. rewrite H by lia. reflexivity.
  - pose proof (doc_loop_before (section_markers name) doc_url pre rest (-1) false Hp) as H.
    subst loop. cbv beta in H. rewrite H by lia. reflexivity.
Qed.

(** X22.  The section that is shown.  Let the page consist of lines
    without the opening tag, then the opening tag of the transform's
    section, then lines in which every section opened is closed again,
    then a closing tag, then anything.  The file written holds the
    opening line and the lines of the section, nested sections included,
    each with the three replacements made and followed by a line
    separator, and then the closing line as it is; nothing that follows
    the closing tag is written, and the link to the documentation is
    not.  When the page ends before the closing tag, the file holds the
    lines of the section up to the end of the page. *)
Theorem X22_section_is_copied_up_to_its_closing_tag :
  forall (name doc_url : string) (pre body post : list string) (m0 close : string),
    let sb := section_markers name in
    Forall (fun c => is_marker sb c = false) pre ->
    is_marker sb m0 = true ->
    balanced sb body ->
    closes close = true ->
    doc_section linesep name doc_url (pre ++ m0 :: body ++ close :: post)%list =
      (copied linesep doc_url (m0 :: body) ++ [rstrip close; linesep])%list /\
    doc_section linesep name doc_url (pre ++ m0 :: body)%list =
      copied linesep doc_url (m0 :: body).
Proof.
  intros name doc_url pre body post m0 close sb Hp Hm Hb Hc.
  destruct (markers_open name) as [H1 H2]. fold sb in H1, H2.
  destruct (closes_not_marker sb close H1 H2 Hc) as (Cm & Co & Cc).
  assert (Hclose : loop sb doc_url (close :: post) 1 true = ([rstrip close; linesep], true)).
  { subst loop. cbn [doc_loop]. unfold is_marker in Cm. unfold opens in Co.
    rewrite Cm, Co, Cc. reflexivity. }
  unfold doc_section. fold sb. split.
  - pose proof (doc_loop_before sb doc_url pre (m0 :: body ++ close :: post) (-1) false Hp)
      as H.
    pose proof (doc_loop_marker sb doc_url m0 (body ++ close :: post) (-1) false Hm) as M.
    pose proof (doc_loop_balanced sb doc_url body H1 H2 Hb (close :: post) 1) as B.
    subst loop. cbv beta in H, Hclose, M, B. rewrite H by lia. rewrite M, B by lia.
    rewrite Hclose.
    cbn [fst snd]. unfold copied. cbn [flat_map List.app]. reflexivity.
  - pose proof (doc_loop_before sb doc_url pre (m0 :: body) (-1) false Hp) as H.
    pose proof (doc_loop_marker sb doc_url m0 body (-1) false Hm) as M.
    pose proof (doc_loop_balanced sb doc_url body H1 H2 Hb [] 1) as B.
    rewrite app_nil_r in B.
    subst loop. cbv beta in H, M, B. rewrite H by lia. rewrite M, B by lia.
    cbn [doc_loop fst snd]. rewrite app_nil_r.
    unfold copied. cbn [flat_map List.app]. reflexivity.
Qed.

End DocProperties.

Lemma X21_witness :
  doc_section sample_nl "monai.transforms.Zoomd" "https://docs.monai.io/"
              (sample_page_head ++ sample_page_body)%list =
    [visit_line "https://docs.monai.io/"].
Proof.
  apply (X21_no_section_gives_the_link sample_nl "monai.transforms.Zoomd"
           "https://docs.monai.io/" (sample_page_head ++ sample_page_body)%list []).
  repeat constructor.
Defined.

Lemma X22_witness :
  doc_section sample_nl "monai.transforms.Flipd" "https://docs.monai.io/"
              (sample_page_head ++ sample_page_open :: sample_page_body
                 ++ sample_page_close :: sample_page_tail)%list =
    (copied sample_nl "https://docs.monai.io/" (sample_page_open :: sample_page_body)
     ++ ["</section>"; sample_nl])%list.
Proof.
  apply (X22_section_is_copied_up_to_its_closing_tag sample_nl "monai.transforms.Flipd"
           "https://docs.monai.io/" sample_page_head sample_page_body sample_page_tail
           sample_page_open sample_page_close).
  - repeat constructor.
  - reflexivity.
  - apply balanced_plain; try reflexivity.
    apply (balanced_nested _ ("<section id='sub'>" ++ sample_nl)
             ("</section>" ++ sample_nl) ["text" ++ sample_nl] []);
      try reflexivity.
    + apply balanced_plain; try reflexivity. constructor.
    + constructor.
  - reflexivity.
Defined.

(** ** Batches *)

(** X23.  A batch stays a batch.  Once the running value of a run is a
    list, every further transform is called on each element in turn:
    whatever the expressions that follow, when they all succeed the
    value is a list of the same length, each element of which is the
    result of calling the transforms one after the other on the element
    at the same position; so the batch cursor of a cache that stores
    the new list selects the same position as before. *)
Theorem X23_a_batch_stays_a_batch :
  forall (eval_exp : string -> result transform) (exps : list string)
         (l : list value) (dv : value),
    apply_all eval_exp exps (VList l) = Ok dv ->
    exists l',
      dv = VList l' /\
      Forall2 (fun x y => call_all eval_exp exps x = Ok y) l l' /\
      List.length l' = List.length l /\
      (forall c c' : MONAIViz.TransformCtx,
          MONAIViz.d c = Some (VList l) -> MONAIViz.d c' = Some dv ->
          MONAIViz.bidx c' = MONAIViz.bidx c ->
          MONAIViz.batch_index c' = MONAIViz.batch_index c).
Proof.
  intros eval_exp exps.
  assert (H : forall l dv, apply_all eval_exp exps (VList l) = Ok dv ->
              exists l', dv = VList l' /\
                         Forall2 (fun x y => call_all eval_exp exps x = Ok y) l l').
  { induction exps as [|e exps IH]; intros l dv H; cbn [apply_all] in H.
    - injection H as <-. exists l. split; [reflexivity|].
      induction l; constructor; [reflexivity | assumption].
    - destruct (eval_exp e) as [t|] eqn:Ee; [|discriminate]. cbn [bind] in H.
      cbn [apply_transform] in H.
      destruct (map_result t l) as [l1|] eqn:Em; [|discriminate]. cbn [bind] in H.
      destruct (IH _ _ H) as (l' & -> & F). exists l'. split; [reflexivity|].
      apply map_result_Forall2 in Em. clear H IH.
      revert l' F. induction Em as [|x y l l1 Hxy Em IHm]; intros l' F.
      + inversion F. constructor.
      + inversion F as [|? z ? l2 Hyz F']; subst. constructor; [|now apply IHm].
        cbn [call_all]. rewrite Ee. cbn [bind]. rewrite Hxy. exact Hyz. }
  intros l dv Ha. destruct (H l dv Ha) as (l' & -> & F).
  exists l'. split; [reflexivity|]. split; [exact F|].
  pose proof (Forall2_length F) as Hl. split; [now symmetry|].
  intros c c' Hd Hd' Hb. unfold MONAIViz.batch_index, len.
  rewrite Hd, Hd', Hb, Hl. reflexivity.
Qed.

Lemma X23_witness :
  exists l',
    apply_all sample_eval ["monai.transforms.Flipd()"; "monai.transforms.Zoomd()"]
              (VList [VDict []; VDict []; VDict []]) = Ok (VList l') /\
    List.length l' = 3%nat.
Proof.
  destruct (X23_a_batch_stays_a_batch sample_eval
              ["monai.transforms.Flipd()"; "monai.transforms.Zoomd()"]
              [VDict []; VDict []; VDict []]
              (VList [VDict [("image", sample_entry)]; VDict [("image", sample_entry)];
                      VDict [("image", sample_entry)]]) eq_refl)
    as (l' & E & _ & L & _).
  exists l'. split; [rewrite <- E; reflexivity | exact L].
Defined.

(** ** The older variant of the widget *)

Lemma old_capture_keeps (self self' : SlicerMONAIViz.TransformCtx) (dv : value)
      (key : string) (r : result unit) :
  SlicerMONAIViz.capture self dv key = (r, self') ->
  SlicerMONAIViz.d self' = SlicerMONAIViz.d self /\
  SlicerMONAIViz.last_tname self' = SlicerMONAIViz.last_tname self /\
  SlicerMONAIViz.bidx self' = SlicerMONAIViz.bidx self.
Proof.
  unfold SlicerMONAIViz.capture.
  destruct (e <- SlicerMONAIViz.key_tensor_of self dv key ;;
            sh <- shape_of e ;; Ok (e, sh)) as [[e sh]|];
    [|intros [= _ <-]; repeat split].
  destruct (SlicerMONAIViz.original_spatial_shape self);
    [intros [= _ <-]; repeat split|].
  destruct (affine_of e); intros [= _ <-]; repeat split.
Qed.

Lemma old_key_tensor_bidx (self self' : SlicerMONAIViz.TransformCtx) (dv : value)
      (key : string) :
  SlicerMONAIViz.bidx self' = SlicerMONAIViz.bidx self ->
  SlicerMONAIViz.key_tensor_of self' dv key = SlicerMONAIViz.key_tensor_of self dv key.
Proof. intros H. unfold SlicerMONAIViz.key_tensor_of. now rewrite H. Qed.

Lemma old_capture_needs_tensor (self : SlicerMONAIViz.TransformCtx) (dv : value)
      (key : string) :
  (forall t, SlicerMONAIViz.key_tensor_of self dv key <> Ok (ETensor t)) ->
  fst (SlicerMONAIViz.capture self dv key) = Raised.
Proof.
  intros H. unfold SlicerMONAIViz.capture.
  destruct (SlicerMONAIViz.key_tensor_of self dv key) as [[s|t|]|]; cbn [bind shape_of];
    try reflexivity.
  exfalso. now apply (H t).
Qed.

Lemma old_set_d_needs_label (self : SlicerMONAIViz.TransformCtx) (dv : value)
      (name image_key label_key : string) :
  (forall t, SlicerMONAIViz.key_tensor_of self dv label_key <> Ok (ETensor t)) ->
  let r := SlicerMONAIViz.set_d self dv name [image_key; label_key] in
  fst r = Raised /\
  SlicerMONAIViz.d (snd r) = SlicerMONAIViz.d self /\
  SlicerMONAIViz.last_tname (snd r) = SlicerMONAIViz.last_tname self.
Proof.
  intros H r. subst r. unfold SlicerMONAIViz.set_d. cbn [SlicerMONAIViz.capture_all].
  destruct (SlicerMONAIViz.capture self dv image_key) as [[[]|] s1] eqn:E1;
    destruct (old_capture_keeps _ _ _ _ _ E1) as (D1 & L1 & B1);
    [|cbn [fst snd]; repeat split; assumption].
  assert (H' : forall t, SlicerMONAIViz.key_tensor_of s1 dv label_key <> Ok (ETensor t)).
  { intros t. rewrite (old_key_tensor_bidx self s1 dv label_key B1). apply H. }
  pose proof (old_capture_needs_tensor s1 dv label_key H') as E2.
  destruct (SlicerMONAIViz.capture s1 dv label_key) as [[[]|] s2] eqn:E2';
    [discriminate E2|].
  destruct (old_capture_keeps _ _ _ _ _ E2') as (D2 & L2 & B2).
  cbn [fst snd]. repeat split; congruence.
Qed.

Section OldVariant.

Variable eval_exp : string -> result transform.
Variable host_display : SlicerMONAIViz.TransformCtx -> bool.

Let run := SlicerMONAIViz.onRunTransform eval_exp host_display.

(** X24.  The older variant needs the label as well as the image.  Its
    [set_d] looks at the shape of the entries under both the image key
    and the label key, and raises unless both are tensors, leaving the
    cached data and the last-applied name as they were.  So a run that
    starts from the empty cache fails right after its first transform
    when that transform leaves the entry under the label key as it was
    put in the input dictionary, a path: the transform has been
    evaluated and applied, nothing is cached, and no row follows. *)
Theorem X24_older_variant_needs_the_label_tensor :
  forall (w : SlicerMONAIViz.Widget) (k : Z) (x x0 : row) (additional : dict)
         (t : transform) (dv : value),
    SlicerMONAIViz.currentRow w = k ->
    item (SlicerMONAIViz.transformTable w) k = Ok x ->
    target x <> "" ->
    item (SlicerMONAIViz.transformTable w) 0 = Ok x0 ->
    SlicerMONAIViz.ctx w = SlicerMONAIViz.init ->
    SlicerMONAIViz.textEdit w = Ok additional ->
    let image_key := settingsValue (SlicerMONAIViz.settings w)
                                   "SlicerMONAIViz/imageKey" "image" in
    let label_key := settingsValue (SlicerMONAIViz.settings w)
                                   "SlicerMONAIViz/labelKey" "label" in
    let fresh :=
      VDict (fold_left (fun m kv => dict_set (fst kv) (snd kv) m) additional
                       (dict_set label_key (EStr (SlicerMONAIViz.labelPath w))
                                 [(image_key, EStr (SlicerMONAIViz.imagePath w))])) in
    let exp0 := MONAIViz.expression x0 in
    eval_exp exp0 = Ok t ->
    t fresh = Ok dv ->
    (forall t', SlicerMONAIViz.key_tensor_of SlicerMONAIViz.init dv label_key
                <> Ok (ETensor t')) ->
    SlicerMONAIViz.outcome (run w) = Raised /\
    SlicerMONAIViz.trace (run w) = [Run 0 exp0] /\
    SlicerMONAIViz.d (SlicerMONAIViz.ctx (SlicerMONAIViz.after (run w))) = None /\
    SlicerMONAIViz.transformTable (SlicerMONAIViz.after (run w)) =
      SlicerMONAIViz.transformTable w.
Proof.
  intros w k x x0 additional t dv Hk Hx Hname Hx0 Hinit Hadd image_key label_key
         fresh exp0 He Ht Hlab.
  pose proof (item_Ok_range _ _ _ Hx) as Hrange.
  subst run. unfold SlicerMONAIViz.onRunTransform. rewrite Hk.
  destruct (Z.ltb_spec k 0); [lia|].
  rewrite Hadd. cbn [bind]. rewrite Hx. cbn [bind]. rewrite Hinit.
  fold image_key label_key fresh.
  assert (Hg : SlicerMONAIViz.get_d SlicerMONAIViz.init (Some (target x)) fresh =
               (fresh, SlicerMONAIViz.init)).
  { unfold SlicerMONAIViz.get_d, SlicerMONAIViz.valid_for_next.
    cbn [SlicerMONAIViz.init SlicerMONAIViz.next_tname truthy String.eqb negb].
    rewrite andb_false_r. reflexivity. }
  rewrite Hg. cbv beta iota.
  cbn [SlicerMONAIViz.last_tname SlicerMONAIViz.init SlicerMONAIViz.next_t].
  destruct (String.eqb_spec "" (target x)); [congruence|].
  rewrite range_cons by lia.
  cbn [SlicerMONAIViz.run_rows SlicerMONAIViz.ls_table SlicerMONAIViz.ls_d
       SlicerMONAIViz.ls_ctx SlicerMONAIViz.ls_trace].
  rewrite Hx0.
  change ("monai.transforms." ++ target x0 ++ "(" ++ args x0 ++ ")") with exp0.
  rewrite He. cbn [bind]. rewrite Ht.
  destruct (old_set_d_needs_label
              (SlicerMONAIViz.mkCtx None "" 0 "" false 0 None None) dv (target x0)
              image_key label_key Hlab) as (R & D & _).
  destruct (SlicerMONAIViz.set_d _ dv (target x0) [image_key; label_key])
    as [[[]|] c]; [discriminate R|].
  cbn [snd SlicerMONAIViz.d] in D.
  cbn [SlicerMONAIViz.outcome SlicerMONAIViz.trace SlicerMONAIViz.after
       SlicerMONAIViz.ctx SlicerMONAIViz.set_ctx SlicerMONAIViz.set_table
       SlicerMONAIViz.transformTable SlicerMONAIViz.ls_ctx SlicerMONAIViz.ls_table
       SlicerMONAIViz.ls_trace List.app].
  repeat split. exact D.
Qed.

(** X25.  The older variant tells rows apart by their names alone.  When
    the selected row bears the name the cache expects next and that is
    also the name of the transform applied last (two rows in a row with
    the same transform, whatever their arguments), the run evaluates no
    transform at all: the loop is not entered and the cached data is the
    data shown. *)
Theorem X25_older_variant_passes_over_a_same_named_row :
  forall (w : SlicerMONAIViz.Widget) (k : Z) (x : row),
    SlicerMONAIViz.currentRow w = k ->
    item (SlicerMONAIViz.transformTable w) k = Ok x ->
    target x <> "" ->
    SlicerMONAIViz.next_tname (SlicerMONAIViz.ctx w) = target x ->
    SlicerMONAIViz.last_tname (SlicerMONAIViz.ctx w) = target x ->
    SlicerMONAIViz.trace (run w) = [] /\
    SlicerMONAIViz.d (SlicerMONAIViz.ctx (SlicerMONAIViz.after (run w))) =
      SlicerMONAIViz.d (SlicerMONAIViz.ctx w).
Proof.
  intros w k x Hk Hx Hname Hn Hl.
  pose proof (item_Ok_range _ _ _ Hx) as Hrange.
  subst run. unfold SlicerMONAIViz.onRunTransform. rewrite Hk.
  destruct (Z.ltb_spec k 0); [lia|].
  destruct (SlicerMONAIViz.textEdit w) as [additional|]; cbn [bind];
    [|split; reflexivity].
  rewrite Hx. cbn [bind].
  assert (Hg : forall fresh,
             snd (SlicerMONAIViz.get_d (SlicerMONAIViz.ctx w) (Some (target x)) fresh)
             = SlicerMONAIViz.ctx w).
  { intros fresh. unfold SlicerMONAIViz.get_d, SlicerMONAIViz.valid_for_next.
    rewrite Hn, String.eqb_refl.
    apply truthy_true_iff in Hname. rewrite Hname. cbn [andb].
    destruct (SlicerMONAIViz.valid (SlicerMONAIViz.ctx w)); reflexivity. }
  match goal with
  | |- context [SlicerMONAIViz.get_d ?c ?n ?f] =>
      specialize (Hg f); destruct (SlicerMONAIViz.get_d c n f) as [dv c1]
  end.
  cbn [snd] in Hg. subst c1. rewrite Hl, String.eqb_refl.
  cbn [SlicerMONAIViz.ls_table SlicerMONAIViz.ls_ctx SlicerMONAIViz.ls_trace
       SlicerMONAIViz.set_ctx SlicerMONAIViz.set_table SlicerMONAIViz.transformTable].
  match goal with
  | |- context [match item ?t ?i with Ok _ => _ | Raised => _ end] =>
      destruct (item t i) as [nx|]
  end; [|split; destruct w; reflexivity].
  assert (Hsel : forall w0 p,
             SlicerMONAIViz.ctx (SlicerMONAIViz.selectRow w0 p) = SlicerMONAIViz.ctx w0).
  { intros w0 p. unfold SlicerMONAIViz.selectRow.
    destruct ((0 <=? p) && (p <? SlicerMONAIViz.rowCount w0)); reflexivity. }
  assert (Hsn : forall c i e,
             SlicerMONAIViz.d (SlicerMONAIViz.set_next c i e) = SlicerMONAIViz.d c).
  { intros c i e. unfold SlicerMONAIViz.set_next.
    destruct ((SlicerMONAIViz.next_t c =? i) && (SlicerMONAIViz.next_tname c =? e)%string);
      reflexivity. }
  match goal with
  | |- context [SlicerMONAIViz.display ?h (SlicerMONAIViz.ctx ?w2) ?a ?b] =>
      assert (Hw2 : SlicerMONAIViz.ctx w2 = SlicerMONAIViz.ctx w);
      [| destruct (SlicerMONAIViz.display h (SlicerMONAIViz.ctx w2) a b)]
  end.
  - match goal with |- context [if ?c then _ else _] => destruct c end;
      cbn [SlicerMONAIViz.ctx SlicerMONAIViz.set_table SlicerMONAIViz.set_ctx];
      [reflexivity|]. now rewrite Hsel.
  - split; [reflexivity|].
    cbn [SlicerMONAIViz.after SlicerMONAIViz.ctx SlicerMONAIViz.set_clear_enabled
         SlicerMONAIViz.set_ctx].
    now rewrite Hsn, Hw2.
  - split; [reflexivity|]. cbn [SlicerMONAIViz.after]. now rewrite Hw2.
Qed.

End OldVariant.

Lemma X24_witness :
  let r := SlicerMONAIViz.onRunTransform sample_eval sample_old_host
             (sample_old_widget sample_table 1 SlicerMONAIViz.init) in
  SlicerMONAIViz.outcome r = Raised /\
  SlicerMONAIViz.trace r = [Run 0 "monai.transforms.LoadImaged(keys=['image'])"] /\
  SlicerMONAIViz.d (SlicerMONAIViz.ctx (SlicerMONAIViz.after r)) = None.
Proof.
  intros r.
  destruct (X24_older_variant_needs_the_label_tensor sample_eval sample_old_host
              (sample_old_widget sample_table 1 SlicerMONAIViz.init) 1
              (mkRow false Yellow "Flipd" "keys=['image']")
              (mkRow true Yellow "LoadImaged" "keys=['image']") []
              sample_load
              (VDict [("image", sample_entry); ("label", EStr "/data/label.nii.gz")]))
    as (O & T & D & _); try reflexivity.
  - discriminate.
  - intros t' H. discriminate H.
  - split; [exact O|]. split; [exact T | exact D].
Defined.

Lemma X25_witness :
  let tbl := [ mkRow true Yellow "LoadImaged" "keys=['image', 'label']";
               mkRow true Yellow "Flipd" "keys=['image'], spatial_axis=0";
               mkRow true Yellow "Flipd" "keys=['image'], spatial_axis=1" ] in
  let w1 := SlicerMONAIViz.after
              (SlicerMONAIViz.onRunTransform sample_eval2 sample_old_host
                 (sample_old_widget tbl 1 SlicerMONAIViz.init)) in
  SlicerMONAIViz.currentRow w1 = 2 /\
  SlicerMONAIViz.trace (SlicerMONAIViz.onRunTransform sample_eval2 sample_old_host w1) = [].
Proof.
  intros tbl w1. split; [reflexivity|].
  apply (X25_older_variant_passes_over_a_same_named_row sample_eval2 sample_old_host
           w1 2 (mkRow true Yellow "Flipd" "keys=['image'], spatial_axis=1"));
    try reflexivity.
  discriminate.
Defined.

(** ** Stepping through the pipeline *)

Lemma apply_all_app (eval_exp : string -> result transform) (a b : list string)
      (dv : value) :
  apply_all eval_exp (a ++ b)%list dv =
  (v <- apply_all eval_exp a dv ;; apply_all eval_exp b v).
Proof.
  revert dv. induction a as [|e a IH]; intros dv; cbn [List.app apply_all];
    [reflexivity|].
  destruct (eval_exp e) as [t|]; cbn [bind]; [|reflexivity].
  destruct (apply_transform t dv) as [dv'|]; cbn [bind]; [apply IH | reflexivity].
Qed.

Lemma active_exps_app (tbl : list row) (a b : list Z) :
  active_exps tbl (a ++ b)%list = (active_exps tbl a ++ active_exps tbl b)%list.
Proof. unfold active_exps. now rewrite filter_app, map_app. Qed.

(** [get_d] on the empty cache hands back the dictionary it is given. *)
Lemma get_d_init (e : string) (fresh : value) :
  MONAIViz.get_d MONAIViz.init (Some e) fresh = (Ok fresh, MONAIViz.init).
Proof.
  unfold MONAIViz.get_d, MONAIViz.reset.
  destruct (MONAIViz.valid_for_next MONAIViz.init e); reflexivity.
Qed.

(** [get_d] asked for an expression the cache does not expect next
    resets the cache and hands back the dictionary it is given. *)
Lemma get_d_restart (c : MONAIViz.TransformCtx) (e : string) (fresh : value) :
  MONAIViz.valid_for_next c e = false ->
  MONAIViz.get_d c (Some e) fresh = (Ok fresh, MONAIViz.init) /\
  resume_ctx c e = MONAIViz.init.
Proof.
  intros V. unfold MONAIViz.get_d, MONAIViz.reset, resume_ctx. rewrite V.
  split; reflexivity.
Qed.

Lemma init_restarts (c : MONAIViz.TransformCtx) (e : string) :
  c = MONAIViz.init -> MONAIViz.valid_for_next c e = false.
Proof.
  intros ->. unfold MONAIViz.valid_for_next. cbn [MONAIViz.next_exp MONAIViz.init truthy].
  now rewrite Bool.andb_false_r.
Qed.

(** [get_d] on a cache whose frontier expects the expression hands back
    the cached data. *)
Lemma get_d_cached (c : MONAIViz.TransformCtx) (e : string) (fresh v : value) :
  MONAIViz.next_exp c = e -> e <> "" -> MONAIViz.next_idx c <> 0 ->
  MONAIViz.d c = Some v ->
  MONAIViz.get_d c (Some e) fresh = (Ok v, c) /\ resume_ctx c e = c /\
  frontier c e = MONAIViz.next_idx c.
Proof.
  intros He Hne Hi Hd.
  assert (V : MONAIViz.valid_for_next c e = true).
  { unfold MONAIViz.valid_for_next. rewrite He, String.eqb_refl.
    destruct e; [contradiction|reflexivity]. }
  unfold MONAIViz.get_d, resume_ctx, frontier. rewrite V.
  unfold MONAIViz.valid. rewrite Hd.
  destruct (Z.eqb_spec (MONAIViz.next_idx c) 0); [contradiction|]. now repeat split.
Qed.

Section Stepping.

Variable eval_exp : string -> result transform.
Variable host_display : MONAIViz.TransformCtx -> bool.

Let run := MONAIViz.onRunTransform eval_exp host_display.

(** A run reads the paths, the extra dictionary and the settings; it
    writes none of them. *)
Lemma run_keeps_inputs (w : MONAIViz.Widget) :
  MONAIViz.imagePath (MONAIViz.after (run w)) = MONAIViz.imagePath w /\
  MONAIViz.labelPath (MONAIViz.after (run w)) = MONAIViz.labelPath w /\
  MONAIViz.textEdit (MONAIViz.after (run w)) = MONAIViz.textEdit w /\
  MONAIViz.settings (MONAIViz.after (run w)) = MONAIViz.settings w.
Proof.
  subst run. unfold MONAIViz.onRunTransform, MONAIViz.selectRow. cbv zeta.
  repeat match goal with
         | |- context [match ?x with _ => _ end] => destruct x
         end; cbn; repeat split; reflexivity.
Qed.

Lemma onRun_trace (w : MONAIViz.Widget) (k : Z) (x : row) (fresh dv0 : value)
      (st : MONAIViz.loop_state) :
  truthy (MONAIViz.imagePath w) = true ->
  MONAIViz.currentRow w = k ->
  item (MONAIViz.transformTable w) k = Ok x ->
  MONAIViz.outcome (run w) = Ok tt ->
  MONAIViz.prepare_dict w = Ok fresh ->
  MONAIViz.get_d (MONAIViz.ctx w) (Some (MONAIViz.expression x)) fresh =
    (Ok dv0, resume_ctx (MONAIViz.ctx w) (MONAIViz.expression x)) ->
  run_loop eval_exp w (MONAIViz.expression x) dv0 = (Ok tt, st) ->
  MONAIViz.trace (run w) = MONAIViz.ls_trace st.
Proof.
  intros Himg Hk Hx Hout Hf Hg Hl.
  pose proof (onRun_cases eval_exp host_display w k x Himg Hk Hx) as Hc.
  cbv zeta in Hc. fold run in Hc. rewrite Hf in Hc.
  destruct Hc as (dv0' & Hg' & Hc). rewrite Hg in Hg'. injection Hg' as <-.
  rewrite Hl in Hc. destruct Hc as (w2 & _ & _ & Hc).
  destruct (MONAIViz.display host_display (MONAIViz.ls_ctx st));
    rewrite Hc in *; [reflexivity | discriminate].
Qed.

(** What a run leaves when its row is not the one the cache expects
    next, as is the case with the empty cache: the transforms of the
    active rows from row 0 through the selected one, applied to the input
    dictionary. *)
Lemma run_from_scratch (w : MONAIViz.Widget) (k : Z) (x : row) :
  truthy (MONAIViz.imagePath w) = true ->
  MONAIViz.valid_for_next (MONAIViz.ctx w) (MONAIViz.expression x) = false ->
  MONAIViz.currentRow w = k ->
  item (MONAIViz.transformTable w) k = Ok x ->
  MONAIViz.outcome (run w) = Ok tt ->
  let tbl := MONAIViz.transformTable w in
  exists fresh dv,
    MONAIViz.prepare_dict w = Ok fresh /\
    apply_all eval_exp (active_exps tbl (range 0 (k + 1))) fresh = Ok dv /\
    MONAIViz.d (MONAIViz.ctx (MONAIViz.after (run w))) = Some dv /\
    MONAIViz.last_exp (MONAIViz.ctx (MONAIViz.after (run w))) =
      last (active_exps tbl (range 0 (k + 1))) "" /\
    MONAIViz.next_idx (MONAIViz.ctx (MONAIViz.after (run w))) = next_row tbl k /\
    MONAIViz.next_exp (MONAIViz.ctx (MONAIViz.after (run w))) =
      expression_at tbl (next_row tbl k) /\
    same_pipeline (MONAIViz.transformTable (MONAIViz.after (run w))) tbl /\
    MONAIViz.currentRow (MONAIViz.after (run w)) = next_row tbl k.
Proof.
  intros Himg Hv Hk Hx Hout tbl.
  destruct (onRun_returns eval_exp host_display w k x Himg Hk Hx Hout)
    as (fresh & dv0 & st & bi & Hf & Hg & Hl & Hd & T & R & C & _).
  fold run in T, R, C. fold tbl in T, R, C.
  destruct (get_d_restart (MONAIViz.ctx w) (MONAIViz.expression x) fresh Hv)
    as (G & Hres).
  rewrite Hres, G in Hg. injection Hg as <-.
  unfold run_loop in Hl. rewrite Hres in Hl.
  cbn [MONAIViz.last_exp MONAIViz.init MONAIViz.next_idx] in Hl.
  destruct (String.eqb_spec "" (MONAIViz.expression x)) as [E|_];
    [symmetry in E; now apply expression_nonempty in E|].
  rewrite Hk in Hl.
  apply run_rows_Ok in Hl.
  cbn [MONAIViz.ls_table MONAIViz.ls_d MONAIViz.ls_ctx MONAIViz.ls_trace] in Hl.
  fold tbl in Hl.
  destruct Hl as (P & _ & A & _ & _ & _ & Z0 & NZ).
  pose proof (display_has_data host_display _ _ Hd) as Hdata.
  assert (Hne : active_exps tbl (range 0 (k + 1)) <> []).
  { intros E. apply Hdata. rewrite (Z0 E). reflexivity. }
  destruct (NZ Hne) as [Hdv Hle].
  destruct (set_next_frontier (MONAIViz.ls_ctx st) (next_row tbl k)
              (expression_at tbl (next_row tbl k))) as (N1 & N2 & N3 & N4).
  exists fresh, (MONAIViz.ls_d st). rewrite C, T, R, N1, N2, N3, N4.
  do 6 (split; [assumption || reflexivity|]). split; [|reflexivity].
  apply (same_pipeline_trans _ (MONAIViz.ls_table st)); [|exact P].
  apply same_pipeline_fold_setIcon.
Qed.

(** X26.  Stepping through the pipeline row by row gives the data of a
    direct run.  Start from the empty cache with row [k] selected, and
    let row [k + 1] exist, with an expression other than the one of the
    last active row among the rows 0 to [k].  Run row [k]; the widget
    then has row [k + 1] selected and a second click on "Run" runs it.
    If both runs return, the second one evaluates row [k + 1] alone, and
    the data it leaves in the cache is the data that a run of row
    [k + 1] from the empty cache leaves, when that run returns (with the
    library a function of the value it is applied to). *)
Theorem X26_stepping_gives_the_data_of_a_direct_run :
  forall (w : MONAIViz.Widget) (k : Z) (x y : row),
    truthy (MONAIViz.imagePath w) = true ->
    MONAIViz.ctx w = MONAIViz.init ->
    MONAIViz.currentRow w = k ->
    item (MONAIViz.transformTable w) k = Ok x ->
    item (MONAIViz.transformTable w) (k + 1) = Ok y ->
    last (active_exps (MONAIViz.transformTable w) (range 0 (k + 1))) "" <>
      MONAIViz.expression y ->
    let stepped := run (MONAIViz.after (run w)) in
    let direct := run (MONAIViz.set_current w (k + 1)) in
    MONAIViz.outcome (run w) = Ok tt ->
    MONAIViz.outcome stepped = Ok tt ->
    MONAIViz.outcome direct = Ok tt ->
    MONAIViz.currentRow (MONAIViz.after (run w)) = k + 1 /\
    MONAIViz.trace stepped = [event_of (MONAIViz.transformTable w) (k + 1)] /\
    MONAIViz.trace direct =
      map (event_of (MONAIViz.transformTable w)) (range 0 (k + 2)) /\
    MONAIViz.d (MONAIViz.ctx (MONAIViz.after stepped)) =
      MONAIViz.d (MONAIViz.ctx (MONAIViz.after direct)).
Proof.
  intros w k x y Himg Hinit Hk Hx Hy Hlast stepped direct O1 O2 O3.
  set (tbl := MONAIViz.transformTable w) in *.
  pose proof (item_Ok_range _ _ _ Hx) as Rx.
  pose proof (item_Ok_range _ _ _ Hy) as Ry.
  assert (Hnext : next_row tbl k = k + 1).
  { unfold next_row. destruct (Z.ltb_spec (k + 1) (len tbl)); lia. }
  assert (Hey : expression_at tbl (k + 1) = MONAIViz.expression y)
    by (unfold expression_at; now rewrite Hy).
  destruct (run_from_scratch w k x Himg (init_restarts _ _ Hinit) Hk Hx O1)
    as (fresh & dv1 & Hf & A1 & D1 & L1 & N1 & E1 & P1 & R1).
  fold tbl in A1, L1, N1, E1, P1, R1. rewrite Hnext in N1, E1, R1.
  rewrite Hey in E1.
  destruct (run_keeps_inputs w) as (I1 & I2 & I3 & I4).
  set (w1 := MONAIViz.after (run w)) in *.
  set (t1 := MONAIViz.transformTable w1) in *.
  assert (Himg1 : truthy (MONAIViz.imagePath w1) = true) by now rewrite I1.
  destruct (item_in_table t1 (k + 1)) as [y1 Hy1]; [destruct P1 as [-> _]; lia|].
  assert (Hey1 : MONAIViz.expression y1 = MONAIViz.expression y).
  { destruct P1 as [_ PR]. destruct (PR (k + 1)) as [_ PE].
    unfold expression_at in PE. now rewrite Hy1, Hy in PE. }
  assert (Hf1 : MONAIViz.prepare_dict w1 = Ok fresh).
  { rewrite <- Hf. unfold MONAIViz.prepare_dict. now rewrite I1, I2, I3, I4. }
  destruct (onRun_returns eval_exp host_display w1 (k + 1) y1 Himg1 R1 Hy1 O2)
    as (fresh2 & dv0 & st2 & bi2 & Hf2 & Hg2 & Hl2 & Hd2 & T2 & R2 & C2 & _).
  fold run in T2, R2, C2. fold stepped in T2, R2, C2. fold t1 in T2, R2, C2.
  rewrite Hf1 in Hf2. injection Hf2 as <-. rewrite Hey1 in Hg2, Hl2.
  destruct (get_d_cached (MONAIViz.ctx w1) (MONAIViz.expression y) fresh dv1 E1
              (expression_nonempty y) ltac:(lia) D1) as (G & Res & Fr).
  rewrite Res, G in Hg2. injection Hg2 as <-.
  pose proof (onRun_trace w1 (k + 1) y1 fresh dv1 st2 Himg1 R1 Hy1 O2 Hf1) as Tr.
  rewrite Hey1, Res in Tr. specialize (Tr G Hl2). fold stepped in Tr.
  rewrite (run_loop_differs eval_exp w1 _ dv1 (expression_nonempty y)) in Hl2
    by (rewrite L1; exact Hlast).
  rewrite Fr, N1, R1, Res in Hl2.
  rewrite (range_cons (k + 1)), range_nil in Hl2 by lia.
  apply run_rows_Ok in Hl2.
  cbn [MONAIViz.ls_table MONAIViz.ls_d MONAIViz.ls_ctx MONAIViz.ls_trace] in Hl2.
  fold t1 in Hl2.
  destruct Hl2 as (_ & T & A2 & _ & _ & _ & Z0 & NZ).
  rewrite (active_exps_same t1 tbl _ P1) in A2, Z0, NZ.
  assert (D2 : MONAIViz.d (MONAIViz.ctx (MONAIViz.after stepped)) =
               Some (MONAIViz.ls_d st2)).
  { rewrite C2.
    destruct (set_next_frontier (MONAIViz.ls_ctx st2) (next_row t1 (k + 1))
                (expression_at t1 (next_row t1 (k + 1)))) as (_ & _ & -> & _).
    destruct (active_exps tbl [k + 1]) as [|e0 l0] eqn:Ea.
    - rewrite (Z0 eq_refl), D1. cbn in A2. congruence.
    - apply NZ. discriminate. }
  destruct (run_from_scratch (MONAIViz.set_current w (k + 1)) (k + 1) y Himg
              (init_restarts _ _ Hinit) eq_refl Hy O3)
    as (fresh3 & dv3 & Hf3 & A3 & D3 & _).
  change (MONAIViz.prepare_dict (MONAIViz.set_current w (k + 1)))
    with (MONAIViz.prepare_dict w) in Hf3.
  rewrite Hf in Hf3. injection Hf3 as <-.
  change (MONAIViz.transformTable (MONAIViz.set_current w (k + 1))) with tbl in A3.
  fold direct in D3.
  rewrite range_snoc, active_exps_app, apply_all_app, A1 in A3 by lia.
  cbn [bind] in A3. rewrite A2 in A3. injection A3 as <-.
  split; [exact R1|]. split.
  - rewrite Tr, T. cbn [List.app map]. f_equal. now apply event_of_same.
  - split; [|now rewrite D2, D3].
    replace (k + 2) with (k + 1 + 1) by lia.
    apply (run_from_empty_cache eval_exp host_display
             (MONAIViz.set_current w (k + 1)) (k + 1) y Himg eq_refl Hy Hinit O3).
Qed.

End Stepping.

Lemma X26_witness :
  let tbl := [ mkRow true Yellow "LoadImaged" "keys=['image']";
               mkRow true Yellow "Zoomd" "keys=['image'], zoom=2" ] in
  let w := sample_widget tbl 0 MONAIViz.init in
  let stepped := MONAIViz.onRunTransform sample_eval sample_host
                   (MONAIViz.after (MONAIViz.onRunTransform sample_eval sample_host w)) in
  let direct := MONAIViz.onRunTransform sample_eval sample_host
                  (MONAIViz.set_current w 1) in
  MONAIViz.trace stepped = [Run 1 "monai.transforms.Zoomd(keys=['image'], zoom=2)"] /\
  MONAIViz.d (MONAIViz.ctx (MONAIViz.after stepped)) =
    MONAIViz.d (MONAIViz.ctx (MONAIViz.after direct)).
Proof.
  intros tbl w stepped direct.
  destruct (X26_stepping_gives_the_data_of_a_direct_run sample_eval sample_host w 0
              (mkRow true Yellow "LoadImaged" "keys=['image']")
              (mkRow true Yellow "Zoomd" "keys=['image'], zoom=2"))
    as (_ & T & _ & D); try reflexivity.
  - intros H. vm_compute in H. discriminate H.
  - split; [exact T | exact D].
Defined.

(** ** Editing a row the cache has not reached *)

Lemma append_inj_l (p a b : string) : p ++ a = p ++ b -> a = b.
Proof. induction p as [|c p IH]; cbn [append]; intros H; [exact H|]. injection H as H. auto. Qed.

Lemma append_char_inj_r (a b : string) (c : ascii) :
  a ++ String c "" = b ++ String c "" -> a = b.
Proof.
  revert b. induction a as [|x a IH]; intros [|y b]; cbn [append]; intros H.
  - reflexivity.
  - injection H as _ H. destruct b; discriminate H.
  - injection H as _ H. destruct a; discriminate H.
  - injection H as -> H. f_equal. auto.
Qed.

(** The invocation expression of a row determines its arguments, given
    its name. *)
Lemma expression_args_inj (x y : row) :
  target x = target y -> MONAIViz.expression x = MONAIViz.expression y ->
  args x = args y.
Proof.
  unfold MONAIViz.expression. intros -> H.
  apply append_inj_l in H. apply append_inj_l in H. apply append_inj_l in H.
  now apply append_char_inj_r in H.
Qed.

Section EditLater.

Variable eval_exp : string -> result transform.
Variable host_display : MONAIViz.TransformCtx -> bool.
Variable Args : Type.
Variable args_to_expression : Args -> string.

Let run := MONAIViz.onRunTransform eval_exp host_display.
Let edit := MONAIViz.onEditTransform Args args_to_expression.

(** A run whose row is not the one the cache expects next drops the
    cache and walks over the rows from row 0. *)
Lemma run_after_reset (w : MONAIViz.Widget) (k : Z) (x : row) :
  truthy (MONAIViz.imagePath w) = true ->
  MONAIViz.currentRow w = k ->
  item (MONAIViz.transformTable w) k = Ok x ->
  MONAIViz.valid_for_next (MONAIViz.ctx w) (MONAIViz.expression x) = false ->
  MONAIViz.outcome (run w) = Ok tt ->
  MONAIViz.trace (run w) = map (event_of (MONAIViz.transformTable w)) (range 0 (k + 1)).
Proof.
  subst run. intros Himg Hk Hx Hv Hout.
  destruct (onRun_returns eval_exp host_display w k x Himg Hk Hx Hout)
    as (fresh & dv0 & st & bi & Hf & Hg & Hl & _).
  rewrite (onRun_trace eval_exp host_display w k x fresh dv0 st Himg Hk Hx Hout Hf Hg Hl).
  unfold run_loop, resume_ctx in Hl. rewrite Hv in Hl.
  cbn [MONAIViz.last_exp MONAIViz.init MONAIViz.next_idx] in Hl.
  destruct (String.eqb_spec "" (MONAIViz.expression x)) as [E|_];
    [symmetry in E; now apply expression_nonempty in E|].
  rewrite Hk in Hl. apply run_rows_Ok in Hl. destruct Hl as (_ & T & _). exact T.
Qed.

(** X27.  Editing a row the cache has not reached.  Let the editor
    change the arguments of row [j], which is at or after the frontier
    of the cache.  The handler returns and row [j] carries the new
    arguments.  When [j] is the last row the cache is cleared all the
    same; otherwise the cache, the "Clear" button and the rest of the
    table are left as they were.  Yet when [j] is the row the cache
    expects next, the kept cache is of no use: the next run of row [j]
    that returns walks over the rows from row 0. *)
Theorem X27_edit_at_or_after_the_frontier :
  forall (w : MONAIViz.Widget) (row0 j : Z) (x : row) (a : Args),
    (if row0 <? 0 then MONAIViz.currentRow w else row0) = j ->
    item (MONAIViz.transformTable w) j = Ok x ->
    MONAIViz.next_idx (MONAIViz.ctx w) <= j ->
    args_to_expression a <> args x ->
    let w' := snd (edit w row0 (Ok (Some a))) in
    fst (edit w row0 (Ok (Some a))) = Ok tt /\
    (exists i, item (MONAIViz.transformTable w') j =
               Ok (mkRow (active x) i (target x) (args_to_expression a))) /\
    (j = MONAIViz.rowCount w - 1 -> MONAIViz.ctx w' = MONAIViz.init) /\
    (j < MONAIViz.rowCount w - 1 ->
     MONAIViz.ctx w' = MONAIViz.ctx w /\
     MONAIViz.clearTransformButton w' = MONAIViz.clearTransformButton w /\
     MONAIViz.transformTable w' =
       setArgs (args_to_expression a) j (MONAIViz.transformTable w)) /\
    (MONAIViz.next_exp (MONAIViz.ctx w) = MONAIViz.expression x ->
     truthy (MONAIViz.imagePath w) = true ->
     MONAIViz.outcome (run (MONAIViz.set_current w' j)) = Ok tt ->
     MONAIViz.trace (run (MONAIViz.set_current w' j)) =
       map (event_of (MONAIViz.transformTable w')) (range 0 (j + 1))).
Proof.
  intros w row0 j x a Hj Hx Hle Hne w'.
  pose proof (item_Ok_range _ _ _ Hx) as Hrange.
  set (new := args_to_expression a) in *.
  set (x' := fun i => mkRow (active x) i (target x) new).
  assert (Hexp : forall i, MONAIViz.expression (x' i) <> MONAIViz.expression x).
  { intros i E. apply expression_args_inj in E; [|reflexivity]. apply Hne. exact E. }
  assert (He : edit w row0 (Ok (Some a)) =
               (Ok tt,
                let w1 := if j =? MONAIViz.rowCount w - 1
                          then MONAIViz.onClearTransform w else w in
                MONAIViz.set_table w1 (setArgs new j (MONAIViz.transformTable w1)))).
  { subst edit. unfold MONAIViz.onEditTransform. rewrite Hj.
    destruct (Z.ltb_spec j 0); [lia|]. rewrite Hx. fold new.
    destruct (String.eqb_spec (args x) new); [congruence|].
    destruct (Z.ltb_spec j (MONAIViz.next_idx (MONAIViz.ctx w))); [lia|].
    reflexivity. }
  subst w'. rewrite He. cbn [fst snd]. cbv zeta.
  assert (Hrow : exists i,
             item (MONAIViz.transformTable
                     (MONAIViz.set_table
                        (if j =? MONAIViz.rowCount w - 1
                         then MONAIViz.onClearTransform w else w)
                        (setArgs new j
                           (MONAIViz.transformTable
                              (if j =? MONAIViz.rowCount w - 1
                               then MONAIViz.onClearTransform w else w))))) j =
             Ok (x' i)).
  { destruct (j =? MONAIViz.rowCount w - 1).
    - cbn [MONAIViz.onClearTransform MONAIViz.transformTable
           MONAIViz.set_clear_enabled MONAIViz.set_table MONAIViz.set_ctx].
      destruct (item_all_yellow
                  (range 0 (MONAIViz.rowCount
                              (MONAIViz.set_ctx w (MONAIViz.reset (MONAIViz.ctx w)))))
                  _ _ _ Hx) as [i Hi].
      exists i. rewrite item_setArgs, Hi, Z.eqb_refl. reflexivity.
    - exists (status x). cbn [MONAIViz.transformTable MONAIViz.set_table].
      rewrite item_setArgs, Hx, Z.eqb_refl. reflexivity. }
  split; [reflexivity|]. split; [exact Hrow|]. split; [|split].
  - intros E. rewrite E, Z.eqb_refl. reflexivity.
  - intros Hlt. destruct (Z.eqb_spec j (MONAIViz.rowCount w - 1)); [lia|].
    repeat split; reflexivity.
  - intros Hnext Himg Hout. destruct Hrow as [i Hi].
    refine (run_after_reset (MONAIViz.set_current _ j) j (x' i) _ eq_refl Hi _ Hout).
    + destruct (j =? MONAIViz.rowCount w - 1); exact Himg.
    + cbn [MONAIViz.ctx MONAIViz.set_current MONAIViz.set_table].
      unfold MONAIViz.valid_for_next.
      destruct (j =? MONAIViz.rowCount w - 1).
      * change (MONAIViz.next_exp (MONAIViz.ctx (MONAIViz.onClearTransform w)))
          with EmptyString.
        cbn [truthy]. now rewrite Bool.andb_false_r.
      * rewrite Hnext.
        destruct (String.eqb_spec (MONAIViz.expression (x' i)) (MONAIViz.expression x))
          as [E|_]; [now apply Hexp in E|]. now rewrite Bool.andb_false_r.
Qed.

End EditLater.

Lemma X27_witness :
  let tbl := [ mkRow true Yellow "LoadImaged" "keys=['image']";
               mkRow true Yellow "Zoomd" "keys=['image'], zoom=2";
               mkRow true Yellow "Flipd" "keys=['image']" ] in
  let w := MONAIViz.after (MONAIViz.onRunTransform sample_eval sample_host
                             (sample_widget tbl 0 MONAIViz.init)) in
  let w' := snd (MONAIViz.onEditTransform string (fun s => s) w 1
                   (Ok (Some "keys=['image'], zoom=3"))) in
  MONAIViz.next_idx (MONAIViz.ctx w) = 1 /\
  MONAIViz.ctx w' = MONAIViz.ctx w /\
  MONAIViz.trace (MONAIViz.onRunTransform sample_eval sample_host
                    (MONAIViz.set_current w' 1)) =
    [ Run 0 "monai.transforms.LoadImaged(keys=['image'])";
      Run 1 "monai.transforms.Zoomd(keys=['image'], zoom=3)" ].
Proof.
  intros tbl w w'.
  destruct (X27_edit_at_or_after_the_frontier sample_eval sample_host string
              (fun s => s) w 1 1
              (mkRow true Yellow "Zoomd" "keys=['image'], zoom=2")
              "keys=['image'], zoom=3")
    as (_ & _ & _ & K & R); try reflexivity.
  - intros H. vm_compute in H. discriminate H.
  - split; [reflexivity|]. split.
    + apply K. vm_compute. reflexivity.
    + apply R; reflexivity.
Defined.

(** ** Removing a row the cache has passed *)

Section Stale.

Variable eval_exp : string -> result transform.
Variable host_display : MONAIViz.TransformCtx -> bool.
Variable current_after_remove : list row -> Z -> Z.

Let run := MONAIViz.onRunTransform eval_exp host_display.
Let remove := MONAIViz.onRemoveTransform current_after_remove.

(** X28.  Removing a row the cache has passed leaves the cache as it
    is.  Let the frontier of the cache stand at a row [y], whose
    expression is the one the cache expects next, and let the current
    row, which precedes [y], be removed.  Row [y] is then one row up,
    while the frontier still holds its old index.  A run of row [y] that
    returns evaluates no transform, not even the one of row [y], and the
    cached data, computed with the removed row, stays in place. *)
Theorem X28_removing_an_executed_row_keeps_the_cache :
  forall (w : MONAIViz.Widget) (pre mid suf : list row) (x0 y : row),
    MONAIViz.transformTable w = (pre ++ x0 :: mid ++ y :: suf)%list ->
    MONAIViz.currentRow w = len pre ->
    MONAIViz.next_idx (MONAIViz.ctx w) = len pre + 1 + len mid ->
    MONAIViz.next_exp (MONAIViz.ctx w) = MONAIViz.expression y ->
    truthy (MONAIViz.imagePath w) = true ->
    let w1 := remove w in
    let res := run (MONAIViz.set_current w1 (len pre + len mid)) in
    MONAIViz.transformTable w1 = (pre ++ mid ++ y :: suf)%list /\
    MONAIViz.ctx w1 = MONAIViz.ctx w /\
    (MONAIViz.outcome res = Ok tt ->
     MONAIViz.trace res = [] /\
     MONAIViz.d (MONAIViz.ctx (MONAIViz.after res)) = MONAIViz.d (MONAIViz.ctx w)).
Proof.
  intros w pre mid suf x0 y Ht Hc Hn He Himg w1 res.
  destruct (onRemoveTransform_middle current_after_remove w pre _ x0 Ht Hc) as [Rt Rc].
  fold remove in Rt, Rc. fold w1 in Rt, Rc.
  split; [exact Rt|]. split; [exact Rc|]. intros Hout.
  set (j := len pre + len mid) in *.
  set (w2 := MONAIViz.set_current w1 j) in *.
  assert (Hy : item (MONAIViz.transformTable w2) j = Ok y).
  { change (MONAIViz.transformTable w2) with (MONAIViz.transformTable w1).
    rewrite Rt, app_assoc. subst j. rewrite <- len_app. apply item_middle. }
  assert (Himg2 : truthy (MONAIViz.imagePath w2) = true).
  { subst w2 w1 remove. unfold MONAIViz.onRemoveTransform.
    destruct (MONAIViz.currentRow w <? 0); exact Himg. }
  assert (Hctx : MONAIViz.ctx w2 = MONAIViz.ctx w) by exact Rc.
  subst res run.
  destruct (onRun_returns eval_exp host_display w2 j y Himg2 eq_refl Hy Hout)
    as (fresh & dv0 & st & bi & Hf & Hg & Hl & _ & _ & _ & C & _).
  rewrite (onRun_trace eval_exp host_display w2 j y fresh dv0 st Himg2 eq_refl Hy Hout
             Hf Hg Hl).
  rewrite C.
  destruct (set_next_frontier (MONAIViz.ls_ctx st)
              (next_row (MONAIViz.transformTable w2) j)
              (expression_at (MONAIViz.transformTable w2)
                 (next_row (MONAIViz.transformTable w2) j))) as (_ & _ & -> & _).
  assert (V : MONAIViz.valid_for_next (MONAIViz.ctx w2) (MONAIViz.expression y) = true).
  { rewrite Hctx. unfold MONAIViz.valid_for_next. rewrite He, String.eqb_refl.
    destruct (MONAIViz.expression y) eqn:E; [now apply expression_nonempty in E|].
    reflexivity. }
  unfold run_loop, resume_ctx in Hl. rewrite V in Hl.
  change (MONAIViz.currentRow w2) with j in Hl.
  rewrite Hctx, Hn, range_nil in Hl by (subst j; lia).
  cbn [MONAIViz.run_rows] in Hl.
  destruct (_ =? _)%string; injection Hl as <-; split; reflexivity.
Qed.

End Stale.

Lemma X28_witness :
  let tbl := [ mkRow true Yellow "LoadImaged" "keys=['image']";
               mkRow true Yellow "Zoomd" "keys=['image'], zoom=2";
               mkRow true Yellow "Flipd" "keys=['image']" ] in
  let w := MONAIViz.set_current
             (MONAIViz.after (MONAIViz.onRunTransform sample_eval sample_host
                                (sample_widget tbl 1 MONAIViz.init))) 0 in
  let w1 := MONAIViz.onRemoveTransform (fun _ r => r) w in
  let res := MONAIViz.onRunTransform sample_eval sample_host (MONAIViz.set_current w1 1) in
  MONAIViz.transformTable w1 =
    [ mkRow true Green "Zoomd" "keys=['image'], zoom=2";
      mkRow true Yellow "Flipd" "keys=['image']" ] /\
  MONAIViz.outcome res = Ok tt /\
  MONAIViz.trace res = [] /\
  MONAIViz.d (MONAIViz.ctx (MONAIViz.after res)) = MONAIViz.d (MONAIViz.ctx w).
Proof.
  intros tbl w w1 res.
  destruct (X28_removing_an_executed_row_keeps_the_cache sample_eval sample_host
              (fun _ r => r) w []
              [mkRow true Green "Zoomd" "keys=['image'], zoom=2"] []
              (mkRow true Green "LoadImaged" "keys=['image']")
              (mkRow true Yellow "Flipd" "keys=['image']"))
    as (T & _ & R); try reflexivity.
  split; [exact T|]. split; [reflexivity|]. apply R. reflexivity.
Defined.

(** ** Running again after a failure *)

Section Recovery.

Variable eval_exp : string -> result transform.
Variable host_display : MONAIViz.TransformCtx -> bool.

Let run := MONAIViz.onRunTransform eval_exp host_display.

(** However the loop ends, it has changed nothing of the table but
    status icons. *)
Lemma run_rows_table (key : string) (rows : list Z) :
  forall st res st',
    MONAIViz.run_rows eval_exp key rows st = (res, st') ->
    same_pipeline (MONAIViz.ls_table st') (MONAIViz.ls_table st).
Proof.
  induction rows as [|r rows IH]; intros st res st' H; cbn [MONAIViz.run_rows] in H.
  - injection H as _ <-. apply same_pipeline_refl.
  - destruct (item (MONAIViz.ls_table st) r) as [x|];
      [|injection H as _ <-; apply same_pipeline_refl].
    destruct (active x).
    + destruct (t <- eval_exp (MONAIViz.expression x) ;;
                apply_transform t (MONAIViz.ls_d st)) as [dv|];
        [|injection H as _ <-; apply same_pipeline_refl].
      destruct (MONAIViz.set_d _ _ _ _) as [[[]|] c];
        [|injection H as _ <-; apply same_pipeline_refl].
      apply IH in H. eapply same_pipeline_trans; [exact H|].
      apply same_pipeline_setIcon.
    + apply IH in H. eapply same_pipeline_trans; [exact H|].
      apply same_pipeline_setIcon.
Qed.

(** A run that raises once the input dictionary is built leaves the
    frontier of the context it resumed from, and the pipeline as it was. *)
Lemma raised_run_frontier (w : MONAIViz.Widget) (k : Z) (x : row) (fresh : value) :
  truthy (MONAIViz.imagePath w) = true ->
  MONAIViz.currentRow w = k ->
  item (MONAIViz.transformTable w) k = Ok x ->
  MONAIViz.prepare_dict w = Ok fresh ->
  MONAIViz.outcome (run w) = Raised ->
  MONAIViz.next_exp (MONAIViz.ctx (MONAIViz.after (run w))) =
    MONAIViz.next_exp (resume_ctx (MONAIViz.ctx w) (MONAIViz.expression x)) /\
  same_pipeline (MONAIViz.transformTable (MONAIViz.after (run w)))
                (MONAIViz.transformTable w).
Proof.
  intros Himg Hk Hx Hf Hout.
  pose proof (onRun_cases eval_exp host_display w k x Himg Hk Hx) as Hc.
  cbv zeta in Hc. fold run in Hc. rewrite Hf in Hc.
  destruct Hc as (dv0 & _ & Hc).
  destruct (run_loop eval_exp w (MONAIViz.expression x) dv0) as [res st] eqn:Hl.
  assert (Hst : MONAIViz.next_exp (MONAIViz.ls_ctx st) =
                MONAIViz.next_exp (resume_ctx (MONAIViz.ctx w) (MONAIViz.expression x)) /\
                same_pipeline (MONAIViz.ls_table st) (MONAIViz.transformTable w)).
  { unfold run_loop in Hl. destruct (_ =? _)%string.
    - injection Hl as _ <-. split; [reflexivity | apply same_pipeline_refl].
    - split; [|apply (run_rows_table _ _ _ _ _ Hl)].
      destruct res as [[]|].
      + apply run_rows_Ok in Hl. apply Hl.
      + apply run_rows_Raised in Hl. apply Hl. }
  destruct Hst as [Hne Hsp].
  destruct res as [[]|].
  - destruct Hc as (w2 & Hw2 & P2 & Hc).
    destruct (MONAIViz.display host_display (MONAIViz.ls_ctx st)).
    + cbv zeta in Hc. rewrite Hc in Hout. discriminate Hout.
    + rewrite Hc. cbn [MONAIViz.after]. rewrite Hw2. split; [exact Hne | exact P2].
  - rewrite Hc. split; [exact Hne | exact Hsp].
Qed.

(** X29.  A failed run is not resumed.  Let a run start over from row 0,
    its row not being the one the cache expects next, and let it raise
    once the input dictionary is built: while evaluating or applying a
    transform, while storing a result, or while displaying.  Whatever the
    failed run has stored, the next run of any row [k'] starts over from
    row 0 as well: when it returns, it has walked over the rows 0 to
    [k'], and the cache holds the transforms of the active ones among
    them applied to the input dictionary. *)
Theorem X29_a_failed_run_is_not_resumed :
  forall (w : MONAIViz.Widget) (k k' : Z) (x : row) (fresh : value),
    truthy (MONAIViz.imagePath w) = true ->
    MONAIViz.currentRow w = k ->
    item (MONAIViz.transformTable w) k = Ok x ->
    MONAIViz.prepare_dict w = Ok fresh ->
    MONAIViz.valid_for_next (MONAIViz.ctx w) (MONAIViz.expression x) = false ->
    MONAIViz.outcome (run w) = Raised ->
    0 <= k' < MONAIViz.rowCount w ->
    let tbl := MONAIViz.transformTable w in
    let again := run (MONAIViz.set_current (MONAIViz.after (run w)) k') in
    MONAIViz.outcome again = Ok tt ->
    MONAIViz.trace again = map (event_of tbl) (range 0 (k' + 1)) /\
    exists dv,
      apply_all eval_exp (active_exps tbl (range 0 (k' + 1))) fresh = Ok dv /\
      MONAIViz.d (MONAIViz.ctx (MONAIViz.after again)) = Some dv.
Proof.
  intros w k k' x fresh Himg Hk Hx Hf Hv Hout Hk' tbl again Hret.
  destruct (raised_run_frontier w k x fresh Himg Hk Hx Hf Hout) as [Hne P].
  destruct (run_keeps_inputs eval_exp host_display w) as (I1 & I2 & I3 & I4).
  fold run in Hne, P, I1, I2, I3, I4. fold tbl in P.
  set (w1 := MONAIViz.after (run w)) in *.
  set (w2 := MONAIViz.set_current w1 k') in *.
  destruct (item_in_table (MONAIViz.transformTable w2) k') as [y Hy].
  { change (MONAIViz.transformTable w2) with (MONAIViz.transformTable w1).
    destruct P as [-> _]. exact Hk'. }
  assert (Himg2 : truthy (MONAIViz.imagePath w2) = true)
    by (change (MONAIViz.imagePath w2) with (MONAIViz.imagePath w1); now rewrite I1).
  assert (Hv2 : MONAIViz.valid_for_next (MONAIViz.ctx w2) (MONAIViz.expression y) = false).
  { change (MONAIViz.ctx w2) with (MONAIViz.ctx w1).
    unfold MONAIViz.valid_for_next. rewrite Hne.
    destruct (get_d_restart _ _ fresh Hv) as [_ ->].
    cbn [MONAIViz.next_exp MONAIViz.init truthy]. now rewrite Bool.andb_false_r. }
  assert (Hf2 : MONAIViz.prepare_dict w2 = Ok fresh).
  { rewrite <- Hf. unfold MONAIViz.prepare_dict.
    change (MONAIViz.textEdit w2) with (MONAIViz.textEdit w1).
    change (MONAIViz.settings w2) with (MONAIViz.settings w1).
    change (MONAIViz.imagePath w2) with (MONAIViz.imagePath w1).
    change (MONAIViz.labelPath w2) with (MONAIViz.labelPath w1).
    now rewrite I1, I2, I3, I4. }
  assert (P2 : same_pipeline (MONAIViz.transformTable w2) tbl) by exact P.
  split.
  - subst again run.
    rewrite (run_after_reset eval_exp host_display w2 k' y Himg2 eq_refl Hy Hv2 Hret).
    now apply map_event_of_same.
  - destruct (run_from_scratch eval_exp host_display w2 k' y Himg2 Hv2 eq_refl Hy Hret)
      as (fresh2 & dv & F & A & D & _).
    rewrite Hf2 in F. injection F as <-.
    rewrite (active_exps_same _ tbl _ P2) in A.
    exists dv. split; [exact A | exact D].
Qed.

End Recovery.

Lemma X29_witness :
  let w := sample_widget sample_bad_table 1 MONAIViz.init in
  let again := MONAIViz.onRunTransform sample_eval sample_host
                 (MONAIViz.set_current
                    (MONAIViz.after (MONAIViz.onRunTransform sample_eval sample_host w))
                    0) in
  MONAIViz.d (MONAIViz.ctx (MONAIViz.after
                              (MONAIViz.onRunTransform sample_eval sample_host w))) =
    Some (VDict [("image", sample_entry)]) /\
  MONAIViz.trace again = [Run 0 "monai.transforms.LoadImaged(keys=['image'])"] /\
  MONAIViz.d (MONAIViz.ctx (MONAIViz.after again)) =
    Some (VDict [("image", sample_entry)]).
Proof.
  intros w again.
  destruct (X29_a_failed_run_is_not_resumed sample_eval sample_host w 1 0
              (mkRow true Yellow "BadFlipd" "keys=")
              (VDict [("image", EStr "/data/image.nii.gz")]))
    as (T & dv & A & D); try reflexivity.
  - split; [intros H; discriminate H | reflexivity].
  - split; [reflexivity|]. split; [exact T|].
    vm_compute in A. injection A as <-. exact D.
Defined.

(** ** The cache in every state of the widget *)

Lemma cache_invariant_init : cache_invariant MONAIViz.init.
Proof.
  unfold cache_invariant. cbn. repeat split; try lia; try reflexivity; congruence.
Qed.

Lemma set_d_invariant (c c' : MONAIViz.TransformCtx) (dv : value) (exp key : string)
      (res : result unit) :
  cache_invariant c -> exp <> "" ->
  MONAIViz.set_d c dv exp key = (res, c') -> cache_invariant c'.
Proof.
  intros (I1 & I2 & I3 & I4 & I5) He. unfold MONAIViz.set_d.
  destruct (MONAIViz.key_tensor_of c dv key) as [e|];
    [|intros [= _ <-]; repeat split; assumption || apply I4].
  destruct (shape_of e) as [sh|];
    [|intros [= _ <-]; repeat split; assumption || apply I4].
  destruct (MONAIViz.original_spatial_shape c) as [s0|] eqn:Es.
  - intros [= _ <-]. unfold cache_invariant. cbn. rewrite Es.
    repeat split; try assumption; try discriminate; congruence.
  - destruct (affine_of e); intros [= _ <-]; unfold cache_invariant; cbn.
    + repeat split; try assumption; try discriminate; congruence.
    + repeat split; try assumption; try apply I4; discriminate.
Qed.

Lemma set_next_invariant (c : MONAIViz.TransformCtx) (i : Z) (e : string) :
  cache_invariant c -> 0 <= i -> e <> "" -> cache_invariant (MONAIViz.set_next c i e).
Proof.
  intros (I1 & I2 & I3 & I4 & I5) Hi He. unfold MONAIViz.set_next, cache_invariant.
  destruct (_ && _); cbn; repeat split; try assumption; try apply I4; try lia;
    try congruence.
Qed.

Lemma addTransform_ctx (w : MONAIViz.Widget) (pos : Z) (m : option string)
      (t v : string) (act : bool) :
  MONAIViz.ctx (MONAIViz.addTransform w pos m t v act) = MONAIViz.ctx w.
Proof.
  unfold MONAIViz.addTransform, MONAIViz.onSelectTransform, MONAIViz.selectRow.
  destruct (_ && _); reflexivity.
Qed.

Lemma onRemoveTransform_ctx (car : list row -> Z -> Z) (w : MONAIViz.Widget) :
  MONAIViz.ctx (MONAIViz.onRemoveTransform car w) = MONAIViz.ctx w.
Proof.
  unfold MONAIViz.onRemoveTransform. destruct (MONAIViz.currentRow w <? 0); reflexivity.
Qed.

Lemma load_items_ctx (items : list (string * json)) :
  forall w, MONAIViz.ctx (snd (MONAIViz.load_items w items)) = MONAIViz.ctx w.
Proof.
  induction items as [|[idx tr] items IH]; intros w; cbn [MONAIViz.load_items];
    [reflexivity|].
  assert (H1 : MONAIViz.ctx (snd (MONAIViz.load_one w idx tr)) = MONAIViz.ctx w).
  { unfold MONAIViz.load_one.
    repeat match goal with
           | |- context [match ?x with _ => _ end] => destruct x
           end; cbn [snd]; try reflexivity; apply addTransform_ctx. }
  destruct (MONAIViz.load_one w idx tr) as [[[]|] w1]; cbn [snd] in *.
  - now rewrite IH.
  - exact H1.
Qed.

Section Invariant.

Variable eval_exp : string -> result transform.
Variable host_display : MONAIViz.TransformCtx -> bool.
Variable Args : Type.
Variable args_to_expression : Args -> string.
Variable current_after_remove : list row -> Z -> Z.

Let run := MONAIViz.onRunTransform eval_exp host_display.

Lemma run_rows_invariant (key : string) (rows : list Z) :
  forall st res st',
    cache_invariant (MONAIViz.ls_ctx st) ->
    MONAIViz.run_rows eval_exp key rows st = (res, st') ->
    cache_invariant (MONAIViz.ls_ctx st').
Proof.
  induction rows as [|r rows IH]; intros st res st' I H; cbn [MONAIViz.run_rows] in H.
  - injection H as _ <-. exact I.
  - destruct (item (MONAIViz.ls_table st) r) as [x|]; [|injection H as _ <-; exact I].
    destruct (active x).
    + destruct (t <- eval_exp (MONAIViz.expression x) ;;
                apply_transform t (MONAIViz.ls_d st)) as [dv|];
        [|injection H as _ <-; exact I].
      destruct (MONAIViz.set_d _ _ _ _) as [[[]|] c] eqn:Hs;
        apply set_d_invariant in Hs; try assumption; try apply expression_nonempty.
      * apply IH in H; assumption.
      * injection H as _ <-. exact Hs.
    + apply IH in H; assumption.
Qed.

(** A run keeps the invariant of the cache, whether it returns or
    raises, and wherever it raises. *)
Lemma run_invariant (w : MONAIViz.Widget) :
  cache_invariant (MONAIViz.ctx w) ->
  cache_invariant (MONAIViz.ctx (MONAIViz.after (run w))).
Proof.
  intros I.
  destruct (truthy (MONAIViz.imagePath w)) eqn:Himg.
  2:{ subst run. unfold MONAIViz.onRunTransform. rewrite Himg. exact I. }
  destruct (Z.ltb_spec (MONAIViz.currentRow w) 0) as [Hneg|Hpos].
  { subst run. unfold MONAIViz.onRunTransform. rewrite Himg. cbn [negb].
    destruct (Z.ltb_spec (MONAIViz.currentRow w) 0); [exact I | lia]. }
  destruct (item (MONAIViz.transformTable w) (MONAIViz.currentRow w)) as [x|] eqn:Hx.
  2:{ subst run. unfold MONAIViz.onRunTransform, MONAIViz.get_exp.
      rewrite Himg, Hx. cbn [negb bind].
      destruct (Z.ltb_spec (MONAIViz.currentRow w) 0); exact I. }
  pose proof (onRun_cases eval_exp host_display w _ x Himg eq_refl Hx) as Hc.
  cbv zeta in Hc. fold run in Hc.
  destruct (MONAIViz.prepare_dict w); [|rewrite Hc; exact I].
  destruct Hc as (dv0 & _ & Hc).
  assert (Ires : cache_invariant (resume_ctx (MONAIViz.ctx w) (MONAIViz.expression x))).
  { unfold resume_ctx. destruct (MONAIViz.valid_for_next _ _);
      [exact I | apply cache_invariant_init]. }
  destruct (run_loop eval_exp w (MONAIViz.expression x) dv0) as [res st] eqn:Hl.
  assert (Ist : cache_invariant (MONAIViz.ls_ctx st)).
  { unfold run_loop in Hl. destruct (_ =? _)%string.
    - injection Hl as _ <-. exact Ires.
    - apply run_rows_invariant in Hl; assumption. }
  destruct res as [[]|]; [|rewrite Hc; exact Ist].
  destruct Hc as (w2 & Hw2 & _ & Hc).
  destruct (MONAIViz.display host_display (MONAIViz.ls_ctx st));
    [|rewrite Hc; cbn [MONAIViz.after]; rewrite Hw2; exact Ist].
  cbv zeta in Hc. rewrite Hc.
  cbn [MONAIViz.after MONAIViz.ctx MONAIViz.set_clear_enabled MONAIViz.set_ctx].
  pose proof (item_Ok_range _ _ _ Hx) as Hr.
  assert (Hn : 0 <= next_row (MONAIViz.transformTable w) (MONAIViz.currentRow w)
               < len (MONAIViz.transformTable w)).
  { unfold next_row. destruct (Z.ltb_spec (MONAIViz.currentRow w + 1)
                                 (len (MONAIViz.transformTable w))); lia. }
  apply set_next_invariant; [exact Ist | lia |].
  destruct (item_in_table _ _ Hn) as [y Hy]. unfold expression_at. rewrite Hy.
  apply expression_nonempty.
Qed.

(** Every other handler leaves the cache as it is or resets it. *)
Lemma handler_step_cache (w w' : MONAIViz.Widget) :
  handler_step eval_exp host_display Args args_to_expression current_after_remove w w' ->
  w' = MONAIViz.after (run w) \/
  MONAIViz.ctx w' = MONAIViz.ctx w \/ MONAIViz.ctx w' = MONAIViz.init.
Proof.
  intros [ | row0 dialog | clicked r | | | | | | | file | r c | w0 H ].
  - left. reflexivity.
  - right. unfold MONAIViz.onEditTransform.
    repeat match goal with
           | |- context [match ?x with _ => _ end] => destruct x
           end; cbn; auto.
  - right. unfold MONAIViz.onBoxClicked.
    destruct (MONAIViz.get_exp _ _); cbn; auto.
  - right. right. reflexivity.
  - right. left. unfold MONAIViz.onShowDictionary, MONAIViz.get_d.
    destruct (MONAIViz.prepare_dict w); [|reflexivity].
    destruct (MONAIViz.valid (MONAIViz.ctx w)); reflexivity.
  - right. left. unfold MONAIViz.onAddTransform.
    destruct (_ || _); [reflexivity|].
    destruct (ends_in_d _); [|reflexivity]. cbn [snd]. apply addTransform_ctx.
  - right. left. apply onRemoveTransform_ctx.
  - right. left. unfold MONAIViz.onMoveUpTransform.
    destruct (_ <? _); [reflexivity|]. destruct (item _ _); [|reflexivity].
    cbn [snd]. rewrite addTransform_ctx. apply onRemoveTransform_ctx.
  - right. left. unfold MONAIViz.onMoveDownTransform.
    destruct (_ <? _); [reflexivity|]. destruct (item _ _); [|reflexivity].
    cbn [snd]. rewrite addTransform_ctx. apply onRemoveTransform_ctx.
  - right. left. unfold MONAIViz.onLoadTransform.
    destruct file; first [apply load_items_ctx | reflexivity].
  - right. left. reflexivity.
  - right. left. exact H.
Qed.

(** X30.  The cache in every state of the widget.  Whatever handlers
    have been called since the widget was set up, in whatever order, and
    whether they returned or raised: the frontier and the batch cursor
    of the cache are not negative, a cache without an expected
    expression has its frontier at row 0, the cache holds data exactly
    when it holds a last-applied expression, and when it holds data it
    holds the original shape.  So [valid] is true exactly when there is
    data and the frontier lies beyond row 0. *)
Theorem X30_cache_invariant_in_every_state :
  forall w : MONAIViz.Widget,
    reachable eval_exp host_display Args args_to_expression current_after_remove w ->
    cache_invariant (MONAIViz.ctx w) /\
    (MONAIViz.valid (MONAIViz.ctx w) = true <->
     MONAIViz.d (MONAIViz.ctx w) <> None /\ 0 < MONAIViz.next_idx (MONAIViz.ctx w)).
Proof.
  intros w R.
  assert (I : cache_invariant (MONAIViz.ctx w)).
  { induction R as [w H | w w' R IH S].
    - rewrite H. apply cache_invariant_init.
    - destruct (handler_step_cache w w' S) as [-> | [-> | ->]].
      + now apply run_invariant.
      + exact IH.
      + apply cache_invariant_init. }
  split; [exact I|]. destruct I as (I1 & _).
  unfold MONAIViz.valid. destruct (MONAIViz.d (MONAIViz.ctx w)).
  - destruct (Z.eqb_spec (MONAIViz.next_idx (MONAIViz.ctx w)) 0); split.
    + discriminate.
    + intros [_ H]. lia.
    + intros _. split; [discriminate | lia].
    + reflexivity.
  - split; [discriminate | intros [H _]; now contradiction H].
Qed.

End Invariant.

Lemma X30_witness :
  let w0 := sample_widget sample_bad_table 1 MONAIViz.init in
  let w1 := MONAIViz.after (MONAIViz.onRunTransform sample_eval sample_host w0) in
  let w2 := MONAIViz.after (MONAIViz.onRunTransform sample_eval sample_host
                              (MONAIViz.set_current w1 0)) in
  MONAIViz.outcome (MONAIViz.onRunTransform sample_eval sample_host w0) = Raised /\
  cache_invariant (MONAIViz.ctx w2) /\
  (MONAIViz.valid (MONAIViz.ctx w2) = true <->
   MONAIViz.d (MONAIViz.ctx w2) <> None /\ 0 < MONAIViz.next_idx (MONAIViz.ctx w2)).
Proof.
  intros w0 w1 w2. split; [reflexivity|].
  apply (X30_cache_invariant_in_every_state sample_eval sample_host string
           (fun s => s) (fun _ r => r) w2).
  apply (reach_step _ _ _ _ _ (MONAIViz.set_current w1 0) w2); [|apply step_run].
  apply (reach_step _ _ _ _ _ w1 (MONAIViz.set_current w1 0));
    [|apply step_input; reflexivity].
  apply (reach_step _ _ _ _ _ w0 w1); [|apply step_run].
  apply reach_start. reflexivity.
Defined.
